(** * inventoryd: LwM2M over CoAP over DTLS, checked against its specification

    A shallow embedding of the protocol code of the inventoryd agent
    (TLV codec, CoAP message codec, LwM2M read/observe dispatch, DTLS
    handshake bookkeeping) together with the properties the specification
    states about it.

    Conventions of the embedding.
    - A Go [byte], [uint16], [uint32], [uint64] is a [Z]; every conversion
      and every arithmetic operation that can wrap is written out with
      [u8], [u16], [u32], [u64].
    - A Go slice is a [list]; [len] is its length as a [Z].  A slice
      expression or an index expression that Go would reject at run time
      yields [None] (a panic).  A slice has the capacity of its length,
      which is what [make([]byte, n)] produces, except where the source
      slices a part of a larger buffer: there the bytes of the buffer
      behind the slice are carried along ([spare]), and a slice expression
      reaches into them ([slice_cap]).
    - A function whose every index is guarded by a length test in the source
      is total in the embedding ([at] reads under such a guard).
    - Functions that send on the connection append to an explicit log.
    - What the Go library leaves open, the order in which [sort.Slice]
      leaves elements that compare equal, is a parameter of the functions
      that build a message ([Sorting]). *)

From Stdlib Require Import ZArith String Ascii DecimalString DecimalZ DecimalPos List
  Permutation Sorted Lia Bool.
Import ListNotations.
Open Scope Z_scope.

(** ** Machine integers and slices *)

Abbreviation byte := Z (only parsing).

Definition u8 (x : Z) : Z := x mod 2 ^ 8.
Definition u16 (x : Z) : Z := x mod 2 ^ 16.
Definition u32 (x : Z) : Z := x mod 2 ^ 32.
Definition u64 (x : Z) : Z := x mod 2 ^ 64.

(** Reinterpretation of the low [w] bits of [x] as a signed integer
    (the Go conversions [int16(..)], [int32(..)], [int64(..)]). *)
Definition signed (w : Z) (x : Z) : Z :=
  let m := x mod 2 ^ w in
  if m <? 2 ^ (w - 1) then m else m - 2 ^ w.

Definition len {A} (l : list A) : Z := Z.of_nat (List.length l).

(** [l[i]] under a guard that makes it safe. *)
Definition at_ (l : list byte) (i : Z) : byte := nth (Z.to_nat i) l 0.

(** [l[lo:hi]] under a guard that makes it safe. *)
Definition sub {A} (l : list A) (lo hi : Z) : list A :=
  firstn (Z.to_nat (hi - lo)) (skipn (Z.to_nat lo) l).

(** [l[i]], panicking out of range. *)
Definition index {A} (l : list A) (i : Z) : option A :=
  if (0 <=? i) && (i <? len l) then nth_error l (Z.to_nat i) else None.

(** [l[lo:hi]], panicking out of range. *)
Definition slice {A} (l : list A) (lo hi : Z) : option (list A) :=
  if (0 <=? lo) && (lo <=? hi) && (hi <=? len l) then Some (sub l lo hi) else None.

(** [l[lo:hi]] where the array of [l] goes on with [spare] behind the last
    element of [l]: the bound of a slice expression is the capacity, and
    the result can reach into [spare]. *)
Definition slice_cap {A} (l spare : list A) (lo hi : Z) : option (list A) :=
  slice (l ++ spare) lo hi.

(** [l[lo:]], panicking out of range. *)
Definition slice_from {A} (l : list A) (lo : Z) : option (list A) :=
  slice l lo (len l).

(** [make([]byte, n)] *)
Definition make (n : Z) : list byte := repeat 0 (Z.to_nat n).

Notation "'do' x <- a ; b" :=
  (match a with Some x => b | None => None end)
  (at level 10, x pattern, a at level 100, b at level 200).

(** encoding/binary, big endian. *)
Module BigEndian.

Definition Uint16 (b : list byte) : Z :=
  Z.lor (at_ b 1) (Z.shiftl (at_ b 0) 8).

Definition Uint32 (b : list byte) : Z :=
  Z.lor (Z.lor (Z.lor (at_ b 3) (Z.shiftl (at_ b 2) 8)) (Z.shiftl (at_ b 1) 16))
        (Z.shiftl (at_ b 0) 24).

Definition Uint64 (b : list byte) : Z :=
  Z.lor (Z.lor (Z.lor (Z.lor (Z.lor (Z.lor (Z.lor
    (at_ b 7) (Z.shiftl (at_ b 6) 8)) (Z.shiftl (at_ b 5) 16)) (Z.shiftl (at_ b 4) 24))
    (Z.shiftl (at_ b 3) 32)) (Z.shiftl (at_ b 2) 40)) (Z.shiftl (at_ b 1) 48))
    (Z.shiftl (at_ b 0) 56).

Definition PutUint16 (v : Z) : list byte :=
  [u8 (Z.shiftr v 8); u8 v].

Definition PutUint32 (v : Z) : list byte :=
  [u8 (Z.shiftr v 24); u8 (Z.shiftr v 16); u8 (Z.shiftr v 8); u8 v].

Definition PutUint64 (v : Z) : list byte :=
  [u8 (Z.shiftr v 56); u8 (Z.shiftr v 48); u8 (Z.shiftr v 40); u8 (Z.shiftr v 32);
   u8 (Z.shiftr v 24); u8 (Z.shiftr v 16); u8 (Z.shiftr v 8); u8 v].

End BigEndian.

(** A slice of bytes: every element is in the range of a [byte].  The
    embedding writes slices as lists of integers; what is read from the
    network or produced by a conversion to [byte] is in this range. *)
Definition is_byte (b : Z) : Prop := 0 <= b < 256.
Definition bytes (l : list Z) : Prop := Forall is_byte l.

(** ** TLV codec *)

Module TLV.

#[warnings="-register-all"]
Inductive Lwm2mTLV : Type := Build_Lwm2mTLV {
  TypeOfID : byte;
  ID : Z;
  Length : Z;
  Value : list byte;
  Contents : list Lwm2mTLV
}.

Definition lwm2mTLVTypeObjectInstance : byte := 0.
Definition lwm2mTLVTypeResouceInstance : byte := 1.
Definition lwm2mTLVTypeMultipleResouce : byte := 2.
Definition lwm2mTLVTypeResouce : byte := 3.

(** The zero value [Lwm2mTLV{}]. *)
Definition zero : Lwm2mTLV := Build_Lwm2mTLV 0 0 0 [] [].

Definition set_TypeOfID (t : Lwm2mTLV) (x : byte) : Lwm2mTLV :=
  Build_Lwm2mTLV x (ID t) (Length t) (Value t) (Contents t).
Definition set_ID (t : Lwm2mTLV) (x : Z) : Lwm2mTLV :=
  Build_Lwm2mTLV (TypeOfID t) x (Length t) (Value t) (Contents t).
Definition set_Length (t : Lwm2mTLV) (x : Z) : Lwm2mTLV :=
  Build_Lwm2mTLV (TypeOfID t) (ID t) x (Value t) (Contents t).
Definition set_Value (t : Lwm2mTLV) (x : list byte) : Lwm2mTLV :=
  Build_Lwm2mTLV (TypeOfID t) (ID t) (Length t) x (Contents t).

(** [Lwm2mTLV.Marshal].  [ret[0]] is a byte: each [+=] on it wraps. *)
Definition Marshal (tlv : Lwm2mTLV) : list byte :=
  let r0 := u8 (Z.shiftl (TypeOfID tlv) 6) in
  let '(r0, idBytes) :=
    if ID tlv <=? 0xFF then (r0, [u8 (ID tlv)])
    else (u8 (r0 + Z.shiftl 1 5),
          [u8 (Z.shiftr (ID tlv) 8); u8 (Z.land (ID tlv) 0x00FF)]) in
  let '(r0, lengthBytes) :=
    if Length tlv <=? 0x07 then (u8 (r0 + u8 (Length tlv)), [])
    else if Length tlv <=? 0xFF then (u8 (r0 + Z.shiftl 1 3), [u8 (Length tlv)])
    else if Length tlv >=? 0xFFFF then
      (u8 (r0 + Z.shiftl 2 3),
       [u8 (Z.shiftr (Length tlv) 8); u8 (Z.land (Length tlv) 0x0000FF)])
    else
      (u8 (r0 + Z.shiftl 3 3),
       [u8 (Z.shiftr (Length tlv) 16);
        u8 (Z.land (Z.shiftr (Length tlv) 8) 0x0000FF);
        u8 (Z.land (Length tlv) 0x0000FF)]) in
  r0 :: idBytes ++ lengthBytes ++ Value tlv.

(** [Lwm2mTLV.Unmarshal]: the receiver as it is left, and the returned count
    ([-1] on failure).  The receiver keeps the fields assigned before a
    failure, and [Contents] is never assigned. *)
Definition Unmarshal (tlv : Lwm2mTLV) (raw : list byte) : Lwm2mTLV * Z :=
  let length := len raw in
  let parsedIndex := 0 in
  if length <? parsedIndex + 1 then (tlv, -1) else
  let tlv := set_TypeOfID tlv (Z.land (Z.shiftr (at_ raw 0) 6) 0x03) in
  let parsedIndex := parsedIndex + 1 in
  let idStep :=
    if Z.land (Z.shiftr (at_ raw 0) 5) 0x01 =? 0 then
      if length <? parsedIndex + 1 then None
      else Some (set_ID tlv (at_ raw 1), parsedIndex + 1)
    else
      if length <? parsedIndex + 2 then None
      else Some (set_ID tlv (BigEndian.Uint16 (sub raw 1 3)), parsedIndex + 2) in
  match idStep with
  | None => (tlv, -1)
  | Some (tlv, parsedIndex) =>
    let lengthType := Z.land (Z.shiftr (at_ raw 0) 3) 0x03 in
    let lengthStep :=
      if lengthType =? 0 then
        Some (set_Length tlv (Z.land (at_ raw 0) 0x07), parsedIndex)
      else if lengthType =? 1 then
        if length <? parsedIndex + 1 then None
        else Some (set_Length tlv (at_ raw parsedIndex), parsedIndex + 1)
      else if lengthType =? 2 then
        if length <? parsedIndex + 2 then None
        else Some (set_Length tlv
                     (BigEndian.Uint16 (sub raw parsedIndex (parsedIndex + 2))),
                   parsedIndex + 2)
      else if lengthType =? 3 then
        if length <? parsedIndex + 3 then None
        else Some (set_Length tlv
                     (BigEndian.Uint32 (0 :: sub raw parsedIndex (parsedIndex + 3))),
                   parsedIndex + 3)
      else Some (tlv, parsedIndex) in
    match lengthStep with
    | None => (tlv, -1)
    | Some (tlv, parsedIndex) =>
      if length <? parsedIndex + Length tlv then (tlv, -1) else
      let tlv := set_Value tlv (sub raw parsedIndex (parsedIndex + Length tlv)) in
      (tlv, parsedIndex + Length tlv)
    end
  end.

(** [Lwm2mTLV.TotalLength] *)
Definition TotalLength (tlv : Lwm2mTLV) : Z :=
  let ret := 1 in
  let ret := if ID tlv <=? 0xFF then ret + 1 else ret + 2 in
  let ret :=
    if Length tlv <=? 0x07 then ret
    else if Length tlv <=? 0xFF then ret + 1
    else if Length tlv >=? 0xFFFF then ret + 2
    else ret + 3 in
  ret + len (Value tlv).

End TLV.

(** ** Strings and the Go standard library *)

(** A Go string is a sequence of bytes; it is modelled by [string], whose
    characters are the bytes. *)
Definition byte_of_ascii (c : ascii) : byte := Z.of_nat (nat_of_ascii c).
Definition ascii_of_byte (b : byte) : ascii := ascii_of_nat (Z.to_nat b).

(** [[]byte(str)] *)
Fixpoint bytes_of_string (s : string) : list byte :=
  match s with
  | EmptyString => []
  | String c s' => byte_of_ascii c :: bytes_of_string s'
  end.

(** [string(buf)] *)
Fixpoint string_of_bytes (l : list byte) : string :=
  match l with
  | [] => EmptyString
  | b :: l' => String (ascii_of_byte b) (string_of_bytes l')
  end.

(** Package strconv, base 10.  The functions follow the library's
    algorithm; the error they return is kept because [ParseInt] reads the
    one [ParseUint] returns. *)
Module strconv.

Inductive error := ErrSyntax | ErrRange.

(** [ParseUint(s, 10, bitSize)] for [bitSize] 16 or 64: the digits are
    accumulated in a 64-bit unsigned integer; the result saturates at
    [2^bitSize - 1] with [ErrRange]. *)
Fixpoint parseDigits (bitSize : Z) (s : string) (n : Z) : Z * option error :=
  match s with
  | EmptyString => (n, None)
  | String c s' =>
    let d := byte_of_ascii c - 48 in
    if (0 <=? d) && (d <=? 9) then
      let maxVal := 2 ^ bitSize - 1 in
      let cutoff := (2 ^ 64 - 1) / 10 + 1 in
      if n >=? cutoff then (maxVal, Some ErrRange)
      else
        let n := n * 10 in
        let n1 := u64 (n + d) in
        if (n1 <? n) || (n1 >? maxVal) then (maxVal, Some ErrRange)
        else parseDigits bitSize s' n1
    else (0, Some ErrSyntax)
  end.

Definition ParseUint (s : string) (bitSize : Z) : Z * option error :=
  match s with
  | EmptyString => (0, Some ErrSyntax)
  | _ => parseDigits bitSize s 0
  end.

(** [ParseInt(s, 10, bitSize)] *)
Definition ParseInt (s : string) (bitSize : Z) : Z * option error :=
  match s with
  | EmptyString => (0, Some ErrSyntax)
  | String c s' =>
    let '(neg, digits) :=
      if Ascii.eqb c "+" then (false, s')
      else if Ascii.eqb c "-" then (true, s')
      else (false, s) in
    match ParseUint digits bitSize with
    | (_, Some ErrSyntax) => (0, Some ErrSyntax)
    | (un, _) =>
      let cutoff := 2 ^ (bitSize - 1) in
      if negb neg && (un >=? cutoff) then (cutoff - 1, Some ErrRange)
      else if neg && (un >? cutoff) then (- cutoff, Some ErrRange)
      else (if neg then - un else un, None)
    end
  end.

(** [Atoi(s)]: [ParseInt(s, 10, 0)] on a 64-bit [int]. *)
Definition Atoi (s : string) : Z * option error := ParseInt s 64.

(** [FormatInt(i, 10)]: the decimal numeral of [i], with a minus sign when
    negative and no leading zero. *)
Definition FormatInt (i : Z) : string := NilZero.string_of_int (Z.to_int i).

Definition Itoa (i : Z) : string := FormatInt i.

End strconv.

(** The number [parseDigits] holds after the digits [d] when it held [acc]
    before them (used to state what it returns on a numeral). *)
Fixpoint digits_value (d : Decimal.uint) (acc : Z) : Z :=
  match d with
  | Decimal.Nil => acc
  | Decimal.D0 l => digits_value l (0 + 10 * acc)
  | Decimal.D1 l => digits_value l (1 + 10 * acc)
  | Decimal.D2 l => digits_value l (2 + 10 * acc)
  | Decimal.D3 l => digits_value l (3 + 10 * acc)
  | Decimal.D4 l => digits_value l (4 + 10 * acc)
  | Decimal.D5 l => digits_value l (5 + 10 * acc)
  | Decimal.D6 l => digits_value l (6 + 10 * acc)
  | Decimal.D7 l => digits_value l (7 + 10 * acc)
  | Decimal.D8 l => digits_value l (8 + 10 * acc)
  | Decimal.D9 l => digits_value l (9 + 10 * acc)
  end.

(** What the codec takes from packages math, strconv (floating point) and
    encoding/base64. *)
Record StdLib := {
  (** [math.Float64bits] of the value [strconv.ParseFloat(str, 64)] returns *)
  ParseFloat_bits : string -> Z;
  (** [strconv.FormatFloat(float64(math.Float32frombits(bits)), 'g', 6, 32)] *)
  FormatFloat32_g6 : Z -> string;
  (** [strconv.FormatFloat(math.Float64frombits(bits), 'g', 6, 64)] *)
  FormatFloat64_g6 : Z -> string;
  (** [base64.StdEncoding.EncodeToString] *)
  base64_EncodeToString : list byte -> string;
  (** the bytes [base64.StdEncoding.DecodeString] returns, with or without
      an error *)
  base64_DecodeString : string -> list byte;
  (** [strings.Split(str, ":")] *)
  strings_Split_colon : string -> list string
}.

(** ** Resource values on the wire and as strings *)

Module Value.

Definition lwm2mResourceTypeString : byte := 0.
Definition lwm2mResourceTypeInteger : byte := 1.
Definition lwm2mResourceTypeFloat : byte := 2.
Definition lwm2mResourceTypeBoolean : byte := 3.
Definition lwm2mResourceTypeOpaque : byte := 4.
Definition lwm2mResourceTypeTime : byte := 5.
Definition lwm2mResourceTypeObjlnk : byte := 6.
Definition lwm2mResourceTypeNone : byte := 7.

Section WithStdLib.

Variable std : StdLib.

(** [convertTLVValueToString]; [None] is a run-time panic (an index or a
    slice out of range). *)
Definition convertTLVValueToString (buf : list byte) (resourceType : byte)
  : option string :=
  if (resourceType =? lwm2mResourceTypeInteger) || (resourceType =? lwm2mResourceTypeTime)
  then
    let length := len buf in
    if length =? 1 then Some (strconv.Itoa (at_ buf 0))
    else if length =? 2 then
      let num := signed 16 (BigEndian.Uint16 (sub buf 0 2)) in
      Some (strconv.FormatInt num)
    else if length =? 4 then
      let num := signed 32 (BigEndian.Uint32 (sub buf 0 4)) in
      Some (strconv.FormatInt num)
    else if length =? 8 then
      let num := signed 64 (BigEndian.Uint64 (sub buf 0 8)) in
      Some (strconv.FormatInt num)
    else Some EmptyString
  else if resourceType =? lwm2mResourceTypeFloat then
    let length := len buf in
    if length =? 4 then Some (FormatFloat32_g6 std (BigEndian.Uint32 buf))
    else if length =? 8 then Some (FormatFloat64_g6 std (BigEndian.Uint64 buf))
    else Some EmptyString
  else if resourceType =? lwm2mResourceTypeBoolean then
    do b0 <- index buf 0;
    Some (if b0 =? 1 then "true"%string else "false"%string)
  else if resourceType =? lwm2mResourceTypeOpaque then
    Some (base64_EncodeToString std buf)
  else if resourceType =? lwm2mResourceTypeObjlnk then
    do b02 <- slice buf 0 2;
    do b24 <- slice buf 2 4;
    let objLinkNum := signed 16 (BigEndian.Uint16 b02) in
    let instanceLinkNum := signed 16 (BigEndian.Uint16 b24) in
    Some (strconv.Itoa objLinkNum ++ ":" ++ strconv.Itoa instanceLinkNum)%string
  else Some (string_of_bytes buf).

(** [convertStringToTLVValue]; [None] is a run-time panic. *)
Definition convertStringToTLVValue (str : string) (resourceType : byte)
  : option (list byte) :=
  if (resourceType =? lwm2mResourceTypeInteger) || (resourceType =? lwm2mResourceTypeTime)
  then
    let num := fst (strconv.ParseInt str 64) in
    if (num <? 2 ^ 7) && (num >=? - 2 ^ 7) then Some [u8 num]
    else if (num <? 2 ^ 15) && (num >=? - 2 ^ 15) then
      Some (BigEndian.PutUint16 (u16 num))
    else if (num <? 2 ^ 31) && (num >=? - 2 ^ 31) then
      Some (BigEndian.PutUint32 (u32 num))
    else Some (BigEndian.PutUint64 (u64 num))
  else if resourceType =? lwm2mResourceTypeFloat then
    Some (BigEndian.PutUint64 (ParseFloat_bits std str))
  else if resourceType =? lwm2mResourceTypeBoolean then
    Some (if String.eqb str "true" then [1] else [0])
  else if resourceType =? lwm2mResourceTypeOpaque then
    Some (base64_DecodeString std str)
  else if resourceType =? lwm2mResourceTypeObjlnk then
    let links := strings_Split_colon std str in
    do l0 <- index links 0;
    do l1 <- index links 1;
    let objLinkNum := fst (strconv.ParseInt l0 16) in
    let instanceLinkNum := fst (strconv.ParseInt l1 16) in
    Some (BigEndian.PutUint16 (u16 objLinkNum) ++ BigEndian.PutUint16 (u16 instanceLinkNum))
  else Some (bytes_of_string str).

End WithStdLib.

End Value.


(** The wire of an integer that is no longer than it has to be: one byte
    below 128, or 2, 4 or 8 bytes of a two's complement number that does
    not fit the next size down. *)
Definition shortest (buf : list byte) : bool :=
  let fits (w : Z) (v : Z) := (v <? 2 ^ (w - 1)) && (v >=? - 2 ^ (w - 1)) in
  if len buf =? 1 then at_ buf 0 <? 2 ^ 7
  else if len buf =? 2 then negb (fits 8 (signed 16 (BigEndian.Uint16 buf)))
  else if len buf =? 4 then negb (fits 16 (signed 32 (BigEndian.Uint32 buf)))
  else if len buf =? 8 then negb (fits 32 (signed 64 (BigEndian.Uint64 buf)))
  else false.
(** ** CoAP message layer *)

Module Coap.

Definition CoapTypeConfirmable : byte := 0.
Definition CoapTypeNonConfirmable : byte := 1.
Definition CoapTypeAcknowledgement : byte := 2.
Definition CoapTypeReset : byte := 3.

Definition CoapCode := Z.

Definition CoapCodeGet : CoapCode := 1.
Definition CoapCodePost : CoapCode := 2.
Definition CoapCodePut : CoapCode := 3.
Definition CoapCodeDelete : CoapCode := 4.

Definition CoapCodeEmpty : CoapCode := 0.
Definition CoapCodeCreated : CoapCode := 65.
Definition CoapCodeDeleted : CoapCode := 66.
Definition CoapCodeChanged : CoapCode := 68.
Definition CoapCodeContent : CoapCode := 69.
Definition CoapCodeBadRequest : CoapCode := 128.
Definition CoapCodeNotFound : CoapCode := 132.
Definition CoapCodeNotAllowed : CoapCode := 133.

Definition coapContentFormatLinkFormat : Z := 40.
Definition coapContentFormatLwm2mTLV : Z := 11542.
Definition coapContentFormatLwm2mJSON : Z := 11543.

Definition coapOptionNoObserve : Z := 6.
Definition coapOptionNoLocationPath : Z := 8.
Definition coapOptionNoURIPath : Z := 11.
Definition coapOptionNoContentFormat : Z := 12.
Definition coapOptionNoURIQuery : Z := 15.

Definition coapObserveRegister : byte := 0.
Definition coapObserveDeregister : byte := 1.

Definition coapOptCodeByte : Z := 13.
Definition coapOptCodeWord : Z := 14.
Definition coapOptByteBase : Z := 13.
Definition coapOptWordBase : Z := 269.

(** [No] is a Go [uint] (64 bits). *)
Record CoapOption := {
  No : Z;
  Value : list byte
}.

Record CoapMessage := {
  Version : byte;
  Type_ : byte;
  TokenLength : byte;
  Code : CoapCode;
  MessageID : Z;
  Token : list byte;
  Options : list CoapOption;
  Payload : list byte
}.

(** [CoapOption.ParseOption]: the option read at the head of [raw] and the
    number of bytes it takes; [None] is a run-time panic.  The sum
    [raw[1] + coapOptByteBase] is a sum of bytes. *)
Definition ParseOption (raw : list byte) (base : Z) : option (CoapOption * Z) :=
  do r0 <- index raw 0;
  let delta := Z.shiftr r0 4 in
  do (delta, deltaLength) <-
    (if delta =? coapOptCodeByte then
       do r1 <- index raw 1;
       Some (u8 (r1 + coapOptByteBase), 1)
     else if delta =? coapOptCodeWord then
       do r1 <- index raw 1;
       do r2 <- index raw 2;
       Some (u64 (Z.shiftr r1 8 + r2 + coapOptWordBase), 2)
     else Some (delta, 0));
  let no := u64 (base + delta) in
  let length := Z.land r0 0x0F in
  do (length, lengthLength) <-
    (if length =? coapOptCodeByte then
       do r1 <- index raw (1 + deltaLength);
       Some (u8 (r1 + coapOptByteBase), 1)
     else if length =? coapOptCodeWord then
       do r1 <- index raw (1 + deltaLength);
       do r2 <- index raw (2 + deltaLength);
       Some (u64 (Z.shiftr r1 8 + r2 + coapOptWordBase), 2)
     else Some (length, 0));
  do value <- slice raw (1 + deltaLength + lengthLength)
                        (1 + deltaLength + lengthLength + length);
  Some ({| No := no; Value := value |}, 1 + deltaLength + lengthLength + length).

(** The loop of [CoapMessage.ParseOptions].  Every turn reads at least one
    byte, so [fuel] above the length of [raw] is never used up. *)
Fixpoint ParseOptions_loop (fuel : nat) (raw : list byte) (length : Z) (base : Z)
    (options : list CoapOption) : option (list CoapOption * Z) :=
  match fuel with
  | O => None
  | S fuel' =>
    if (len raw >? length) && negb (at_ raw length =? 0xFF) then
      do rest <- slice_from raw length;
      do (option, optionLength) <- ParseOption rest base;
      ParseOptions_loop fuel' raw (length + optionLength) (No option)
        (options ++ [option])
    else Some (options, length)
  end.

(** [CoapMessage.ParseOptions]: the options of the message after the call
    and the length of the option part; [None] is a run-time panic. *)
Definition ParseOptions (options : list CoapOption) (raw : list byte)
  : option (list CoapOption * Z) :=
  do (options, length) <- ParseOptions_loop (S (List.length raw)) raw 0 0 options;
  if (len raw >? length) && (at_ raw length =? 0xFF)
  then Some (options, length + 1)
  else Some (options, length).

(** [Coap.ParseMessage]: [Some None] is the [nil] result, [None] a run-time
    panic. *)
Definition ParseMessage (raw : list byte) : option (option CoapMessage) :=
  if len raw <? 4 then Some None else
  let version := Z.shiftr (at_ raw 0) 6 in
  let type := Z.land (Z.shiftr (at_ raw 0) 4) 0x03 in
  let tokenLength := Z.land (at_ raw 0) 0x0F in
  let code := at_ raw 1 in
  let messageID := u16 (u16 (Z.shiftl (at_ raw 2) 8) + at_ raw 3) in
  if len raw <? 4 + tokenLength then Some None else
  do token <- slice raw 4 (u8 (4 + tokenLength));
  do rest <- slice_from raw (u8 (4 + tokenLength));
  do (options, optionsLength) <- ParseOptions [] rest;
  do payload <- slice_from raw (4 + tokenLength + optionsLength);
  Some (Some {| Version := version; Type_ := type; TokenLength := tokenLength;
                Code := code; MessageID := messageID; Token := token;
                Options := options; Payload := payload |}).

(** [CoapOption.BuildOption].  [delta] is a [uint], [length] an [int]. *)
Definition BuildOption (option : CoapOption) (base : Z) : list byte :=
  let delta := u64 (No option - base) in
  let length := len (Value option) in
  let r0 := 0 in
  let '(r0, deltaBytes) :=
    if delta <? coapOptByteBase then (u8 (r0 + u8 (Z.shiftl delta 4)), [])
    else if delta <? coapOptWordBase then
      (u8 (r0 + u8 (Z.shiftl coapOptCodeByte 4)), [u8 (delta - coapOptByteBase)])
    else
      (u8 (r0 + u8 (Z.shiftl coapOptCodeWord 4)),
       [u8 (Z.shiftr (delta - coapOptWordBase) 8);
        u8 (Z.land (delta - coapOptWordBase) 0x00FF)]) in
  let '(r0, lengthBytes) :=
    if length <? coapOptByteBase then (u8 (r0 + u8 length), [])
    else if delta <? coapOptWordBase then
      (u8 (r0 + u8 coapOptCodeByte), [u8 (length - coapOptByteBase)])
    else
      (u8 (r0 + u8 coapOptCodeWord),
       [u8 (Z.shiftr (length - coapOptWordBase) 8);
        u8 (Z.land (length - coapOptWordBase) 0x00FF)]) in
  r0 :: deltaBytes ++ lengthBytes ++ Value option.

(** [insertionSort_func] of package sort under the comparison of
    [BuildOptions], [options[i].No < options[j].No]: an option moves down
    past the options whose number is above its own and stays behind the
    others. *)
Fixpoint insert_by_No (o : CoapOption) (l : list CoapOption) : list CoapOption :=
  match l with
  | [] => [o]
  | x :: l' => if No o <? No x then o :: l else x :: insert_by_No o l'
  end.

Definition insertionSort (l : list CoapOption) : list CoapOption :=
  fold_left (fun acc o => insert_by_No o acc) l [].

(** Package sort on a longer slice.  [sort.Slice] "is not guaranteed to be
    stable": where it leaves options of equal number depends on the
    release of the library, and [long_Slice] stands for what the release
    at hand does. *)
Class Sorting := {
  long_Slice : list CoapOption -> list CoapOption
}.

Definition ascending (options : list CoapOption) : Prop :=
  StronglySorted (fun a b => No a <= No b) options.

(** What the library promises of [sort.Slice]: the elements given, in
    ascending order. *)
Definition sorts (sorting : Sorting) : Prop :=
  forall options,
    Permutation (long_Slice options) options /\ ascending (long_Slice options).

(** A library that sorts by insertion whatever the length. *)
Definition insertion : Sorting := {| long_Slice := insertionSort |}.

Section WithSorting.

Context {sorting : Sorting}.

(** [sort.Slice(options, func(i, j) bool { return options[i].No < options[j].No })].
    Up to six elements every release of the library runs the insertion
    sort alone ([quickSort_func] adds a pass of gap 6 from seven elements
    on, [pdqsort_func] partitions from thirteen on). *)
Definition sort_Slice (options : list CoapOption) : list CoapOption :=
  if len options <=? 6 then insertionSort options else long_Slice options.

(** The loop of [CoapMessage.BuildOptions] over the sorted options. *)
Fixpoint BuildOptions_loop (options : list CoapOption) (base : Z) : list byte :=
  match options with
  | [] => []
  | o :: options' => BuildOption o base ++ BuildOptions_loop options' (No o)
  end.

(** [CoapMessage.BuildOptions]; the call leaves [message.Options] sorted. *)
Definition BuildOptions (options : list CoapOption) : list byte :=
  BuildOptions_loop (sort_Slice options) 0.

(** The options [BuildOption] writes so that [ParseOption] reads them back,
    after an option of number [base]: the delta is below 256 (one extension
    byte at most) or in [269, 525) (two extension bytes, the high one zero);
    the length is below 13, or below 256 after a delta below 269, or in
    [269, 525) after a delta from 269 on. *)
Definition agrees (base : Z) (o : CoapOption) : bool :=
  let delta := No o - base in
  let length := len (Value o) in
  (No o <? 2 ^ 64) &&
  (((0 <=? delta) && (delta <? 256))
   || ((coapOptWordBase <=? delta) && (delta <? coapOptWordBase + 256))) &&
  ((length <? coapOptByteBase)
   || ((delta <? coapOptWordBase) && (length <? 256))
   || ((coapOptWordBase <=? delta) && (coapOptWordBase <=? length)
       && (length <? coapOptWordBase + 256))).

(** [agrees] along a list in the order of [BuildOptions_loop]. *)
Fixpoint agree (base : Z) (options : list CoapOption) : bool :=
  match options with
  | [] => true
  | o :: options' => agrees base o && agree (No o) options'
  end.

(** [CoapMessage.ConvertToBytes] *)
Definition ConvertToBytes (message : CoapMessage) : list byte :=
  let r0 := u8 (u8 (u8 (Z.shiftl (Version message) 6) + u8 (Z.shiftl (Type_ message) 4))
                + TokenLength message) in
  let r1 := u8 (Code message) in
  let ret := [r0; r1] ++ BigEndian.PutUint16 (MessageID message) in
  let ret := ret ++ Token message in
  let ret := ret ++ BuildOptions (Options message) in
  if len (Payload message) >? 0 then ret ++ [0xFF] ++ Payload message else ret.

(** [CoapMessage.IsObserve] *)
Definition IsObserve (message : CoapMessage) : bool :=
  existsb (fun option => No option =? coapOptionNoObserve) (Options message).

(** The connection of the agent: the next message identifier and the
    datagrams written so far, oldest first. *)
Record Coap := {
  NextMessageID : Z;
  Written : list (list byte)
}.

Definition Write (coap : Coap) (data : list byte) : Coap :=
  {| NextMessageID := NextMessageID coap; Written := Written coap ++ [data] |}.

(** The message [Coap.SendResponse] builds. *)
Definition response (request : CoapMessage) (code : CoapCode)
    (options : list CoapOption) (payload : list byte) : CoapMessage :=
  {| Version := 1; Type_ := CoapTypeAcknowledgement; TokenLength := TokenLength request;
     Code := code; MessageID := MessageID request; Token := Token request;
     Options := options; Payload := payload |}.

(** [Coap.SendResponse] *)
Definition SendResponse (coap : Coap) (request : CoapMessage) (code : CoapCode)
    (options : list CoapOption) (payload : list byte) : Coap :=
  Write coap (ConvertToBytes (response request code options payload)).

(** The message [Coap.SendRelatedMessage] builds. *)
Definition related (messageID : Z) (code : CoapCode) (token : list byte)
    (options : list CoapOption) (payload : list byte) : CoapMessage :=
  {| Version := 1; Type_ := CoapTypeNonConfirmable; TokenLength := u8 (len token);
     Code := code; MessageID := messageID; Token := token;
     Options := options; Payload := payload |}.

(** [Coap.SendRelatedMessage]: the connection afterwards and the message
    identifier used. *)
Definition SendRelatedMessage (coap : Coap) (code : CoapCode) (token : list byte)
    (options : list CoapOption) (payload : list byte) : Coap * Z :=
  let message := related (NextMessageID coap) code token options payload in
  let coap := {| NextMessageID := Z.land (u16 (NextMessageID coap + 1)) 0xFFFF;
                 Written := Written coap |} in
  (Write coap (ConvertToBytes message), MessageID message).

(** A message [ConvertToBytes] writes so that [ParseMessage] reads it back:
    the fields fit their bits, [TokenLength] is the length of the token, and
    the options are ones the option codec agrees on. *)
Definition wellFormed (message : CoapMessage) : Prop :=
  0 <= Version message < 4 /\ 0 <= Type_ message < 4 /\
  TokenLength message = len (Token message) /\ len (Token message) < 16 /\
  0 <= Code message < 256 /\ 0 <= MessageID message < 2 ^ 16 /\
  agree 0 (sort_Slice (Options message)) = true.

Definition coapDefaultTokenLength : byte := 8.

(** The message [Coap.SendRequest] builds; [token] is what [rand.Read] left
    in the eight bytes of the token. *)
Definition request (messageID : Z) (code : CoapCode) (token : list byte)
    (options : list CoapOption) (payload : list byte) : CoapMessage :=
  {| Version := 1; Type_ := CoapTypeConfirmable; TokenLength := coapDefaultTokenLength;
     Code := code; MessageID := messageID; Token := token;
     Options := options; Payload := payload |}.

(** [Coap.SendRequest]: the connection afterwards and the message
    identifier used.  (The channel registered in [ChInProcess] belongs to
    the wait for the acknowledgement, which is not part of the embedding.) *)
Definition SendRequest (coap : Coap) (code : CoapCode) (options : list CoapOption)
    (payload : list byte) (token : list byte) : Coap * Z :=
  let message := request (NextMessageID coap) code token options payload in
  let coap := {| NextMessageID := Z.land (u16 (NextMessageID coap + 1)) 0xFFFF;
                 Written := Written coap |} in
  (Write coap (ConvertToBytes message), MessageID message).

End WithSorting.

End Coap.

(** ** LwM2M agent: read, observe, notify *)

Module Lwm2m.

Import Coap.

Section WithSorting.

Context {sorting : Sorting}.

Record Lwm2mResourceDefinition := {
  rdef_ID : Z;
  rdef_Name : string;
  rdef_Multi : bool;
  rdef_Mandatory : bool;
  Readable : bool;
  Writable : bool;
  Excutable : bool;
  rdef_Type : byte
}.

Record Lwm2mObjectDefinition := {
  odef_ID : Z;
  odef_Name : string;
  odef_Multi : bool;
  odef_Mandatory : bool;
  Resources : list Lwm2mResourceDefinition
}.

Definition lwm2mObjectDefinitions := list Lwm2mObjectDefinition.

(** A pointer that may be [nil] is an [option]. *)
Record Lwm2mObject := {
  object_ID : Z;
  object_Definition : option Lwm2mObjectDefinition
}.

Record Lwm2mInstance := {
  instance_ID : Z;
  instance_objectID : Z
}.

Record Lwm2mResource := {
  resource_ID : Z;
  resource_objectID : Z;
  resource_instanceID : Z;
  resource_Definition : option Lwm2mResourceDefinition
}.

Record Lwm2mObservedResource := {
  or_token : list byte;
  or_messageID : Z;
  or_observeCount : Z;
  or_resource : option Lwm2mResource;
  or_lastValue : string
}.

Record Lwm2mObservedInstance := {
  oi_token : list byte;
  oi_messageID : Z;
  oi_observeCount : Z;
  oi_instance : option Lwm2mInstance;
  oi_resources : list Lwm2mObservedResource
}.

(** The part of [Lwm2mHandler] that reading and observing call.  A handler
    value is the resource store as it stands: its answers do not change
    during one operation of the agent, and a change of the store is a
    change of the handler held by the agent. *)
Record Lwm2mHandler := {
  ListObjectIDs : list Z * CoapCode;
  ListInstanceIDs : Lwm2mObject -> list Z * CoapCode;
  ListResourceIDs : Lwm2mInstance -> list Z * CoapCode;
  ReadResource : Lwm2mResource -> string * CoapCode
}.

Record Lwm2m := {
  endpointClientName : string;
  dmSecurityInstanceID : Z;
  dmServerInstanceID : Z;
  handler : Lwm2mHandler;
  Connection : option Coap;
  Location : string;
  definitions : lwm2mObjectDefinitions;
  observedInstance : list Lwm2mObservedInstance;
  observedResource : list Lwm2mObservedResource;
  lifetime : Z;
  registered : bool
}.

Definition set_Connection (l : Lwm2m) (c : option Coap) : Lwm2m :=
  {| endpointClientName := endpointClientName l;
     dmSecurityInstanceID := dmSecurityInstanceID l;
     dmServerInstanceID := dmServerInstanceID l;
     handler := handler l; Connection := c; Location := Location l;
     definitions := definitions l; observedInstance := observedInstance l;
     observedResource := observedResource l; lifetime := lifetime l;
     registered := registered l |}.

Definition set_observedInstance (l : Lwm2m) (o : list Lwm2mObservedInstance) : Lwm2m :=
  {| endpointClientName := endpointClientName l;
     dmSecurityInstanceID := dmSecurityInstanceID l;
     dmServerInstanceID := dmServerInstanceID l;
     handler := handler l; Connection := Connection l; Location := Location l;
     definitions := definitions l; observedInstance := o;
     observedResource := observedResource l; lifetime := lifetime l;
     registered := registered l |}.

Definition set_observedResource (l : Lwm2m) (o : list Lwm2mObservedResource) : Lwm2m :=
  {| endpointClientName := endpointClientName l;
     dmSecurityInstanceID := dmSecurityInstanceID l;
     dmServerInstanceID := dmServerInstanceID l;
     handler := handler l; Connection := Connection l; Location := Location l;
     definitions := definitions l; observedInstance := observedInstance l;
     observedResource := o; lifetime := lifetime l;
     registered := registered l |}.

(** The store changes: the agent sees another handler. *)
Definition set_handler (l : Lwm2m) (h : Lwm2mHandler) : Lwm2m :=
  {| endpointClientName := endpointClientName l;
     dmSecurityInstanceID := dmSecurityInstanceID l;
     dmServerInstanceID := dmServerInstanceID l;
     handler := h; Connection := Connection l; Location := Location l;
     definitions := definitions l; observedInstance := observedInstance l;
     observedResource := observedResource l; lifetime := lifetime l;
     registered := registered l |}.

(** The errors the read path returns. *)
Inductive error :=
| nil_error
| errTooManyIDs
| errAtoi
| errListResources
| errReadResource.

(** [findObjectDefinitionByID] *)
Definition findObjectDefinitionByID (definitions : lwm2mObjectDefinitions)
    (objectID : Z) : option Lwm2mObjectDefinition :=
  find (fun object => odef_ID object =? objectID) definitions.

(** [findResourceByID] *)
Definition findResourceByID (def : Lwm2mObjectDefinition) (resourceID : Z)
  : option Lwm2mResourceDefinition :=
  find (fun resource => rdef_ID resource =? resourceID) (Resources def).

(** [findResourceDefinitionByIDs] *)
Definition findResourceDefinitionByIDs (definitions : lwm2mObjectDefinitions)
    (objectID resourceID : Z) : option Lwm2mResourceDefinition :=
  match findObjectDefinitionByID definitions objectID with
  | None => None
  | Some objectDefinition => findResourceByID objectDefinition resourceID
  end.

(** The search loops of [findInstance] and [findResource]. *)
Definition exist (ids : list Z) (id : Z) : bool :=
  existsb (fun x => x =? id) ids.

(** [Lwm2m.findInstance]; [None] is [nil]. *)
Definition findInstance (lwm2m : Lwm2m) (objectID instanceID : Z)
  : option Lwm2mInstance :=
  let '(objectIDs, code) := ListObjectIDs (handler lwm2m) in
  if negb (code =? CoapCodeContent) then None else
  if negb (exist objectIDs objectID) then None else
  let definition := findObjectDefinitionByID (definitions lwm2m) objectID in
  let '(instanceIDs, code) :=
    ListInstanceIDs (handler lwm2m)
      {| object_ID := objectID; object_Definition := definition |} in
  if negb (code =? CoapCodeContent) then None else
  if negb (exist instanceIDs instanceID) then None else
  Some {| instance_ID := instanceID; instance_objectID := objectID |}.

(** [Lwm2m.findResource]; [None] is [nil]. *)
Definition findResource (lwm2m : Lwm2m) (objectID instanceID resourceID : Z)
  : option Lwm2mResource :=
  let '(objectIDs, code) := ListObjectIDs (handler lwm2m) in
  if negb (code =? CoapCodeContent) then None else
  if negb (exist objectIDs objectID) then None else
  let definition := findObjectDefinitionByID (definitions lwm2m) objectID in
  let '(instanceIDs, code) :=
    ListInstanceIDs (handler lwm2m)
      {| object_ID := objectID; object_Definition := definition |} in
  if negb (code =? CoapCodeContent) then None else
  if negb (exist instanceIDs instanceID) then None else
  let '(resourceIDs, code) :=
    ListResourceIDs (handler lwm2m)
      {| instance_objectID := objectID; instance_ID := instanceID |} in
  if negb (code =? CoapCodeContent) then None else
  if negb (exist resourceIDs resourceID) then None else
  let resourceDefinition :=
    findResourceDefinitionByIDs (definitions lwm2m) objectID resourceID in
  Some {| resource_ID := resourceID; resource_objectID := objectID;
          resource_instanceID := instanceID;
          resource_Definition := resourceDefinition |}.

(** [CoapMessage.extractResourceID]: the number of identifiers, the three
    identifiers and the error. *)
Fixpoint extractResourceID_loop (options : list CoapOption) (idCount : Z)
    (idList : Z * Z * Z) : Z * Z * Z * Z * error :=
  match options with
  | [] => let '(id0, id1, id2) := idList in (idCount, id0, id1, id2, nil_error)
  | option :: options' =>
    if No option =? coapOptionNoURIPath then
      if idCount >? 2 then (0, 0, 0, 0, errTooManyIDs) else
      match strconv.Atoi (string_of_bytes (Value option)) with
      | (_, Some _) => (0, 0, 0, 0, errAtoi)
      | (id, None) =>
        let '(id0, id1, id2) := idList in
        let idList :=
          if idCount =? 0 then (u16 id, id1, id2)
          else if idCount =? 1 then (id0, u16 id, id2)
          else (id0, id1, u16 id) in
        extractResourceID_loop options' (idCount + 1) idList
      end
    else extractResourceID_loop options' idCount idList
  end.

Definition extractResourceID (message : CoapMessage) : Z * Z * Z * Z * error :=
  extractResourceID_loop (Options message) 0 (0, 0, 0).

(** [lwm2m.Connection.SendResponse(..)]; a [nil] connection is a panic. *)
Definition SendResponse (lwm2m : Lwm2m) (request : CoapMessage) (code : CoapCode)
    (options : list CoapOption) (payload : list byte) : option Lwm2m :=
  do coap <- Connection lwm2m;
  Some (set_Connection lwm2m (Some (Coap.SendResponse coap request code options payload))).

(** The record [&Lwm2mTLV{TypeOfID: lwm2mTLVTypeResouce, ID: .., Length: .., Value: ..}]. *)
Definition resourceTLV (resourceID : Z) (resourceTLVValue : list byte) : TLV.Lwm2mTLV :=
  TLV.Build_Lwm2mTLV TLV.lwm2mTLVTypeResouce (u16 resourceID)
    (u32 (len resourceTLVValue)) resourceTLVValue [].

Definition contentFormat : list byte := BigEndian.PutUint16 coapContentFormatLwm2mTLV.

(** The options of a 2.05 answer to a read. *)
Definition readOptions (isObserve : bool) : list CoapOption :=
  if isObserve then
    [ {| No := coapOptionNoContentFormat; Value := contentFormat |};
      {| No := coapOptionNoObserve; Value := [coapObserveRegister] |} ]
  else [ {| No := coapOptionNoContentFormat; Value := contentFormat |} ].

(** The bytes of the observe counter ([observeCountBuf]). *)
Definition observeCountBuf (observeCount : Z) : list byte :=
  let buf := BigEndian.PutUint32 observeCount in
  if observeCount <=? 0xff then sub buf 3 4
  else if observeCount <=? 0xffff then sub buf 2 4
  else if observeCount <=? 0xffffff then sub buf 1 4
  else buf.

Definition notifyOptions (observeCount : Z) : list CoapOption :=
  [ {| No := coapOptionNoContentFormat; Value := contentFormat |};
    {| No := coapOptionNoObserve; Value := observeCountBuf observeCount |} ].

Section WithStdLib.

Variable std : StdLib.

(** [Lwm2m.processReadResource]; [None] is a run-time panic. *)
Definition processReadResource (lwm2m : Lwm2m) (objectID instanceID resourceID : Z)
    (message : CoapMessage) : option (Lwm2m * error) :=
  match findResource lwm2m objectID instanceID resourceID with
  | None =>
    do lwm2m <- SendResponse lwm2m message CoapCodeNotFound [] [];
    Some (lwm2m, nil_error)
  | Some resource =>
    let isObserve := IsObserve message in
    let observed :=
      {| or_token := []; or_messageID := 0; or_observeCount := 0;
         or_resource := None; or_lastValue := EmptyString |} in
    let observed :=
      if isObserve then
        {| or_token := Token message; or_messageID := or_messageID observed;
           or_observeCount := or_observeCount observed;
           or_resource := Some resource; or_lastValue := or_lastValue observed |}
      else observed in
    do definition <- resource_Definition resource;
    if negb (Readable definition) then
      do lwm2m <- SendResponse lwm2m message CoapCodeNotAllowed [] [];
      Some (lwm2m, nil_error)
    else
    let '(resourceValue, code) := ReadResource (handler lwm2m) resource in
    if negb (code =? CoapCodeContent) then
      do lwm2m <- SendResponse lwm2m message CoapCodeNotAllowed [] [];
      Some (lwm2m, errReadResource)
    else
    do resourceTLVValue <-
      Value.convertStringToTLVValue std resourceValue (rdef_Type definition);
    let payload := TLV.Marshal (resourceTLV resourceID resourceTLVValue) in
    let lwm2m :=
      if isObserve then
        let observed :=
          {| or_token := or_token observed;
             or_messageID := or_messageID observed;
             or_observeCount := or_observeCount observed;
             or_resource := or_resource observed;
             or_lastValue := resourceValue |} in
        set_observedResource lwm2m (observedResource lwm2m ++ [observed])
      else lwm2m in
    do lwm2m <- SendResponse lwm2m message CoapCodeContent (readOptions isObserve) payload;
    Some (lwm2m, nil_error)
  end.

(** The loop of [processReadInstance] over the resource identifiers: the
    payload and the observed resources gathered. *)
Fixpoint readResources (lwm2m : Lwm2m) (objectID instanceID : Z) (isObserve : bool)
    (resourceIDs : list Z) (payload : list byte)
    (resources : list Lwm2mObservedResource)
  : option (list byte * list Lwm2mObservedResource) :=
  match resourceIDs with
  | [] => Some (payload, resources)
  | resourceID :: resourceIDs' =>
    do resource <- findResource lwm2m objectID instanceID resourceID;
    do definition <- resource_Definition resource;
    if Readable definition then
      let '(resourceValue, code) := ReadResource (handler lwm2m) resource in
      if negb (code =? CoapCodeContent) then
        readResources lwm2m objectID instanceID isObserve resourceIDs' payload resources
      else
        do resourceTLVValue <-
          Value.convertStringToTLVValue std resourceValue (rdef_Type definition);
        let payload := payload ++ TLV.Marshal (resourceTLV resourceID resourceTLVValue) in
        let resources :=
          if isObserve then
            resources ++
            [ {| or_token := []; or_messageID := 0; or_observeCount := 0;
                 or_resource := Some resource; or_lastValue := resourceValue |} ]
          else resources in
        readResources lwm2m objectID instanceID isObserve resourceIDs' payload resources
    else
      readResources lwm2m objectID instanceID isObserve resourceIDs' payload resources
  end.

(** [Lwm2m.processReadInstance]; [None] is a run-time panic. *)
Definition processReadInstance (lwm2m : Lwm2m) (objectID instanceID : Z)
    (message : CoapMessage) : option (Lwm2m * error) :=
  match findInstance lwm2m objectID instanceID with
  | None =>
    do lwm2m <- SendResponse lwm2m message CoapCodeNotFound [] [];
    Some (lwm2m, nil_error)
  | Some instance =>
    let isObserve := IsObserve message in
    let observed :=
      {| oi_token := []; oi_messageID := 0; oi_observeCount := 0;
         oi_instance := None; oi_resources := [] |} in
    let observed :=
      if isObserve then
        {| oi_token := Token message; oi_messageID := oi_messageID observed;
           oi_observeCount := oi_observeCount observed;
           oi_instance := Some instance; oi_resources := [] |}
      else observed in
    let '(resourceIDs, code) := ListResourceIDs (handler lwm2m) instance in
    if negb (code =? CoapCodeContent) then
      do lwm2m <- SendResponse lwm2m message CoapCodeNotAllowed [] [];
      Some (lwm2m, errListResources)
    else
    do (payload, resources) <-
      readResources lwm2m objectID instanceID isObserve resourceIDs []
        (oi_resources observed);
    let observed :=
      {| oi_token := oi_token observed;
         oi_messageID := oi_messageID observed;
         oi_observeCount := oi_observeCount observed;
         oi_instance := oi_instance observed;
         oi_resources := resources |} in
    let lwm2m :=
      if isObserve then
        set_observedInstance lwm2m (observedInstance lwm2m ++ [observed])
      else lwm2m in
    do lwm2m <- SendResponse lwm2m message CoapCodeContent (readOptions isObserve) payload;
    Some (lwm2m, nil_error)
  end.

(** [Lwm2m.ReadRequest] *)
Definition ReadRequest (lwm2m : Lwm2m) (message : CoapMessage)
  : option (Lwm2m * error) :=
  let '(idCount, objectID, instanceID, resourceID, err) := extractResourceID message in
  match err with
  | nil_error =>
    if idCount =? 2 then processReadInstance lwm2m objectID instanceID message
    else if idCount =? 3 then
      processReadResource lwm2m objectID instanceID resourceID message
    else Some (lwm2m, nil_error)
  | _ => Some (lwm2m, err)
  end.

(** [Lwm2m.NotifyResource]: the agent and the observation record after the
    call. *)
Definition NotifyResource (lwm2m : Lwm2m) (observe : Lwm2mObservedResource)
  : option (Lwm2m * Lwm2mObservedResource) :=
  do resource <- or_resource observe;
  do definition <- resource_Definition resource;
  if negb (Readable definition) then Some (lwm2m, observe) else
  let '(value, code) := ReadResource (handler lwm2m) resource in
  if negb (code =? CoapCodeContent) then Some (lwm2m, observe) else
  if String.eqb value (or_lastValue observe) then Some (lwm2m, observe) else
  do resourceTLVValue <- Value.convertStringToTLVValue std value (rdef_Type definition);
  let payload := TLV.Marshal (resourceTLV (resource_ID resource) resourceTLVValue) in
  let options := notifyOptions (or_observeCount observe) in
  do coap <- Connection lwm2m;
  let '(coap, messageID) :=
    SendRelatedMessage coap CoapCodeContent (or_token observe) options payload in
  Some (set_Connection lwm2m (Some coap),
        {| or_token := or_token observe; or_messageID := messageID;
           or_observeCount := u32 (or_observeCount observe + 1);
           or_resource := or_resource observe; or_lastValue := value |}).

(** The loop of [NotifyInstance] over the observed resources of the
    instance: the payload and the records after the loop. *)
Fixpoint notifyResources (lwm2m : Lwm2m) (todo : list Lwm2mObservedResource)
    (payload : list byte) (done : list Lwm2mObservedResource)
  : option (list byte * list Lwm2mObservedResource) :=
  match todo with
  | [] => Some (payload, done)
  | resourceObserve :: todo' =>
    do resource <- or_resource resourceObserve;
    do definition <- resource_Definition resource;
    if negb (Readable definition) then
      notifyResources lwm2m todo' payload (done ++ [resourceObserve])
    else
    let '(resourceValue, code) := ReadResource (handler lwm2m) resource in
    if negb (code =? CoapCodeContent) then
      notifyResources lwm2m todo' payload (done ++ [resourceObserve])
    else if String.eqb resourceValue (or_lastValue resourceObserve) then
      notifyResources lwm2m todo' payload (done ++ [resourceObserve])
    else
      do resourceTLVValue <-
        Value.convertStringToTLVValue std resourceValue (rdef_Type definition);
      let resourceObserve :=
        {| or_token := or_token resourceObserve;
           or_messageID := or_messageID resourceObserve;
           or_observeCount := or_observeCount resourceObserve;
           or_resource := or_resource resourceObserve;
           or_lastValue := resourceValue |} in
      notifyResources lwm2m todo'
        (payload ++ TLV.Marshal (resourceTLV (resource_ID resource) resourceTLVValue))
        (done ++ [resourceObserve])
  end.

(** [Lwm2m.NotifyInstance] *)
Definition NotifyInstance (lwm2m : Lwm2m) (observe : Lwm2mObservedInstance)
  : option (Lwm2m * Lwm2mObservedInstance) :=
  do (payload, resources) <- notifyResources lwm2m (oi_resources observe) [] [];
  let observe :=
    {| oi_token := oi_token observe; oi_messageID := oi_messageID observe;
       oi_observeCount := oi_observeCount observe; oi_instance := oi_instance observe;
       oi_resources := resources |} in
  if len payload =? 0 then Some (lwm2m, observe) else
  let options := notifyOptions (oi_observeCount observe) in
  do coap <- Connection lwm2m;
  let '(coap, messageID) :=
    SendRelatedMessage coap CoapCodeContent (oi_token observe) options payload in
  Some (set_Connection lwm2m (Some coap),
        {| oi_token := oi_token observe; oi_messageID := messageID;
           oi_observeCount := u32 (oi_observeCount observe + 1);
           oi_instance := oi_instance observe; oi_resources := oi_resources observe |}).

(** A [for _, observe := range ..] loop whose body updates the record
    [observe] points to and the agent. *)
Fixpoint rangeNotify {A} (notify : Lwm2m -> A -> option (Lwm2m * A))
    (lwm2m : Lwm2m) (todo done : list A) : option (Lwm2m * list A) :=
  match todo with
  | [] => Some (lwm2m, done)
  | observe :: todo' =>
    do (lwm2m, observe) <- notify lwm2m observe;
    rangeNotify notify lwm2m todo' (done ++ [observe])
  end.

(** [Lwm2m.Observe], one tick. *)
Definition Observe (lwm2m : Lwm2m) : option Lwm2m :=
  match Connection lwm2m with
  | None => Some lwm2m
  | Some _ =>
    if negb (registered lwm2m) then Some lwm2m else
    do (lwm2m, instances) <- rangeNotify NotifyInstance lwm2m (observedInstance lwm2m) [];
    let lwm2m := set_observedInstance lwm2m instances in
    do (lwm2m, resources) <- rangeNotify NotifyResource lwm2m (observedResource lwm2m) [];
    Some (set_observedResource lwm2m resources)
  end.

End WithStdLib.

(** The first loop of [ObserveDeregister]: the index of the last record
    whose message identifier is the one looked for, [-1] when there is
    none. *)
Fixpoint foundIndex_loop {A} (messageID_of : A -> Z) (messageID : Z) (l : list A)
    (i : Z) (foundIndex : Z) : Z :=
  match l with
  | [] => foundIndex
  | observe :: l' =>
    foundIndex_loop messageID_of messageID l' (i + 1)
      (if messageID_of observe =? messageID then i else foundIndex)
  end.

(** [deletedSlice]: the copy without the record at [foundIndex]. *)
Definition deletedSlice {A} (l : list A) (foundIndex : Z) : list A :=
  sub l 0 foundIndex ++ sub l (foundIndex + 1) (len l).

(** [Lwm2m.ObserveDeregister] *)
Definition ObserveDeregister (lwm2m : Lwm2m) (message : CoapMessage) : Lwm2m :=
  let foundIndex :=
    foundIndex_loop oi_messageID (MessageID message) (observedInstance lwm2m) 0 (-1) in
  if foundIndex >=? 0 then
    set_observedInstance lwm2m (deletedSlice (observedInstance lwm2m) foundIndex)
  else
  let foundIndex :=
    foundIndex_loop or_messageID (MessageID message) (observedResource lwm2m) 0 foundIndex in
  if foundIndex >=? 0 then
    set_observedResource lwm2m (deletedSlice (observedResource lwm2m) foundIndex)
  else lwm2m.

(** *** Write, execute, dispatch *)

Definition set_Location (l : Lwm2m) (s : string) : Lwm2m :=
  {| endpointClientName := endpointClientName l;
     dmSecurityInstanceID := dmSecurityInstanceID l;
     dmServerInstanceID := dmServerInstanceID l;
     handler := handler l; Connection := Connection l; Location := s;
     definitions := definitions l; observedInstance := observedInstance l;
     observedResource := observedResource l; lifetime := lifetime l;
     registered := registered l |}.

(** The methods of [Lwm2mHandler] that change the store.  Each takes the
    store as it stands and gives the store afterwards with its code. *)
Record Lwm2mStore := {
  DeleteObject : Lwm2mHandler -> Lwm2mObject -> Lwm2mHandler * CoapCode;
  CreateInstance : Lwm2mHandler -> Lwm2mInstance -> Lwm2mHandler * CoapCode;
  WriteResource : Lwm2mHandler -> Lwm2mResource -> string -> Lwm2mHandler * CoapCode;
  ExecuteResource : Lwm2mHandler -> Lwm2mResource -> string -> Lwm2mHandler * CoapCode
}.

(** The errors of the write and execute paths; [errExtract] carries the
    error of [extractResourceID]. *)
Inductive opError :=
| op_nil
| errExtract (err : error)
| errNoInstance
| errNoDefinition
| errWriteResource
| errExecuteResource.

Section WithStore.

Variable std : StdLib.
Variable store : Lwm2mStore.

(** [Lwm2m.processWriteResource]; [None] is a run-time panic. *)
Definition processWriteResource (lwm2m : Lwm2m) (objectID instanceID resourceID : Z)
    (message : CoapMessage) : option (Lwm2m * opError) :=
  match findInstance lwm2m objectID instanceID with
  | None =>
    do lwm2m <- SendResponse lwm2m message CoapCodeNotFound [] [];
    Some (lwm2m, errNoInstance)
  | Some _ =>
    let resource :=
      match findResource lwm2m objectID instanceID resourceID with
      | Some resource => Some resource
      | None =>
        match findResourceDefinitionByIDs (definitions lwm2m) objectID resourceID with
        | None => None
        | Some resourceDefinition =>
          Some {| resource_ID := resourceID; resource_objectID := objectID;
                  resource_instanceID := instanceID;
                  resource_Definition := Some resourceDefinition |}
        end
      end in
    match resource with
    | None => Some (lwm2m, errNoDefinition)
    | Some resource =>
      do definition <- resource_Definition resource;
      if negb (Writable definition) then
        do lwm2m <- SendResponse lwm2m message CoapCodeNotAllowed [] [];
        Some (lwm2m, op_nil)
      else
      let '(tlv, _) := TLV.Unmarshal TLV.zero (Payload message) in
      do value <- Value.convertTLVValueToString std (TLV.Value tlv) (rdef_Type definition);
      let '(handler, code) := WriteResource store (handler lwm2m) resource value in
      let lwm2m := set_handler lwm2m handler in
      if negb (code =? CoapCodeChanged) then
        do lwm2m <- SendResponse lwm2m message code [] [];
        Some (lwm2m, errWriteResource)
      else
        do lwm2m <- SendResponse lwm2m message CoapCodeChanged [] [];
        Some (lwm2m, op_nil)
    end
  end.

(** [Lwm2m.processExecuteResource]; [None] is a run-time panic. *)
Definition processExecuteResource (lwm2m : Lwm2m) (objectID instanceID resourceID : Z)
    (message : CoapMessage) : option (Lwm2m * opError) :=
  match findResource lwm2m objectID instanceID resourceID with
  | None =>
    do lwm2m <- SendResponse lwm2m message CoapCodeNotFound [] [];
    Some (lwm2m, op_nil)
  | Some resource =>
    do definition <- resource_Definition resource;
    if negb (Excutable definition) then
      do lwm2m <- SendResponse lwm2m message CoapCodeNotAllowed [] [];
      Some (lwm2m, op_nil)
    else
    let value := base64_EncodeToString std (Payload message) in
    let '(handler, code) := ExecuteResource store (handler lwm2m) resource value in
    let lwm2m := set_handler lwm2m handler in
    if negb (code =? CoapCodeChanged) then
      do lwm2m <- SendResponse lwm2m message code [] [];
      Some (lwm2m, errExecuteResource)
    else
      do lwm2m <- SendResponse lwm2m message CoapCodeChanged [] [];
      Some (lwm2m, op_nil)
  end.

(** [Lwm2m.WriteRequest] *)
Definition WriteRequest (lwm2m : Lwm2m) (message : CoapMessage)
  : option (Lwm2m * opError) :=
  let '(idCount, objectID, instanceID, resourceID, err) := extractResourceID message in
  match err with
  | nil_error =>
    if idCount =? 3 then processWriteResource lwm2m objectID instanceID resourceID message
    else Some (lwm2m, op_nil)
  | _ => Some (lwm2m, errExtract err)
  end.

(** [Lwm2m.ExecuteRequest] *)
Definition ExecuteRequest (lwm2m : Lwm2m) (message : CoapMessage)
  : option (Lwm2m * opError) :=
  let '(idCount, objectID, instanceID, resourceID, err) := extractResourceID message in
  match err with
  | nil_error =>
    if idCount =? 3 then processExecuteResource lwm2m objectID instanceID resourceID message
    else Some (lwm2m, op_nil)
  | _ => Some (lwm2m, errExtract err)
  end.

End WithStore.

(** The resource a write addresses: the one [findResource] finds, or one
    made from the definition when the store has none. *)
Definition target (lwm2m : Lwm2m) (objectID instanceID resourceID : Z)
  : option Lwm2mResource :=
  match findResource lwm2m objectID instanceID resourceID with
  | Some resource => Some resource
  | None =>
    match findResourceDefinitionByIDs (definitions lwm2m) objectID resourceID with
    | None => None
    | Some resourceDefinition =>
      Some {| resource_ID := resourceID; resource_objectID := objectID;
              resource_instanceID := instanceID;
              resource_Definition := Some resourceDefinition |}
    end
  end.

(** *** Registration *)

Definition lwm2mVersion : string := "1.0".
Definition lwm2mBindingMode : string := "U".

(** The loop of [RegisterDone]: the location and [locationPathIndex]. *)
Fixpoint RegisterDone_loop (options : list CoapOption) (locationPathIndex : Z)
    (location : string) : string :=
  match options with
  | [] => location
  | option :: options' =>
    if No option =? coapOptionNoLocationPath then
      if locationPathIndex =? 0 then
        RegisterDone_loop options' (locationPathIndex + 1) location
      else if locationPathIndex =? 1 then
        RegisterDone_loop options' (locationPathIndex + 1)
          (string_of_bytes (Value option))
      else RegisterDone_loop options' locationPathIndex location
    else RegisterDone_loop options' locationPathIndex location
  end.

(** [Lwm2m.RegisterDone] *)
Definition RegisterDone (lwm2m : Lwm2m) (message : CoapMessage) : Lwm2m :=
  set_Location lwm2m (RegisterDone_loop (Options message) 0 (Location lwm2m)).

(** [Lwm2m.UpdateDone] *)
Definition UpdateDone (lwm2m : Lwm2m) (message : CoapMessage) : Lwm2m := lwm2m.

(** [Lwm2m.buildRegisterOptions] *)
Definition buildRegisterOptions (lwm2m : Lwm2m) (lifetime : Z) : list CoapOption :=
  [ {| No := coapOptionNoURIPath; Value := bytes_of_string "rd" |};
    {| No := coapOptionNoContentFormat; Value := [u8 coapContentFormatLinkFormat] |};
    {| No := coapOptionNoURIQuery;
       Value := bytes_of_string ("lwm2m=" ++ lwm2mVersion) |};
    {| No := coapOptionNoURIQuery;
       Value := bytes_of_string ("ep=" ++ endpointClientName lwm2m) |};
    {| No := coapOptionNoURIQuery;
       Value := bytes_of_string ("b=" ++ lwm2mBindingMode) |};
    {| No := coapOptionNoURIQuery;
       Value := bytes_of_string ("lt=" ++ strconv.Itoa lifetime) |} ].

(** [Lwm2m.buildUpdateOptions] *)
Definition buildUpdateOptions (lwm2m : Lwm2m) : list CoapOption :=
  [ {| No := coapOptionNoURIPath; Value := bytes_of_string "rd" |};
    {| No := coapOptionNoURIPath; Value := bytes_of_string (Location lwm2m) |} ].

(** The inner loop of [instanceIDList]. *)
Definition instancePaths (objectID : Z) (instanceIDs : list Z) : list string :=
  map (fun instanceID =>
         ("/" ++ strconv.Itoa objectID ++ "/" ++ strconv.Itoa instanceID)%string)
      instanceIDs.

(** The outer loop of [instanceIDList]. *)
Fixpoint instanceIDList_loop (lwm2m : Lwm2m) (objectIDs : list Z) (ret : list string)
  : list string :=
  match objectIDs with
  | [] => ret
  | objectID :: objectIDs' =>
    if objectID =? 0 then instanceIDList_loop lwm2m objectIDs' ret else
    let definition := findObjectDefinitionByID (definitions lwm2m) objectID in
    let '(instanceIDs, code) :=
      ListInstanceIDs (handler lwm2m)
        {| object_ID := objectID; object_Definition := definition |} in
    if negb (code =? CoapCodeContent) then instanceIDList_loop lwm2m objectIDs' ret
    else instanceIDList_loop lwm2m objectIDs' (ret ++ instancePaths objectID instanceIDs)
  end.

(** [Lwm2m.instanceIDList] *)
Definition instanceIDList (lwm2m : Lwm2m) : list string :=
  let '(objectIDs, code) := ListObjectIDs (handler lwm2m) in
  if negb (code =? CoapCodeContent) then []
  else instanceIDList_loop lwm2m objectIDs [].

Section Dispatch.

Variable std : StdLib.
Variable store : Lwm2mStore.

(** [Lwm2m.ReceiveMessage]: the errors of the operations are dropped, as in
    the source; [None] is a run-time panic. *)
Definition ReceiveMessage (lwm2m : Lwm2m) (message : CoapMessage) : option Lwm2m :=
  if Type_ message =? CoapTypeAcknowledgement then
    if Code message =? CoapCodeCreated then Some (RegisterDone lwm2m message)
    else if Code message =? CoapCodeChanged then Some (UpdateDone lwm2m message)
    else Some lwm2m
  else if Type_ message =? CoapTypeConfirmable then
    if Code message =? CoapCodeGet then
      do (lwm2m, _) <- ReadRequest std lwm2m message; Some lwm2m
    else if Code message =? CoapCodePut then
      do (lwm2m, _) <- WriteRequest std store lwm2m message; Some lwm2m
    else if Code message =? CoapCodePost then
      do (lwm2m, _) <- ExecuteRequest std store lwm2m message; Some lwm2m
    else Some lwm2m
  else if Type_ message =? CoapTypeReset then
    Some (ObserveDeregister lwm2m message)
  else Some lwm2m.

End Dispatch.

(** *** Observations with nothing to report *)

(** An observed resource for which a tick has nothing to send: it cannot
    be read, or the read fails, or the value read is the last one sent. *)
Definition quiet (lwm2m : Lwm2m) (observe : Lwm2mObservedResource) : bool :=
  match or_resource observe with
  | None => false
  | Some resource =>
    match resource_Definition resource with
    | None => false
    | Some definition =>
      negb (Readable definition)
      || negb (snd (ReadResource (handler lwm2m) resource) =? CoapCodeContent)
      || String.eqb (fst (ReadResource (handler lwm2m) resource)) (or_lastValue observe)
    end
  end.

(** The observations of an agent are all quiet. *)
Definition allQuiet (lwm2m : Lwm2m) : bool :=
  forallb (fun observe => forallb (quiet lwm2m) (oi_resources observe))
          (observedInstance lwm2m)
  && forallb (quiet lwm2m) (observedResource lwm2m).

(** What a notification leaves of the agent: the store, the registration,
    the lists of observations, and a connection if there was one. *)
Definition kept (lwm2m lwm2m' : Lwm2m) : Prop :=
  handler lwm2m' = handler lwm2m /\ registered lwm2m' = registered lwm2m /\
  observedInstance lwm2m' = observedInstance lwm2m /\
  observedResource lwm2m' = observedResource lwm2m /\
  (Connection lwm2m <> None -> Connection lwm2m' <> None).

(** *** Bootstrap *)

(** [lwm2mBootstrap]; [bootstrap_finishNotify] holds what was sent on the
    channel [finishNotify]. *)
Record lwm2mBootstrap := {
  bootstrap_finishNotify : list Z;
  bootstrap_connection : option Coap;
  bootstrap_definitions : lwm2mObjectDefinitions;
  bootstrap_handler : Lwm2mHandler
}.

Definition set_bootstrap_handler (b : lwm2mBootstrap) (h : Lwm2mHandler) : lwm2mBootstrap :=
  {| bootstrap_finishNotify := bootstrap_finishNotify b;
     bootstrap_connection := bootstrap_connection b;
     bootstrap_definitions := bootstrap_definitions b;
     bootstrap_handler := h |}.

(** [lwm2m.connection.SendResponse(..)] of the bootstrap; a [nil]
    connection is a panic. *)
Definition bootstrap_SendResponse (b : lwm2mBootstrap) (request : CoapMessage)
    (code : CoapCode) (options : list CoapOption) (payload : list byte)
  : option lwm2mBootstrap :=
  do coap <- bootstrap_connection b;
  Some {| bootstrap_finishNotify := bootstrap_finishNotify b;
          bootstrap_connection :=
            Some (Coap.SendResponse coap request code options payload);
          bootstrap_definitions := bootstrap_definitions b;
          bootstrap_handler := bootstrap_handler b |}.

(** The errors of [processBootstrapWrite]. *)
Inductive bootstrapError := bootstrap_nil | errCreateInstance | errRegisterResource.

Section Bootstrap.

Variable std : StdLib.
Variable store : Lwm2mStore.

(** The identifiers of the Security and the Server objects, constants
    declared outside the files at hand. *)
Variables lwm2mObjectIDSecurity lwm2mObjectIDServer : Z.

(** The loop of [processBootstrapWrite].  Every turn but the last consumes
    a TLV of the payload; [fuel] bounds the turns, and running out of it
    is [None] as a panic is. *)
Fixpoint processBootstrapWrite_loop (fuel : nat) (lwm2m : lwm2mBootstrap)
    (objectID instanceID : Z) (objectDefinition : option Lwm2mObjectDefinition)
    (message : CoapMessage) (parsedIndex : Z)
  : option (lwm2mBootstrap * bootstrapError) :=
  match fuel with
  | O => None
  | S fuel' =>
    do rest <- slice_from (Payload message) parsedIndex;
    let '(tlv, tlvLength) := TLV.Unmarshal TLV.zero rest in
    if tlvLength =? -1 then
      do lwm2m <- bootstrap_SendResponse lwm2m message CoapCodeChanged [] [];
      Some (lwm2m, bootstrap_nil)
    else
    let parsedIndex := parsedIndex + tlvLength in
    let resourceID := TLV.ID tlv in
    do definition <- objectDefinition;
    let resourceDefinition := findResourceByID definition resourceID in
    do type <- option_map rdef_Type resourceDefinition;
    do value <- Value.convertTLVValueToString std (TLV.Value tlv) type;
    let '(handler, code) :=
      WriteResource store (bootstrap_handler lwm2m)
        {| resource_ID := resourceID; resource_objectID := objectID;
           resource_instanceID := instanceID;
           resource_Definition := resourceDefinition |} value in
    let lwm2m := set_bootstrap_handler lwm2m handler in
    if negb (code =? CoapCodeChanged) then
      do lwm2m <- bootstrap_SendResponse lwm2m message code [] [];
      Some (lwm2m, errRegisterResource)
    else
      processBootstrapWrite_loop fuel' lwm2m objectID instanceID objectDefinition
        message parsedIndex
  end.

(** [lwm2mBootstrap.processBootstrapWrite]; [None] is a run-time panic. *)
Definition processBootstrapWrite (lwm2m : lwm2mBootstrap) (objectID instanceID : Z)
    (message : CoapMessage) : option (lwm2mBootstrap * bootstrapError) :=
  let '(handler, code) :=
    CreateInstance store (bootstrap_handler lwm2m)
      {| instance_ID := instanceID; instance_objectID := objectID |} in
  let lwm2m := set_bootstrap_handler lwm2m handler in
  if negb (code =? CoapCodeCreated) then
    do lwm2m <- bootstrap_SendResponse lwm2m message code [] [];
    Some (lwm2m, errCreateInstance)
  else
  let objectDefinition := findObjectDefinitionByID (bootstrap_definitions lwm2m) objectID in
  processBootstrapWrite_loop (S (Z.to_nat (len (Payload message)))) lwm2m
    objectID instanceID objectDefinition message 0.

(** [lwm2mBootstrap.BootstrapRequestDone] *)
Definition BootstrapRequestDone (lwm2m : lwm2mBootstrap) (message : CoapMessage)
  : lwm2mBootstrap := lwm2m.

(** [lwm2mBootstrap.processBootstrapFinishRequest] *)
Definition processBootstrapFinishRequest (lwm2m : lwm2mBootstrap) (message : CoapMessage)
  : option lwm2mBootstrap :=
  do lwm2m <- bootstrap_SendResponse lwm2m message CoapCodeChanged [] [];
  Some {| bootstrap_finishNotify := bootstrap_finishNotify lwm2m ++ [1];
          bootstrap_connection := bootstrap_connection lwm2m;
          bootstrap_definitions := bootstrap_definitions lwm2m;
          bootstrap_handler := bootstrap_handler lwm2m |}.

(** [lwm2mBootstrap.processBootstrapDeleteRequest] *)
Definition processBootstrapDeleteRequest (lwm2m : lwm2mBootstrap) (message : CoapMessage)
  : option lwm2mBootstrap :=
  let '(handler, _) :=
    DeleteObject store (bootstrap_handler lwm2m)
      {| object_ID := lwm2mObjectIDSecurity; object_Definition := None |} in
  let '(handler, _) :=
    DeleteObject store handler
      {| object_ID := lwm2mObjectIDServer; object_Definition := None |} in
  bootstrap_SendResponse (set_bootstrap_handler lwm2m handler) message CoapCodeDeleted [] [].

(** [lwm2mBootstrap.BootstrapReceiveMessage]: the error of
    [extractResourceID] and that of [processBootstrapWrite] are dropped, as
    in the source; [None] is a run-time panic. *)
Definition BootstrapReceiveMessage (lwm2m : lwm2mBootstrap) (message : CoapMessage)
  : option lwm2mBootstrap :=
  if Type_ message =? CoapTypeAcknowledgement then
    if Code message =? CoapCodeChanged then Some (BootstrapRequestDone lwm2m message)
    else Some lwm2m
  else if Type_ message =? CoapTypeConfirmable then
    if Code message =? CoapCodePut then
      let '(_, objectID, instanceID, _, _) := extractResourceID message in
      do (lwm2m, _) <- processBootstrapWrite lwm2m objectID instanceID message;
      Some lwm2m
    else if Code message =? CoapCodePost then processBootstrapFinishRequest lwm2m message
    else if Code message =? CoapCodeDelete then processBootstrapDeleteRequest lwm2m message
    else Some lwm2m
  else Some lwm2m.

End Bootstrap.

(** The payload of a bootstrap write: one resource TLV after the other. *)
Definition resourceTLVs (items : list (Z * list byte)) : list byte :=
  concat (map (fun item => TLV.Marshal (resourceTLV (fst item) (snd item))) items).

(** What a bootstrap write asks of the handler for the values of a
    payload: one [WriteResource] per value, in order, up to the first one
    the handler refuses.  The store afterwards and the code of the last
    call ([CoapCodeChanged] when there was none). *)
Fixpoint writeAll (store : Lwm2mStore) (handler : Lwm2mHandler) (objectID instanceID : Z)
    (definition : Lwm2mObjectDefinition) (values : list (Z * string))
  : Lwm2mHandler * CoapCode :=
  match values with
  | [] => (handler, CoapCodeChanged)
  | (resourceID, value) :: values' =>
    let '(handler, code) :=
      WriteResource store handler
        {| resource_ID := resourceID; resource_objectID := objectID;
           resource_instanceID := instanceID;
           resource_Definition := findResourceByID definition resourceID |} value in
    if code =? CoapCodeChanged
    then writeAll store handler objectID instanceID definition values'
    else (handler, code)
  end.

(** The bootstrap after it answered [request] with [code] and was left
    with the store [handler]. *)
Definition answered (lwm2m : lwm2mBootstrap) (coap : Coap) (request : CoapMessage)
    (code : CoapCode) (handler : Lwm2mHandler) : lwm2mBootstrap :=
  {| bootstrap_finishNotify := bootstrap_finishNotify lwm2m;
     bootstrap_connection := Some (Coap.SendResponse coap request code [] []);
     bootstrap_definitions := bootstrap_definitions lwm2m;
     bootstrap_handler := handler |}.

(** A value of the payload that the loop can hand to the handler: the
    identifier and the length fit their fields, the object defines the
    resource, and the bytes decode to the string. *)
Definition decodes (std : StdLib) (definition : Lwm2mObjectDefinition)
    (item : Z * list byte) (value : Z * string) : Prop :=
  fst value = fst item /\
  0 <= fst item < 2 ^ 16 /\ len (snd item) <= 0xFFFF /\
  exists resourceDefinition,
    findResourceByID definition (fst item) = Some resourceDefinition /\
    Value.convertTLVValueToString std (snd item) (rdef_Type resourceDefinition)
    = Some (snd value).
End WithSorting.

End Lwm2m.

(** ** Vocabulary of the statements about the agent *)

Module Reply.

Import Coap Lwm2m.

Section WithSorting.

Context {sorting : Sorting}.

(** The agent [lwm2m'] is [lwm2m] after an answer to [request] with the
    given code, options and payload was written on its connection. *)
Definition replied (lwm2m lwm2m' : Lwm2m) (request : CoapMessage) (code : CoapCode)
    (options : list CoapOption) (payload : list byte) : Prop :=
  exists coap,
    Connection lwm2m = Some coap /\
    Connection lwm2m' =
      Some (Write coap (ConvertToBytes (response request code options payload))).

End WithSorting.

(** Content-Format 11542, [application/vnd.oma.lwm2m+tlv]. *)
Definition optionContentFormatTLV : CoapOption := {| No := 12; Value := [0x2D; 0x16] |}.

(** An Observe option. *)
Definition optionObserve (value : list byte) : CoapOption := {| No := 6; Value := value |}.

End Reply.

(** ** The device object of the end-to-end scenarios *)

Module Scenario.

Import Coap Lwm2m.

#[local] Existing Instance insertion.

(** Resource 9 of object 3 (Device): the battery level, an integer that can
    be read. *)
Definition batteryLevel : Lwm2mResourceDefinition :=
  {| rdef_ID := 9; rdef_Name := "Battery Level"; rdef_Multi := false;
     rdef_Mandatory := false; Readable := true; Writable := false;
     Excutable := false; rdef_Type := Value.lwm2mResourceTypeInteger |}.

(** Resource 4 of object 3: reboot, which can only be executed. *)
Definition reboot : Lwm2mResourceDefinition :=
  {| rdef_ID := 4; rdef_Name := "Reboot"; rdef_Multi := false;
     rdef_Mandatory := true; Readable := false; Writable := false;
     Excutable := true; rdef_Type := Value.lwm2mResourceTypeNone |}.

Definition device : Lwm2mObjectDefinition :=
  {| odef_ID := 3; odef_Name := "Device"; odef_Multi := false;
     odef_Mandatory := true; Resources := [reboot; batteryLevel] |}.

(** A store with the single instance /3/0, its resources 4 and 9, and
    [value] in /3/0/9. *)
Definition store (value : string) : Lwm2mHandler :=
  {| ListObjectIDs := ([3], CoapCodeContent);
     ListInstanceIDs := fun object =>
       (if object_ID object =? 3 then [0] else [], CoapCodeContent);
     ListResourceIDs := fun instance =>
       (if (instance_objectID instance =? 3) && (instance_ID instance =? 0)
        then [4; 9] else [], CoapCodeContent);
     ReadResource := fun resource =>
       if resource_ID resource =? 9 then (value, CoapCodeContent)
       else (EmptyString, CoapCodeNotAllowed) |}.

(** A registered agent on that store, nothing observed yet. *)
Definition agent (value : string) : Lwm2m :=
  {| endpointClientName := "endpoint"; dmSecurityInstanceID := 0;
     dmServerInstanceID := 0; handler := store value;
     Connection := Some {| NextMessageID := 7; Written := [] |};
     Location := "xyz-42"; definitions := [device];
     observedInstance := []; observedResource := [];
     lifetime := 60; registered := true |}.

Definition uriPath (segment : string) : CoapOption :=
  {| No := coapOptionNoURIPath; Value := bytes_of_string segment |}.

(** [GET] on a path, with the Observe option when [observe] is set. *)
Definition get (observe : bool) (path : list string) : CoapMessage :=
  {| Version := 1; Type_ := CoapTypeConfirmable; TokenLength := 4;
     Code := CoapCodeGet; MessageID := 0x1234; Token := [0xAA; 0xBB; 0xCC; 0xDD];
     Options :=
       (if observe then [ {| No := coapOptionNoObserve; Value := [] |} ] else [])
       ++ map uriPath path;
     Payload := [] |}.

(** An RST for a message identifier. *)
Definition rst (messageID : Z) : CoapMessage :=
  {| Version := 1; Type_ := CoapTypeReset; TokenLength := 0; Code := CoapCodeEmpty;
     MessageID := messageID; Token := []; Options := []; Payload := [] |}.

(** An observed instance as [NotifyInstance] leaves it after a
    notification with the message identifier [messageID]. *)
Definition observed (messageID : Z) (token : list byte) : Lwm2mObservedInstance :=
  {| oi_token := token; oi_messageID := messageID; oi_observeCount := 1;
     oi_instance := Some {| instance_ID := 0; instance_objectID := 3 |};
     oi_resources := [] |}.

(** A standard library whose floating point and base64 functions answer
    nothing: the scenarios read integers only. *)
Definition std : StdLib :=
  {| ParseFloat_bits := fun _ => 0;
     FormatFloat32_g6 := fun _ => EmptyString;
     FormatFloat64_g6 := fun _ => EmptyString;
     base64_EncodeToString := fun _ => EmptyString;
     base64_DecodeString := fun _ => [];
     strings_Split_colon := fun s => [s] |}.

(** Scenario 5: the observation of /3/0/9 is registered while the store
    holds 45, the store then holds 43, and one Observe tick runs.  The
    datagrams written by the tick. *)
Definition notified : option (list (list byte)) :=
  do (lwm2m1, _) <- ReadRequest std (agent "45") (get true ["3"; "0"; "9"]%string);
  do coap1 <- Connection lwm2m1;
  do lwm2m2 <- Observe std (set_handler lwm2m1 (store "43"));
  do coap2 <- Connection lwm2m2;
  Some (skipn (List.length (Written coap1)) (Written coap2)).

End Scenario.

(** ** A store that can be written *)

Module Bench.

Import Coap Lwm2m.

#[local] Existing Instance insertion.

(** Resource 13 of object 3: the current time, an integer that can be read
    and written. *)
Definition currentTime : Lwm2mResourceDefinition :=
  {| rdef_ID := 13; rdef_Name := "Current Time"; rdef_Multi := false;
     rdef_Mandatory := false; Readable := true; Writable := true;
     Excutable := false; rdef_Type := Value.lwm2mResourceTypeTime |}.

(** Resource 15 of object 3: the time zone, a string that can be read and
    written. *)
Definition timezone : Lwm2mResourceDefinition :=
  {| rdef_ID := 15; rdef_Name := "Timezone"; rdef_Multi := false;
     rdef_Mandatory := false; Readable := true; Writable := true;
     Excutable := false; rdef_Type := Value.lwm2mResourceTypeString |}.

(** A flag that can be written, for the Boolean branch of the codec. *)
Definition flag : Lwm2mResourceDefinition :=
  {| rdef_ID := 20; rdef_Name := "Flag"; rdef_Multi := false;
     rdef_Mandatory := false; Readable := true; Writable := true;
     Excutable := false; rdef_Type := Value.lwm2mResourceTypeBoolean |}.

Definition device : Lwm2mObjectDefinition :=
  {| odef_ID := 3; odef_Name := "Device"; odef_Multi := false;
     odef_Mandatory := true;
     Resources := [Scenario.reboot; Scenario.batteryLevel; currentTime; timezone; flag] |}.

(** The values of the instance /3/0, by resource identifier. *)
Definition shelf := list (Z * string).

Fixpoint lookup (values : shelf) (resourceID : Z) : option string :=
  match values with
  | [] => None
  | (id, value) :: values' =>
    if id =? resourceID then Some value else lookup values' resourceID
  end.

(** A store with the objects 0 (Security) and 3 (Device), one instance of
    each, and the values of /3/0 on a shelf. *)
Definition store (values : shelf) : Lwm2mHandler :=
  {| ListObjectIDs := ([0; 3], CoapCodeContent);
     ListInstanceIDs := fun object =>
       (if (object_ID object =? 3) || (object_ID object =? 0) then [0] else [],
        CoapCodeContent);
     ListResourceIDs := fun instance =>
       (if (instance_objectID instance =? 3) && (instance_ID instance =? 0)
        then map fst values else [], CoapCodeContent);
     ReadResource := fun resource =>
       match lookup values (resource_ID resource) with
       | Some value => (value, CoapCodeContent)
       | None => (EmptyString, CoapCodeNotFound)
       end |}.

(** A handler that keeps what is written to /3/0 and refuses the empty
    string; executing and creating change nothing. *)
Definition keeper (values : shelf) : Lwm2mStore :=
  {| DeleteObject := fun handler _ => (handler, CoapCodeDeleted);
     CreateInstance := fun handler _ => (handler, CoapCodeCreated);
     WriteResource := fun handler resource value =>
       if String.eqb value EmptyString then (handler, CoapCodeBadRequest)
       else (store ((resource_ID resource, value) :: values), CoapCodeChanged);
     ExecuteResource := fun handler _ _ => (handler, CoapCodeChanged) |}.

Definition agent (values : shelf) : Lwm2m :=
  {| endpointClientName := "endpoint"; dmSecurityInstanceID := 0;
     dmServerInstanceID := 0; handler := store values;
     Connection := Some {| NextMessageID := 7; Written := [] |};
     Location := "xyz-42"; definitions := [device];
     observedInstance := []; observedResource := [];
     lifetime := 60; registered := true |}.

(** A confirmable request on a path. *)
Definition con (code : CoapCode) (path : list string) (payload : list byte)
  : CoapMessage :=
  {| Version := 1; Type_ := CoapTypeConfirmable; TokenLength := 2;
     Code := code; MessageID := 0x4321; Token := [0x0A; 0x0B];
     Options := map Scenario.uriPath path; Payload := payload |}.

(** An agent on the store of the scenarios that observes /3/0/9 and has
    last reported [last]. *)
Definition watching (value last : string) : Lwm2m :=
  set_observedResource (Scenario.agent value)
    [ {| or_token := [0x51; 0x52]; or_messageID := 0x0101; or_observeCount := 3;
         or_resource :=
           Some {| resource_ID := 9; resource_objectID := 3; resource_instanceID := 0;
                   resource_Definition := Some Scenario.batteryLevel |};
         or_lastValue := last |} ].

End Bench.


(** ** A bootstrap on an empty store *)

Module Desk.

Import Coap Lwm2m.

#[local] Existing Instance insertion.

(** A handler that keeps every value written, whatever the instance, and
    refuses the empty string. *)
Definition ledger : Lwm2mStore :=
  {| DeleteObject := fun handler _ => (handler, CoapCodeDeleted);
     CreateInstance := fun handler _ => (handler, CoapCodeCreated);
     WriteResource := fun handler resource value =>
       if String.eqb value EmptyString then (handler, CoapCodeBadRequest)
       else
         ({| ListObjectIDs := ListObjectIDs handler;
             ListInstanceIDs := ListInstanceIDs handler;
             ListResourceIDs := fun instance =>
               (resource_ID resource :: fst (ListResourceIDs handler instance),
                snd (ListResourceIDs handler instance));
             ReadResource := fun read =>
               if resource_ID read =? resource_ID resource
               then (value, CoapCodeContent)
               else ReadResource handler read |},
          CoapCodeChanged);
     ExecuteResource := fun handler _ _ => (handler, CoapCodeChanged) |}.

(** A bootstrap that knows the Device object and has written nothing. *)
Definition bootstrap : lwm2mBootstrap :=
  {| bootstrap_finishNotify := [];
     bootstrap_connection := Some {| NextMessageID := 7; Written := [] |};
     bootstrap_definitions := [Bench.device];
     bootstrap_handler := Bench.store [] |}.

(** The time zone and the flag of /3/0, as the server writes them. *)
Definition items : list (Z * list byte) :=
  [ (15, bytes_of_string "Asia/Tokyo"); (20, [1]) ].

Definition values : list (Z * string) :=
  [ (15, "Asia/Tokyo"%string); (20, "true"%string) ].

End Desk.
(** ** DTLS record layer and handshake *)

(** What the engine takes from packages crypto/sha256, crypto/hmac,
    crypto/aes and crypto/cipher. *)
Record Crypto := {
  (** [sha256.Sum256] *)
  sha256_Sum256 : list byte -> list byte;
  (** [hmac.New(sha256.New, secret)], [Write(message)], [Sum(nil)] *)
  hmac_sha256 : list byte -> list byte -> list byte;
  (** [cipher.NewCTR(block, iv).XORKeyStream] for the AES block of a key *)
  aes_ctr : list byte -> list byte -> list byte -> list byte;
  (** [cipher.NewCBCEncrypter(block, iv).CryptBlocks] for the AES block of a key *)
  aes_cbc : list byte -> list byte -> list byte -> list byte
}.

(** [aes.NewCipher(key)] returns no error. *)
Definition aes_key_ok (key : list byte) : bool :=
  (len key =? 16) || (len key =? 24) || (len key =? 32).

(** [copy(dst, src)]: the destination afterwards. *)
Definition copy (dst src : list byte) : list byte :=
  firstn (List.length dst) src ++ skipn (List.length src) dst.

Module Dtls.

Definition dtlsVersion : Z := 0xfefd.
Definition dtlsCipherSuite : Z := 0xc0a8.
Definition dtlsCompress : byte := 0x00.
Definition dtlsPacketSize : Z := 1024.

Definition dtlsContentTypeChangeCipherSpec : byte := 20.
Definition dtlsContentTypeHandshake : byte := 22.
Definition dtlsContentTypeApplicationData : byte := 23.

Definition dtlsAesCcmMACLength : byte := 8.
Definition dtlsAesCCMLength : byte := 3.
Definition aes_BlockSize : Z := 16.

Definition dtlsHandshakeTypeClientHello : byte := 1.
Definition dtlsHandshakeTypeServerHello : byte := 2.
Definition dtlsHandshakeTypeHelloVerifyRequest : byte := 3.
Definition dtlsHandshakeTypeServerHelloDone : byte := 14.
Definition dtlsHandshakeTypeClientKeyExchange : byte := 16.
Definition dtlsHandshakeTypeFinished : byte := 20.

Definition dtlsChangeCipherSpecMessage : byte := 1.

Record DtlsHandshakeParams := {
  hs_ServerSequence : Z;
  hs_ClientSequence : Z;
  Identity : list byte;
  Cookie : list byte;
  Session : list byte;
  ClientRandom : list byte;
  ServerRandom : list byte;
  PreMasterSecret : list byte;
  MasterSecret : list byte;
  Messages : list byte;
  Verified : bool
}.

(** The UDP socket: the datagrams that will be received, in order, and the
    datagrams written, oldest first. *)
Record Conn := {
  incoming : list (list byte);
  outgoing : list (list byte)
}.

Record Dtls := {
  Connection : Conn;
  ServerEpoch : Z;
  ClientEpoch : Z;
  ServerSequence : Z;
  ClientSequence : Z;
  ServerWriteKey : list byte;
  ClientWriteKey : list byte;
  ServerIV : list byte;
  ClientIV : list byte;
  ClientEncrypt : bool;
  ServerEncrypt : bool;
  Handshake : DtlsHandshakeParams
}.

Record DtlsPacket := {
  Type_ : byte;
  Epoch : Z;
  Sequence : Z;
  ContentLength : Z;
  Content : list byte
}.

Record DtlsHandshake := {
  hsk_Type : byte;
  hsk_Sequence : Z;
  Params : DtlsHandshakeParams
}.

Inductive error := nil_error | errRead | errInvalidHandshake.

(** Field updates. *)
Definition set_Messages (p : DtlsHandshakeParams) (m : list byte) :=
  {| hs_ServerSequence := hs_ServerSequence p; hs_ClientSequence := hs_ClientSequence p;
     Identity := Identity p; Cookie := Cookie p; Session := Session p;
     ClientRandom := ClientRandom p; ServerRandom := ServerRandom p;
     PreMasterSecret := PreMasterSecret p; MasterSecret := MasterSecret p;
     Messages := m; Verified := Verified p |}.

Definition set_hs_ServerSequence (p : DtlsHandshakeParams) (s : Z) :=
  {| hs_ServerSequence := s; hs_ClientSequence := hs_ClientSequence p;
     Identity := Identity p; Cookie := Cookie p; Session := Session p;
     ClientRandom := ClientRandom p; ServerRandom := ServerRandom p;
     PreMasterSecret := PreMasterSecret p; MasterSecret := MasterSecret p;
     Messages := Messages p; Verified := Verified p |}.

Definition set_hs_ClientSequence (p : DtlsHandshakeParams) (s : Z) :=
  {| hs_ServerSequence := hs_ServerSequence p; hs_ClientSequence := s;
     Identity := Identity p; Cookie := Cookie p; Session := Session p;
     ClientRandom := ClientRandom p; ServerRandom := ServerRandom p;
     PreMasterSecret := PreMasterSecret p; MasterSecret := MasterSecret p;
     Messages := Messages p; Verified := Verified p |}.

Definition set_Cookie (p : DtlsHandshakeParams) (c : list byte) :=
  {| hs_ServerSequence := hs_ServerSequence p; hs_ClientSequence := hs_ClientSequence p;
     Identity := Identity p; Cookie := c; Session := Session p;
     ClientRandom := ClientRandom p; ServerRandom := ServerRandom p;
     PreMasterSecret := PreMasterSecret p; MasterSecret := MasterSecret p;
     Messages := Messages p; Verified := Verified p |}.

Definition set_ServerRandom_Session (p : DtlsHandshakeParams) (r s : list byte) :=
  {| hs_ServerSequence := hs_ServerSequence p; hs_ClientSequence := hs_ClientSequence p;
     Identity := Identity p; Cookie := Cookie p; Session := s;
     ClientRandom := ClientRandom p; ServerRandom := r;
     PreMasterSecret := PreMasterSecret p; MasterSecret := MasterSecret p;
     Messages := Messages p; Verified := Verified p |}.

Definition set_MasterSecret (p : DtlsHandshakeParams) (m : list byte) :=
  {| hs_ServerSequence := hs_ServerSequence p; hs_ClientSequence := hs_ClientSequence p;
     Identity := Identity p; Cookie := Cookie p; Session := Session p;
     ClientRandom := ClientRandom p; ServerRandom := ServerRandom p;
     PreMasterSecret := PreMasterSecret p; MasterSecret := m;
     Messages := Messages p; Verified := Verified p |}.

Definition set_Verified (p : DtlsHandshakeParams) (v : bool) :=
  {| hs_ServerSequence := hs_ServerSequence p; hs_ClientSequence := hs_ClientSequence p;
     Identity := Identity p; Cookie := Cookie p; Session := Session p;
     ClientRandom := ClientRandom p; ServerRandom := ServerRandom p;
     PreMasterSecret := PreMasterSecret p; MasterSecret := MasterSecret p;
     Messages := Messages p; Verified := v |}.

Definition set_Handshake (d : Dtls) (p : DtlsHandshakeParams) :=
  {| Connection := Connection d; ServerEpoch := ServerEpoch d; ClientEpoch := ClientEpoch d;
     ServerSequence := ServerSequence d; ClientSequence := ClientSequence d;
     ServerWriteKey := ServerWriteKey d; ClientWriteKey := ClientWriteKey d;
     ServerIV := ServerIV d; ClientIV := ClientIV d;
     ClientEncrypt := ClientEncrypt d; ServerEncrypt := ServerEncrypt d;
     Handshake := p |}.

Definition set_Connection (d : Dtls) (c : Conn) :=
  {| Connection := c; ServerEpoch := ServerEpoch d; ClientEpoch := ClientEpoch d;
     ServerSequence := ServerSequence d; ClientSequence := ClientSequence d;
     ServerWriteKey := ServerWriteKey d; ClientWriteKey := ClientWriteKey d;
     ServerIV := ServerIV d; ClientIV := ClientIV d;
     ClientEncrypt := ClientEncrypt d; ServerEncrypt := ServerEncrypt d;
     Handshake := Handshake d |}.

Definition set_ServerEncrypt (d : Dtls) (b : bool) :=
  {| Connection := Connection d; ServerEpoch := ServerEpoch d; ClientEpoch := ClientEpoch d;
     ServerSequence := ServerSequence d; ClientSequence := ClientSequence d;
     ServerWriteKey := ServerWriteKey d; ClientWriteKey := ClientWriteKey d;
     ServerIV := ServerIV d; ClientIV := ClientIV d;
     ClientEncrypt := ClientEncrypt d; ServerEncrypt := b;
     Handshake := Handshake d |}.

Definition set_ClientSequence (d : Dtls) (s : Z) :=
  {| Connection := Connection d; ServerEpoch := ServerEpoch d; ClientEpoch := ClientEpoch d;
     ServerSequence := ServerSequence d; ClientSequence := s;
     ServerWriteKey := ServerWriteKey d; ClientWriteKey := ClientWriteKey d;
     ServerIV := ServerIV d; ClientIV := ClientIV d;
     ClientEncrypt := ClientEncrypt d; ServerEncrypt := ServerEncrypt d;
     Handshake := Handshake d |}.

(** [dtls.Connection.Write(data)] *)
Definition Write (d : Dtls) (data : list byte) : Dtls :=
  set_Connection d {| incoming := incoming (Connection d);
                      outgoing := outgoing (Connection d) ++ [data] |}.

(** [dtls.Connection.Read(buf)] into a buffer of [dtlsPacketSize] bytes:
    the bytes read, or [None] for an error (nothing arrives). *)
Definition Read (d : Dtls) : Dtls * option (list byte) :=
  match incoming (Connection d) with
  | [] => (d, None)
  | datagram :: rest =>
    (set_Connection d {| incoming := rest; outgoing := outgoing (Connection d) |},
     Some (firstn (Z.to_nat dtlsPacketSize) datagram))
  end.

(** [DtlsPacket.ToBytes] *)
Definition Packet_ToBytes (packet : DtlsPacket) : list byte :=
  [Type_ packet] ++ BigEndian.PutUint16 dtlsVersion
  ++ BigEndian.PutUint16 (Epoch packet)
  ++ sub (BigEndian.PutUint64 (Sequence packet)) 2 8
  ++ BigEndian.PutUint16 (u16 (len (Content packet)))
  ++ Content packet.

(** [DtlsPacket.Length] *)
Definition Packet_Length (packet : DtlsPacket) : Z := u16 (ContentLength packet + 13).

(** [DtlsPreMasterSecretFromPSK] *)
Definition DtlsPreMasterSecretFromPSK (psk : list byte) : list byte :=
  let length := u16 (len psk) in
  let lenBytes := BigEndian.PutUint16 length in
  lenBytes ++ make length ++ lenBytes ++ psk.

(** A handshake message: type, length of the body on three bytes, message
    sequence, fragment offset 0, fragment length, body
    (the layout [DtlsHandshake.ToBytes] writes). *)
Definition message (type : byte) (sequence : Z) (body : list byte) : list byte :=
  let fragmentLengthBytes := BigEndian.PutUint32 (u32 (len body)) in
  [type] ++ sub fragmentLengthBytes 1 4 ++ BigEndian.PutUint16 sequence ++ [0; 0; 0]
  ++ sub fragmentLengthBytes 1 4 ++ body.

(** The 13 bytes before the content of a record. *)
Definition header (type : byte) (epoch sequence : Z) (n : Z) : list byte :=
  [type] ++ BigEndian.PutUint16 dtlsVersion ++ BigEndian.PutUint16 epoch
  ++ sub (BigEndian.PutUint64 sequence) 2 8 ++ BigEndian.PutUint16 (u16 n).

(** A record (the layout [DtlsPacket.ToBytes] writes). *)
Definition record (type : byte) (epoch sequence : Z) (content : list byte) : list byte :=
  header type epoch sequence (len content) ++ content.

(** The packet [ParsePacket] builds for a record whose content, once in
    the clear, is [plain]. *)
Definition parsed (type : byte) (epoch sequence : Z) (content plain : list byte)
  : DtlsPacket :=
  {| Type_ := type; Epoch := BigEndian.Uint16 (BigEndian.PutUint16 epoch);
     Sequence := BigEndian.Uint64 ([0; 0] ++ sub (BigEndian.PutUint64 sequence) 2 8);
     ContentLength := len content; Content := plain |}.

(** The socket after a datagram was read. *)
Definition received (dtls : Dtls) (rest : list (list byte)) : Dtls :=
  set_Connection dtls {| incoming := rest; outgoing := outgoing (Connection dtls) |}.

(** The ClientHello of the client. *)
Definition clientHello (sequence : Z) (clientRandom session cookie : list byte)
  : list byte :=
  message dtlsHandshakeTypeClientHello sequence
    (BigEndian.PutUint16 dtlsVersion ++ clientRandom
     ++ [u8 (len session)] ++ session ++ [u8 (len cookie)] ++ cookie
     ++ [0x00; 0x02] ++ BigEndian.PutUint16 dtlsCipherSuite ++ [0x01; dtlsCompress]).

(** The ClientHello [GetCookie] and [GetSession] send. *)
Definition hello (dtls : Dtls) : list byte :=
  clientHello (hs_ClientSequence (Handshake dtls)) (ClientRandom (Handshake dtls))
    (Session (Handshake dtls)) (Cookie (Handshake dtls)).

(** The ClientKeyExchange of the client. *)
Definition clientKeyExchange (sequence : Z) (identity : list byte) : list byte :=
  message dtlsHandshakeTypeClientKeyExchange sequence
    (BigEndian.PutUint16 (u16 (len identity)) ++ identity).

Section WithCrypto.

Variable crypto : Crypto.

(** The loop of [dtlsPrf].  Each turn appends one HMAC to [ret]; [fuel]
    bounds the turns, and [length] turns are enough as soon as an HMAC is
    not empty. *)
Fixpoint dtlsPrf_loop (fuel : nat) (secret a0 ai ret : list byte) (length : Z)
  : list byte :=
  match fuel with
  | O => ret
  | S fuel' =>
    if len ret <? length then
      let ai1 := hmac_sha256 crypto secret ai in
      dtlsPrf_loop fuel' secret a0 ai1
        (ret ++ hmac_sha256 crypto secret (ai1 ++ a0)) length
    else ret
  end.

(** [dtlsPrf]; [None] when [ret[:length]] is out of range (the loop of the
    source does not end with fewer than [length] bytes). *)
Definition dtlsPrf (secret label seed : list byte) (length : Z) : option (list byte) :=
  let a0 := label ++ seed in
  slice (dtlsPrf_loop (Z.to_nat length) secret a0 a0 [] length) 0 length.

(** [GenerateClientVerifyData] *)
Definition GenerateClientVerifyData (handshake : DtlsHandshakeParams)
  : option (list byte) :=
  let messageHash := sha256_Sum256 crypto (Messages handshake) in
  dtlsPrf (MasterSecret handshake) (bytes_of_string "client finished") messageHash 12.

(** [GenerateServerVerifyData] *)
Definition GenerateServerVerifyData (handshake : DtlsHandshakeParams)
  : option (list byte) :=
  let messageHash := sha256_Sum256 crypto (Messages handshake) in
  dtlsPrf (MasterSecret handshake) (bytes_of_string "server finished") messageHash 12.

(** [dtlsGenerateAAD] *)
Definition dtlsGenerateAAD (epochSequence : list byte) (contentType : byte) (length : Z)
  : list byte :=
  copy (make 8) epochSequence ++ [contentType]
  ++ BigEndian.PutUint16 dtlsVersion ++ BigEndian.PutUint16 length.

(** [dtlsGenerateNonce]: 16 bytes, of which the first 12 are used. *)
Definition dtlsGenerateNonce (iv epochSequence : list byte) : list byte :=
  copy (make 4) iv ++ copy (make 12) epochSequence.

(** [dtlsGenerateMAC]; the key is one [aes.NewCipher] accepts. *)
Definition dtlsGenerateMAC (aad nonce : list byte) (length : Z)
    (paddedData key : list byte) : option (list byte) :=
  let flag := u8 (u8 (u8 (Z.shiftl 1 6)
                      + u8 (Z.shiftl (u8 (dtlsAesCcmMACLength - 2) / 2) 3))
                  + u8 (dtlsAesCCMLength - 1)) in
  do aadField <- (if len aad <=? 14 then Some (copy (make (len aad)) aad) else None);
  let blocksForMAC :=
    [flag] ++ copy (make 12) nonce ++ [0] ++ BigEndian.PutUint16 length
    ++ BigEndian.PutUint16 (u16 (len aad)) ++ aadField ++ make (14 - len aad) in
  let blocksForMAC := blocksForMAC ++ paddedData in
  let iv := make aes_BlockSize in
  let cipherText := aes_cbc crypto key iv blocksForMAC in
  slice_from cipherText (len cipherText - aes_BlockSize).

(** [epochSequence] of [encrypt]. *)
Definition epochSequence_of (epoch sequence : Z) : list byte :=
  BigEndian.PutUint16 epoch ++ sub (BigEndian.PutUint64 sequence) 2 8.

Definition counterIV_of (nonce : list byte) : list byte :=
  [u8 (dtlsAesCCMLength - 1)] ++ copy (make 12) nonce ++ make 3.

Definition padding (n : Z) : list byte :=
  make ((aes_BlockSize - n mod aes_BlockSize) mod aes_BlockSize).

(** [Dtls.encrypt]; [None] is a run-time panic. *)
Definition encrypt (dtls : Dtls) (data : list byte) (contentType : byte)
  : option (list byte) :=
  let epochSequence := epochSequence_of (ClientEpoch dtls) (ClientSequence dtls) in
  let aad := dtlsGenerateAAD epochSequence contentType (u16 (len data)) in
  let nonce := dtlsGenerateNonce (ClientIV dtls) epochSequence in
  let paddedData := data ++ padding (len data) in
  if negb (aes_key_ok (ClientWriteKey dtls)) then None else
  do mac <- dtlsGenerateMAC aad nonce (u16 (len data)) paddedData (ClientWriteKey dtls);
  let plainText := mac ++ paddedData in
  let counterIV := counterIV_of nonce in
  let cipherText := aes_ctr crypto (ClientWriteKey dtls) counterIV plainText in
  do encryptedMac <- slice cipherText 0 dtlsAesCcmMACLength;
  do encryptedData <- slice cipherText aes_BlockSize (aes_BlockSize + len data);
  Some (epochSequence ++ encryptedData ++ encryptedMac).

(** [Dtls.decrypt]: the data and whether the MAC is the expected one;
    [None] is a run-time panic. *)
Definition decrypt (dtls : Dtls) (data : list byte) (contentType : byte)
  : option (list byte * bool) :=
  do epochSequence <- slice data 0 8;
  do encryptedData <- slice data 8 (len data - dtlsAesCcmMACLength);
  do encryptedMAC <- slice_from data (len data - dtlsAesCcmMACLength);
  let paddedData := encryptedData ++ padding (len encryptedData) in
  let nonce := dtlsGenerateNonce (ServerIV dtls) epochSequence in
  let cipherText :=
    encryptedMAC ++ make (aes_BlockSize - dtlsAesCcmMACLength) ++ paddedData in
  if negb (aes_key_ok (ServerWriteKey dtls)) then None else
  let counterIV := counterIV_of nonce in
  let plainText := aes_ctr crypto (ServerWriteKey dtls) counterIV cipherText in
  do decryptedMac <- slice plainText 0 dtlsAesCcmMACLength;
  do decryptedData <- slice plainText aes_BlockSize (aes_BlockSize + len encryptedData);
  let aad := dtlsGenerateAAD epochSequence contentType (u16 (len decryptedData)) in
  let decryptedPaddedData := decryptedData ++ padding (len encryptedData) in
  do mac <- dtlsGenerateMAC aad nonce (u16 (len decryptedData)) decryptedPaddedData
              (ServerWriteKey dtls);
  do macForVerify <- slice mac 0 dtlsAesCcmMACLength;
  if forallb (fun i => at_ decryptedMac i =? at_ macForVerify i)
       (map Z.of_nat (seq 0 (Z.to_nat dtlsAesCcmMACLength)))
  then Some (decryptedData, true)
  else Some ([], false).

(** [DtlsHandshake.ToBytes]; [None] is a run-time panic. *)
Definition Handshake_ToBytes (handshake : DtlsHandshake) : option (list byte) :=
  let params := Params handshake in
  do body <-
    (if hsk_Type handshake =? dtlsHandshakeTypeClientHello then
       Some (BigEndian.PutUint16 dtlsVersion
             ++ ClientRandom params
             ++ [u8 (len (Session params))] ++ Session params
             ++ [u8 (len (Cookie params))] ++ Cookie params
             ++ [0x00; 0x02] ++ BigEndian.PutUint16 dtlsCipherSuite
             ++ [0x01; dtlsCompress])
     else if hsk_Type handshake =? dtlsHandshakeTypeClientKeyExchange then
       Some (BigEndian.PutUint16 (u16 (len (Identity params))) ++ Identity params)
     else if hsk_Type handshake =? dtlsHandshakeTypeFinished then
       GenerateClientVerifyData params
     else Some []);
  let fragmentLengthBytes := BigEndian.PutUint32 (u32 (len body)) in
  Some ([hsk_Type handshake] ++ sub fragmentLengthBytes 1 4
        ++ BigEndian.PutUint16 (hsk_Sequence handshake) ++ [0; 0; 0]
        ++ sub fragmentLengthBytes 1 4 ++ body).

(** The comparison loop of [Parse] on a Finished message. *)
Fixpoint verify_loop (verifyData serverVerify : list byte) (i : Z) (verified : bool)
  : option bool :=
  match verifyData with
  | [] => Some verified
  | v :: verifyData' =>
    do s <- index serverVerify i;
    verify_loop verifyData' serverVerify (i + 1)
      (if negb (v =? s) then false else verified)
  end.

(** [DtlsHandshake.Parse]: the parameters afterwards; [None] is a run-time
    panic.  [raw] is the content of a record, a part of a larger array
    that goes on with [spare]: the slice expressions of the source are
    bounded by the capacity and read into [spare] when the message is
    short; [raw[0]] and [serverVerify[i]] are bounded by the length. *)
Definition Handshake_Parse (params : DtlsHandshakeParams) (raw spare : list byte)
  : option DtlsHandshakeParams :=
  do type <- index raw 0;
  do raw14 <- slice_cap raw spare 1 4;
  let length := BigEndian.Uint32 (0 :: raw14) in
  do raw46 <- slice_cap raw spare 4 6;
  let sequence := BigEndian.Uint16 raw46 in
  let params := set_hs_ServerSequence params sequence in
  if type =? dtlsHandshakeTypeHelloVerifyRequest then
    do cookie <- slice_cap raw spare 15 47;
    Some (set_Cookie params cookie)
  else if type =? dtlsHandshakeTypeServerHello then
    do serverRandom <- slice_cap raw spare 14 46;
    do session <- slice_cap raw spare 47 79;
    let params := set_ServerRandom_Session params serverRandom session in
    do message <- slice_cap raw spare 0 (12 + length);
    Some (set_Messages params (Messages params ++ message))
  else if type =? dtlsHandshakeTypeServerHelloDone then
    do message <- slice_cap raw spare 0 (12 + length);
    Some (set_Messages params (Messages params ++ message))
  else if type =? dtlsHandshakeTypeFinished then
    do verifyData <- GenerateServerVerifyData params;
    do serverVerify <- slice_cap raw spare 12 24;
    do verified <- verify_loop verifyData serverVerify 0 true;
    Some (set_Verified params verified)
  else Some params.

(** [Dtls.ParsePacket]: the connection afterwards and the packet ([None]
    for [nil]); an outer [None] is a run-time panic.  [raw] is a part of
    the receive buffer, which goes on with [spare].  The content of a
    record in the clear is [raw[13:13+n]], with the rest of [raw] and
    [spare] behind it.  The content [decrypt] returns is a part of its
    [plainText], with the decrypted padding behind it, which
    [append(decryptedData, make([]byte, paddingLength)...)] has
    overwritten with zeros. *)
Definition ParsePacket (dtls : Dtls) (raw spare : list byte)
  : option (Dtls * option DtlsPacket) :=
  if len raw <? 13 then Some (dtls, None) else
  let type := at_ raw 0 in
  let epoch := BigEndian.Uint16 (sub raw 3 5) in
  let sequence := BigEndian.Uint64 ([0; 0] ++ sub raw 5 11) in
  let contentLength := BigEndian.Uint16 (sub raw 11 13) in
  if len raw <? 13 + contentLength then Some (dtls, None) else
  do content <- slice raw 13 (u16 (13 + contentLength));
  do decrypted <-
    (if ServerEncrypt dtls then
       do (decrypted, verify) <- decrypt dtls content type;
       Some (if verify then Some (decrypted, padding (len decrypted)) else None)
     else
       Some (Some (content, sub raw (u16 (13 + contentLength)) (len raw) ++ spare)));
  match decrypted with
  | None => Some (dtls, None)
  | Some (content, behind) =>
    let packet := {| Type_ := type; Epoch := epoch; Sequence := sequence;
                     ContentLength := contentLength; Content := content |} in
    if type =? dtlsContentTypeHandshake then
      do params <- Handshake_Parse (Handshake dtls) content behind;
      Some (set_Handshake dtls params, Some packet)
    else if type =? dtlsContentTypeChangeCipherSpec then
      Some (set_ServerEncrypt dtls true, Some packet)
    else Some (dtls, Some packet)
  end.

(** What [ParsePacket] does with the content of a record once it is in
    the clear; [behind] is what the array of the content goes on with. *)
Definition dispatch (dtls : Dtls) (packet : DtlsPacket) (behind : list byte)
  : option (Dtls * option DtlsPacket) :=
  if Type_ packet =? dtlsContentTypeHandshake then
    do params <- Handshake_Parse (Handshake dtls) (Content packet) behind;
    Some (set_Handshake dtls params, Some packet)
  else if Type_ packet =? dtlsContentTypeChangeCipherSpec then
    Some (set_ServerEncrypt dtls true, Some packet)
  else Some (dtls, Some packet).

(** What a receive buffer of [dtlsPacketSize] bytes, fresh from [make],
    holds behind the bytes [buf] that were read into it. *)
Definition unread (buf : list byte) : list byte := make (dtlsPacketSize - len buf).

(** The packet a send function builds, written with [Content]. *)
Definition send (dtls : Dtls) (type : byte) (content : list byte) : Dtls :=
  Write dtls (Packet_ToBytes {| Type_ := type; Epoch := ClientEpoch dtls;
                                Sequence := ClientSequence dtls;
                                ContentLength := 0; Content := content |}).

(** [dtls.ClientSequence++] and [dtls.Handshake.ClientSequence++] *)
Definition bump (dtls : Dtls) : Dtls :=
  let dtls := set_ClientSequence dtls (u64 (ClientSequence dtls + 1)) in
  set_Handshake dtls
    (set_hs_ClientSequence (Handshake dtls) (u16 (hs_ClientSequence (Handshake dtls) + 1))).

(** [Dtls.GetCookie] *)
Definition GetCookie (dtls : Dtls) : option (Dtls * error) :=
  let handshake := {| hsk_Type := dtlsHandshakeTypeClientHello;
                      hsk_Sequence := hs_ClientSequence (Handshake dtls);
                      Params := Handshake dtls |} in
  do content <- Handshake_ToBytes handshake;
  let dtls := send dtls dtlsContentTypeHandshake content in
  let dtls := bump dtls in
  match Read dtls with
  | (dtls, None) => Some (dtls, errRead)
  | (dtls, Some buf) =>
    do (dtls, helloVerifyRequest) <- ParsePacket dtls buf (unread buf);
    match helloVerifyRequest with
    | None => Some (dtls, errInvalidHandshake)
    | Some _ => Some (dtls, nil_error)
    end
  end.

(** [Dtls.GetSession] *)
Definition GetSession (dtls : Dtls) : option (Dtls * error) :=
  let handshake := {| hsk_Type := dtlsHandshakeTypeClientHello;
                      hsk_Sequence := hs_ClientSequence (Handshake dtls);
                      Params := Handshake dtls |} in
  do content <- Handshake_ToBytes handshake;
  let dtls :=
    set_Handshake dtls
      (set_Messages (Handshake dtls) (Messages (Handshake dtls) ++ content)) in
  let dtls := send dtls dtlsContentTypeHandshake content in
  let dtls := bump dtls in
  match Read dtls with
  | (dtls, None) => Some (dtls, errRead)
  | (dtls, Some buf) =>
    do (dtls, serverHello) <- ParsePacket dtls buf (unread buf);
    match serverHello with
    | None => Some (dtls, errInvalidHandshake)
    | Some serverHello =>
      do rest <- slice_from buf (Packet_Length serverHello);
      do (dtls, serverHelloDone) <- ParsePacket dtls rest (unread buf);
      match serverHelloDone with
      | None => Some (dtls, errInvalidHandshake)
      | Some _ => Some (dtls, nil_error)
      end
    end
  end.

(** [Dtls.SendClientKeyExchange] *)
Definition SendClientKeyExchange (dtls : Dtls) : option (Dtls * error) :=
  let handshake := {| hsk_Type := dtlsHandshakeTypeClientKeyExchange;
                      hsk_Sequence := hs_ClientSequence (Handshake dtls);
                      Params := Handshake dtls |} in
  do content <- Handshake_ToBytes handshake;
  let dtls :=
    set_Handshake dtls
      (set_Messages (Handshake dtls) (Messages (Handshake dtls) ++ content)) in
  let dtls := send dtls dtlsContentTypeHandshake content in
  Some (bump dtls, nil_error).

(** [Dtls.SendChangeCipherSpec] *)
Definition SendChangeCipherSpec (dtls : Dtls) : option (Dtls * error) :=
  let dtls := send dtls dtlsContentTypeChangeCipherSpec [dtlsChangeCipherSpecMessage] in
  Some ({| Connection := Connection dtls; ServerEpoch := ServerEpoch dtls;
           ClientEpoch := u16 (ClientEpoch dtls + 1);
           ServerSequence := ServerSequence dtls; ClientSequence := 0;
           ServerWriteKey := ServerWriteKey dtls; ClientWriteKey := ClientWriteKey dtls;
           ServerIV := ServerIV dtls; ClientIV := ClientIV dtls;
           ClientEncrypt := true; ServerEncrypt := ServerEncrypt dtls;
           Handshake := Handshake dtls |},
        nil_error).

(** [Dtls.GenerateSecurityParams].  In the source [append(ServerRandom, ..)]
    writes into the receive buffer that [ServerRandom] is a slice of, over
    the bytes [Session] is a slice of; [Session] is not read after this
    call, and the embedding leaves it as it is. *)
Definition GenerateSecurityParams (dtls : Dtls) : option Dtls :=
  let handshake := Handshake dtls in
  do masterSecret <-
    dtlsPrf (PreMasterSecret handshake) (bytes_of_string "master secret")
      (ClientRandom handshake ++ ServerRandom handshake) 48;
  let handshake := set_MasterSecret handshake masterSecret in
  do keyBlock <-
    dtlsPrf (MasterSecret handshake) (bytes_of_string "key expansion")
      (ServerRandom handshake ++ ClientRandom handshake) 40;
  do clientWriteKey <- slice keyBlock 0 16;
  do serverWriteKey <- slice keyBlock 16 32;
  do clientIV <- slice keyBlock 32 36;
  do serverIV <- slice keyBlock 36 40;
  Some {| Connection := Connection dtls; ServerEpoch := ServerEpoch dtls;
          ClientEpoch := ClientEpoch dtls;
          ServerSequence := ServerSequence dtls; ClientSequence := ClientSequence dtls;
          ServerWriteKey := serverWriteKey; ClientWriteKey := clientWriteKey;
          ServerIV := serverIV; ClientIV := clientIV;
          ClientEncrypt := ClientEncrypt dtls; ServerEncrypt := ServerEncrypt dtls;
          Handshake := handshake |}.

(** [Dtls.SendFinished] *)
Definition SendFinished (dtls : Dtls) : option (Dtls * error) :=
  let handshake := {| hsk_Type := dtlsHandshakeTypeFinished;
                      hsk_Sequence := hs_ClientSequence (Handshake dtls);
                      Params := Handshake dtls |} in
  do plainHandshake <- Handshake_ToBytes handshake;
  let dtls :=
    set_Handshake dtls
      (set_Messages (Handshake dtls) (Messages (Handshake dtls) ++ plainHandshake)) in
  do content <- encrypt dtls plainHandshake dtlsContentTypeHandshake;
  let dtls := send dtls dtlsContentTypeHandshake content in
  let dtls := bump dtls in
  match Read dtls with
  | (dtls, None) => Some (dtls, errRead)
  | (dtls, Some buf) =>
    do (dtls, changeCipherSpec) <- ParsePacket dtls buf (unread buf);
    match changeCipherSpec with
    | None => Some (dtls, errInvalidHandshake)
    | Some changeCipherSpec =>
      do rest <- slice_from buf (Packet_Length changeCipherSpec);
      do (dtls, serverVerify) <- ParsePacket dtls rest (unread buf);
      match serverVerify with
      | None => Some (dtls, errInvalidHandshake)
      | Some _ => Some (dtls, nil_error)
      end
    end
  end.

(** [Dtls.processHandshake], up to the first notification: the connection
    and whether the notification is [true]. *)
Definition processHandshake (dtls : Dtls) : option (Dtls * bool) :=
  do (dtls, err) <- GetCookie dtls;
  match err with
  | nil_error =>
    do (dtls, err) <- GetSession dtls;
    match err with
    | nil_error =>
      do (dtls, err) <- SendClientKeyExchange dtls;
      match err with
      | nil_error =>
        do (dtls, err) <- SendChangeCipherSpec dtls;
        match err with
        | nil_error =>
          do dtls <- GenerateSecurityParams dtls;
          do (dtls, err) <- SendFinished dtls;
          match err with
          | nil_error => Some (dtls, true)
          | _ => Some (dtls, false)
          end
        | _ => Some (dtls, false)
        end
      | _ => Some (dtls, false)
      end
    | _ => Some (dtls, false)
    end
  | _ => Some (dtls, false)
  end.

End WithCrypto.

(** The connection [DtlsDial] hands to [processHandshake]. *)
Definition dial (conn : Conn) (identity psk clientRandom : list byte) : Dtls :=
  {| Connection := conn; ServerEpoch := 0; ClientEpoch := 0;
     ServerSequence := 0; ClientSequence := 0;
     ServerWriteKey := []; ClientWriteKey := []; ServerIV := []; ClientIV := [];
     ClientEncrypt := false; ServerEncrypt := false;
     Handshake :=
       {| hs_ServerSequence := 0; hs_ClientSequence := 0; Identity := identity;
          Cookie := []; Session := []; ClientRandom := clientRandom;
          ServerRandom := []; PreMasterSecret := DtlsPreMasterSecretFromPSK psk;
          MasterSecret := []; Messages := []; Verified := false |} |}.


(** *** The connection as a [net.Conn] *)

(** [cipher.Stream.XORKeyStream]: every byte of the source is XORed with
    the byte of the key stream at its position; [i] is the position of
    the first byte. *)
Fixpoint xorKeyStream (stream : nat -> byte) (i : nat) (src : list byte) : list byte :=
  match src with
  | [] => []
  | b :: src' => Z.lxor b (stream i) :: xorKeyStream stream (S i) src'
  end.

(** The errors of [Dtls.Read]. *)
Inductive readError := read_nil | errConnection | errInvalidPacket.

Section Stream.

Variable crypto : Crypto.

(** [Dtls.Write]: the connection afterwards and the count returned (the
    error is always [nil]); [None] is a run-time panic. *)
Definition Dtls_Write (dtls : Dtls) (data : list byte) : option (Dtls * Z) :=
  let buf := copy (make (len data)) data in
  do content <- encrypt crypto dtls buf dtlsContentTypeApplicationData;
  let packet := {| Type_ := dtlsContentTypeApplicationData; Epoch := ClientEpoch dtls;
                   Sequence := ClientSequence dtls; ContentLength := 0;
                   Content := content |} in
  let dtls := Write dtls (Packet_ToBytes packet) in
  let dtls := set_ClientSequence dtls (u64 (ClientSequence dtls + 1)) in
  Some (dtls, len buf).

(** [Dtls.Read] into the buffer [data] of the caller: the connection and
    the buffer afterwards, the count and the error returned; [None] is a
    run-time panic. *)
Definition Dtls_Read (dtls : Dtls) (data : list byte)
  : option (Dtls * list byte * Z * readError) :=
  match Read dtls with
  | (dtls, None) => Some (dtls, data, 0, errConnection)
  | (dtls, Some raw) =>
    do (dtls, packet) <- ParsePacket crypto dtls raw (unread raw);
    match packet with
    | None => Some (dtls, data, 0, errInvalidPacket)
    | Some packet =>
      Some (dtls, copy data (Content packet), len (Content packet), read_nil)
    end
  end.

End Stream.
End Dtls.

(** ** A handshake to run the engine on *)

Module Flight.

Import Dtls.

(** Stand-ins for the cryptographic primitives, with outputs of the right
    lengths: they let the model run on a concrete handshake. *)
Definition toy : Crypto :=
  {| sha256_Sum256 := fun message =>
       firstn 32 (map (fun b => u8 (b + 1)) message ++ make 32);
     hmac_sha256 := fun secret message =>
       firstn 32 (map (fun b => u8 (b + 2)) (message ++ secret) ++ make 32);
     aes_ctr := fun _ _ data => data;
     aes_cbc := fun _ _ data => data |}.

Definition cookie : list byte := map Z.of_nat (seq 100 32).
Definition serverRandom : list byte := map Z.of_nat (seq 200 32).
Definition session : list byte := map Z.of_nat (seq 50 32).
Definition clientRandom : list byte := map Z.of_nat (seq 1 32).
Definition identity : list byte := bytes_of_string "d-0123456789".
Definition psk : list byte := map Z.of_nat (seq 16 16).

Definition helloVerifyRequest : list byte :=
  message dtlsHandshakeTypeHelloVerifyRequest 0
    (BigEndian.PutUint16 dtlsVersion ++ [32] ++ cookie).

Definition serverHello : list byte :=
  message dtlsHandshakeTypeServerHello 1
    (BigEndian.PutUint16 dtlsVersion ++ serverRandom ++ [32] ++ session
     ++ BigEndian.PutUint16 dtlsCipherSuite ++ [dtlsCompress]).

Definition serverHelloDone : list byte :=
  message dtlsHandshakeTypeServerHelloDone 2 [].

(** The handshake messages the verify data are computed over. *)
Definition M : list byte :=
  clientHello 1 clientRandom [] cookie ++ serverHello ++ serverHelloDone
  ++ clientKeyExchange 2 identity.

(** The Finished message of the server, with [verifyData]. *)
Definition serverFinished (verifyData : list byte) : list byte :=
  message dtlsHandshakeTypeFinished 3 verifyData.

(** Its protected form under [toy]: the explicit nonce, the data, and the
    first eight bytes of the last block. *)
Definition protectedFinished (verifyData : list byte) : list byte :=
  epochSequence_of 1 0 ++ serverFinished verifyData
  ++ sub (serverFinished verifyData) 16 24.

(** The three datagrams of the server. *)
Definition datagrams (verifyData : list byte) : list (list byte) :=
  [ record dtlsContentTypeHandshake 0 0 helloVerifyRequest;
    record dtlsContentTypeHandshake 0 1 serverHello
    ++ record dtlsContentTypeHandshake 0 2 serverHelloDone;
    record dtlsContentTypeChangeCipherSpec 0 3 [dtlsChangeCipherSpecMessage]
    ++ record dtlsContentTypeHandshake 1 0 (protectedFinished verifyData) ].

Definition client (verifyData : list byte) : Dtls :=
  dial {| incoming := datagrams verifyData; outgoing := [] |} identity psk clientRandom.

(** The verify data a server computes under [toy] for this handshake. *)
Definition verifyData : list byte :=
  [119; 105; 118; 122; 105; 118; 36; 106; 109; 114; 109; 119].

(** The connection at the end of the handshake. *)
Definition established : Dtls :=
  Eval vm_compute in
    match processHandshake toy (client verifyData) with
    | Some (dtls, _) => dtls
    | None => client verifyData
    end.

(** A shorter flight of the server: a cookie of 16 bytes, a ServerHello
    with an empty session identifier, and a Finished message with 8 bytes
    of verify data. *)
Definition shortCookie : list byte := map Z.of_nat (seq 100 16).

Definition shortHelloVerifyRequest : list byte :=
  message dtlsHandshakeTypeHelloVerifyRequest 0
    (BigEndian.PutUint16 dtlsVersion ++ [16] ++ shortCookie).

Definition shortServerHello : list byte :=
  message dtlsHandshakeTypeServerHello 1
    (BigEndian.PutUint16 dtlsVersion ++ serverRandom ++ [0]
     ++ BigEndian.PutUint16 dtlsCipherSuite ++ [dtlsCompress]).

Definition shortFinished : list byte :=
  message dtlsHandshakeTypeFinished 3 [1; 2; 3; 4; 5; 6; 7; 8].

(** The protected form of [shortFinished] under [toy]. *)
Definition shortProtected : list byte :=
  epochSequence_of 1 0 ++ shortFinished ++ sub shortFinished 16 20 ++ [0; 0; 0; 0].

Definition shortDatagrams : list (list byte) :=
  [ record dtlsContentTypeHandshake 0 0 shortHelloVerifyRequest;
    record dtlsContentTypeHandshake 0 1 shortServerHello
    ++ record dtlsContentTypeHandshake 0 2 serverHelloDone;
    record dtlsContentTypeChangeCipherSpec 0 3 [dtlsChangeCipherSpecMessage]
    ++ record dtlsContentTypeHandshake 1 0 shortProtected ].

Definition shortClient : Dtls :=
  dial {| incoming := shortDatagrams; outgoing := [] |} identity psk clientRandom.

End Flight.


(** ** Two ends of an established connection *)

Module Pad.

Import Dtls.

(** The key stream of the stand-in cipher: key and counter block, byte by
    byte, with the position added. *)
Definition stream (key iv : list byte) (i : nat) : byte :=
  u8 (Z.lxor (at_ key (Z.of_nat (i mod 16))) (at_ iv (Z.of_nat (i mod 16))) + Z.of_nat i).

(** Stand-ins with the shape of the primitives: the counter mode XORs a
    key stream, the chained mode keeps the length. *)
Definition pad : Crypto :=
  {| sha256_Sum256 := sha256_Sum256 Flight.toy;
     hmac_sha256 := hmac_sha256 Flight.toy;
     aes_ctr := fun key iv data => xorKeyStream (stream key iv) 0 data;
     aes_cbc := fun key iv data =>
       map (fun b => u8 (b + at_ key 0 + fold_right Z.add 0 data)) data |}.

Definition clientWriteKey : list byte := map Z.of_nat (seq 30 16).
Definition serverWriteKey : list byte := map Z.of_nat (seq 60 16).
Definition clientIV : list byte := [1; 2; 3; 4].
Definition serverIV : list byte := [5; 6; 7; 8].

(** The agent after a handshake, seven records into epoch 1. *)
Definition client : Dtls :=
  {| Connection := {| incoming := []; outgoing := [] |};
     ServerEpoch := 0; ClientEpoch := 1; ServerSequence := 0; ClientSequence := 7;
     ServerWriteKey := serverWriteKey; ClientWriteKey := clientWriteKey;
     ServerIV := serverIV; ClientIV := clientIV;
     ClientEncrypt := true; ServerEncrypt := true;
     Handshake := Handshake (dial {| incoming := []; outgoing := [] |} [] [] []) |}.

(** The other end, running the same code with the keys the other way
    round, and about to receive [datagrams]. *)
Definition server (datagrams : list (list byte)) : Dtls :=
  {| Connection := {| incoming := datagrams; outgoing := [] |};
     ServerEpoch := 0; ClientEpoch := 1; ServerSequence := 0; ClientSequence := 0;
     ServerWriteKey := clientWriteKey; ClientWriteKey := serverWriteKey;
     ServerIV := clientIV; ClientIV := serverIV;
     ClientEncrypt := true; ServerEncrypt := true;
     Handshake := Handshake (dial {| incoming := []; outgoing := [] |} [] [] []) |}.

Definition hello : list byte := bytes_of_string "hello, inventory".

End Pad.
(** * Properties *)

(** ** Arithmetic of bytes *)

Lemma len_app {A} (l1 l2 : list A) : len (l1 ++ l2) = len l1 + len l2.
Proof. unfold len. rewrite length_app. lia. Qed.

Lemma len_cons {A} (x : A) (l : list A) : len (x :: l) = 1 + len l.
Proof. unfold len. simpl List.length. lia. Qed.

Lemma len_nil {A} : len (@nil A) = 0.
Proof. reflexivity. Qed.

Lemma len_nonneg {A} (l : list A) : 0 <= len l.
Proof. unfold len. lia. Qed.

Lemma lor_shiftl_add (hi lo n : Z) :
  0 <= n -> 0 <= lo < 2 ^ n -> Z.lor lo (Z.shiftl hi n) = hi * 2 ^ n + lo.
Proof.
  intros Hn Hlo.
  assert (Hd : Z.land lo (Z.shiftl hi n) = 0).
  { apply Z.bits_inj'. intros i Hi. rewrite Z.land_spec, Z.bits_0.
    destruct (Z.lt_ge_cases i n) as [Hlt | Hge].
    - rewrite (Z.shiftl_spec_low hi n i Hlt). apply andb_false_r.
    - rewrite <- (Z.mod_small lo (2 ^ n)) by lia.
      rewrite Z.mod_pow2_bits_high by lia. reflexivity. }
  rewrite <- Z.lxor_lor by exact Hd.
  rewrite <- Z.add_nocarry_lxor by exact Hd.
  rewrite Z.shiftl_mul_pow2 by lia. lia.
Qed.

Lemma land_255 (x : Z) : Z.land x 255 = x mod 256.
Proof. change 255 with (Z.ones 8). rewrite Z.land_ones by lia. reflexivity. Qed.

Lemma u8_bound (x : Z) : 0 <= u8 x < 256.
Proof. unfold u8. apply Z.mod_pos_bound. lia. Qed.

Lemma Uint16_Put (x : Z) :
  0 <= x < 2 ^ 16 ->
  BigEndian.Uint16 [u8 (Z.shiftr x 8); u8 (Z.land x 0xFF)] = x.
Proof.
  intros Hx. unfold BigEndian.Uint16, at_. cbv [nth Z.to_nat Pos.to_nat Pos.iter_op Nat.add].
  rewrite lor_shiftl_add by (try lia; apply u8_bound).
  rewrite land_255, Z.shiftr_div_pow2 by lia. unfold u8.
  change (2 ^ 8) with 256 in *. change (2^16) with 65536 in *.
  Z.div_mod_to_equations. lia.
Qed.

Lemma Uint16_PutUint16 (x : Z) :
  0 <= x < 2 ^ 16 ->
  BigEndian.Uint16 (BigEndian.PutUint16 x) = x.
Proof.
  intros Hx. unfold BigEndian.Uint16, BigEndian.PutUint16, at_. cbv [nth Z.to_nat Pos.to_nat Pos.iter_op Nat.add].
  rewrite lor_shiftl_add by (try lia; apply u8_bound).
  rewrite Z.shiftr_div_pow2 by lia. unfold u8.
  change (2 ^ 8) with 256 in *. change (2^16) with 65536 in *.
  Z.div_mod_to_equations. lia.
Qed.

Lemma Uint24_Put (x : Z) :
  0 <= x < 2 ^ 24 ->
  BigEndian.Uint32 [0; u8 (Z.shiftr x 16); u8 (Z.land (Z.shiftr x 8) 0xFF); u8 (Z.land x 0xFF)] = x.
Proof.
  intros Hx. unfold BigEndian.Uint32, at_. cbv [nth Z.to_nat Pos.to_nat Pos.iter_op Nat.add].
  rewrite Z.shiftl_0_l, Z.lor_0_r.
  rewrite !land_255, !Z.shiftr_div_pow2 by lia.
  rewrite (lor_shiftl_add _ (u8 (x mod 256)) 8) by (try lia; apply u8_bound).
  rewrite lor_shiftl_add.
  - unfold u8. change (2 ^ 8) with 256 in *. change (2^16) with 65536 in *. change (2^24) with 16777216 in *.
    Z.div_mod_to_equations. lia.
  - lia.
  - pose proof (u8_bound (x mod 256)). pose proof (u8_bound ((x / 2^8) mod 256)).
    change (2 ^ 8) with 256 in *. change (2^16) with 65536 in *. lia.
Qed.

Lemma signed_mod (w v : Z) :
  0 < w -> - 2 ^ (w - 1) <= v < 2 ^ (w - 1) -> signed w (v mod 2 ^ w) = v.
Proof.
  intros Hw Hv. unfold signed.
  assert (E : 2 ^ w = 2 * 2 ^ (w - 1)).
  { replace w with (1 + (w - 1)) at 1 by lia. rewrite Z.pow_add_r by lia. reflexivity. }
  assert (Hp : 0 < 2 ^ (w - 1)) by (apply Z.pow_pos_nonneg; lia).
  rewrite Z.mod_mod by lia. rewrite E.
  revert Hp Hv. generalize (2 ^ (w - 1)). intros p Hp Hv.
  destruct (Z.ltb_spec v 0) as [Hneg | Hpos].
  - rewrite <- (Z.mod_unique v (2 * p) (-1) (v + 2 * p)) by lia.
    destruct (Z.ltb_spec (v + 2 * p) p); lia.
  - rewrite Z.mod_small by lia.
    destruct (Z.ltb_spec v p); lia.
Qed.

Lemma shiftr_bytes (x n : Z) :
  0 <= n -> Z.shiftr x n = 256 * Z.shiftr x (n + 8) + u8 (Z.shiftr x n).
Proof.
  intros Hn. unfold u8. rewrite !Z.shiftr_div_pow2 by lia.
  rewrite Z.pow_add_r by lia. rewrite <- Z.div_div by lia.
  change (2 ^ 8) with 256. generalize (x / 2 ^ n). intros q.
  Z.div_mod_to_equations. lia.
Qed.

Lemma Uint32_PutUint32 (x : Z) :
  0 <= x < 2 ^ 32 -> BigEndian.Uint32 (BigEndian.PutUint32 x) = x.
Proof.
  intros Hx. unfold BigEndian.Uint32, BigEndian.PutUint32, at_.
  cbv [nth Z.to_nat Pos.to_nat Pos.iter_op Nat.add].
  pose proof (shiftr_bytes x 0 ltac:(lia)) as H0.
  pose proof (shiftr_bytes x 8 ltac:(lia)) as H1.
  pose proof (shiftr_bytes x 16 ltac:(lia)) as H2.
  pose proof (shiftr_bytes x 24 ltac:(lia)) as H3.
  cbn [Z.add Pos.add Pos.succ Pos.add_carry] in H0, H1, H2, H3.
  rewrite Z.shiftr_0_r in H0.
  assert (H4 : Z.shiftr x 32 = 0).
  { rewrite Z.shiftr_div_pow2 by lia. apply Z.div_small. lia. }
  pose proof (u8_bound x). pose proof (u8_bound (Z.shiftr x 8)).
  pose proof (u8_bound (Z.shiftr x 16)). pose proof (u8_bound (Z.shiftr x 24)).
  rewrite (lor_shiftl_add _ (u8 x) 8) by lia.
  rewrite (lor_shiftl_add _ _ 16) by lia.
  rewrite (lor_shiftl_add _ _ 24) by lia.
  lia.
Qed.

Lemma Uint64_PutUint64 (x : Z) :
  0 <= x < 2 ^ 64 -> BigEndian.Uint64 (BigEndian.PutUint64 x) = x.
Proof.
  intros Hx. unfold BigEndian.Uint64, BigEndian.PutUint64, at_.
  cbv [nth Z.to_nat Pos.to_nat Pos.iter_op Nat.add].
  pose proof (shiftr_bytes x 0 ltac:(lia)) as H0.
  pose proof (shiftr_bytes x 8 ltac:(lia)) as H1.
  pose proof (shiftr_bytes x 16 ltac:(lia)) as H2.
  pose proof (shiftr_bytes x 24 ltac:(lia)) as H3.
  pose proof (shiftr_bytes x 32 ltac:(lia)) as H4.
  pose proof (shiftr_bytes x 40 ltac:(lia)) as H5.
  pose proof (shiftr_bytes x 48 ltac:(lia)) as H6.
  pose proof (shiftr_bytes x 56 ltac:(lia)) as H7.
  cbn [Z.add Pos.add Pos.succ Pos.add_carry] in H0, H1, H2, H3, H4, H5, H6, H7.
  rewrite Z.shiftr_0_r in H0.
  assert (H8 : Z.shiftr x 64 = 0).
  { rewrite Z.shiftr_div_pow2 by lia. apply Z.div_small. lia. }
  pose proof (u8_bound x). pose proof (u8_bound (Z.shiftr x 8)).
  pose proof (u8_bound (Z.shiftr x 16)). pose proof (u8_bound (Z.shiftr x 24)).
  pose proof (u8_bound (Z.shiftr x 32)). pose proof (u8_bound (Z.shiftr x 40)).
  pose proof (u8_bound (Z.shiftr x 48)). pose proof (u8_bound (Z.shiftr x 56)).
  rewrite (lor_shiftl_add _ (u8 x) 8) by lia.
  rewrite (lor_shiftl_add _ _ 16) by lia.
  rewrite (lor_shiftl_add _ _ 24) by lia.
  rewrite (lor_shiftl_add _ _ 32) by lia.
  rewrite (lor_shiftl_add _ _ 40) by lia.
  rewrite (lor_shiftl_add _ _ 48) by lia.
  rewrite (lor_shiftl_add _ _ 56) by lia.
  lia.
Qed.

Lemma sub_all {A} (l : list A) (n : Z) : len l = n -> sub l 0 n = l.
Proof.
  intros H. unfold sub. rewrite Z.sub_0_r. cbn [Z.to_nat skipn].
  apply firstn_all2. unfold len in H. lia.
Qed.

(** ** Slices *)

Lemma sub_app_mid {A} (pre v tail : list A) (lo hi : Z) :
  lo = len pre -> hi = lo + len v -> sub (pre ++ v ++ tail) lo hi = v.
Proof.
  intros -> ->. unfold sub, len.
  replace (Z.of_nat (length pre) + Z.of_nat (length v) - Z.of_nat (length pre))
    with (Z.of_nat (length v)) by lia.
  rewrite !Nat2Z.id, skipn_app, skipn_all, Nat.sub_diag. simpl.
  rewrite firstn_app, firstn_all, Nat.sub_diag. simpl. apply app_nil_r.
Qed.

Lemma slice_app_mid {A} (pre v tail : list A) (lo hi : Z) :
  lo = len pre -> hi = lo + len v -> slice (pre ++ v ++ tail) lo hi = Some v.
Proof.
  intros Hlo Hhi. unfold slice.
  pose proof (len_nonneg pre). pose proof (len_nonneg v). pose proof (len_nonneg tail).
  rewrite !len_app.
  replace ((0 <=? lo) && (lo <=? hi) && (hi <=? len pre + (len v + len tail))) with true
    by (symmetry; rewrite !andb_true_iff, !Z.leb_le; lia).
  rewrite (sub_app_mid pre v tail lo hi Hlo Hhi). reflexivity.
Qed.

Lemma slice_from_app {A} (pre tail : list A) (lo : Z) :
  lo = len pre -> slice_from (pre ++ tail) lo = Some tail.
Proof.
  intros Hlo. unfold slice_from.
  rewrite <- (app_nil_r tail) at 1.
  apply slice_app_mid; [exact Hlo | rewrite len_app; lia].
Qed.

Lemma slice_all {A} (l : list A) (hi : Z) : hi = len l -> slice l 0 hi = Some l.
Proof.
  intros Hhi. rewrite <- (app_nil_r l) at 1.
  apply (slice_app_mid [] l [] 0 hi); [reflexivity | lia].
Qed.

(** A slice past a prefix is a slice of what follows the prefix. *)
Lemma slice_skip {A} (pre l : list A) (lo hi : Z) :
  len pre <= lo -> lo <= hi <= len pre + len l ->
  slice (pre ++ l) lo hi = Some (sub l (lo - len pre) (hi - len pre)).
Proof.
  intros Hlo Hhi. pose proof (len_nonneg pre) as Hp. unfold slice.
  rewrite len_app.
  replace ((0 <=? lo) && (lo <=? hi) && (hi <=? len pre + len l)) with true
    by (symmetry; rewrite !andb_true_iff, !Z.leb_le; lia).
  f_equal. unfold sub.
  replace (hi - len pre - (lo - len pre)) with (hi - lo) by lia.
  f_equal.
  replace (Z.to_nat lo) with (List.length pre + Z.to_nat (lo - len pre))%nat
    by (unfold len in *; lia).
  rewrite skipn_app, skipn_all2 by lia.
  replace (List.length pre + Z.to_nat (lo - len pre) - List.length pre)%nat
    with (Z.to_nat (lo - len pre)) by lia.
  reflexivity.
Qed.

Lemma index_at {A} (pre : list A) (x : A) (l : list A) (i : Z) :
  i = len pre -> index (pre ++ x :: l) i = Some x.
Proof.
  intros ->. unfold index. pose proof (len_nonneg pre). pose proof (len_nonneg l).
  rewrite len_app, len_cons.
  replace ((0 <=? len pre) && (len pre <? len pre + (1 + len l))) with true
    by (symmetry; rewrite andb_true_iff, Z.leb_le, Z.ltb_lt; lia).
  unfold len. rewrite Nat2Z.id, nth_error_app2 by lia.
  rewrite Nat.sub_diag. reflexivity.
Qed.

Lemma index_0 {A} (x : A) (l : list A) : index (x :: l) 0 = Some x.
Proof. exact (index_at [] x l 0 eq_refl). Qed.

Lemma index_1 {A} (a x : A) (l : list A) : index (a :: x :: l) 1 = Some x.
Proof. exact (index_at [a] x l 1 eq_refl). Qed.

Lemma index_2 {A} (a b x : A) (l : list A) : index (a :: b :: x :: l) 2 = Some x.
Proof. exact (index_at [a; b] x l 2 eq_refl). Qed.

Lemma index_3 {A} (a b c x : A) (l : list A) :
  index (a :: b :: c :: x :: l) 3 = Some x.
Proof. exact (index_at [a; b; c] x l 3 eq_refl). Qed.

Lemma index_4 {A} (a b c d x : A) (l : list A) :
  index (a :: b :: c :: d :: x :: l) 4 = Some x.
Proof. exact (index_at [a; b; c; d] x l 4 eq_refl). Qed.

Lemma at_app (pre : list Z) (x : Z) (l : list Z) (i : Z) :
  i = len pre -> at_ (pre ++ x :: l) i = x.
Proof.
  intros ->. unfold at_, len. rewrite Nat2Z.id, app_nth2 by lia.
  rewrite Nat.sub_diag. reflexivity.
Qed.

Lemma slice_bounds {A} (l v : list A) (lo hi : Z) :
  slice l lo hi = Some v -> 0 <= lo /\ lo <= hi /\ hi <= len l /\ len v = hi - lo.
Proof.
  unfold slice. intros H.
  destruct ((0 <=? lo) && (lo <=? hi) && (hi <=? len l)) eqn:E; [| discriminate].
  rewrite !andb_true_iff, !Z.leb_le in E. injection H as <-.
  unfold sub, len in *. rewrite length_firstn, length_skipn. lia.
Qed.

Lemma slice_from_bounds {A} (l v : list A) (lo : Z) :
  slice_from l lo = Some v -> 0 <= lo <= len l /\ len v = len l - lo.
Proof. unfold slice_from. intros H. apply slice_bounds in H. lia. Qed.

Lemma slice_in_range {A} (l : list A) (lo hi : Z) :
  0 <= lo -> lo <= hi -> hi <= len l -> slice l lo hi = Some (sub l lo hi).
Proof.
  intros H1 H2 H3. unfold slice.
  replace ((0 <=? lo) && (lo <=? hi) && (hi <=? len l)) with true; [reflexivity |].
  symmetry. rewrite !andb_true_iff, !Z.leb_le. lia.
Qed.

Lemma land_15_bound (x : Z) : 0 <= Z.land x 0x0F < 16.
Proof. change 0x0F with (Z.ones 4). rewrite Z.land_ones by lia. apply Z.mod_pos_bound. lia. Qed.

Lemma u64_nonneg (x : Z) : 0 <= u64 x.
Proof. unfold u64. apply Z.mod_pos_bound. lia. Qed.

(** ** Bytes *)

Lemma at_app_l (l rest : list Z) (i : Z) :
  0 <= i < len l -> at_ (l ++ rest) i = at_ l i.
Proof. intros H. unfold at_, len in *. apply app_nth1. lia. Qed.

Lemma sub_app_l {A} (l rest : list A) (lo hi : Z) :
  0 <= lo -> hi <= len l -> sub (l ++ rest) lo hi = sub l lo hi.
Proof.
  intros H1 H3. unfold sub, len in *.
  rewrite skipn_app, firstn_app, length_skipn.
  replace (Z.to_nat (hi - lo) - (length l - Z.to_nat lo))%nat with 0%nat by lia.
  cbn [firstn]. apply app_nil_r.
Qed.

Lemma at_byte (l : list Z) (i : Z) : bytes l -> 0 <= at_ l i < 256.
Proof.
  intros H. unfold at_.
  destruct (nth_in_or_default (Z.to_nat i) l 0) as [Hin | ->]; [| lia].
  unfold bytes in H. rewrite Forall_forall in H. apply H. exact Hin.
Qed.

Lemma bytes_firstn (l : list Z) (k : nat) : bytes l -> bytes (firstn k l).
Proof.
  unfold bytes. intros H. rewrite <- (firstn_skipn k l) in H.
  apply Forall_app in H. exact (proj1 H).
Qed.

Lemma bytes_skipn (l : list Z) (k : nat) : bytes l -> bytes (skipn k l).
Proof.
  unfold bytes. intros H. rewrite <- (firstn_skipn k l) in H.
  apply Forall_app in H. exact (proj2 H).
Qed.

Lemma bytes_sub (l : list Z) (lo hi : Z) : bytes l -> bytes (sub l lo hi).
Proof. intros H. unfold sub. apply bytes_firstn, bytes_skipn, H. Qed.

Lemma bytes_app (l1 l2 : list Z) : bytes l1 -> bytes l2 -> bytes (l1 ++ l2).
Proof. unfold bytes. intros H1 H2. apply Forall_app. split; assumption. Qed.

Lemma Uint16_bound (b : list Z) : bytes b -> 0 <= BigEndian.Uint16 b < 2 ^ 16.
Proof.
  intros H. unfold BigEndian.Uint16.
  pose proof (at_byte b 0 H). pose proof (at_byte b 1 H).
  rewrite lor_shiftl_add by lia. change (2 ^ 8) with 256. change (2 ^ 16) with 65536. lia.
Qed.

Lemma Uint32_bound (b : list Z) : bytes b -> 0 <= BigEndian.Uint32 b < 2 ^ 32.
Proof.
  intros H. unfold BigEndian.Uint32.
  pose proof (at_byte b 0 H). pose proof (at_byte b 1 H).
  pose proof (at_byte b 2 H). pose proof (at_byte b 3 H).
  rewrite (lor_shiftl_add _ (at_ b 3) 8) by lia.
  change (2 ^ 8) with 256.
  rewrite (lor_shiftl_add _ _ 16) by (change (2 ^ 16) with 65536; lia).
  change (2 ^ 16) with 65536.
  rewrite (lor_shiftl_add _ _ 24) by (change (2 ^ 24) with 16777216; lia).
  change (2 ^ 24) with 16777216. change (2 ^ 32) with 4294967296. lia.
Qed.

Lemma Uint24_bound (b : list Z) : bytes b -> 0 <= BigEndian.Uint32 (0 :: b) < 2 ^ 24.
Proof.
  intros H. unfold BigEndian.Uint32.
  change (at_ (0 :: b) 0) with 0. change (at_ (0 :: b) 1) with (at_ b 0).
  change (at_ (0 :: b) 2) with (at_ b 1). change (at_ (0 :: b) 3) with (at_ b 2).
  pose proof (at_byte b 0 H). pose proof (at_byte b 1 H). pose proof (at_byte b 2 H).
  rewrite Z.shiftl_0_l, Z.lor_0_r.
  rewrite (lor_shiftl_add _ (at_ b 2) 8) by lia.
  change (2 ^ 8) with 256.
  rewrite (lor_shiftl_add _ _ 16) by (change (2 ^ 16) with 65536; lia).
  change (2 ^ 16) with 65536. change (2 ^ 24) with 16777216. lia.
Qed.

Lemma len_sub {A} (l : list A) (lo hi : Z) :
  0 <= lo -> lo <= hi -> hi <= len l -> len (sub l lo hi) = hi - lo.
Proof.
  intros H1 H2 H3. unfold sub, len in *. rewrite length_firstn, length_skipn. lia.
Qed.

Lemma land_3_bound (x : Z) : 0 <= Z.land x 0x03 <= 3.
Proof.
  assert (E : Z.land x 3 = x mod 4) by exact (Z.land_ones x 2 ltac:(lia)).
  rewrite E. pose proof (Z.mod_pos_bound x 4 ltac:(lia)). lia.
Qed.

Lemma land_7_bound (x : Z) : 0 <= Z.land x 0x07 <= 7.
Proof.
  assert (E : Z.land x 7 = x mod 8) by exact (Z.land_ones x 3 ltac:(lia)).
  rewrite E. pose proof (Z.mod_pos_bound x 8 ltac:(lia)). lia.
Qed.

(** ** Strings as bytes *)

Lemma ascii_of_byte_of_ascii (c : ascii) : ascii_of_byte (byte_of_ascii c) = c.
Proof. unfold ascii_of_byte, byte_of_ascii. rewrite Nat2Z.id. apply ascii_nat_embedding. Qed.

Lemma byte_of_ascii_of_byte (b : Z) : is_byte b -> byte_of_ascii (ascii_of_byte b) = b.
Proof.
  unfold is_byte, ascii_of_byte, byte_of_ascii. intros H.
  rewrite nat_ascii_embedding by lia. lia.
Qed.

Lemma string_of_bytes_of_string (s : string) : string_of_bytes (bytes_of_string s) = s.
Proof.
  induction s as [| c s IH]; cbn [bytes_of_string string_of_bytes]; [reflexivity |].
  rewrite ascii_of_byte_of_ascii, IH. reflexivity.
Qed.

Lemma bytes_of_string_of_bytes (l : list Z) :
  bytes l -> bytes_of_string (string_of_bytes l) = l.
Proof.
  induction 1 as [| b l Hb _ IH]; cbn [bytes_of_string string_of_bytes]; [reflexivity |].
  rewrite byte_of_ascii_of_byte by exact Hb. rewrite IH. reflexivity.
Qed.

Lemma byte_of_ascii_byte (c : ascii) : is_byte (byte_of_ascii c).
Proof.
  unfold is_byte, byte_of_ascii. pose proof (nat_ascii_bounded c). lia.
Qed.

Lemma bytes_of_string_bytes (s : string) : bytes (bytes_of_string s).
Proof.
  induction s as [| c s IH]; cbn [bytes_of_string]; constructor;
    [apply byte_of_ascii_byte | exact IH].
Qed.

Lemma forallb_eq {A} (f g : A -> bool) (l : list A) :
  (forall x, f x = g x) -> forallb f l = forallb g l.
Proof.
  intros H. induction l as [| x l IH]; cbn [forallb]; [reflexivity |].
  rewrite H, IH. reflexivity.
Qed.

Lemma sub_empty {A} (l : list A) (lo hi : Z) : hi <= lo -> sub l lo hi = [].
Proof. intros H. unfold sub. replace (Z.to_nat (hi - lo)) with 0%nat by lia. reflexivity. Qed.

(** ** TLV codec *)

(** C8. [TotalLength(t)] is the number of bytes [Marshal(t)] produces, for
    every record [t]: whatever its [Length] field is (the boundary [0xFFFF]
    included) and whether or not it agrees with [len(t.Value)]. *)
Theorem TotalLength_Marshal (t : TLV.Lwm2mTLV) :
  TLV.TotalLength t = len (TLV.Marshal t).
Proof.
  unfold TLV.TotalLength, TLV.Marshal.
  destruct (TLV.ID t <=? 0xFF);
    destruct (TLV.Length t <=? 0x07);
    destruct (TLV.Length t <=? 0xFF);
    destruct (TLV.Length t >=? 0xFFFF);
    rewrite len_cons, !len_app; unfold len; cbn [List.length]; lia.
Qed.

Ltac at_eval :=
  repeat match goal with
  | |- context [at_ ?l ?i] =>
      let v := eval cbv [at_ nth Z.to_nat Pos.to_nat Pos.iter_op Nat.add sub firstn skipn Z.sub Z.add Z.opp Z.pos_sub Pos.add Pos.succ Pos.pred_double Z.double Z.succ_double Z.pred_double] in (at_ l i) in
      change (at_ l i) with v
  end.



Lemma u8_small (x : Z) : 0 <= x < 256 -> u8 x = x.
Proof. intros H. unfold u8. apply Z.mod_small. exact H. Qed.

Ltac ltb_false :=
  repeat match goal with
  | |- context [?a <? ?b] =>
      replace (a <? b) with false by (symmetry; apply Z.ltb_ge; lia)
  end.

Ltac leb_decide :=
  repeat match goal with
  | |- context [?a >=? ?b] => rewrite (Z.geb_leb a b)
  | |- context [?a <=? ?b] =>
      first [ replace (a <=? b) with true by (symmetry; apply Z.leb_le; lia)
            | replace (a <=? b) with false by (symmetry; apply Z.leb_gt; lia) ]
  end.

Ltac pconst p :=
  lazymatch p with xH => idtac | xO ?q => pconst q | xI ?q => pconst q end.
Ltac zconst t :=
  lazymatch t with Z0 => idtac | Zpos ?p => pconst p | Zneg ?p => pconst p end.

(* evaluation of the closed integer expressions of the goal *)
Ltac zeval :=
  repeat match goal with
  | |- context [?f ?a ?b] =>
      lazymatch f with
      | Z.add => idtac | Z.land => idtac | Z.shiftr => idtac | Z.eqb => idtac
      | Z.shiftl => idtac | Z.sub => idtac | Z.ltb => idtac | Z.leb => idtac
      end;
      zconst a; zconst b;
      let c := eval vm_compute in (f a b) in change (f a b) with c
  end.

Ltac tlv_step :=
  cbv beta iota zeta delta
    [TLV.set_ID TLV.set_TypeOfID TLV.set_Length TLV.set_Value
     TLV.TypeOfID TLV.ID TLV.Length TLV.Value TLV.Contents].


(* facts about the marshalled bytes [pre ++ v ++ tail], then the run of
   Unmarshal on them *)
Ltac unmarshal_facts id v tail H0 Hs Hlen Hi Hl :=
  match goal with
  | |- TLV.Unmarshal _ ((?b0 :: ?idb ++ ?lb ++ _) ++ _) = _ =>
    replace ((b0 :: idb ++ lb ++ v) ++ tail) with ((b0 :: idb ++ lb) ++ v ++ tail)
      by (cbn [app]; rewrite <- ?app_assoc; reflexivity);
    replace (len (b0 :: idb ++ lb ++ v)) with (len (b0 :: idb ++ lb) + len v)
      by (rewrite (len_cons b0 (idb ++ lb ++ v)), (len_cons b0 (idb ++ lb)), !len_app; ring);
    let raw := fresh "raw" in
    set (raw := (b0 :: idb ++ lb) ++ v ++ tail);
    assert (H0 : at_ raw 0 = b0) by reflexivity;
    assert (Hs : sub raw (len (b0 :: idb ++ lb)) (len (b0 :: idb ++ lb) + len v) = v)
      by (apply sub_app_mid; reflexivity);
    assert (Hlen : len raw = len (b0 :: idb ++ lb) + len v + len tail)
      by (unfold raw; rewrite !len_app; ring);
    first
      [ assert (Hi : at_ raw 1 = id) by (apply u8_small; lia)
      | assert (Hi : BigEndian.Uint16 (sub raw 1 3) = id) by (apply Uint16_Put; lia) ];
    try match goal with Hk : len v = ?k |- _ => zconst k; rewrite Hk in H0 end;
    match type of H0 with
    | _ = ?b => let c := eval vm_compute in b in change b with c in H0
    end;
    match type of H0 with
    | _ = ?c =>
      first
      [ assert (Hl : Z.land c 7 = len v)
          by (match goal with Hk : len v = ?k |- _ => rewrite Hk; reflexivity end)
      | assert (Hl : at_ raw (len (b0 :: idb)) = len v) by (apply u8_small; lia)
      | assert (Hl : BigEndian.Uint16 (sub raw (len (b0 :: idb)) (len (b0 :: idb) + 2)) = len v)
          by (apply Uint16_Put; lia)
      | assert (Hl : BigEndian.Uint32 (0 :: sub raw (len (b0 :: idb)) (len (b0 :: idb) + 3)) = len v)
          by (apply Uint24_Put; lia) ]
    end;
    let k := eval vm_compute in (len (b0 :: idb ++ lb)) in
    change (len (b0 :: idb ++ lb)) with k in *;
    let k := eval vm_compute in (len (b0 :: idb)) in
    change (len (b0 :: idb)) with k in *;
    clearbody raw
  end.

Ltac unmarshal_run H0 Hs Hlen Hi Hl :=
  unfold TLV.Unmarshal;
  repeat first
    [ rewrite Hlen | rewrite H0 | rewrite Hi | rewrite Hl | rewrite Hs
    | progress ltb_false | progress zeval | progress tlv_step ].

Lemma Unmarshal_Marshal_app (r t : TLV.Lwm2mTLV) (tail : list byte) :
  0 <= TLV.TypeOfID t <= 3 ->
  0 <= TLV.ID t < 2 ^ 16 ->
  TLV.Length t = len (TLV.Value t) ->
  TLV.Length t <= 0xFFFF ->
  TLV.Unmarshal r (TLV.Marshal t ++ tail) =
  (TLV.Build_Lwm2mTLV (TLV.TypeOfID t) (TLV.ID t) (TLV.Length t) (TLV.Value t)
     (TLV.Contents r),
   len (TLV.Marshal t)).
Proof.
  destruct t as [ty id n v cs].
  cbn [TLV.TypeOfID TLV.ID TLV.Length TLV.Value].
  intros Hty Hid Hn Hmax. subst n.
  pose proof (len_nonneg v) as Hv. pose proof (len_nonneg tail) as Ht.
  unfold TLV.Marshal. cbn [TLV.TypeOfID TLV.ID TLV.Length TLV.Value].
  assert (Hc : ty = 0 \/ ty = 1 \/ ty = 2 \/ ty = 3) by lia.
  assert (Hd : id <= 255 \/ 255 < id) by lia.
  assert (He : len v = 0 \/ len v = 1 \/ len v = 2 \/ len v = 3 \/ len v = 4 \/
               len v = 5 \/ len v = 6 \/ len v = 7 \/ 8 <= len v <= 255 \/
               256 <= len v <= 65534 \/ len v = 65535) by lia.
  destruct Hc as [-> | [-> | [-> | ->]]];
  destruct Hd as [Hd | Hd];
  destruct He as [He|[He|[He|[He|[He|[He|[He|[He|[He|[He|He]]]]]]]]]];
  leb_decide; cbv zeta;
  unmarshal_facts id v tail H0 Hs Hlen Hi Hl; unmarshal_run H0 Hs Hlen Hi Hl;
  reflexivity.
Qed.

(** C1 (as the code has it). For a record [t] whose type of identifier is one
    of the four defined ones, whose identifier fits 16 bits, whose [Length]
    is the length of its [Value] and at most [0xFFFF], and which carries no
    [Contents], unmarshalling [Marshal(t)] into a fresh record gives [t]
    back, and the returned count is [len(Marshal(t))]. *)
Theorem Unmarshal_Marshal (t : TLV.Lwm2mTLV) :
  0 <= TLV.TypeOfID t <= 3 ->
  0 <= TLV.ID t < 2 ^ 16 ->
  TLV.Length t = len (TLV.Value t) ->
  TLV.Length t <= 0xFFFF ->
  TLV.Contents t = [] ->
  TLV.Unmarshal TLV.zero (TLV.Marshal t) = (t, len (TLV.Marshal t)).
Proof.
  intros Hty Hid Hn Hmax Hc.
  rewrite <- (app_nil_r (TLV.Marshal t)) at 1.
  rewrite Unmarshal_Marshal_app by assumption.
  destruct t as [ty id n v cs]. cbn in Hc |- *. subst cs. reflexivity.
Qed.

Lemma Unmarshal_Marshal_witness :
  let t := TLV.Build_Lwm2mTLV 3 3 1 [0x2A] [] in
  TLV.Unmarshal TLV.zero (TLV.Marshal t) = (t, len (TLV.Marshal t)).
Proof.
  intros t. apply (Unmarshal_Marshal t); cbn; try lia; reflexivity.
Defined.

(** The claim as the specification has it fails on a record that carries
    nested [Contents]: [Marshal] does not write them and [Unmarshal] does
    not read them. *)
Lemma Unmarshal_Marshal_drops_Contents :
  let t := TLV.Build_Lwm2mTLV 0 1 0 [] [TLV.Build_Lwm2mTLV 3 9 1 [0x2B] []] in
  TLV.Unmarshal TLV.zero (TLV.Marshal t) <> (t, len (TLV.Marshal t)).
Proof. intros t H. vm_compute in H. discriminate H. Qed.

(** A [Length] field that disagrees with [len(Value)]: the header announces
    [Length] bytes, [Marshal] writes all of [Value]. *)
Example Unmarshal_Marshal_Length_mismatch :
  let t := TLV.Build_Lwm2mTLV 3 9 1 [1; 2; 3] [] in
  TLV.Unmarshal TLV.zero (TLV.Marshal t) =
  (TLV.Build_Lwm2mTLV 3 9 1 [1] [], 3) /\ len (TLV.Marshal t) = 5.
Proof. split; reflexivity. Qed.

(** [Length] above [0xFFFF] takes the [>= 0xFFFF] branch of [Marshal] and
    is written on two bytes. *)
Example Unmarshal_Marshal_Length_65536 :
  let t := TLV.Build_Lwm2mTLV 3 9 65536 (make 65536) [] in
  TLV.Unmarshal TLV.zero (TLV.Marshal t) = (TLV.Build_Lwm2mTLV 3 9 0 [] [], 4)
  /\ len (TLV.Marshal t) = 65540.
Proof. split; vm_compute; reflexivity. Qed.

(** End-to-end scenario 1 of the specification: [C1 03 2A]. *)
Example Unmarshal_C1_03_2A :
  TLV.Unmarshal TLV.zero [0xC1; 0x03; 0x2A] = (TLV.Build_Lwm2mTLV 3 3 1 [0x2A] [], 3)
  /\ TLV.Marshal (TLV.Build_Lwm2mTLV 3 3 1 [0x2A] []) = [0xC1; 0x03; 0x2A].
Proof. split; reflexivity. Qed.

(** ** What [Unmarshal] reads *)

Ltac failed_branch :=
  let H := fresh in intros H; exfalso; injection H; intros; lia.

Lemma Unmarshal_prefix (r t : TLV.Lwm2mTLV) (raw rest : list byte) (n : Z) :
  TLV.Unmarshal r raw = (t, n) -> n <> -1 ->
  TLV.Unmarshal r (raw ++ rest) = (t, n).
Proof.
  intros H Hn. revert H. unfold TLV.Unmarshal. rewrite len_app.
  pose proof (len_nonneg rest) as Hrest.
  repeat first
    [ progress tlv_step
    | match goal with
      | |- context [len raw + len rest <? ?c] =>
        replace (len raw + len rest <? c) with false by (symmetry; apply Z.ltb_ge; lia)
      end
    | match goal with
      | |- context [at_ (raw ++ rest) ?i] => rewrite (at_app_l raw rest i) by lia
      end
    | match goal with
      | |- context [sub (raw ++ rest) ?lo ?hi] => rewrite (sub_app_l raw rest lo hi) by lia
      end
    | match goal with
      | |- context [len raw <? ?c] =>
        destruct (Z.ltb_spec (len raw) c); [solve [failed_branch] |]
      end
    | match goal with
      | |- context [if ?c then _ else _] =>
        lazymatch c with
        | Z.ltb _ _ => fail
        | _ => destruct c
        end
      end ].
  all: exact (fun E => E).
Qed.

(** Bytes after a complete record are ignored. *)
Theorem Unmarshal_extension (r t : TLV.Lwm2mTLV) (raw rest : list byte) (n : Z) :
  TLV.Unmarshal r raw = (t, n) -> n <> -1 ->
  TLV.Unmarshal r (raw ++ rest) = (t, n).
Proof. exact (Unmarshal_prefix r t raw rest n). Qed.

Ltac unmarshal_leaf raw Hb :=
  repeat match goal with
         | E : (Z.land ?x 3 =? ?k) = false |- _ => apply Z.eqb_neq in E
         end;
  try (exfalso;
       match goal with
       | E : Z.land ?x 3 <> 0 |- _ => pose proof (land_3_bound x); lia
       end);
  repeat match goal with
         | |- context [BigEndian.Uint16 (sub raw ?lo ?hi)] =>
           lazymatch goal with
           | _ : 0 <= BigEndian.Uint16 (sub raw lo hi) < _ |- _ => fail
           | _ => pose proof (Uint16_bound (sub raw lo hi) (bytes_sub raw lo hi Hb))
           end
         | |- context [BigEndian.Uint32 (0 :: sub raw ?lo ?hi)] =>
           lazymatch goal with
           | _ : 0 <= BigEndian.Uint32 (0 :: sub raw lo hi) < _ |- _ => fail
           | _ => pose proof (Uint24_bound (sub raw lo hi) (bytes_sub raw lo hi Hb))
           end
         | |- context [at_ raw ?i] =>
           lazymatch goal with
           | _ : 0 <= at_ raw i < _ |- _ => fail
           | _ => pose proof (at_byte raw i Hb)
           end
         end;
  change (2 ^ 16) with 65536 in *; change (2 ^ 24) with 16777216 in *;
  repeat split; try lia; try reflexivity;
  try (rewrite len_sub by lia; lia); try (f_equal; lia).

Lemma Unmarshal_fields (r t : TLV.Lwm2mTLV) (raw : list byte) (n : Z) :
  bytes raw -> TLV.Unmarshal r raw = (t, n) -> n <> -1 ->
  2 <= n <= len raw /\
  0 <= TLV.TypeOfID t <= 3 /\ 0 <= TLV.ID t < 2 ^ 16 /\ 0 <= TLV.Length t < 2 ^ 24 /\
  len (TLV.Value t) = TLV.Length t /\
  TLV.Value t = sub raw (n - TLV.Length t) n /\
  TLV.Contents t = TLV.Contents r.
Proof.
  intros Hb H Hn. revert H. unfold TLV.Unmarshal.
  pose proof (land_3_bound (Z.shiftr (at_ raw 0) 6)) as Ht.
  pose proof (land_7_bound (at_ raw 0)) as H7.
  repeat first
    [ progress tlv_step
    | match goal with
      | |- context [len raw <? ?c] =>
        destruct (Z.ltb_spec (len raw) c); [solve [failed_branch] |]
      end
    | match goal with
      | |- context [if ?c then _ else _] =>
        lazymatch c with
        | Z.ltb _ _ => fail
        | _ => destruct c eqn:?
        end
      end ];
  (intros E; apply pair_equal_spec in E; destruct E as [<- <-]; tlv_step;
   unmarshal_leaf raw Hb).
Qed.

(** When [Unmarshal] does not return -1, it has consumed a header of at
    least two bytes and the value, all of them within the bytes given; the
    value has the length announced and is the end of what was consumed. *)
Theorem Unmarshal_bounds (r t : TLV.Lwm2mTLV) (raw : list byte) (n : Z) :
  bytes raw -> TLV.Unmarshal r raw = (t, n) -> n <> -1 ->
  2 <= n <= len raw /\
  0 <= TLV.TypeOfID t <= 3 /\ 0 <= TLV.ID t < 2 ^ 16 /\ 0 <= TLV.Length t < 2 ^ 24 /\
  len (TLV.Value t) = TLV.Length t /\
  TLV.Value t = sub raw (n - TLV.Length t) n /\
  TLV.Contents t = TLV.Contents r.
Proof. exact (Unmarshal_fields r t raw n). Qed.

Lemma Unmarshal_within (r t : TLV.Lwm2mTLV) (raw : list byte) (n : Z) :
  TLV.Unmarshal r raw = (t, n) -> n <> -1 -> n <= len raw.
Proof.
  intros H Hn. revert H. unfold TLV.Unmarshal.
  repeat first
    [ progress tlv_step
    | match goal with
      | |- context [len raw <? ?c] =>
        destruct (Z.ltb_spec (len raw) c); [solve [failed_branch] |]
      end
    | match goal with
      | |- context [if ?c then _ else _] =>
        lazymatch c with
        | Z.ltb _ _ => fail
        | _ => destruct c
        end
      end ];
  (intros E; apply pair_equal_spec in E; destruct E as [_ <-]; lia).
Qed.

(** A record cut short is rejected. *)
Theorem Unmarshal_truncated (r t : TLV.Lwm2mTLV) (raw rest : list byte) (n : Z) :
  TLV.Unmarshal r (raw ++ rest) = (t, n) -> n <> -1 -> len raw < n ->
  snd (TLV.Unmarshal r raw) = -1.
Proof.
  intros H Hn Hk.
  destruct (TLV.Unmarshal r raw) as [t' n'] eqn:E. cbn [snd].
  destruct (Z.eq_dec n' (-1)) as [-> | Hn']; [reflexivity | exfalso].
  pose proof (Unmarshal_within r t' raw n' E Hn') as Hw.
  pose proof (Unmarshal_prefix r t' raw rest n' E Hn') as Hx.
  rewrite H in Hx. injection Hx as _ ->. lia.
Qed.

Lemma Unmarshal_extension_witness :
  TLV.Unmarshal TLV.zero ([0xC1; 0x09; 0x2B] ++ [0xC1; 0x0A; 0x00])
  = (TLV.Build_Lwm2mTLV 3 9 1 [0x2B] [], 3).
Proof.
  apply (Unmarshal_extension TLV.zero _ [0xC1; 0x09; 0x2B] [0xC1; 0x0A; 0x00] 3);
    [reflexivity | discriminate].
Defined.

Lemma Unmarshal_bounds_witness :
  let raw := [0x48; 0x05; 0x03; 0x61; 0x62; 0x63; 0xFF] in
  let t := TLV.Build_Lwm2mTLV 1 5 3 [0x61; 0x62; 0x63] [] in
  bytes raw /\ TLV.Unmarshal TLV.zero raw = (t, 6) /\
  2 <= 6 <= len raw /\ len (TLV.Value t) = TLV.Length t /\
  TLV.Value t = sub raw (6 - TLV.Length t) 6.
Proof.
  assert (Hb : bytes [0x48; 0x05; 0x03; 0x61; 0x62; 0x63; 0xFF])
    by (repeat constructor; unfold is_byte; lia).
  pose proof (Unmarshal_bounds TLV.zero (TLV.Build_Lwm2mTLV 1 5 3 [0x61; 0x62; 0x63] [])
                [0x48; 0x05; 0x03; 0x61; 0x62; 0x63; 0xFF] 6 Hb eq_refl ltac:(discriminate))
    as (H1 & _ & _ & _ & H2 & H3 & _).
  cbv zeta. repeat split; try exact Hb; try exact (proj1 H1); try exact (proj2 H1);
    try exact H2; exact H3.
Defined.

Lemma Unmarshal_truncated_witness :
  snd (TLV.Unmarshal TLV.zero [0xC1; 0x09]) = -1.
Proof.
  apply (Unmarshal_truncated TLV.zero (TLV.Build_Lwm2mTLV 3 9 1 [0x2B] [])
           [0xC1; 0x09] [0x2B] 3); [reflexivity | discriminate | reflexivity].
Defined.

(** ** Resource values *)

(** *** Decimal numerals *)

Lemma digits_value_pos (d : Decimal.uint) (a : positive) :
  digits_value d (Z.pos a) = Z.pos (Pos.of_uint_acc d a).
Proof.
  revert a. induction d; intros a; cbn [digits_value Pos.of_uint_acc];
    try reflexivity; rewrite <- IHd; reflexivity.
Qed.

Lemma digits_value_0 (d : Decimal.uint) : digits_value d 0 = Z.of_N (Pos.of_uint d).
Proof.
  induction d; cbn [digits_value Pos.of_uint]; try reflexivity;
    try (apply (digits_value_pos d)).
  exact IHd.
Qed.

Lemma digits_value_mono (d : Decimal.uint) (acc : Z) :
  0 <= acc -> acc <= digits_value d acc.
Proof.
  revert acc. induction d; intros acc Ha; cbn [digits_value]; try lia;
    match goal with
    | |- _ <= digits_value _ ?a => specialize (IHd a ltac:(lia)); lia
    end.
Qed.

(** [parseDigits] on a numeral, as long as the value fits 64 bits. *)
Lemma parseDigits_string_of_uint (d : Decimal.uint) (acc : Z) :
  0 <= acc -> digits_value d acc < 2 ^ 64 ->
  strconv.parseDigits 64 (NilEmpty.string_of_uint d) acc = (digits_value d acc, None).
Proof.
  revert acc. induction d; intros acc Ha Hv;
    cbn [NilEmpty.string_of_uint digits_value strconv.parseDigits] in *;
    try reflexivity;
    match type of Hv with
    | digits_value _ (?k + 10 * acc) < _ =>
      pose proof (digits_value_mono d (k + 10 * acc) ltac:(lia)) as Hm;
      change (byte_of_ascii _ - 48) with k;
      change ((0 <=? k) && (k <=? 9)) with true; cbv iota;
      replace (acc >=? (2 ^ 64 - 1) / 10 + 1) with false
        by (symmetry; rewrite Z.geb_leb; apply Z.leb_gt;
            change ((2 ^ 64 - 1) / 10 + 1) with 1844674407370955162;
            change (2 ^ 64) with 18446744073709551616 in *; lia);
      replace (u64 (acc * 10 + k)) with (k + 10 * acc)
        by (unfold u64; rewrite Z.mod_small; lia);
      replace ((k + 10 * acc <? acc * 10) || (k + 10 * acc >? 2 ^ 64 - 1)) with false
        by (symmetry; apply orb_false_iff; split;
            [apply Z.ltb_ge; lia | rewrite Z.gtb_ltb; apply Z.ltb_ge; lia]);
      apply IHd; [lia | exact Hv]
    end.
Qed.

(** A numeral begins with a digit. *)
Lemma string_of_uint_head (d : Decimal.uint) :
  d <> Decimal.Nil ->
  exists c rest,
    NilEmpty.string_of_uint d = String c rest /\
    Ascii.eqb c "+" = false /\ Ascii.eqb c "-" = false.
Proof.
  destruct d; intros H; try (exfalso; apply H; reflexivity);
    do 2 eexists; repeat split.
Qed.

(** [ParseInt] reads back what [FormatInt] wrote, over the whole of int64. *)
Lemma ParseInt_FormatInt (v : Z) :
  - 2 ^ 63 <= v < 2 ^ 63 ->
  strconv.ParseInt (strconv.FormatInt v) 64 = (v, None).
Proof.
  intros Hv. unfold strconv.FormatInt.
  destruct v as [| p | p]; [reflexivity | |].
  - cbn [Z.to_int NilZero.string_of_int].
    pose proof (Unsigned.to_uint_nonnil p) as Hn.
    pose proof (DecimalPos.Unsigned.of_to p) as Hof.
    assert (Hs : NilZero.string_of_uint (Pos.to_uint p)
                 = NilEmpty.string_of_uint (Pos.to_uint p)).
    { destruct (Pos.to_uint p); try reflexivity. exfalso. apply Hn. reflexivity. }
    rewrite Hs.
    destruct (string_of_uint_head _ Hn) as [c [rest [E [Hplus Hminus]]]].
    assert (Hd : strconv.parseDigits 64 (NilEmpty.string_of_uint (Pos.to_uint p)) 0
                 = (Z.pos p, None)).
    { rewrite parseDigits_string_of_uint.
      - rewrite digits_value_0, Hof. reflexivity.
      - lia.
      - rewrite digits_value_0, Hof. cbn [Z.of_N]. lia. }
    rewrite E in *. unfold strconv.ParseInt. rewrite Hplus, Hminus.
    unfold strconv.ParseUint. rewrite Hd.
    cbn [negb andb].
    replace (Z.pos p >=? 2 ^ (64 - 1)) with false
      by (symmetry; rewrite Z.geb_leb; apply Z.leb_gt; change (64 - 1) with 63; lia).
    reflexivity.
  - cbn [Z.to_int NilZero.string_of_int].
    pose proof (Unsigned.to_uint_nonnil p) as Hn.
    pose proof (DecimalPos.Unsigned.of_to p) as Hof.
    assert (Hs : NilZero.string_of_uint (Pos.to_uint p)
                 = NilEmpty.string_of_uint (Pos.to_uint p)).
    { destruct (Pos.to_uint p); try reflexivity. exfalso. apply Hn. reflexivity. }
    rewrite Hs.
    destruct (string_of_uint_head _ Hn) as [c [rest [E [Hplus Hminus]]]].
    assert (Hd : strconv.parseDigits 64 (NilEmpty.string_of_uint (Pos.to_uint p)) 0
                 = (Z.pos p, None)).
    { rewrite parseDigits_string_of_uint.
      - rewrite digits_value_0, Hof. reflexivity.
      - lia.
      - rewrite digits_value_0, Hof. cbn [Z.of_N]. lia. }
    unfold strconv.ParseInt.
    change (Ascii.eqb "-" "+") with false. change (Ascii.eqb "-" "-") with true.
    cbv iota. rewrite E in *.
    unfold strconv.ParseUint. rewrite Hd.
    cbn [negb andb].
    replace (Z.pos p >? 2 ^ (64 - 1)) with false
      by (symmetry; rewrite Z.gtb_ltb; apply Z.ltb_ge; change (64 - 1) with 63; lia).
    reflexivity.
Qed.

(** C4.  For every int64 [v], the decimal string of [v] is stored as a
    TLV value of width 1, 2, 4 or 8, and read back as the decimal string of
    [v] again, except on the single-byte negatives: for [-128 <= v < 0] the
    byte is read as [int(buf[0])], unsigned, and the string that comes back
    is that of [v + 256]. *)
Theorem Integer_string_round_trip (std : StdLib) (v : Z) :
  - 2 ^ 63 <= v < 2 ^ 63 ->
  exists buf,
    Value.convertStringToTLVValue std (strconv.FormatInt v) Value.lwm2mResourceTypeInteger
    = Some buf /\
    Value.convertTLVValueToString std buf Value.lwm2mResourceTypeInteger
    = Some (strconv.FormatInt
             (if (- 2 ^ 7 <=? v) && (v <? 0) then v + 2 ^ 8 else v)).
Proof.
  intros Hv.
  unfold Value.convertStringToTLVValue, Value.convertTLVValueToString.
  change (Value.lwm2mResourceTypeInteger =? Value.lwm2mResourceTypeInteger) with true.
  cbn [orb]. rewrite (ParseInt_FormatInt v Hv). cbn [fst].
  change (- 2 ^ 7) with (-128). change (- 2 ^ 15) with (-32768).
  change (- 2 ^ 31) with (-2147483648).
  change (- 2 ^ 63) with (-9223372036854775808) in Hv.
  change (2 ^ 7) with 128. change (2 ^ 8) with 256. change (2 ^ 15) with 32768.
  change (2 ^ 31) with 2147483648. change (2 ^ 63) with 9223372036854775808 in Hv.
  rewrite !Z.geb_leb.
  repeat match goal with
         | |- context [Z.ltb ?a ?b] => destruct (Z.ltb_spec a b); try lia
         | |- context [Z.leb ?a ?b] => destruct (Z.leb_spec a b); try lia
         end;
    cbn [andb]; eexists; (split; [reflexivity |]);
  lazymatch goal with
    | |- context [len [u8 v]] =>
      change (len [u8 v] =? 1) with true; cbv iota;
      unfold strconv.Itoa, at_; cbn [Z.to_nat nth]; f_equal; f_equal;
      unfold u8; change (2 ^ 8) with 256;
      first [ apply Z.mod_small; lia
            | symmetry; apply (Z.mod_unique v 256 (-1)); lia ]
    | |- context [BigEndian.PutUint16] =>
      change (len (BigEndian.PutUint16 (u16 v)) =? 1) with false;
      change (len (BigEndian.PutUint16 (u16 v)) =? 2) with true; cbv iota;
      rewrite (sub_all _ 2) by reflexivity;
      rewrite Uint16_PutUint16 by (apply Z.mod_pos_bound; lia);
      unfold u16; rewrite signed_mod by (change (2 ^ (16 - 1)) with 32768; lia);
      reflexivity
    | |- context [BigEndian.PutUint32] =>
      change (len (BigEndian.PutUint32 (u32 v)) =? 1) with false;
      change (len (BigEndian.PutUint32 (u32 v)) =? 2) with false;
      change (len (BigEndian.PutUint32 (u32 v)) =? 4) with true; cbv iota;
      rewrite (sub_all _ 4) by reflexivity;
      rewrite Uint32_PutUint32 by (apply Z.mod_pos_bound; lia);
      unfold u32; rewrite signed_mod by (change (2 ^ (32 - 1)) with 2147483648; lia);
      reflexivity
    | |- context [BigEndian.PutUint64] =>
      change (len (BigEndian.PutUint64 (u64 v)) =? 1) with false;
      change (len (BigEndian.PutUint64 (u64 v)) =? 2) with false;
      change (len (BigEndian.PutUint64 (u64 v)) =? 4) with false;
      change (len (BigEndian.PutUint64 (u64 v)) =? 8) with true; cbv iota;
      rewrite (sub_all _ 8) by reflexivity;
      rewrite Uint64_PutUint64 by (apply Z.mod_pos_bound; lia);
      unfold u64;
      rewrite signed_mod by (change (2 ^ (64 - 1)) with 9223372036854775808; lia);
      reflexivity
    end.
Qed.

Lemma Integer_string_round_trip_witness :
  - 2 ^ 63 <= -1 < 2 ^ 63 /\
  exists buf,
    Value.convertStringToTLVValue Scenario.std "-1" Value.lwm2mResourceTypeInteger
    = Some buf /\
    Value.convertTLVValueToString Scenario.std buf Value.lwm2mResourceTypeInteger
    = Some "255"%string.
Proof.
  split; [lia |].
  exact (Integer_string_round_trip Scenario.std (-1) ltac:(lia)).
Defined.

(** The value -1: its decimal string goes to the wire as the single byte
    [0xFF], which [convertTLVValueToString] reads back as [int(buf[0])], an
    unsigned byte; the string returned is "255". *)
Example Integer_minus_1_reads_back_255 (std : StdLib) :
  strconv.FormatInt (-1) = "-1"%string /\
  Value.convertStringToTLVValue std "-1" Value.lwm2mResourceTypeInteger = Some [0xFF] /\
  Value.convertTLVValueToString std [0xFF] Value.lwm2mResourceTypeInteger
  = Some "255"%string.
Proof. repeat split. Qed.

(** End-to-end scenario 2 of the specification: integer narrowing. *)
Example convertStringToTLVValue_narrowing (std : StdLib) :
  Value.convertStringToTLVValue std "300" Value.lwm2mResourceTypeInteger
  = Some [0x01; 0x2C] /\
  Value.convertStringToTLVValue std "-1" Value.lwm2mResourceTypeInteger
  = Some [0xFF] /\
  Value.convertStringToTLVValue std "70000" Value.lwm2mResourceTypeInteger
  = Some [0x00; 0x01; 0x11; 0x70].
Proof. repeat split. Qed.

(** ** Strings and Booleans *)

(** String and None values cross the codec unchanged, in both directions:
    the wire bytes are the bytes of the string. *)
Theorem String_value_round_trip (std : StdLib) (ty : Z) (s : string) (buf : list byte) :
  ty = Value.lwm2mResourceTypeString \/ ty = Value.lwm2mResourceTypeNone ->
  bytes buf ->
  (exists wire, Value.convertStringToTLVValue std s ty = Some wire /\
                Value.convertTLVValueToString std wire ty = Some s) /\
  (exists str, Value.convertTLVValueToString std buf ty = Some str /\
               Value.convertStringToTLVValue std str ty = Some buf).
Proof.
  intros Hty Hb.
  assert (E1 : Value.convertStringToTLVValue std s ty = Some (bytes_of_string s))
    by (destruct Hty as [-> | ->]; reflexivity).
  assert (E2 : forall b, Value.convertTLVValueToString std b ty = Some (string_of_bytes b))
    by (intros b; destruct Hty as [-> | ->]; reflexivity).
  assert (E3 : forall str, Value.convertStringToTLVValue std str ty
                           = Some (bytes_of_string str))
    by (intros str; destruct Hty as [-> | ->]; reflexivity).
  split.
  - exists (bytes_of_string s). split; [exact E1 |].
    rewrite E2, string_of_bytes_of_string. reflexivity.
  - exists (string_of_bytes buf). split; [apply E2 |].
    rewrite E3, bytes_of_string_of_bytes by exact Hb. reflexivity.
Qed.

(** A Boolean is one byte, 1 for the string "true" and 0 for every other
    string; it reads back as "true" or "false", so exactly these two
    strings survive the round trip. *)
Theorem Boolean_value_round_trip (std : StdLib) (s : string) :
  exists wire,
    Value.convertStringToTLVValue std s Value.lwm2mResourceTypeBoolean = Some wire /\
    wire = (if String.eqb s "true" then [1] else [0]) /\
    (Value.convertTLVValueToString std wire Value.lwm2mResourceTypeBoolean = Some s
     <-> s = "true"%string \/ s = "false"%string).
Proof.
  eexists. split; [reflexivity |]. split; [reflexivity |].
  destruct (String.eqb_spec s "true") as [-> | Hne].
  - split; [intros _; left; reflexivity | intros _; reflexivity].
  - change (Value.convertTLVValueToString std [0] Value.lwm2mResourceTypeBoolean)
      with (Some "false"%string).
    split.
    + intros H. injection H as <-. right. reflexivity.
    + intros [-> | ->]; [exfalso; apply Hne; reflexivity | reflexivity].
Qed.

Lemma String_value_round_trip_witness :
  (exists wire,
     Value.convertStringToTLVValue Scenario.std "UTC" Value.lwm2mResourceTypeString
     = Some wire /\
     Value.convertTLVValueToString Scenario.std wire Value.lwm2mResourceTypeString
     = Some "UTC"%string) /\
  (exists str,
     Value.convertTLVValueToString Scenario.std [0x4A; 0x53; 0x54; 0xFF]
       Value.lwm2mResourceTypeString = Some str /\
     Value.convertStringToTLVValue Scenario.std str Value.lwm2mResourceTypeString
     = Some [0x4A; 0x53; 0x54; 0xFF]).
Proof.
  apply (String_value_round_trip Scenario.std Value.lwm2mResourceTypeString).
  - left. reflexivity.
  - repeat constructor; unfold is_byte; lia.
Defined.

(** ** Integers from the wire and back *)

Lemma signed_range (w x : Z) :
  0 < w -> - 2 ^ (w - 1) <= signed w x < 2 ^ (w - 1).
Proof.
  intros Hw. unfold signed.
  assert (E : 2 ^ w = 2 * 2 ^ (w - 1)).
  { replace w with (1 + (w - 1)) at 1 by lia. rewrite Z.pow_add_r by lia. reflexivity. }
  assert (Hp : 0 < 2 ^ (w - 1)) by (apply Z.pow_pos_nonneg; lia).
  pose proof (Z.mod_pos_bound x (2 ^ w) ltac:(lia)) as Hm.
  cbv zeta. destruct (Z.ltb_spec (x mod 2 ^ w) (2 ^ (w - 1))); lia.
Qed.

Lemma signed_unsigned (w x : Z) :
  0 < w -> 0 <= x < 2 ^ w -> (signed w x) mod 2 ^ w = x.
Proof.
  intros Hw Hx. unfold signed. cbv zeta. rewrite (Z.mod_small x) by lia.
  destruct (Z.ltb_spec x (2 ^ (w - 1))).
  - apply Z.mod_small. lia.
  - symmetry. apply (Z.mod_unique (x - 2 ^ w) (2 ^ w) (-1) x); lia.
Qed.

Lemma PutUint16_Uint16 (a b : Z) :
  0 <= a < 256 -> 0 <= b < 256 ->
  BigEndian.PutUint16 (BigEndian.Uint16 [a; b]) = [a; b].
Proof.
  intros Ha Hb. unfold BigEndian.Uint16, BigEndian.PutUint16, at_.
  cbv [nth Z.to_nat Pos.to_nat Pos.iter_op Nat.add].
  rewrite lor_shiftl_add by lia. change (2 ^ 8) with 256.
  unfold u8. rewrite Z.shiftr_div_pow2 by lia. change (2 ^ 8) with 256.
  repeat (apply f_equal2; [Z.div_mod_to_equations; lia |]). reflexivity.
Qed.

Lemma PutUint32_Uint32 (a b c d : Z) :
  0 <= a < 256 -> 0 <= b < 256 -> 0 <= c < 256 -> 0 <= d < 256 ->
  BigEndian.PutUint32 (BigEndian.Uint32 [a; b; c; d]) = [a; b; c; d].
Proof.
  intros Ha Hb Hc Hd. unfold BigEndian.Uint32, BigEndian.PutUint32, at_.
  cbv [nth Z.to_nat Pos.to_nat Pos.iter_op Nat.add].
  rewrite (lor_shiftl_add c d 8) by lia. change (2 ^ 8) with 256.
  rewrite (lor_shiftl_add b _ 16) by (change (2 ^ 16) with 65536; lia).
  change (2 ^ 16) with 65536.
  rewrite (lor_shiftl_add a _ 24) by (change (2 ^ 24) with 16777216; lia).
  change (2 ^ 24) with 16777216.
  unfold u8. rewrite !Z.shiftr_div_pow2 by lia.
  change (2 ^ 8) with 256. change (2 ^ 16) with 65536. change (2 ^ 24) with 16777216.
  repeat (apply f_equal2; [Z.div_mod_to_equations; lia |]). reflexivity.
Qed.

Lemma PutUint64_Uint64 (a b c d e f g h : Z) :
  0 <= a < 256 -> 0 <= b < 256 -> 0 <= c < 256 -> 0 <= d < 256 ->
  0 <= e < 256 -> 0 <= f < 256 -> 0 <= g < 256 -> 0 <= h < 256 ->
  BigEndian.PutUint64 (BigEndian.Uint64 [a; b; c; d; e; f; g; h])
  = [a; b; c; d; e; f; g; h].
Proof.
  intros Ha Hb Hc Hd He Hf Hg Hh. unfold BigEndian.Uint64, BigEndian.PutUint64, at_.
  cbv [nth Z.to_nat Pos.to_nat Pos.iter_op Nat.add].
  rewrite (lor_shiftl_add g h 8) by lia. change (2 ^ 8) with 256.
  rewrite (lor_shiftl_add f _ 16) by (change (2 ^ 16) with 65536; lia).
  change (2 ^ 16) with 65536.
  rewrite (lor_shiftl_add e _ 24) by (change (2 ^ 24) with 16777216; lia).
  change (2 ^ 24) with 16777216.
  rewrite (lor_shiftl_add d _ 32) by (change (2 ^ 32) with 4294967296; lia).
  change (2 ^ 32) with 4294967296.
  rewrite (lor_shiftl_add c _ 40) by (change (2 ^ 40) with 1099511627776; lia).
  change (2 ^ 40) with 1099511627776.
  rewrite (lor_shiftl_add b _ 48) by (change (2 ^ 48) with 281474976710656; lia).
  change (2 ^ 48) with 281474976710656.
  rewrite (lor_shiftl_add a _ 56) by (change (2 ^ 56) with 72057594037927936; lia).
  change (2 ^ 56) with 72057594037927936.
  unfold u8. rewrite !Z.shiftr_div_pow2 by lia.
  change (2 ^ 8) with 256. change (2 ^ 16) with 65536. change (2 ^ 24) with 16777216.
  change (2 ^ 32) with 4294967296. change (2 ^ 40) with 1099511627776.
  change (2 ^ 48) with 281474976710656. change (2 ^ 56) with 72057594037927936.
  repeat (apply f_equal2; [Z.div_mod_to_equations; lia |]). reflexivity.
Qed.

Lemma Uint64_bound (b : list Z) : bytes b -> 0 <= BigEndian.Uint64 b < 2 ^ 64.
Proof.
  intros H. unfold BigEndian.Uint64.
  pose proof (at_byte b 0 H). pose proof (at_byte b 1 H).
  pose proof (at_byte b 2 H). pose proof (at_byte b 3 H).
  pose proof (at_byte b 4 H). pose proof (at_byte b 5 H).
  pose proof (at_byte b 6 H). pose proof (at_byte b 7 H).
  rewrite (lor_shiftl_add _ (at_ b 7) 8) by lia. change (2 ^ 8) with 256.
  rewrite (lor_shiftl_add _ _ 16) by (change (2 ^ 16) with 65536; lia).
  change (2 ^ 16) with 65536.
  rewrite (lor_shiftl_add _ _ 24) by (change (2 ^ 24) with 16777216; lia).
  change (2 ^ 24) with 16777216.
  rewrite (lor_shiftl_add _ _ 32) by (change (2 ^ 32) with 4294967296; lia).
  change (2 ^ 32) with 4294967296.
  rewrite (lor_shiftl_add _ _ 40) by (change (2 ^ 40) with 1099511627776; lia).
  change (2 ^ 40) with 1099511627776.
  rewrite (lor_shiftl_add _ _ 48) by (change (2 ^ 48) with 281474976710656; lia).
  change (2 ^ 48) with 281474976710656.
  rewrite (lor_shiftl_add _ _ 56) by (change (2 ^ 56) with 72057594037927936; lia).
  change (2 ^ 56) with 72057594037927936. change (2 ^ 64) with 18446744073709551616.
  lia.
Qed.

Section IntegerWire.

Variable std : StdLib.
Variable ty : Z.
Hypothesis integer_or_time :
  ty = Value.lwm2mResourceTypeInteger \/ ty = Value.lwm2mResourceTypeTime.

Lemma integer_branch :
  (ty =? Value.lwm2mResourceTypeInteger) || (ty =? Value.lwm2mResourceTypeTime) = true.
Proof. destruct integer_or_time as [-> | ->]; reflexivity. Qed.

Lemma encode_FormatInt (v : Z) :
  - 2 ^ 63 <= v < 2 ^ 63 ->
  Value.convertStringToTLVValue std (strconv.FormatInt v) ty
  = if (v <? 2 ^ 7) && (v >=? - 2 ^ 7) then Some [u8 v]
    else if (v <? 2 ^ 15) && (v >=? - 2 ^ 15) then Some (BigEndian.PutUint16 (u16 v))
    else if (v <? 2 ^ 31) && (v >=? - 2 ^ 31) then Some (BigEndian.PutUint32 (u32 v))
    else Some (BigEndian.PutUint64 (u64 v)).
Proof.
  intros Hv. unfold Value.convertStringToTLVValue. rewrite integer_branch.
  rewrite ParseInt_FormatInt by exact Hv. reflexivity.
Qed.

Lemma encode_empty :
  Value.convertStringToTLVValue std EmptyString ty = Some [0].
Proof.
  unfold Value.convertStringToTLVValue. rewrite integer_branch. reflexivity.
Qed.

Ltac decide_len :=
  repeat match goal with
         | |- context [len ?l =? ?k] =>
           let E := fresh "E" in
           destruct (Z.eqb_spec (len l) k) as [E | E];
           rewrite ?len_cons, ?len_nil in E;
           try (exfalso; lia)
         end.

Ltac compare_all :=
  repeat match goal with
         | |- context [?x <? ?c] => destruct (Z.ltb_spec x c)
         | |- context [?x >=? ?c] => destruct (Z.geb_spec x c)
         end;
  cbn [andb negb];
  first [ exfalso; lia
        | split; reflexivity
        | split; (let K := fresh in intros K; discriminate K) ].

Ltac other_length :=
  eexists; split; [reflexivity |]; rewrite encode_empty;
  split; (let K := fresh in intros K; discriminate K).

(** The wire of an Integer or Time value that is read into a string and
    written back is the same wire exactly when it is the shortest one for
    its number: a longer wire comes back shortened, a single byte from 128
    on comes back as two, and a wire of another length than 1, 2, 4 or 8
    comes back as the byte 0. *)
Theorem Integer_wire_round_trip (buf : list Z) :
  bytes buf ->
  exists str,
    Value.convertTLVValueToString std buf ty = Some str /\
    (Value.convertStringToTLVValue std str ty = Some buf <-> shortest buf = true).
Proof.
  intros Hb. unfold Value.convertTLVValueToString, shortest.
  rewrite integer_branch. cbv zeta.
  destruct buf as [| a [| b [| c [| d [| e [| f [| g [| h [| i rest]]]]]]]]];
    try pose proof (len_nonneg rest); decide_len.
  - other_length.
  - (* one byte *)
    assert (Ha : 0 <= a < 256) by (inversion Hb; assumption).
    change (at_ [a] 0) with a. unfold strconv.Itoa.
    eexists. split; [reflexivity |].
    rewrite encode_FormatInt by lia.
    change (- 2 ^ 7) with (-128). change (2 ^ 7) with 128.
    change (- 2 ^ 15) with (-32768). change (2 ^ 15) with 32768.
    destruct (Z.ltb_spec a 128) as [Hlt | Hge].
    + replace (a >=? -128) with true by (symmetry; apply Z.geb_le; lia).
      cbn [andb]. unfold u8. rewrite Z.mod_small by (change (2 ^ 8) with 256; lia).
      split; reflexivity.
    + cbn [andb].
      replace (a <? 32768) with true by (symmetry; apply Z.ltb_lt; lia).
      replace (a >=? -32768) with true by (symmetry; apply Z.geb_le; lia).
      cbn [andb]. split; intros H; discriminate H.
  - (* two bytes *)
    assert (Ha : 0 <= a < 256) by (inversion Hb; assumption).
    assert (Hb' : 0 <= b < 256) by (inversion Hb as [| ? ? _ Hb1]; inversion Hb1; assumption).
    change (sub [a; b] 0 2) with [a; b].
    pose proof (Uint16_bound [a; b] Hb) as Hu.
    pose proof (signed_range 16 (BigEndian.Uint16 [a; b]) ltac:(lia)) as Hs.
    pose proof (signed_unsigned 16 (BigEndian.Uint16 [a; b]) ltac:(lia) Hu) as Hm.
    set (v := signed 16 (BigEndian.Uint16 [a; b])) in *.
    change (16 - 1) with 15 in Hs. change (8 - 1) with 7.
    eexists. split; [reflexivity |].
    rewrite encode_FormatInt
      by (change (2 ^ 15) with 32768 in Hs; change (2 ^ 63) with 9223372036854775808; lia).
    destruct ((v <? 2 ^ 7) && (v >=? - 2 ^ 7)); cbn [negb].
    + split; intros H; discriminate H.
    + replace ((v <? 2 ^ 15) && (v >=? - 2 ^ 15)) with true
        by (symmetry; apply andb_true_iff; split; [apply Z.ltb_lt | apply Z.geb_le]; lia).
      unfold u16. rewrite Hm, PutUint16_Uint16 by assumption. split; reflexivity.
  - other_length.
  - (* four bytes *)
    assert (Hx : 0 <= a < 256 /\ 0 <= b < 256 /\ 0 <= c < 256 /\ 0 <= d < 256)
      by (repeat match goal with
                 | K : bytes (_ :: _) |- _ => inversion K; clear K; subst
                 | K : Forall _ (_ :: _) |- _ => inversion K; clear K; subst
                 end; unfold is_byte in *; repeat split; lia).
    destruct Hx as (Ha & Hb1 & Hc & Hd).
    change (sub [a; b; c; d] 0 4) with [a; b; c; d].
    pose proof (Uint32_bound [a; b; c; d] Hb) as Hu.
    pose proof (signed_range 32 (BigEndian.Uint32 [a; b; c; d]) ltac:(lia)) as Hs.
    pose proof (signed_unsigned 32 (BigEndian.Uint32 [a; b; c; d]) ltac:(lia) Hu) as Hm.
    set (v := signed 32 (BigEndian.Uint32 [a; b; c; d])) in *.
    change (32 - 1) with 31 in Hs. change (16 - 1) with 15.
    eexists. split; [reflexivity |].
    rewrite encode_FormatInt
      by (change (2 ^ 31) with 2147483648 in Hs;
          change (2 ^ 63) with 9223372036854775808; lia).
    unfold u32. rewrite Hm, PutUint32_Uint32 by assumption.
    change (2 ^ 7) with 128 in *. change (2 ^ 15) with 32768 in *.
    change (2 ^ 31) with 2147483648 in *.
    change (- (128)) with (-128) in *. change (- (32768)) with (-32768) in *.
    change (- (2147483648)) with (-2147483648) in *.
    compare_all.
  - other_length.
  - other_length.
  - other_length.
  - (* eight bytes *)
    assert (Hx : 0 <= a < 256 /\ 0 <= b < 256 /\ 0 <= c < 256 /\ 0 <= d < 256 /\
                 0 <= e < 256 /\ 0 <= f < 256 /\ 0 <= g < 256 /\ 0 <= h < 256)
      by (repeat match goal with
                 | K : bytes (_ :: _) |- _ => inversion K; clear K; subst
                 | K : Forall _ (_ :: _) |- _ => inversion K; clear K; subst
                 end; unfold is_byte in *; repeat split; lia).
    destruct Hx as (Ha & Hb1 & Hc & Hd & He & Hf & Hg & Hh).
    change (sub [a; b; c; d; e; f; g; h] 0 8) with [a; b; c; d; e; f; g; h].
    pose proof (Uint64_bound [a; b; c; d; e; f; g; h] Hb) as Hu.
    pose proof (signed_range 64 (BigEndian.Uint64 [a; b; c; d; e; f; g; h]) ltac:(lia))
      as Hs.
    pose proof (signed_unsigned 64 (BigEndian.Uint64 [a; b; c; d; e; f; g; h])
                  ltac:(lia) Hu) as Hm.
    set (v := signed 64 (BigEndian.Uint64 [a; b; c; d; e; f; g; h])) in *.
    change (64 - 1) with 63 in Hs. change (32 - 1) with 31.
    eexists. split; [reflexivity |].
    rewrite encode_FormatInt by exact Hs.
    unfold u64. rewrite Hm, PutUint64_Uint64 by assumption.
    change (2 ^ 7) with 128 in *. change (2 ^ 15) with 32768 in *.
    change (2 ^ 31) with 2147483648 in *.
    change (- (128)) with (-128) in *. change (- (32768)) with (-32768) in *.
    change (- (2147483648)) with (-2147483648) in *.
    compare_all.
  - other_length.
Qed.

End IntegerWire.

Lemma Integer_wire_round_trip_witness :
  exists str,
    Value.convertTLVValueToString Scenario.std [0x01; 0x2C] Value.lwm2mResourceTypeInteger
    = Some str /\
    (Value.convertStringToTLVValue Scenario.std str Value.lwm2mResourceTypeInteger
     = Some [0x01; 0x2C]
     <-> shortest [0x01; 0x2C] = true).
Proof.
  apply (Integer_wire_round_trip Scenario.std Value.lwm2mResourceTypeInteger).
  - left. reflexivity.
  - repeat constructor; unfold is_byte; lia.
Defined.

(** A two-byte wire of a small number comes back as one byte. *)
Example Integer_wire_shortened (std : StdLib) :
  Value.convertTLVValueToString std [0x00; 0x05] Value.lwm2mResourceTypeInteger
  = Some "5"%string /\
  Value.convertStringToTLVValue std "5" Value.lwm2mResourceTypeInteger = Some [0x05].
Proof. split; reflexivity. Qed.

(** ** CoAP message layer *)

Import Coap.

(** The witnesses and the scenarios run on the library that sorts by
    insertion at every length. *)
#[local] Existing Instance insertion.

Lemma nibbles (hi lo : Z) :
  0 <= hi < 16 -> 0 <= lo < 16 ->
  u8 (u8 (0 + u8 (Z.shiftl hi 4)) + u8 lo) = 16 * hi + lo /\
  Z.shiftr (16 * hi + lo) 4 = hi /\ Z.land (16 * hi + lo) 0x0F = lo.
Proof.
  intros Hh Hl. rewrite Z.shiftl_mul_pow2, Z.shiftr_div_pow2 by lia.
  change 0x0F with (Z.ones 4). rewrite Z.land_ones by lia.
  unfold u8. change (2 ^ 4) with 16. change (2 ^ 8) with 256.
  rewrite Z.add_0_l. rewrite (Z.mod_small (hi * 16)) by lia.
  rewrite (Z.mod_small (hi * 16)) by lia. rewrite (Z.mod_small lo) by lia.
  rewrite (Z.mod_small (hi * 16 + lo)) by lia.
  repeat split; try lia; Z.div_mod_to_equations; lia.
Qed.

(** A delta or a length on one extension byte, below 256. *)
Lemma byte_extension (d : Z) :
  13 <= d < 256 -> u8 (u8 (d - 13) + 13) = d.
Proof.
  intros H. unfold u8. change (2 ^ 8) with 256.
  rewrite (Z.mod_small (d - 13)) by lia.
  replace (d - 13 + 13) with d by lia. apply Z.mod_small. lia.
Qed.

(** A delta or a length on two extension bytes whose high byte is zero. *)
Lemma word_extension (d : Z) :
  269 <= d < 525 ->
  u64 (Z.shiftr (u8 (Z.shiftr (d - 269) 8)) 8 + u8 (Z.land (d - 269) 0x00FF) + 269) = d.
Proof.
  intros H. rewrite land_255.
  assert (E : Z.shiftr (d - 269) 8 = 0).
  { rewrite Z.shiftr_div_pow2 by lia. apply Z.div_small. change (2 ^ 8) with 256. lia. }
  rewrite E. change (Z.shiftr (u8 0) 8) with 0.
  unfold u8, u64. change (2 ^ 8) with 256.
  rewrite Z.mod_mod by lia. rewrite (Z.mod_small (d - 269)) by lia.
  replace (0 + (d - 269) + 269) with d by lia. apply Z.mod_small.
  change (2 ^ 64) with 18446744073709551616. lia.
Qed.

(** One option: [ParseOption] reads back what [BuildOption] wrote and
    consumes exactly its bytes. *)
Lemma ParseOption_BuildOption (o : CoapOption) (base : Z) (rest : list byte) :
  0 <= base -> agrees base o = true ->
  ParseOption (BuildOption o base ++ rest) base = Some (o, len (BuildOption o base)).
Proof.
  intros Hb Ha. destruct o as [no v]. unfold agrees in Ha. cbn [No Value] in Ha.
  unfold coapOptWordBase, coapOptByteBase in Ha.
  change (2 ^ 64) with 18446744073709551616 in Ha.
  rewrite !andb_true_iff, !orb_true_iff, !andb_true_iff in Ha.
  rewrite !Z.ltb_lt, !Z.leb_le in Ha.
  destruct Ha as [[Hno Hd] Hl].
  pose proof (len_nonneg v) as Hv.
  assert (Hu : u64 (base + (no - base)) = no).
  { unfold u64. replace (base + (no - base)) with no by lia.
    apply Z.mod_small. change (2 ^ 64) with 18446744073709551616. lia. }
  unfold BuildOption. cbn [No Value].
  unfold coapOptWordBase, coapOptByteBase, coapOptCodeByte, coapOptCodeWord.
  replace (u64 (no - base)) with (no - base)
    by (unfold u64; rewrite Z.mod_small; change (2 ^ 64) with 18446744073709551616; lia).
  destruct (Z.ltb_spec (no - base) 13) as [D13 | D13];
    [| destruct (Z.ltb_spec (no - base) 269) as [D269 | D269]];
    (destruct (Z.ltb_spec (len v) 13) as [L13 | L13]);
    try replace (no - base <? 269) with true by (symmetry; apply Z.ltb_lt; lia);
    cbv beta iota zeta; cbn [app];
    match goal with
    | |- context [u8 (u8 (0 + u8 (Z.shiftl ?hi 4)) + u8 ?lo)] =>
      destruct (nibbles hi lo ltac:(lia) ltac:(lia)) as [E1 [E2 E3]]
    end;
    rewrite !E1; clear E1; unfold ParseOption; rewrite index_0; cbv beta iota zeta;
    rewrite ?E2, ?E3; clear E2 E3;
    unfold coapOptWordBase, coapOptByteBase, coapOptCodeByte, coapOptCodeWord;
    repeat match goal with
           | |- context [Z.eqb ?a ?b] => destruct (Z.eqb_spec a b); try lia
           end;
    rewrite ?index_1, ?index_2, ?index_3, ?index_4; cbv beta iota zeta;
    rewrite ?(byte_extension (len v)), ?(byte_extension (no - base)),
      ?(word_extension (len v)), ?(word_extension (no - base)) by lia;
    rewrite Hu;
    match goal with
    | |- context [slice (?a :: v ++ rest) ?lo ?hi] =>
      replace (slice (a :: v ++ rest) lo hi) with (Some v)
        by (symmetry; exact (slice_app_mid [a] v rest lo hi eq_refl eq_refl))
    | |- context [slice (?a :: ?b :: v ++ rest) ?lo ?hi] =>
      replace (slice (a :: b :: v ++ rest) lo hi) with (Some v)
        by (symmetry; exact (slice_app_mid [a; b] v rest lo hi eq_refl eq_refl))
    | |- context [slice (?a :: ?b :: ?c :: v ++ rest) ?lo ?hi] =>
      replace (slice (a :: b :: c :: v ++ rest) lo hi) with (Some v)
        by (symmetry; exact (slice_app_mid [a; b; c] v rest lo hi eq_refl eq_refl))
    | |- context [slice (?a :: ?b :: ?c :: ?d :: ?e :: v ++ rest) ?lo ?hi] =>
      replace (slice (a :: b :: c :: d :: e :: v ++ rest) lo hi) with (Some v)
        by (symmetry; exact (slice_app_mid [a; b; c; d; e] v rest lo hi eq_refl eq_refl))
    end;
    f_equal; f_equal; rewrite !len_cons; lia.
Qed.

(** The first byte of an option is never the payload marker. *)
Lemma BuildOption_head (o : CoapOption) (base : Z) :
  exists r0 bytes, BuildOption o base = r0 :: bytes /\ r0 <> 0xFF.
Proof.
  unfold BuildOption.
  assert (Hd : 0 <= u64 (No o - base)) by (unfold u64; apply Z.mod_pos_bound; lia).
  revert Hd. generalize (u64 (No o - base)). intros delta Hd.
  pose proof (len_nonneg (Value o)) as Hl.
  unfold coapOptWordBase, coapOptByteBase, coapOptCodeByte, coapOptCodeWord.
  destruct (Z.ltb_spec delta 13); [| destruct (Z.ltb_spec delta 269)];
    (destruct (Z.ltb_spec (len (Value o)) 13));
    try replace (delta <? 269) with true by (symmetry; apply Z.ltb_lt; lia);
    cbv beta iota zeta;
    match goal with
    | |- context [u8 (u8 (0 + u8 (Z.shiftl ?hi 4)) + u8 ?lo)] =>
      destruct (nibbles hi lo ltac:(lia) ltac:(lia)) as [E1 _]
    end;
    do 2 eexists; (split; [reflexivity | rewrite E1; lia]).
Qed.

(** The loop of [ParseOptions] over the bytes of [BuildOptions_loop], in the
    middle of a datagram: it stops at the end or at the payload marker. *)
Lemma ParseOptions_loop_BuildOptions_loop (options : list CoapOption) :
  forall (base : Z) (pre : list byte) (acc : list CoapOption) (tail : list byte)
         (fuel : nat),
  0 <= base -> agree base options = true ->
  (List.length options < fuel)%nat ->
  tail = [] \/ (exists payload, tail = 0xFF :: payload) ->
  ParseOptions_loop fuel (pre ++ BuildOptions_loop options base ++ tail) (len pre) base acc
  = Some (acc ++ options, len pre + len (BuildOptions_loop options base)).
Proof.
  induction options as [| o options IH]; intros base pre acc tail fuel Hb Ha Hf Ht;
    (destruct fuel as [| fuel]; [cbn [List.length] in Hf; lia |]);
    cbn [ParseOptions_loop BuildOptions_loop].
  - cbn [app]. rewrite app_nil_r, len_nil, Z.add_0_r.
    destruct Ht as [-> | [payload ->]].
    + rewrite app_nil_r.
      replace (len pre >? len pre) with false by (symmetry; rewrite Z.gtb_ltb; apply Z.ltb_irrefl).
      reflexivity.
    + rewrite (at_app pre 0xFF payload (len pre) eq_refl).
      rewrite andb_false_r. reflexivity.
  - cbn [agree] in Ha. apply andb_true_iff in Ha. destruct Ha as [Ho Ha].
    destruct (BuildOption_head o base) as [r0 [bytes [E Hr0]]].
    pose proof (ParseOption_BuildOption o base (BuildOptions_loop options (No o) ++ tail) Hb Ho)
      as Hp.
    assert (Hno : 0 <= No o).
    { unfold agrees in Ho. rewrite !andb_true_iff in Ho. destruct Ho as [[_ Hd] _].
      unfold coapOptWordBase in Hd.
      rewrite orb_true_iff, !andb_true_iff, !Z.leb_le, !Z.ltb_lt in Hd. lia. }
    rewrite <- !app_assoc.
    rewrite slice_from_app by reflexivity.
    rewrite Hp. cbv beta iota.
    replace ((len (pre ++ BuildOption o base ++ BuildOptions_loop options (No o) ++ tail)
              >? len pre)
             && negb (at_ (pre ++ BuildOption o base ++ BuildOptions_loop options (No o) ++ tail)
                          (len pre) =? 0xFF))
      with true.
    2: { symmetry. apply andb_true_iff. split.
         - rewrite Z.gtb_ltb. apply Z.ltb_lt. rewrite !len_app, E, len_cons.
           pose proof (len_nonneg bytes). pose proof (len_nonneg tail).
           pose proof (len_nonneg (BuildOptions_loop options (No o))). lia.
         - rewrite E. cbn [app]. rewrite (at_app pre r0 _ (len pre) eq_refl).
           apply negb_true_iff. apply Z.eqb_neq. exact Hr0. }
    rewrite (app_assoc pre (BuildOption o base)).
    rewrite <- len_app.
    rewrite (IH (No o) (pre ++ BuildOption o base) (acc ++ [o]) tail fuel Hno Ha
               ltac:(cbn [List.length] in Hf; lia) Ht).
    rewrite <- app_assoc. cbn [app]. rewrite !len_app. f_equal. f_equal. lia.
Qed.

Lemma BuildOptions_loop_length (options : list CoapOption) (base : Z) :
  (List.length options <= List.length (BuildOptions_loop options base))%nat.
Proof.
  revert base. induction options as [| o options IH]; intros base;
    cbn [BuildOptions_loop List.length]; [lia |].
  destruct (BuildOption_head o base) as [r0 [bytes [E _]]].
  rewrite E. cbn [app List.length]. rewrite length_app. specialize (IH (No o)). lia.
Qed.

(** The insertion sort gives the options it was given, in ascending order
    of number. *)
Lemma insert_by_No_Permutation (o : CoapOption) (l : list CoapOption) :
  Permutation (insert_by_No o l) (o :: l).
Proof.
  induction l as [| x l IH]; cbn [insert_by_No]; [reflexivity |].
  destruct (No o <? No x); [reflexivity |].
  rewrite IH. apply perm_swap.
Qed.

Lemma insert_by_No_ascending (o : CoapOption) (l : list CoapOption) :
  ascending l -> ascending (insert_by_No o l).
Proof.
  unfold ascending. induction l as [| x l IH]; intros Hl; cbn [insert_by_No].
  - constructor; constructor.
  - apply StronglySorted_inv in Hl. destruct Hl as [Hl Hx].
    destruct (Z.ltb_spec (No o) (No x)) as [Hlt | Hge].
    + constructor; [constructor; assumption |].
      constructor; [lia |].
      apply Forall_impl with (P := fun b => No x <= No b); [intros b Hb; lia | exact Hx].
    + constructor; [apply IH; exact Hl |].
      apply (Permutation_Forall (Permutation_sym (insert_by_No_Permutation o l))).
      constructor; [lia | exact Hx].
Qed.

Lemma insertionSort_sorts : sorts insertion.
Proof.
  assert (H : forall l acc,
             Permutation (fold_left (fun acc o => insert_by_No o acc) l acc) (acc ++ l) /\
             (ascending acc ->
              ascending (fold_left (fun acc o => insert_by_No o acc) l acc))).
  { induction l as [| o l IH]; intros acc; cbn [fold_left].
    - rewrite app_nil_r. split; [reflexivity | exact (fun H => H)].
    - destruct (IH (insert_by_No o acc)) as [Hp Hs]. split.
      + rewrite Hp, insert_by_No_Permutation. cbn [app]. apply Permutation_middle.
      + intros Ha. apply Hs. apply insert_by_No_ascending. exact Ha. }
  intros options. destruct (H options []) as [Hp Hs].
  split; [exact Hp | apply Hs; constructor].
Qed.

Section Options.

Context {sorting : Sorting}.

(** What the library promises holds of [sort.Slice] at every length. *)
Lemma sort_Slice_sorts (options : list CoapOption) :
  sorts sorting ->
  Permutation (sort_Slice options) options /\ ascending (sort_Slice options).
Proof.
  intros Hs. unfold sort_Slice. destruct (len options <=? 6).
  - exact (insertionSort_sorts options).
  - exact (Hs options).
Qed.

(** C3.  Parsing the bytes [BuildOptions] produces gives the options as
    [sort.Slice] left them, which are the options given in ascending order
    of number, and the length of those bytes, whenever every delta and
    every length of the sorted list is one the two functions agree on
    ([agree]): nibble forms, one extension byte below 256, two extension
    bytes with a zero high byte.  Outside of these the round trip fails, as
    the examples that follow show. *)
Theorem ParseOptions_BuildOptions (options : list CoapOption) :
  sorts sorting ->
  agree 0 (sort_Slice options) = true ->
  ParseOptions [] (BuildOptions options)
  = Some (sort_Slice options, len (BuildOptions options)) /\
  Permutation (sort_Slice options) options /\ ascending (sort_Slice options).
Proof.
  intros Hs Ha. split; [| exact (sort_Slice_sorts options Hs)].
  unfold ParseOptions, BuildOptions.
  pose proof (ParseOptions_loop_BuildOptions_loop (sort_Slice options) 0 [] [] []
                (S (List.length (BuildOptions_loop (sort_Slice options) 0)))
                ltac:(lia) Ha) as H.
  cbn [app] in H. rewrite app_nil_r in H. change (len (@nil Z)) with 0 in H.
  rewrite H.
  - cbv beta iota. rewrite Z.add_0_l.
    replace (len (BuildOptions_loop (sort_Slice options) 0)
             >? len (BuildOptions_loop (sort_Slice options) 0)) with false
      by (symmetry; rewrite Z.gtb_ltb; apply Z.ltb_irrefl).
    reflexivity.
  - pose proof (BuildOptions_loop_length (sort_Slice options) 0). lia.
  - left. reflexivity.
Qed.

(** A single option of number 256.  [BuildOption] writes the delta 256 on
    one extension byte, 243, and [ParseOption] adds 13 to it as a byte: the
    option parsed has number 0. *)
Example ParseOptions_BuildOptions_delta_256 :
  let options := [ {| Coap.No := 256; Coap.Value := [] |} ] in
  Coap.sort_Slice options = options /\
  Coap.BuildOptions options = [0xD0; 0xF3] /\
  Coap.ParseOptions [] (Coap.BuildOptions options)
  = Some ([ {| Coap.No := 0; Coap.Value := [] |} ], 2).
Proof. repeat split. Qed.

(** A delta on two extension bytes: the high byte is read as
    [uint(raw[1]) >> 8], which is 0. *)
Example ParseOptions_BuildOptions_delta_600 :
  let options := [ {| Coap.No := 600; Coap.Value := [] |} ] in
  Coap.BuildOptions options = [0xE0; 0x01; 0x4B] /\
  Coap.ParseOptions [] (Coap.BuildOptions options)
  = Some ([ {| Coap.No := 344; Coap.Value := [] |} ], 3).
Proof. repeat split. Qed.

(** A value of 20 bytes after a delta of 300: [BuildOption] chooses the
    width of the length by the delta, and the parser then reads past the
    end of the datagram. *)
Example ParseOptions_BuildOptions_length_after_wide_delta :
  let options := [ {| Coap.No := 300; Coap.Value := make 20 |} ] in
  firstn 5 (Coap.BuildOptions options) = [0xEE; 0x00; 0x1F; 0xFF; 0x07] /\
  Coap.ParseOptions [] (Coap.BuildOptions options) = None.
Proof. repeat split. Qed.

End Options.

Lemma ParseOptions_BuildOptions_witness :
  let options := [ {| No := 11; Value := [51] |}; {| No := 300; Value := [1; 2] |};
                   {| No := 6; Value := [] |}; {| No := 11; Value := make 40 |} ] in
  let sorted := [ {| No := 6; Value := [] |}; {| No := 11; Value := [51] |};
                  {| No := 11; Value := make 40 |}; {| No := 300; Value := [1; 2] |} ] in
  sorts insertion /\
  agree 0 (sort_Slice (sorting := insertion) options) = true /\
  ParseOptions [] (BuildOptions (sorting := insertion) options)
  = Some (sorted, len (BuildOptions (sorting := insertion) options)) /\
  Permutation sorted options /\ ascending sorted.
Proof.
  intros options sorted.
  split; [exact insertionSort_sorts |]. split; [reflexivity |].
  exact (ParseOptions_BuildOptions (sorting := insertion) options insertionSort_sorts
           eq_refl).
Defined.

(** C10, at the datagram [40 01 00 00 D0].  It ends after the first byte of
    an option whose delta needs an extension byte: [ParseOption] reads
    [raw[1]] of a slice of length 1, a run-time panic. *)
Theorem ParseMessage_truncated_option_panics :
  Coap.ParseOption [0xD0] 0 = None /\
  Coap.ParseMessage [0x40; 0x01; 0x00; 0x00; 0xD0] = None.
Proof. split; reflexivity. Qed.

(** Truncated extension bytes of the length and truncated values panic as
    well; a datagram shorter than its header or its token is answered by
    [nil]. *)
Example ParseMessage_truncations :
  Coap.ParseMessage [0x40; 0x01; 0x00; 0x00; 0x0E; 0x01] = None /\
  Coap.ParseMessage [0x40; 0x01; 0x00; 0x00; 0x05; 0x01] = None /\
  Coap.ParseMessage [0x40; 0x01; 0x00] = Some None /\
  Coap.ParseMessage [0x48; 0x01; 0x00; 0x00] = Some None.
Proof. repeat split. Qed.

(** A datagram shorter than the header, or shorter than the header and the
    token it announces, is answered by [nil]. *)
Lemma ParseMessage_short (raw : list byte) :
  len raw < 4 \/ len raw < 4 + Z.land (at_ raw 0) 0x0F ->
  ParseMessage raw = Some None.
Proof.
  intros H. unfold ParseMessage.
  destruct (Z.ltb_spec (len raw) 4) as [H4 | H4]; [reflexivity |].
  cbv zeta.
  destruct (Z.ltb_spec (len raw) (4 + Z.land (at_ raw 0) 15)) as [Ht | Ht];
    [reflexivity | lia].
Qed.

(** ** CoAP messages on the wire *)

Section Wire.

Context {sorting : Sorting}.

(** [ParseOptions] over the bytes of [BuildOptions] followed by the end of
    the datagram or by the payload marker. *)
Lemma ParseOptions_BuildOptions_tail (options : list CoapOption) (payload : list byte) :
  agree 0 (sort_Slice options) = true ->
  ParseOptions [] (BuildOptions options ++ (if len payload >? 0 then 0xFF :: payload else []))
  = Some (sort_Slice options,
          len (BuildOptions options) + (if len payload >? 0 then 1 else 0)).
Proof.
  intros Ha. unfold ParseOptions, BuildOptions.
  set (tail := if len payload >? 0 then 0xFF :: payload else []).
  set (built := BuildOptions_loop (sort_Slice options) 0).
  assert (Ht : tail = [] \/ (exists p, tail = 0xFF :: p)).
  { unfold tail. destruct (len payload >? 0); [right; eexists; reflexivity | left; reflexivity]. }
  pose proof (ParseOptions_loop_BuildOptions_loop (sort_Slice options) 0 [] [] tail
                (S (List.length (built ++ tail))) ltac:(lia) Ha) as H.
  cbn [app] in H. change (len (@nil Z)) with 0 in H. fold built in H.
  rewrite H.
  - cbv beta iota. rewrite Z.add_0_l. unfold tail.
    destruct (len payload >? 0) eqn:E.
    + rewrite (at_app built 0xFF payload (len built) eq_refl).
      rewrite len_app, len_cons.
      replace (len built + (1 + len payload) >? len built) with true
        by (symmetry; rewrite Z.gtb_ltb; apply Z.ltb_lt; pose proof (len_nonneg payload); lia).
      reflexivity.
    + rewrite app_nil_r.
      replace (len built >? len built) with false
        by (symmetry; rewrite Z.gtb_ltb; apply Z.ltb_irrefl).
      rewrite Z.add_0_r. reflexivity.
  - pose proof (BuildOptions_loop_length (sort_Slice options) 0) as Hl.
    fold built in Hl. rewrite length_app. lia.
  - exact Ht.
Qed.

Lemma header_byte (v t k : Z) :
  0 <= v < 4 -> 0 <= t < 4 -> 0 <= k < 16 ->
  let r0 := u8 (u8 (u8 (Z.shiftl v 6) + u8 (Z.shiftl t 4)) + k) in
  Z.shiftr r0 6 = v /\ Z.land (Z.shiftr r0 4) 0x03 = t /\ Z.land r0 0x0F = k.
Proof.
  intros Hv Ht Hk. cbv zeta.
  rewrite !Z.shiftl_mul_pow2 by lia.
  unfold u8. change (2 ^ 8) with 256. change (2 ^ 6) with 64. change (2 ^ 4) with 16.
  rewrite (Z.mod_small (v * 64)) by lia. rewrite (Z.mod_small (t * 16)) by lia.
  rewrite (Z.mod_small (v * 64 + t * 16)) by lia.
  rewrite (Z.mod_small (v * 64 + t * 16 + k)) by lia.
  rewrite !Z.shiftr_div_pow2 by lia.
  change 0x03 with (Z.ones 2). change 0x0F with (Z.ones 4).
  rewrite !Z.land_ones by lia.
  change (2 ^ 6) with 64. change (2 ^ 4) with 16. change (2 ^ 2) with 4.
  repeat split; Z.div_mod_to_equations; lia.
Qed.

Lemma MessageID_bytes (id : Z) :
  0 <= id < 2 ^ 16 ->
  u16 (u16 (Z.shiftl (u8 (Z.shiftr id 8)) 8) + u8 id) = id.
Proof.
  intros H. rewrite Z.shiftl_mul_pow2, Z.shiftr_div_pow2 by lia.
  unfold u8, u16. change (2 ^ 8) with 256. change (2 ^ 16) with 65536 in *.
  rewrite (Z.mod_small (id / 256)) by (Z.div_mod_to_equations; lia).
  rewrite (Z.mod_small (id / 256 * 256)) by (Z.div_mod_to_equations; lia).
  rewrite Z.mod_small; Z.div_mod_to_equations; lia.
Qed.

Lemma ParseMessage_of_ConvertToBytes (message : CoapMessage) :
  wellFormed message ->
  ParseMessage (ConvertToBytes message)
  = Some (Some {| Version := Version message; Type_ := Type_ message;
                  TokenLength := TokenLength message; Code := Code message;
                  MessageID := MessageID message; Token := Token message;
                  Options := sort_Slice (Options message);
                  Payload := Payload message |}).
Proof.
  intros (Hv & Ht & Hk & Hk16 & Hc & Hid & Ha).
  destruct message as [v t k c id token options payload]. cbn [Version Type_ TokenLength
    Code MessageID Token Options Payload] in *.
  pose proof (len_nonneg token) as Htok. pose proof (len_nonneg payload) as Hpay.
  destruct (header_byte v t k Hv Ht ltac:(lia)) as (E1 & E2 & E3). cbv zeta in E1, E2, E3.
  unfold ConvertToBytes. cbn [Version Type_ TokenLength Code MessageID Token Options Payload].
  set (r0 := u8 (u8 (u8 (Z.shiftl v 6) + u8 (Z.shiftl t 4)) + k)) in *.
  set (built := BuildOptions options).
  set (tail := if len payload >? 0 then 0xFF :: payload else []).
  assert (Eraw : (if len payload >? 0
                  then ((([r0; u8 c] ++ BigEndian.PutUint16 id) ++ token) ++ built)
                       ++ [255] ++ payload
                  else (([r0; u8 c] ++ BigEndian.PutUint16 id) ++ token) ++ built)
                 = [r0; u8 c; u8 (Z.shiftr id 8); u8 id] ++ token ++ built ++ tail).
  { unfold tail. destruct (len payload >? 0); cbn [app BigEndian.PutUint16];
      rewrite <- ?app_assoc; cbn [app]; rewrite ?app_nil_r; reflexivity. }
  rewrite Eraw. clear Eraw.
  set (hdr := [r0; u8 c; u8 (Z.shiftr id 8); u8 id]).
  unfold ParseMessage.
  assert (Hlen : len (hdr ++ token ++ built ++ tail) = 4 + len token + len (built ++ tail)).
  { rewrite !len_app. change (len hdr) with 4. lia. }
  pose proof (len_nonneg (built ++ tail)) as Hbt.
  replace (len (hdr ++ token ++ built ++ tail) <? 4) with false
    by (symmetry; apply Z.ltb_ge; lia).
  change (at_ (hdr ++ token ++ built ++ tail) 0) with r0.
  change (at_ (hdr ++ token ++ built ++ tail) 1) with (u8 c).
  change (at_ (hdr ++ token ++ built ++ tail) 2) with (u8 (Z.shiftr id 8)).
  change (at_ (hdr ++ token ++ built ++ tail) 3) with (u8 id).
  cbv zeta. rewrite E1, E2, E3, MessageID_bytes by exact Hid.
  replace (len (hdr ++ token ++ built ++ tail) <? 4 + k) with false
    by (symmetry; apply Z.ltb_ge; lia).
  replace (u8 (4 + k)) with (4 + len token)
    by (unfold u8; rewrite Z.mod_small; change (2 ^ 8) with 256; lia).
  rewrite (slice_app_mid hdr token (built ++ tail) 4 (4 + len token) eq_refl eq_refl).
  rewrite (app_assoc hdr token).
  rewrite (slice_from_app (hdr ++ token) (built ++ tail))
    by (rewrite len_app; reflexivity).
  unfold built, tail. rewrite (ParseOptions_BuildOptions_tail options payload Ha).
  fold built. fold tail.
  rewrite (app_assoc (hdr ++ token) built tail).
  assert (Hp : slice_from (((hdr ++ token) ++ built) ++ tail)
                 (4 + k + (len built + (if len payload >? 0 then 1 else 0)))
               = Some payload).
  { unfold tail. destruct (len payload >? 0) eqn:E.
    - change (0xFF :: payload) with ([0xFF] ++ payload). rewrite app_assoc.
      apply slice_from_app. rewrite !len_app. change (len hdr) with 4.
      change (len [255]) with 1. lia.
    - rewrite app_nil_r.
      assert (payload = []) as ->.
      { destruct payload; [reflexivity |]. rewrite len_cons in E.
        pose proof (len_nonneg payload).
        rewrite Z.gtb_ltb in E. apply Z.ltb_ge in E. lia. }
      rewrite <- (app_nil_r ((hdr ++ token) ++ built)) at 1.
      apply slice_from_app. rewrite !len_app. change (len hdr) with 4. lia. }
  rewrite Hp. unfold u8 at 1. rewrite (Z.mod_small c) by (change (2 ^ 8) with 256; lia).
  rewrite Hk. reflexivity.
Qed.

(** A message [ParseMessage] returns has the token its first byte
    announces and a message identifier of 16 bits. *)
Lemma ParseMessage_request (raw : list byte) (request : CoapMessage) :
  ParseMessage raw = Some (Some request) ->
  TokenLength request = len (Token request) /\ len (Token request) < 16 /\
  0 <= MessageID request < 2 ^ 16.
Proof.
  unfold ParseMessage. intros H.
  pose proof (land_15_bound (at_ raw 0)) as Ht.
  set (tokenLength := Z.land (at_ raw 0) 0x0F) in *. clearbody tokenLength.
  destruct (len raw <? 4); [discriminate H |].
  cbv zeta in H.
  destruct (len raw <? 4 + tokenLength); [discriminate H |].
  destruct (slice raw 4 (u8 (4 + tokenLength))) as [token |] eqn:Hs; [| discriminate H].
  destruct (slice_from raw (u8 (4 + tokenLength))) as [rest |]; [| discriminate H].
  destruct (ParseOptions [] rest) as [[options n] |]; [| discriminate H].
  destruct (slice_from raw (4 + tokenLength + n)) as [payload |]; [| discriminate H].
  apply (f_equal (fun r => match r with Some (Some m) => m | _ => request end)) in H.
  cbv beta iota in H. subst request. cbv [TokenLength Token MessageID].
  apply slice_bounds in Hs. unfold u8 in Hs.
  rewrite Z.mod_small in Hs by (change (2 ^ 8) with 256; lia).
  split; [lia |]. split; [lia |]. unfold u16 at 1. apply Z.mod_pos_bound. lia.
Qed.

(** The datagram [SendResponse] writes for a request that came from the
    wire, read from the wire again: an acknowledgement with the message
    identifier and the token of the request, the code, the options in
    ascending order and the payload. *)
Lemma SendResponse_on_the_wire (coap : Coap) (raw : list byte) (request : CoapMessage)
    (code : CoapCode) (options : list CoapOption) (payload : list byte) :
  ParseMessage raw = Some (Some request) ->
  0 <= code < 256 ->
  agree 0 (sort_Slice options) = true ->
  exists datagram,
    SendResponse coap request code options payload
    = {| NextMessageID := NextMessageID coap; Written := Written coap ++ [datagram] |} /\
    ParseMessage datagram
    = Some (Some {| Version := 1; Type_ := CoapTypeAcknowledgement;
                    TokenLength := TokenLength request; Code := code;
                    MessageID := MessageID request; Token := Token request;
                    Options := sort_Slice options; Payload := payload |}).
Proof.
  intros Hp Hc Ha. destruct (ParseMessage_request raw request Hp) as (Hk & Hk16 & Hid).
  eexists. split; [reflexivity |].
  rewrite ParseMessage_of_ConvertToBytes; [reflexivity |].
  unfold wellFormed, response.
  cbn [Version Type_ TokenLength Code MessageID Token Options Payload].
  unfold CoapTypeAcknowledgement. repeat split; try lia. exact Ha.
Qed.

(** A well-formed message survives the wire: [ParseMessage] gives back every
    field of what [ConvertToBytes] wrote, the payload, empty or not, and
    the options as the [sort.Slice] of [BuildOptions] left them: the
    options of the message in ascending order of number. *)
Theorem ParseMessage_ConvertToBytes (message : CoapMessage) :
  sorts sorting ->
  wellFormed message ->
  ParseMessage (ConvertToBytes message)
  = Some (Some {| Version := Version message; Type_ := Type_ message;
                  TokenLength := TokenLength message; Code := Code message;
                  MessageID := MessageID message; Token := Token message;
                  Options := sort_Slice (Options message);
                  Payload := Payload message |}) /\
  Permutation (sort_Slice (Options message)) (Options message) /\
  ascending (sort_Slice (Options message)).
Proof.
  intros Hs Hw.
  split; [exact (ParseMessage_of_ConvertToBytes message Hw)
         | exact (sort_Slice_sorts (Options message) Hs)].
Qed.

End Wire.

Lemma ParseMessage_ConvertToBytes_witness :
  let message :=
    {| Version := 1; Type_ := CoapTypeConfirmable; TokenLength := 2; Code := CoapCodePut;
       MessageID := 0xBEEF; Token := [7; 8];
       Options := [ {| No := 11; Value := [51] |}; {| No := 6; Value := [] |};
                    {| No := 11; Value := [48] |} ];
       Payload := [0xC1; 0x09; 0x2B] |} in
  let sorted := [ {| No := 6; Value := [] |}; {| No := 11; Value := [51] |};
                  {| No := 11; Value := [48] |} ] in
  sorts insertion /\
  wellFormed message /\
  ParseMessage (ConvertToBytes message)
  = Some (Some {| Version := 1; Type_ := CoapTypeConfirmable; TokenLength := 2;
                  Code := CoapCodePut; MessageID := 0xBEEF; Token := [7; 8];
                  Options := sorted; Payload := [0xC1; 0x09; 0x2B] |}) /\
  Permutation sorted (Options message) /\ ascending sorted.
Proof.
  intros message sorted.
  assert (W : wellFormed message).
  { unfold wellFormed, message, CoapCodePut, CoapTypeConfirmable.
    cbn [Version Type_ TokenLength Code MessageID Token Options].
    repeat split; try lia; reflexivity. }
  split; [exact insertionSort_sorts |]. split; [exact W |].
  exact (ParseMessage_ConvertToBytes message insertionSort_sorts W).
Defined.

(** When [ParseOption] returns, it has consumed at least the first byte and
    at most the bytes it was given; the value is part of them. *)
Lemma ParseOption_consumed (raw : list byte) (base : Z) (o : CoapOption) (n : Z) :
  ParseOption raw base = Some (o, n) ->
  1 <= n <= len raw /\ len (Value o) <= n - 1.
Proof.
  unfold ParseOption. intros H.
  destruct (index raw 0) as [r0 |]; [| discriminate].
  cbv zeta in H.
  pose proof (land_15_bound r0) as Hl.
  unfold coapOptCodeByte, coapOptCodeWord, coapOptByteBase, coapOptWordBase in H.
  repeat match type of H with
         | context [if ?c then _ else _] => destruct c
         | context [match index ?l ?i with _ => _ end] =>
           destruct (index l i); [| discriminate]
         end;
    match type of H with
    | context [slice raw ?lo (?lo + ?length)] =>
      destruct (slice raw lo (lo + length)) as [v |] eqn:Hs; [| discriminate];
      apply slice_bounds in Hs;
      assert (0 <= length)
        by (first [ exact (proj1 Hl) | apply u8_bound | apply u64_nonneg ])
    end;
    match type of H with
    | Some (_, ?e) = _ => remember e as consumed eqn:Hc
    end;
    injection H as <- <-; cbv [Value]; lia.
Qed.

Lemma ParseOptions_loop_bounds (fuel : nat) (raw : list byte) :
  forall (length base : Z) (options options' : list CoapOption) (n : Z),
  0 <= length <= len raw ->
  ParseOptions_loop fuel raw length base options = Some (options', n) ->
  length <= n <= len raw /\ exists parsed, options' = options ++ parsed.
Proof.
  induction fuel as [| fuel IH]; intros length base options options' n Hlen H;
    cbn [ParseOptions_loop] in H; [discriminate |].
  destruct ((len raw >? length) && negb (at_ raw length =? 255)) eqn:E.
  - destruct (slice_from raw length) as [rest |] eqn:Hr; [| discriminate].
    apply slice_from_bounds in Hr.
    destruct (ParseOption rest base) as [[o ol] |] eqn:Ho; [| discriminate].
    apply ParseOption_consumed in Ho.
    apply IH in H; [| lia].
    destruct H as [Hn [parsed ->]]. split; [lia |].
    exists (o :: parsed). rewrite <- app_assoc. reflexivity.
  - injection H as <- <-. split; [lia |]. exists []. symmetry. apply app_nil_r.
Qed.

(** The length [ParseOptions] returns is within the bytes it was given, and
    the options it found are appended to those of the message. *)
Lemma ParseOptions_bounds (options options' : list CoapOption) (raw : list byte) (n : Z) :
  ParseOptions options raw = Some (options', n) ->
  0 <= n <= len raw /\ exists parsed, options' = options ++ parsed.
Proof.
  unfold ParseOptions. intros H.
  destruct (ParseOptions_loop (S (List.length raw)) raw 0 0 options) as [[o l] |] eqn:E;
    [| discriminate].
  apply ParseOptions_loop_bounds in E; [| pose proof (len_nonneg raw); lia].
  destruct E as [Hl Hp].
  destruct ((len raw >? l) && (at_ raw l =? 255)) eqn:Em; injection H as <- <-;
    (split; [| exact Hp]); [| lia].
  apply andb_true_iff in Em. destruct Em as [Em _].
  rewrite Z.gtb_ltb in Em. apply Z.ltb_lt in Em. lia.
Qed.

(** The loop of [ParseOptions] never runs out of turns: with more turns than
    bytes left it behaves the same whatever their number. *)
Lemma ParseOptions_loop_fuel (fuel1 : nat) (raw : list byte) :
  forall (fuel2 : nat) (length base : Z) (options : list CoapOption),
  0 <= length ->
  (Z.to_nat (len raw - length) < fuel1)%nat ->
  (Z.to_nat (len raw - length) < fuel2)%nat ->
  ParseOptions_loop fuel1 raw length base options
  = ParseOptions_loop fuel2 raw length base options.
Proof.
  induction fuel1 as [| fuel1 IH]; intros fuel2 length base options Hl H1 H2; [lia |].
  destruct fuel2 as [| fuel2]; [lia |].
  cbn [ParseOptions_loop].
  destruct ((len raw >? length) && negb (at_ raw length =? 255)) eqn:E; [| reflexivity].
  apply andb_true_iff in E. destruct E as [E _].
  rewrite Z.gtb_ltb in E. apply Z.ltb_lt in E.
  destruct (slice_from raw length) as [rest |] eqn:Hr; [| reflexivity].
  apply slice_from_bounds in Hr.
  destruct (ParseOption rest base) as [[o ol] |] eqn:Ho; [| reflexivity].
  apply ParseOption_consumed in Ho.
  apply IH; lia.
Qed.

(** [ParseMessage] panics in the option parser and nowhere else: the
    header, the token and the payload are always read in range. *)
Theorem ParseMessage_panics_in_ParseOptions (raw : list byte) :
  ParseMessage raw = None <->
  4 + Z.land (at_ raw 0) 0x0F <= len raw /\
  ParseOptions [] (sub raw (4 + Z.land (at_ raw 0) 0x0F) (len raw)) = None.
Proof.
  unfold ParseMessage. pose proof (land_15_bound (at_ raw 0)) as Hk.
  set (k := Z.land (at_ raw 0) 15) in *.
  destruct (Z.ltb_spec (len raw) 4) as [H4 | H4].
  { split; [discriminate | lia]. }
  cbv zeta. fold k.
  destruct (Z.ltb_spec (len raw) (4 + k)) as [Hk4 | Hk4].
  { split; [discriminate | lia]. }
  replace (u8 (4 + k)) with (4 + k)
    by (unfold u8; rewrite Z.mod_small; change (2 ^ 8) with 256; lia).
  rewrite (slice_in_range raw 4 (4 + k)) by lia.
  unfold slice_from at 1. rewrite (slice_in_range raw (4 + k) (len raw)) by lia.
  destruct (ParseOptions [] (sub raw (4 + k) (len raw))) as [[options n] |] eqn:E.
  - apply ParseOptions_bounds in E. destruct E as [Hn _].
    assert (Hs : len (sub raw (4 + k) (len raw)) = len raw - (4 + k)).
    { pose proof (slice_in_range raw (4 + k) (len raw) ltac:(lia) ltac:(lia) ltac:(lia)) as S.
      apply slice_bounds in S. lia. }
    unfold slice_from. rewrite (slice_in_range raw (4 + k + n) (len raw)) by lia.
    split; [discriminate | intros [_ H]; discriminate].
  - split; [intros _; split; [lia | reflexivity] | reflexivity].
Qed.

(** An option with a delta and a length below 256 is one the codec agrees
    on. *)
Lemma agrees_short (base no : Z) (value : list byte) :
  0 <= no - base < 256 -> no < 2 ^ 64 -> len value < 256 ->
  agrees base {| No := no; Value := value |} = true.
Proof.
  intros Hd Hn Hl. unfold agrees. cbn [No Value].
  unfold coapOptWordBase, coapOptByteBase.
  rewrite !andb_true_iff, !orb_true_iff, !andb_true_iff, !Z.ltb_lt, !Z.leb_le.
  lia.
Qed.

(** ** What [ParseMessage] returns *)

(** [ParseMessage] returns [nil] exactly for a datagram shorter than its
    header and token.  A message it returns has fields within their bits,
    the token announced in the first byte, taken from behind the header,
    and the end of the datagram as payload. *)
Theorem ParseMessage_fields (raw : list byte) :
  bytes raw ->
  (ParseMessage raw = Some None <->
   len raw < 4 \/ len raw < 4 + Z.land (at_ raw 0) 0x0F) /\
  (forall message,
   ParseMessage raw = Some (Some message) ->
   0 <= Version message < 4 /\ 0 <= Type_ message < 4 /\
   TokenLength message = len (Token message) /\ len (Token message) < 16 /\
   0 <= Code message < 256 /\ 0 <= MessageID message < 2 ^ 16 /\
   Token message = sub raw 4 (4 + TokenLength message) /\
   exists optionsLength,
     4 + TokenLength message + optionsLength <= len raw /\
     0 <= optionsLength /\
     Payload message = sub raw (4 + TokenLength message + optionsLength) (len raw)).
Proof.
  intros Hb. unfold ParseMessage.
  pose proof (land_15_bound (at_ raw 0)) as Ht.
  set (tokenLength := Z.land (at_ raw 0) 0x0F) in *. clearbody tokenLength.
  destruct (Z.ltb_spec (len raw) 4) as [H4 | H4].
  { split; [split; [intros _; left; exact H4 | reflexivity] | discriminate]. }
  destruct (Z.ltb_spec (len raw) (4 + tokenLength)) as [Hl | Hl].
  { split; [split; [intros _; right; exact Hl | reflexivity] | discriminate]. }
  unfold u8. rewrite Z.mod_small by (change (2 ^ 8) with 256; lia).
  unfold slice_from. rewrite !slice_in_range by lia.
  set (rest := sub raw (4 + tokenLength) (len raw)).
  assert (Hrest : len rest = len raw - (4 + tokenLength)) by (apply len_sub; lia).
  destruct (ParseOptions [] rest) as [[options optionsLength] |] eqn:E.
  2: { split; [split; [discriminate | intros [K | K]; lia] | discriminate]. }
  destruct (ParseOptions_bounds _ _ _ _ E) as [Ho _].
  rewrite slice_in_range by lia.
  split; [split; [discriminate | intros [K | K]; lia] |].
  intros message H.
  apply (f_equal (fun r => match r with Some (Some m) => m | _ => message end)) in H.
  cbv beta iota in H. subst message.
  cbv [Version Type_ TokenLength Code MessageID Token Payload].
  pose proof (at_byte raw 0 Hb) as H0. pose proof (at_byte raw 1 Hb) as H1.
  pose proof (land_3_bound (Z.shiftr (at_ raw 0) 4)) as H3.
  assert (Hv : 0 <= Z.shiftr (at_ raw 0) 6 < 4).
  { rewrite Z.shiftr_div_pow2 by lia. change (2 ^ 6) with 64.
    Z.div_mod_to_equations. lia. }
  assert (Hm : 0 <= u16 (u16 (Z.shiftl (at_ raw 2) 8) + at_ raw 3) < 2 ^ 16)
    by (unfold u16 at 1; apply Z.mod_pos_bound; lia).
  assert (Hk : len (sub raw 4 (4 + tokenLength)) = tokenLength)
    by (rewrite len_sub; lia).
  split; [exact Hv |]. split; [lia |]. split; [symmetry; exact Hk |].
  split; [lia |]. split; [exact H1 |]. split; [exact Hm |]. split; [reflexivity |].
  exists optionsLength. split; [lia |]. split; [lia | reflexivity].
Qed.

Lemma ParseMessage_fields_witness :
  let raw := [0x42; 0x01; 0x12; 0x34; 0xAA; 0xBB; 0xB1; 0x33; 0xFF; 0x2B] in
  let message :=
    {| Version := 1; Type_ := 0; TokenLength := 2; Code := 1;
       MessageID := 0x1234; Token := [0xAA; 0xBB];
       Options := [ {| No := 11; Value := [0x33] |} ]; Payload := [0x2B] |} in
  ParseMessage raw = Some (Some message) /\
  0 <= Version message < 4 /\ 0 <= Type_ message < 4 /\
  TokenLength message = len (Token message) /\ len (Token message) < 16 /\
  0 <= Code message < 256 /\ 0 <= MessageID message < 2 ^ 16 /\
  Token message = sub raw 4 (4 + TokenLength message) /\
  exists optionsLength,
    4 + TokenLength message + optionsLength <= len raw /\
    0 <= optionsLength /\
    Payload message = sub raw (4 + TokenLength message + optionsLength) (len raw).
Proof.
  intros raw message. split; [reflexivity |].
  apply (proj2 (ParseMessage_fields raw
                  ltac:(repeat constructor; unfold is_byte; lia)) message).
  reflexivity.
Defined.
(** ** LwM2M agent *)

Import Coap Lwm2m Reply.

Section Deregister.

Context {A : Type} (messageID_of : A -> Z) (messageID : Z).

Lemma foundIndex_loop_none (l : list A) (i foundIndex : Z) :
  (forall o, In o l -> messageID_of o <> messageID) ->
  foundIndex_loop messageID_of messageID l i foundIndex = foundIndex.
Proof.
  revert i foundIndex. induction l as [| x l IH]; intros i fi Hno; cbn.
  - reflexivity.
  - rewrite IH by (intros o Ho; apply Hno; right; exact Ho).
    destruct (Z.eqb_spec (messageID_of x) messageID) as [E | _].
    + exfalso. apply (Hno x); [left; reflexivity | exact E].
    + reflexivity.
Qed.

Lemma foundIndex_loop_last (l1 l2 : list A) (x : A) (i foundIndex : Z) :
  messageID_of x = messageID ->
  (forall o, In o l2 -> messageID_of o <> messageID) ->
  foundIndex_loop messageID_of messageID (l1 ++ x :: l2) i foundIndex = i + len l1.
Proof.
  intros Hx Hno. revert i foundIndex.
  induction l1 as [| y l1 IH]; intros i fi.
  - cbn [app foundIndex_loop]. rewrite foundIndex_loop_none by exact Hno.
    rewrite Hx, Z.eqb_refl, len_nil. lia.
  - cbn [app foundIndex_loop]. rewrite IH, len_cons. lia.
Qed.

(** The last record with the message identifier splits the sequence. *)
Lemma last_match_split (l : list A) :
  (exists o, In o l /\ messageID_of o = messageID) ->
  exists l1 x l2, l = l1 ++ x :: l2 /\ messageID_of x = messageID /\
                  (forall o, In o l2 -> messageID_of o <> messageID).
Proof.
  induction l as [| y l IH]; intros [o [Hin Ho]].
  - destruct Hin.
  - destruct (existsb (fun o => messageID_of o =? messageID) l) eqn:E.
    + apply existsb_exists in E. destruct E as [o' [Hin' Ho']].
      apply Z.eqb_eq in Ho'.
      destruct IH as [l1 [x [l2 [Hl [Hx Hno]]]]]; [exists o'; split; assumption |].
      exists (y :: l1), x, l2. rewrite Hl. repeat split; assumption.
    + assert (Hno : forall o, In o l -> messageID_of o <> messageID).
      { intros o' Hin' Ho'.
        assert (existsb (fun o => messageID_of o =? messageID) l = true) as E'.
        { apply existsb_exists. exists o'. split; [exact Hin' | apply Z.eqb_eq; exact Ho']. }
        rewrite E in E'. discriminate E'. }
      destruct Hin as [-> | Hin].
      * exists [], o, l. repeat split; assumption.
      * exfalso. apply (Hno o Hin Ho).
Qed.

Lemma deletedSlice_app (l1 l2 : list A) (x : A) :
  deletedSlice (l1 ++ x :: l2) (len l1) = l1 ++ l2.
Proof.
  unfold deletedSlice, sub, len.
  rewrite Z.sub_0_r, Nat2Z.id. cbn [Z.to_nat skipn].
  rewrite firstn_app, firstn_all, Nat.sub_diag. cbn [firstn]. rewrite app_nil_r.
  f_equal.
  replace (Z.to_nat (Z.of_nat (length l1) + 1)) with (length l1 + 1)%nat by lia.
  rewrite skipn_app, skipn_all2 by lia.
  replace (length l1 + 1 - length l1)%nat with 1%nat by lia.
  cbn [app skipn].
  rewrite length_app. cbn [length].
  replace (Z.to_nat (Z.of_nat (length l1 + S (length l2)) - (Z.of_nat (length l1) + 1)))
    with (length l2) by lia.
  apply firstn_all.
Qed.

End Deregister.

(** C9. An RST whose message identifier matches no observation leaves both
    sequences as they are; when it matches an observed instance, the last
    such record is removed from the sequence of observed instances, the
    other records keep their order, and nothing else in the agent changes;
    when it matches no observed instance and an observed resource, the
    same holds of the sequence of observed resources. *)
Theorem ObserveDeregister_frame (lwm2m : Lwm2m) (message : CoapMessage) :
  let mid := MessageID message in
  ((forall o, In o (observedInstance lwm2m) -> oi_messageID o <> mid) ->
   (forall o, In o (observedResource lwm2m) -> or_messageID o <> mid) ->
   ObserveDeregister lwm2m message = lwm2m)
  /\
  ((exists o, In o (observedInstance lwm2m) /\ oi_messageID o = mid) ->
   exists l1 x l2,
     observedInstance lwm2m = l1 ++ x :: l2 /\ oi_messageID x = mid /\
     (forall o, In o l2 -> oi_messageID o <> mid) /\
     ObserveDeregister lwm2m message = set_observedInstance lwm2m (l1 ++ l2))
  /\
  ((forall o, In o (observedInstance lwm2m) -> oi_messageID o <> mid) ->
   (exists o, In o (observedResource lwm2m) /\ or_messageID o = mid) ->
   exists l1 x l2,
     observedResource lwm2m = l1 ++ x :: l2 /\ or_messageID x = mid /\
     (forall o, In o l2 -> or_messageID o <> mid) /\
     ObserveDeregister lwm2m message = set_observedResource lwm2m (l1 ++ l2)).
Proof.
  intros mid. unfold ObserveDeregister. fold mid. repeat split.
  - intros Hi Hr.
    rewrite (foundIndex_loop_none oi_messageID mid _ 0 (-1) Hi).
    cbn [Z.geb Z.compare].
    rewrite (foundIndex_loop_none or_messageID mid _ 0 (-1) Hr).
    reflexivity.
  - intros Hex.
    destruct (last_match_split oi_messageID mid _ Hex) as [l1 [x [l2 [Hl [Hx Hno]]]]].
    exists l1, x, l2. repeat split; try assumption.
    rewrite Hl, (foundIndex_loop_last oi_messageID mid l1 l2 x 0 (-1) Hx Hno).
    pose proof (len_nonneg l1) as Hn.
    replace (0 + len l1 >=? 0) with true by (symmetry; rewrite Z.geb_leb; apply Z.leb_le; lia).
    rewrite Z.add_0_l, deletedSlice_app. reflexivity.
  - intros Hi Hex.
    destruct (last_match_split or_messageID mid _ Hex) as [l1 [x [l2 [Hl [Hx Hno]]]]].
    exists l1, x, l2. repeat split; try assumption.
    rewrite (foundIndex_loop_none oi_messageID mid _ 0 (-1) Hi).
    cbn [Z.geb Z.compare].
    rewrite Hl, (foundIndex_loop_last or_messageID mid l1 l2 x 0 (-1) Hx Hno).
    pose proof (len_nonneg l1) as Hn.
    replace (0 + len l1 >=? 0) with true by (symmetry; rewrite Z.geb_leb; apply Z.leb_le; lia).
    rewrite Z.add_0_l, deletedSlice_app. reflexivity.
Qed.

Lemma ObserveDeregister_frame_witness :
  let lwm2m :=
    set_observedInstance (Scenario.agent "45")
      [Scenario.observed 7 [1]; Scenario.observed 8 [2];
       Scenario.observed 7 [3]; Scenario.observed 9 [4]] in
  exists l1 x l2,
    observedInstance lwm2m = l1 ++ x :: l2 /\ oi_messageID x = 7 /\
    (forall o, In o l2 -> oi_messageID o <> 7) /\
    ObserveDeregister lwm2m (Scenario.rst 7) = set_observedInstance lwm2m (l1 ++ l2).
Proof.
  intros lwm2m.
  destruct (ObserveDeregister_frame lwm2m (Scenario.rst 7)) as [_ [H _]].
  apply H.
  exists (Scenario.observed 7 [1]). split; [left; reflexivity | reflexivity].
Defined.

(** The run of the witness: the third record goes, the first stays. *)
Example ObserveDeregister_removes_last :
  observedInstance
    (ObserveDeregister
       (set_observedInstance (Scenario.agent "45")
          [Scenario.observed 7 [1]; Scenario.observed 8 [2];
           Scenario.observed 7 [3]; Scenario.observed 9 [4]])
       (Scenario.rst 7))
  = [Scenario.observed 7 [1]; Scenario.observed 8 [2]; Scenario.observed 9 [4]].
Proof. reflexivity. Qed.

Section Answers.

Context {sorting : Sorting}.

Lemma contentFormat_11542 :
  contentFormat = [0x2D; 0x16] /\ BigEndian.Uint16 contentFormat = 11542.
Proof. split; reflexivity. Qed.

Lemma readOptions_eq (isObserve : bool) :
  readOptions isObserve =
  if isObserve then [optionContentFormatTLV; optionObserve [0]]
  else [optionContentFormatTLV].
Proof. destruct isObserve; reflexivity. Qed.

Lemma SendResponse_replied lwm2m coap request code options payload :
  Connection lwm2m = Some coap ->
  exists lwm2m',
    Lwm2m.SendResponse lwm2m request code options payload = Some lwm2m' /\
    replied lwm2m lwm2m' request code options payload.
Proof.
  intros Hc. unfold Lwm2m.SendResponse. rewrite Hc.
  eexists. split; [reflexivity |]. exists coap. split; [exact Hc | reflexivity].
Qed.

Section Read.

Variable std : StdLib.
Variables (lwm2m : Lwm2m) (coap : Coap) (message : CoapMessage).
Variables objectID instanceID resourceID : Z.
Hypothesis connected : Connection lwm2m = Some coap.

Lemma processReadResource_NotFound :
  findResource lwm2m objectID instanceID resourceID = None ->
  exists lwm2m',
    processReadResource std lwm2m objectID instanceID resourceID message
    = Some (lwm2m', nil_error) /\
    replied lwm2m lwm2m' message CoapCodeNotFound [] [].
Proof.
  intros Hf. unfold processReadResource. rewrite Hf.
  destruct (SendResponse_replied lwm2m coap message CoapCodeNotFound [] [] connected)
    as [l' [Hs Hr]].
  rewrite Hs. exists l'. split; [reflexivity | exact Hr].
Qed.

Lemma processReadResource_NotAllowed resource definition :
  findResource lwm2m objectID instanceID resourceID = Some resource ->
  resource_Definition resource = Some definition ->
  Readable definition = false ->
  exists lwm2m',
    processReadResource std lwm2m objectID instanceID resourceID message
    = Some (lwm2m', nil_error) /\
    replied lwm2m lwm2m' message CoapCodeNotAllowed [] [].
Proof.
  intros Hf Hd Hr. unfold processReadResource. rewrite Hf, Hd, Hr. cbn [negb].
  destruct (SendResponse_replied lwm2m coap message CoapCodeNotAllowed [] [] connected)
    as [l' [Hs Hrep]].
  rewrite Hs. exists l'. split; [reflexivity | exact Hrep].
Qed.

Lemma processReadResource_Content resource definition value bytes :
  findResource lwm2m objectID instanceID resourceID = Some resource ->
  resource_Definition resource = Some definition ->
  Readable definition = true ->
  ReadResource (handler lwm2m) resource = (value, CoapCodeContent) ->
  Value.convertStringToTLVValue std value (rdef_Type definition) = Some bytes ->
  exists lwm2m',
    processReadResource std lwm2m objectID instanceID resourceID message
    = Some (lwm2m', nil_error) /\
    replied lwm2m lwm2m' message CoapCodeContent
      (readOptions (IsObserve message))
      (TLV.Marshal (resourceTLV resourceID bytes)) /\
    observedResource lwm2m' =
      if IsObserve message then
        observedResource lwm2m ++
        [ {| or_token := Token message; or_messageID := 0; or_observeCount := 0;
             or_resource := Some resource; or_lastValue := value |} ]
      else observedResource lwm2m.
Proof.
  intros Hf Hd Hr Hv Hb. unfold processReadResource.
  rewrite Hf, Hd, Hr, Hv, Hb. cbn [negb]. rewrite Z.eqb_refl. cbn [negb].
  unfold Lwm2m.SendResponse.
  destruct (IsObserve message); cbn; rewrite connected;
    (eexists; split; [reflexivity | split; [exists coap; split; [exact connected | reflexivity] | reflexivity]]).
Qed.

Lemma processReadInstance_NotFound :
  findInstance lwm2m objectID instanceID = None ->
  exists lwm2m',
    processReadInstance std lwm2m objectID instanceID message = Some (lwm2m', nil_error) /\
    replied lwm2m lwm2m' message CoapCodeNotFound [] [].
Proof.
  intros Hf. unfold processReadInstance. rewrite Hf.
  destruct (SendResponse_replied lwm2m coap message CoapCodeNotFound [] [] connected)
    as [l' [Hs Hr]].
  rewrite Hs. exists l'. split; [reflexivity | exact Hr].
Qed.

Lemma processReadInstance_Content instance resourceIDs payload resources :
  findInstance lwm2m objectID instanceID = Some instance ->
  ListResourceIDs (handler lwm2m) instance = (resourceIDs, CoapCodeContent) ->
  readResources std lwm2m objectID instanceID (IsObserve message) resourceIDs [] []
  = Some (payload, resources) ->
  exists lwm2m',
    processReadInstance std lwm2m objectID instanceID message = Some (lwm2m', nil_error) /\
    replied lwm2m lwm2m' message CoapCodeContent (readOptions (IsObserve message)) payload.
Proof.
  intros Hf Hl Hr. unfold processReadInstance. rewrite Hf, Hl.
  rewrite Z.eqb_refl. cbn [negb].
  replace (oi_resources (if IsObserve message then _ else _)) with (@nil Lwm2mObservedResource)
    by (destruct (IsObserve message); reflexivity).
  rewrite Hr. unfold Lwm2m.SendResponse.
  destruct (IsObserve message); cbn; rewrite connected;
    (eexists; split; [reflexivity | exists coap; split; [exact connected | reflexivity]]).
Qed.

End Read.

(** An answer of the agent to a request that came from the wire, read
    from the wire again. *)
Lemma replied_on_the_wire (lwm2m lwm2m' : Lwm2m) (coap : Coap) (raw : list byte)
    (request : CoapMessage) (code : CoapCode) (options : list CoapOption)
    (payload : list byte) :
  Connection lwm2m = Some coap ->
  ParseMessage raw = Some (Some request) ->
  0 <= code < 256 ->
  agree 0 (sort_Slice options) = true ->
  replied lwm2m lwm2m' request code options payload ->
  exists coap' datagram,
    Connection lwm2m' = Some coap' /\
    Written coap' = Written coap ++ [datagram] /\
    ParseMessage datagram
    = Some (Some {| Version := 1; Type_ := CoapTypeAcknowledgement;
                    TokenLength := TokenLength request; Code := code;
                    MessageID := MessageID request; Token := Token request;
                    Options := sort_Slice options; Payload := payload |}).
Proof.
  intros Hc Hp Hcode Ha [coap0 [H0 H1]].
  rewrite Hc in H0. injection H0 as <-.
  destruct (SendResponse_on_the_wire coap raw request code options payload Hp Hcode Ha)
    as [datagram [Hs Hd]].
  exists (Coap.SendResponse coap request code options payload), datagram.
  split; [exact H1 |]. split; [rewrite Hs; reflexivity | exact Hd].
Qed.

(** C7. The answers to a GET that came from the wire, as they read on the
    wire: one acknowledgement, with the message identifier and the token of
    the request.  On a resource: 4.04 when [findResource] finds nothing,
    4.05 when the resource is found and its definition does not allow
    reading, and 2.05 with Content-Format 11542 and the TLV of the value
    when it is read.  On an instance: 4.04 when [findInstance] finds
    nothing, and 2.05 with Content-Format 11542 and the TLVs of its
    readable resources otherwise.  A 2.05 answer to a request that carries
    an Observe option carries an Observe option of value 0 as well, before
    the Content-Format. *)
Theorem read_reply_codes (std : StdLib) (lwm2m : Lwm2m) (coap : Coap) (raw : list byte)
    (message : CoapMessage) (objectID instanceID resourceID : Z) :
  Connection lwm2m = Some coap ->
  ParseMessage raw = Some (Some message) ->
  let answers (result : option (Lwm2m * error)) (code : CoapCode)
      (options : list CoapOption) (payload : list byte) :=
    exists lwm2m' coap' datagram,
      result = Some (lwm2m', nil_error) /\
      Connection lwm2m' = Some coap' /\
      Written coap' = Written coap ++ [datagram] /\
      ParseMessage datagram
      = Some (Some {| Version := 1; Type_ := CoapTypeAcknowledgement;
                      TokenLength := TokenLength message; Code := code;
                      MessageID := MessageID message; Token := Token message;
                      Options := options; Payload := payload |}) in
  let options :=
    if IsObserve message then [optionObserve [0]; optionContentFormatTLV]
    else [optionContentFormatTLV] in
  (findResource lwm2m objectID instanceID resourceID = None ->
   answers (processReadResource std lwm2m objectID instanceID resourceID message)
     CoapCodeNotFound [] [])
  /\
  (forall resource definition,
   findResource lwm2m objectID instanceID resourceID = Some resource ->
   resource_Definition resource = Some definition ->
   Readable definition = false ->
   answers (processReadResource std lwm2m objectID instanceID resourceID message)
     CoapCodeNotAllowed [] [])
  /\
  (forall resource definition value bytes,
   findResource lwm2m objectID instanceID resourceID = Some resource ->
   resource_Definition resource = Some definition ->
   Readable definition = true ->
   ReadResource (handler lwm2m) resource = (value, CoapCodeContent) ->
   Value.convertStringToTLVValue std value (rdef_Type definition) = Some bytes ->
   answers (processReadResource std lwm2m objectID instanceID resourceID message)
     CoapCodeContent options (TLV.Marshal (resourceTLV resourceID bytes)))
  /\
  (findInstance lwm2m objectID instanceID = None ->
   answers (processReadInstance std lwm2m objectID instanceID message)
     CoapCodeNotFound [] [])
  /\
  (forall instance resourceIDs payload resources,
   findInstance lwm2m objectID instanceID = Some instance ->
   ListResourceIDs (handler lwm2m) instance = (resourceIDs, CoapCodeContent) ->
   readResources std lwm2m objectID instanceID (IsObserve message) resourceIDs [] []
   = Some (payload, resources) ->
   answers (processReadInstance std lwm2m objectID instanceID message)
     CoapCodeContent options payload).
Proof.
  intros Hc Hp answers options.
  assert (Hw : forall result lwm2m' code opts payload,
             result = Some (lwm2m', nil_error) ->
             0 <= code < 256 -> agree 0 (sort_Slice opts) = true ->
             replied lwm2m lwm2m' message code opts payload ->
             answers result code (sort_Slice opts) payload).
  { intros result lwm2m' code opts payload Hr Hcode Ha Hrep.
    destruct (replied_on_the_wire lwm2m lwm2m' coap raw message code opts payload
                Hc Hp Hcode Ha Hrep) as [coap' [datagram [H1 [H2 H3]]]].
    exists lwm2m', coap', datagram. repeat split; assumption. }
  assert (Ho : sort_Slice (readOptions (IsObserve message)) = options
               /\ agree 0 (sort_Slice (readOptions (IsObserve message))) = true).
  { unfold options. destruct (IsObserve message); split; reflexivity. }
  destruct Ho as [Ho Hao].
  split; [| split; [| split; [| split]]].
  - intros Hf.
    destruct (processReadResource_NotFound std lwm2m coap message objectID instanceID
                resourceID Hc Hf) as [l' [H1 H2]].
    exact (Hw _ l' CoapCodeNotFound [] [] H1 ltac:(unfold CoapCodeNotFound; lia) eq_refl H2).
  - intros resource definition Hf Hd Hr.
    destruct (processReadResource_NotAllowed std lwm2m coap message objectID instanceID
                resourceID Hc resource definition Hf Hd Hr) as [l' [H1 H2]].
    exact (Hw _ l' CoapCodeNotAllowed [] [] H1 ltac:(unfold CoapCodeNotAllowed; lia)
             eq_refl H2).
  - intros resource definition value bytes Hf Hd Hr Hv Hb.
    destruct (processReadResource_Content std lwm2m coap message objectID instanceID
                resourceID Hc resource definition value bytes Hf Hd Hr Hv Hb)
      as [l' [H1 [H2 _]]].
    rewrite <- Ho.
    exact (Hw _ l' CoapCodeContent _ _ H1 ltac:(unfold CoapCodeContent; lia) Hao H2).
  - intros Hf.
    destruct (processReadInstance_NotFound std lwm2m coap message objectID instanceID
                Hc Hf) as [l' [H1 H2]].
    exact (Hw _ l' CoapCodeNotFound [] [] H1 ltac:(unfold CoapCodeNotFound; lia) eq_refl H2).
  - intros instance resourceIDs payload resources Hf Hl Hr.
    destruct (processReadInstance_Content std lwm2m coap message objectID instanceID
                Hc instance resourceIDs payload resources Hf Hl Hr) as [l' [H1 H2]].
    rewrite <- Ho.
    exact (Hw _ l' CoapCodeContent _ _ H1 ltac:(unfold CoapCodeContent; lia) Hao H2).
Qed.

End Answers.

Lemma read_reply_codes_witness :
  let lwm2m := Scenario.agent "45" in
  let answers (result : option (Lwm2m * error)) (code : CoapCode)
      (options : list CoapOption) (payload : list byte) :=
    exists lwm2m' coap' datagram,
      result = Some (lwm2m', nil_error) /\
      Connection lwm2m' = Some coap' /\
      Written coap' = [datagram] /\
      ParseMessage datagram
      = Some (Some {| Version := 1; Type_ := CoapTypeAcknowledgement; TokenLength := 4;
                      Code := code; MessageID := 0x1234;
                      Token := [0xAA; 0xBB; 0xCC; 0xDD];
                      Options := options; Payload := payload |}) in
  answers (processReadResource Scenario.std lwm2m 3 0 5
             (Scenario.get false ["3"; "0"; "5"]%string)) 132 [] []
  /\
  answers (processReadResource Scenario.std lwm2m 3 0 4
             (Scenario.get false ["3"; "0"; "4"]%string)) 133 [] []
  /\
  answers (processReadResource Scenario.std lwm2m 3 0 9
             (Scenario.get true ["3"; "0"; "9"]%string)) 69
    [ {| No := 6; Value := [0] |}; {| No := 12; Value := [0x2D; 0x16] |} ]
    [0xC1; 0x09; 0x2D]
  /\
  answers (processReadInstance Scenario.std lwm2m 3 1
             (Scenario.get false ["3"; "1"]%string)) 132 [] []
  /\
  answers (processReadInstance Scenario.std lwm2m 3 0
             (Scenario.get false ["3"; "0"]%string)) 69
    [ {| No := 12; Value := [0x2D; 0x16] |} ] [0xC1; 0x09; 0x2D].
Proof.
  intros lwm2m answers.
  pose (coap := {| NextMessageID := 7; Written := [] |}).
  pose (sent := fun message => ConvertToBytes message).
  split; [| split; [| split; [| split]]].
  - exact (proj1 (read_reply_codes Scenario.std lwm2m coap
                    (sent (Scenario.get false ["3"; "0"; "5"]%string))
                    (Scenario.get false ["3"; "0"; "5"]%string) 3 0 5 eq_refl eq_refl)
             eq_refl).
  - exact (proj1 (proj2 (read_reply_codes Scenario.std lwm2m coap
                    (sent (Scenario.get false ["3"; "0"; "4"]%string))
                    (Scenario.get false ["3"; "0"; "4"]%string) 3 0 4 eq_refl eq_refl))
             {| resource_ID := 4; resource_objectID := 3; resource_instanceID := 0;
                resource_Definition := Some Scenario.reboot |}
             Scenario.reboot eq_refl eq_refl eq_refl).
  - exact (proj1 (proj2 (proj2 (read_reply_codes Scenario.std lwm2m coap
                    (sent (Scenario.get true ["3"; "0"; "9"]%string))
                    (Scenario.get true ["3"; "0"; "9"]%string) 3 0 9 eq_refl eq_refl)))
             {| resource_ID := 9; resource_objectID := 3; resource_instanceID := 0;
                resource_Definition := Some Scenario.batteryLevel |}
             Scenario.batteryLevel "45"%string [0x2D]
             eq_refl eq_refl eq_refl eq_refl eq_refl).
  - exact (proj1 (proj2 (proj2 (proj2 (read_reply_codes Scenario.std lwm2m coap
                    (sent (Scenario.get false ["3"; "1"]%string))
                    (Scenario.get false ["3"; "1"]%string) 3 1 0 eq_refl eq_refl))))
             eq_refl).
  - exact (proj2 (proj2 (proj2 (proj2 (read_reply_codes Scenario.std lwm2m coap
                    (sent (Scenario.get false ["3"; "0"]%string))
                    (Scenario.get false ["3"; "0"]%string) 3 0 0 eq_refl eq_refl))))
             {| instance_ID := 0; instance_objectID := 3 |} [4; 9] [0xC1; 0x09; 0x2D] []
             eq_refl eq_refl eq_refl).
Defined.

Section Notify.

Context {sorting : Sorting}.

Lemma findResource_Some lwm2m objectID instanceID resourceID resource :
  findResource lwm2m objectID instanceID resourceID = Some resource ->
  resource =
  {| resource_ID := resourceID; resource_objectID := objectID;
     resource_instanceID := instanceID;
     resource_Definition :=
       findResourceDefinitionByIDs (definitions lwm2m) objectID resourceID |}.
Proof.
  unfold findResource.
  destruct (ListObjectIDs (handler lwm2m)) as [objectIDs c1].
  destruct (negb (c1 =? CoapCodeContent)); [discriminate |].
  destruct (negb (exist objectIDs objectID)); [discriminate |].
  destruct (ListInstanceIDs (handler lwm2m) _) as [instanceIDs c2].
  destruct (negb (c2 =? CoapCodeContent)); [discriminate |].
  destruct (negb (exist instanceIDs instanceID)); [discriminate |].
  destruct (ListResourceIDs (handler lwm2m) _) as [resourceIDs c3].
  destruct (negb (c3 =? CoapCodeContent)); [discriminate |].
  destruct (negb (exist resourceIDs resourceID)); [discriminate |].
  intros H. injection H as <-. reflexivity.
Qed.

(** C6 (as the code has it). After the observation of /3/0/9 was registered
    by a GET with an Observe option while the store held 45, a tick of
    [Observe] on a store that holds 43 writes exactly one datagram: a NON
    message with the token of the GET, Content-Format 11542, an Observe
    option whose value is the byte 0x00 (the counter starts at 0 and is
    incremented after it is sent), and the payload C1 09 2B. *)
Theorem notify_after_observe (std : StdLib) (lwm2m : Lwm2m) (coap : Coap)
    (message : CoapMessage) (resource : Lwm2mResource)
    (definition : Lwm2mResourceDefinition) (handler' : Lwm2mHandler) :
  Connection lwm2m = Some coap ->
  registered lwm2m = true ->
  observedInstance lwm2m = [] ->
  observedResource lwm2m = [] ->
  IsObserve message = true ->
  extractResourceID message = (3, 3, 0, 9, nil_error) ->
  findResource lwm2m 3 0 9 = Some resource ->
  resource_Definition resource = Some definition ->
  Readable definition = true ->
  rdef_Type definition = Value.lwm2mResourceTypeInteger ->
  ReadResource (handler lwm2m) resource = ("45"%string, CoapCodeContent) ->
  ReadResource handler' resource = ("43"%string, CoapCodeContent) ->
  exists lwm2m1 coap1 lwm2m2 coap2,
    ReadRequest std lwm2m message = Some (lwm2m1, nil_error) /\
    Connection lwm2m1 = Some coap1 /\
    Observe std (set_handler lwm2m1 handler') = Some lwm2m2 /\
    Connection lwm2m2 = Some coap2 /\
    Written coap2 =
      Written coap1 ++
      [ ConvertToBytes
          {| Version := 1; Type_ := CoapTypeNonConfirmable;
             TokenLength := u8 (len (Token message));
             Code := CoapCodeContent; MessageID := NextMessageID coap1;
             Token := Token message;
             Options := [optionContentFormatTLV; optionObserve [0x00]];
             Payload := [0xC1; 0x09; 0x2B] |} ] /\
    observedResource lwm2m2 =
      [ {| or_token := Token message; or_messageID := NextMessageID coap1;
           or_observeCount := 1; or_resource := Some resource;
           or_lastValue := "43" |} ].
Proof.
  intros Hc Hreg Hoi Hor Hobs Hx Hf Hd Hr Ht Hv Hv'.
  pose proof (findResource_Some _ _ _ _ _ Hf) as Hres.
  assert (Hid : resource_ID resource = 9) by (rewrite Hres; reflexivity).
  unfold ReadRequest. rewrite Hx. cbn [Z.eqb Pos.eqb].
  unfold processReadResource. rewrite Hf, Hobs, Hd, Hr, Hv, Ht. cbn [negb].
  change (CoapCodeContent =? CoapCodeContent) with true. cbn [negb].
  change (Value.convertStringToTLVValue std "45" Value.lwm2mResourceTypeInteger)
    with (Some [0x2D]).
  unfold Lwm2m.SendResponse. cbn [Connection set_observedResource]. rewrite Hc, Hor.
  do 4 eexists. split; [reflexivity |]. split; [reflexivity |].
  unfold Observe.
  cbn -[ConvertToBytes u8 u32 len Value.convertStringToTLVValue TLV.Marshal rangeNotify
        SendRelatedMessage notifyOptions].
  rewrite Hreg, Hoi.
  cbn -[ConvertToBytes u8 u32 len Value.convertStringToTLVValue TLV.Marshal
        SendRelatedMessage notifyOptions].
  rewrite Hd, Hr, Hv', Ht, Hid.
  cbn -[ConvertToBytes u8 u32 len TLV.Marshal SendRelatedMessage notifyOptions].
  split; [reflexivity |]. split; [reflexivity |]. split; reflexivity.
Qed.

End Notify.

Lemma notify_after_observe_witness :
  exists lwm2m1 coap1 lwm2m2 coap2,
    ReadRequest Scenario.std (Scenario.agent "45")
      (Scenario.get true ["3"; "0"; "9"]%string) = Some (lwm2m1, nil_error) /\
    Connection lwm2m1 = Some coap1 /\
    Observe Scenario.std (set_handler lwm2m1 (Scenario.store "43")) = Some lwm2m2 /\
    Connection lwm2m2 = Some coap2 /\
    Written coap2 =
      Written coap1 ++
      [ ConvertToBytes
          {| Version := 1; Type_ := CoapTypeNonConfirmable;
             TokenLength := u8 (len [0xAA; 0xBB; 0xCC; 0xDD]);
             Code := CoapCodeContent; MessageID := NextMessageID coap1;
             Token := [0xAA; 0xBB; 0xCC; 0xDD];
             Options := [optionContentFormatTLV; optionObserve [0x00]];
             Payload := [0xC1; 0x09; 0x2B] |} ] /\
    observedResource lwm2m2 =
      [ {| or_token := [0xAA; 0xBB; 0xCC; 0xDD]; or_messageID := NextMessageID coap1;
           or_observeCount := 1;
           or_resource :=
             Some {| resource_ID := 9; resource_objectID := 3; resource_instanceID := 0;
                     resource_Definition := Some Scenario.batteryLevel |};
           or_lastValue := "43" |} ].
Proof.
  exact (notify_after_observe Scenario.std (Scenario.agent "45")
           {| NextMessageID := 7; Written := [] |}
           (Scenario.get true ["3"; "0"; "9"]%string)
           {| resource_ID := 9; resource_objectID := 3; resource_instanceID := 0;
              resource_Definition := Some Scenario.batteryLevel |}
           Scenario.batteryLevel (Scenario.store "43")
           eq_refl eq_refl eq_refl eq_refl eq_refl eq_refl eq_refl eq_refl eq_refl
           eq_refl eq_refl eq_refl).
Defined.

(** The datagram of scenario 5, byte for byte. *)
Example notified_bytes :
  Scenario.notified =
  Some [[0x54; 0x45; 0x00; 0x07; 0xAA; 0xBB; 0xCC; 0xDD;
         0x61; 0x00; 0x62; 0x2D; 0x16; 0xFF; 0xC1; 0x09; 0x2B]].
Proof. reflexivity. Qed.

(** The claim as the specification has it asks for an Observe option of
    value [0x01] in the message of scenario 5; the message carries no such
    option. *)
Lemma notified_Observe_option_is_not_1 :
  ~ (exists datagram message,
       Scenario.notified = Some [datagram] /\
       ParseMessage datagram = Some (Some message) /\
       In (optionObserve [0x01]) (Options message)).
Proof.
  intros [datagram [message [Hn [Hp Hin]]]].
  rewrite notified_bytes in Hn. injection Hn as <-.
  vm_compute in Hp. injection Hp as <-.
  cbn [Options In] in Hin.
  destruct Hin as [H | [H | []]]; discriminate H.
Qed.

(** ** The agent: paths, observations, registration, writes *)

Import Coap Lwm2m Reply.

Lemma extractResourceID_loop_filter (options : list CoapOption) :
  forall (idCount : Z) (idList : Z * Z * Z),
  extractResourceID_loop options idCount idList
  = extractResourceID_loop
      (filter (fun option => No option =? coapOptionNoURIPath) options) idCount idList.
Proof.
  induction options as [| o options IH]; intros idCount idList; [reflexivity |].
  cbn [filter extractResourceID_loop].
  destruct (No o =? coapOptionNoURIPath) eqn:E.
  - cbn [extractResourceID_loop]. rewrite E.
    destruct (idCount >? 2); [reflexivity |].
    destruct (strconv.Atoi (string_of_bytes (Value o))) as [id [e |]]; [reflexivity |].
    destruct idList as [[id0 id1] id2]. apply IH.
  - apply IH.
Qed.

Lemma Atoi_Itoa (id : Z) :
  0 <= id < 2 ^ 16 ->
  strconv.Atoi (string_of_bytes (bytes_of_string (strconv.Itoa id))) = (id, None).
Proof.
  intros H. rewrite string_of_bytes_of_string. unfold strconv.Atoi, strconv.Itoa.
  apply ParseInt_FormatInt. change (2 ^ 16) with 65536 in H.
  change (2 ^ 63) with 9223372036854775808. lia.
Qed.

(** The identifiers [extractResourceID] returns are those of the URI-Path
    options, in order, whatever other options stand between them; a fourth
    URI-Path option is an error. *)
Theorem extractResourceID_ids (message : CoapMessage) (ids : list Z) :
  Forall (fun id => 0 <= id < 2 ^ 16) ids ->
  filter (fun option => No option =? coapOptionNoURIPath) (Options message)
  = map (fun id => {| No := coapOptionNoURIPath;
                      Value := bytes_of_string (strconv.Itoa id) |}) ids ->
  extractResourceID message
  = if len ids <=? 3
    then (len ids, nth 0 ids 0, nth 1 ids 0, nth 2 ids 0, nil_error)
    else (0, 0, 0, 0, errTooManyIDs).
Proof.
  intros Hids Hf. unfold extractResourceID.
  rewrite extractResourceID_loop_filter, Hf. clear Hf.
  assert (Hu : forall id, 0 <= id < 2 ^ 16 -> u16 id = id)
    by (intros id H; unfold u16; apply Z.mod_small; exact H).
  destruct ids as [| a [| b [| c [| d rest]]]];
    repeat match goal with
           | H : Forall _ (_ :: _) |- _ => inversion H; subst; clear H
           end;
    cbn [map extractResourceID_loop No Value];
    change (coapOptionNoURIPath =? coapOptionNoURIPath) with true; cbv iota;
    repeat (first [ rewrite Atoi_Itoa by assumption
                  | rewrite Hu by assumption
                  | progress change (0 >? 2) with false
                  | progress change (0 + 1 >? 2) with false
                  | progress change (0 + 1 + 1 >? 2) with false
                  | progress change (0 + 1 + 1 + 1 >? 2) with true
                  | progress change (0 =? 0) with true
                  | progress change (0 + 1 =? 0) with false
                  | progress change (0 + 1 =? 1) with true
                  | progress change (0 + 1 + 1 =? 0) with false
                  | progress change (0 + 1 + 1 =? 1) with false
                  | progress cbv beta iota
                  | progress cbn [map extractResourceID_loop No Value] ]).
  1-4: reflexivity.
  replace (len (a :: b :: c :: d :: rest) <=? 3) with false; [reflexivity |].
  symmetry. apply Z.leb_gt. rewrite !len_cons. pose proof (len_nonneg rest). lia.
Qed.

Lemma extractResourceID_ids_witness :
  extractResourceID
    {| Version := 1; Type_ := CoapTypeConfirmable; TokenLength := 0; Code := CoapCodeGet;
       MessageID := 1; Token := [];
       Options := [ {| No := 6; Value := [] |};
                    {| No := 11; Value := bytes_of_string "3" |};
                    {| No := 11; Value := bytes_of_string "0" |};
                    {| No := 11; Value := bytes_of_string "65535" |};
                    {| No := 12; Value := [0x2D; 0x16] |} ];
       Payload := [] |}
  = (3, 3, 0, 65535, nil_error).
Proof.
  apply (extractResourceID_ids _ [3; 0; 65535]).
  - repeat constructor; lia.
  - reflexivity.
Defined.

Section Quiet.

Context {sorting : Sorting}.
Variable std : StdLib.

Lemma NotifyResource_quiet (lwm2m : Lwm2m) (observe : Lwm2mObservedResource) :
  quiet lwm2m observe = true -> NotifyResource std lwm2m observe = Some (lwm2m, observe).
Proof.
  unfold quiet, NotifyResource.
  destruct (or_resource observe) as [resource |]; [| discriminate].
  destruct (resource_Definition resource) as [definition |]; [| discriminate].
  destruct (Readable definition); cbn [negb orb]; [| reflexivity].
  destruct (ReadResource (handler lwm2m) resource) as [value code]. cbn [fst snd].
  destruct (code =? CoapCodeContent); cbn [negb orb]; [| reflexivity].
  intros ->. reflexivity.
Qed.

Lemma notifyResources_quiet (lwm2m : Lwm2m) (todo : list Lwm2mObservedResource) :
  forall (payload : list byte) (done : list Lwm2mObservedResource),
  forallb (quiet lwm2m) todo = true ->
  notifyResources std lwm2m todo payload done = Some (payload, done ++ todo).
Proof.
  induction todo as [| observe todo IH]; intros payload done H; cbn [notifyResources].
  - rewrite app_nil_r. reflexivity.
  - cbn [forallb] in H. apply andb_true_iff in H. destruct H as [Hq H].
    unfold quiet in Hq.
    destruct (or_resource observe) as [resource |]; [| discriminate].
    destruct (resource_Definition resource) as [definition |]; [| discriminate].
    replace (done ++ observe :: todo) with ((done ++ [observe]) ++ todo)
      by (rewrite <- app_assoc; reflexivity).
    destruct (Readable definition); cbn [negb orb] in Hq |- *; [| apply IH, H].
    destruct (ReadResource (handler lwm2m) resource) as [value code]. cbn [fst snd] in Hq.
    destruct (code =? CoapCodeContent); cbn [negb orb] in Hq |- *; [| apply IH, H].
    rewrite Hq. apply IH, H.
Qed.

Lemma NotifyInstance_quiet (lwm2m : Lwm2m) (observe : Lwm2mObservedInstance) :
  forallb (quiet lwm2m) (oi_resources observe) = true ->
  NotifyInstance std lwm2m observe = Some (lwm2m, observe).
Proof.
  intros H. unfold NotifyInstance. rewrite (notifyResources_quiet _ _ _ _ H).
  cbn [app]. change (len (@nil Z) =? 0) with true. cbv iota.
  destruct observe. reflexivity.
Qed.

Lemma rangeNotify_fixed {A} (notify : Lwm2m -> A -> option (Lwm2m * A)) (lwm2m : Lwm2m)
    (todo : list A) :
  forall done : list A,
  (forall observe, In observe todo -> notify lwm2m observe = Some (lwm2m, observe)) ->
  rangeNotify notify lwm2m todo done = Some (lwm2m, done ++ todo).
Proof.
  induction todo as [| observe todo IH]; intros done H; cbn [rangeNotify].
  - rewrite app_nil_r. reflexivity.
  - rewrite (H observe (or_introl eq_refl)).
    replace (done ++ observe :: todo) with ((done ++ [observe]) ++ todo)
      by (rewrite <- app_assoc; reflexivity).
    apply IH. intros o Ho. apply H. right. exact Ho.
Qed.

Lemma Observe_unchanged (lwm2m : Lwm2m) :
  forallb (fun observe => forallb (quiet lwm2m) (oi_resources observe))
          (observedInstance lwm2m) = true ->
  forallb (quiet lwm2m) (observedResource lwm2m) = true ->
  Observe std lwm2m = Some lwm2m.
Proof.
  intros Hi Hr. unfold Observe.
  destruct (Connection lwm2m) as [coap |] eqn:Ec; [| reflexivity].
  destruct (registered lwm2m); cbn [negb]; [| reflexivity].
  rewrite (rangeNotify_fixed (NotifyInstance std) lwm2m (observedInstance lwm2m) []).
  2: { intros observe Hin. apply NotifyInstance_quiet.
       rewrite forallb_forall in Hi. apply Hi, Hin. }
  cbn [app].
  assert (E : set_observedInstance lwm2m (observedInstance lwm2m) = lwm2m)
    by (destruct lwm2m; reflexivity).
  rewrite E.
  rewrite (rangeNotify_fixed (NotifyResource std) lwm2m (observedResource lwm2m) []).
  2: { intros observe Hin. apply NotifyResource_quiet.
       rewrite forallb_forall in Hr. apply Hr, Hin. }
  cbn [app]. destruct lwm2m; reflexivity.
Qed.

(** A tick of [Observe] when no observed value has changed writes nothing
    and leaves the agent as it was: counters, message identifiers and last
    values included. *)
Theorem Observe_quiet (lwm2m : Lwm2m) :
  forallb (fun observe => forallb (quiet lwm2m) (oi_resources observe))
          (observedInstance lwm2m) = true ->
  forallb (quiet lwm2m) (observedResource lwm2m) = true ->
  Observe std lwm2m = Some lwm2m.
Proof. exact (Observe_unchanged lwm2m). Qed.

End Quiet.

Section ReadQuiet.

Context {sorting : Sorting}.
Variable std : StdLib.

Lemma quiet_handler (lwm2m lwm2m' : Lwm2m) (observe : Lwm2mObservedResource) :
  handler lwm2m' = handler lwm2m -> quiet lwm2m' observe = quiet lwm2m observe.
Proof. intros H. unfold quiet. rewrite H. reflexivity. Qed.

Lemma allQuiet_eq (lwm2m lwm2m' : Lwm2m) :
  handler lwm2m' = handler lwm2m ->
  observedInstance lwm2m' = observedInstance lwm2m ->
  observedResource lwm2m' = observedResource lwm2m ->
  allQuiet lwm2m' = allQuiet lwm2m.
Proof.
  intros Hh Hi Hr. unfold allQuiet. rewrite Hi, Hr.
  f_equal; [apply forallb_eq; intros observe |]; apply forallb_eq; intros o;
    apply quiet_handler, Hh.
Qed.

Lemma SendResponse_frame (lwm2m lwm2m' : Lwm2m) request code options payload :
  Lwm2m.SendResponse lwm2m request code options payload = Some lwm2m' ->
  handler lwm2m' = handler lwm2m /\
  observedInstance lwm2m' = observedInstance lwm2m /\
  observedResource lwm2m' = observedResource lwm2m.
Proof.
  unfold Lwm2m.SendResponse. destruct (Connection lwm2m); [| discriminate].
  intros H. injection H as <-. repeat split.
Qed.

Lemma SendResponse_allQuiet (lwm2m lwm2m' : Lwm2m) request code options payload :
  Lwm2m.SendResponse lwm2m request code options payload = Some lwm2m' ->
  allQuiet lwm2m' = allQuiet lwm2m.
Proof.
  intros H. apply SendResponse_frame in H. destruct H as (Hh & Hi & Hr).
  apply allQuiet_eq; assumption.
Qed.

Lemma allQuiet_add_resource (lwm2m : Lwm2m) (observe : Lwm2mObservedResource) :
  allQuiet lwm2m = true -> quiet lwm2m observe = true ->
  allQuiet (set_observedResource lwm2m (observedResource lwm2m ++ [observe])) = true.
Proof.
  unfold allQuiet. intros H Ho. apply andb_true_iff in H. destruct H as [Hi Hr].
  set (l' := set_observedResource lwm2m (observedResource lwm2m ++ [observe])).
  assert (Hq : forall x, quiet l' x = quiet lwm2m x)
    by (intros x; apply quiet_handler; destruct lwm2m; reflexivity).
  replace (observedInstance l') with (observedInstance lwm2m)
    by (destruct lwm2m; reflexivity).
  replace (observedResource l') with (observedResource lwm2m ++ [observe])
    by (destruct lwm2m; reflexivity).
  rewrite (forallb_eq _ _ _ Hq).
  rewrite (forallb_eq (fun o => forallb (quiet l') (oi_resources o))
                      (fun o => forallb (quiet lwm2m) (oi_resources o)))
    by (intros o; apply forallb_eq, Hq).
  rewrite forallb_app, Hi, Hr. cbn [forallb andb]. rewrite Ho. reflexivity.
Qed.

Lemma allQuiet_add_instance (lwm2m : Lwm2m) (observe : Lwm2mObservedInstance) :
  allQuiet lwm2m = true -> forallb (quiet lwm2m) (oi_resources observe) = true ->
  allQuiet (set_observedInstance lwm2m (observedInstance lwm2m ++ [observe])) = true.
Proof.
  unfold allQuiet. intros H Ho. apply andb_true_iff in H. destruct H as [Hi Hr].
  set (l' := set_observedInstance lwm2m (observedInstance lwm2m ++ [observe])).
  assert (Hq : forall x, quiet l' x = quiet lwm2m x)
    by (intros x; apply quiet_handler; destruct lwm2m; reflexivity).
  replace (observedResource l') with (observedResource lwm2m)
    by (destruct lwm2m; reflexivity).
  replace (observedInstance l') with (observedInstance lwm2m ++ [observe])
    by (destruct lwm2m; reflexivity).
  rewrite (forallb_eq _ _ _ Hq).
  rewrite (forallb_eq (fun o => forallb (quiet l') (oi_resources o))
                      (fun o => forallb (quiet lwm2m) (oi_resources o)))
    by (intros o; apply forallb_eq, Hq).
  rewrite forallb_app, Hi, Hr. cbn [forallb andb]. rewrite Ho. reflexivity.
Qed.

Lemma readResources_quiet (lwm2m : Lwm2m) (objectID instanceID : Z) (isObserve : bool)
    (resourceIDs : list Z) :
  forall (payload payload' : list byte) (resources resources' : list Lwm2mObservedResource),
  readResources std lwm2m objectID instanceID isObserve resourceIDs payload resources
  = Some (payload', resources') ->
  forallb (quiet lwm2m) resources = true ->
  forallb (quiet lwm2m) resources' = true.
Proof.
  induction resourceIDs as [| resourceID resourceIDs IH];
    intros payload payload' resources resources' H Hq; cbn [readResources] in H.
  - injection H as _ <-. exact Hq.
  - destruct (findResource lwm2m objectID instanceID resourceID) as [resource |];
      [| discriminate].
    destruct (resource_Definition resource) as [definition |] eqn:Ed; [| discriminate].
    destruct (Readable definition) eqn:Er; [| exact (IH _ _ _ _ H Hq)].
    destruct (ReadResource (handler lwm2m) resource) as [value code] eqn:Eread.
    destruct (code =? CoapCodeContent) eqn:Ec; cbn [negb] in H; [| exact (IH _ _ _ _ H Hq)].
    destruct (Value.convertStringToTLVValue std value (rdef_Type definition));
      [| discriminate].
    apply (IH _ _ _ _ H). destruct isObserve; [| exact Hq].
    rewrite forallb_app, Hq. cbn [forallb andb]. rewrite andb_true_r.
    unfold quiet. cbn [or_resource or_lastValue]. rewrite Ed, Er, Eread. cbn [fst snd].
    rewrite Ec, String.eqb_refl. reflexivity.
Qed.

(** Answering a GET keeps the observations quiet: what a registration
    records as the last value is the value it has just sent. *)
Lemma ReadRequest_allQuiet (lwm2m lwm2m' : Lwm2m) (message : CoapMessage) (err : error) :
  ReadRequest std lwm2m message = Some (lwm2m', err) ->
  allQuiet lwm2m = true -> allQuiet lwm2m' = true.
Proof.
  unfold ReadRequest.
  destruct (extractResourceID message) as [[[[idCount objectID] instanceID] resourceID] e].
  intros H Hq.
  destruct e; try (injection H as <- _; exact Hq).
  destruct (idCount =? 2).
  - (* instance *)
    unfold processReadInstance in H.
    destruct (findInstance lwm2m objectID instanceID) as [instance |].
    2: { destruct (Lwm2m.SendResponse lwm2m message CoapCodeNotFound [] []) as [l |] eqn:Es;
           [| discriminate].
         injection H as <- _. rewrite (SendResponse_allQuiet _ _ _ _ _ _ Es). exact Hq. }
    cbv zeta in H.
    destruct (ListResourceIDs (handler lwm2m) instance) as [resourceIDs code].
    destruct (code =? CoapCodeContent); cbn [negb] in H.
    2: { destruct (Lwm2m.SendResponse lwm2m message CoapCodeNotAllowed [] []) as [l |] eqn:Es;
           [| discriminate].
         injection H as <- _. rewrite (SendResponse_allQuiet _ _ _ _ _ _ Es). exact Hq. }
    match type of H with
    | context [readResources std lwm2m ?o ?i ?b ?ids ?p ?rs] =>
      destruct (readResources std lwm2m o i b ids p rs) as [[payload resources] |] eqn:Er;
        [| discriminate];
      assert (Hrs : forallb (quiet lwm2m) rs = true)
        by (destruct (IsObserve message); reflexivity);
      pose proof (readResources_quiet _ _ _ _ _ _ _ _ _ Er Hrs) as Hres
    end.
    match type of H with
    | context [Lwm2m.SendResponse ?l message CoapCodeContent ?os ?p] =>
      destruct (Lwm2m.SendResponse l message CoapCodeContent os p) as [l' |] eqn:Es;
        [| discriminate];
      injection H as <- _; rewrite (SendResponse_allQuiet _ _ _ _ _ _ Es)
    end.
    destruct (IsObserve message); [| exact Hq].
    apply allQuiet_add_instance; [exact Hq | exact Hres].
  - destruct (idCount =? 3); [| injection H as <- _; exact Hq].
    unfold processReadResource in H.
    destruct (findResource lwm2m objectID instanceID resourceID) as [resource |].
    2: { destruct (Lwm2m.SendResponse lwm2m message CoapCodeNotFound [] []) as [l |] eqn:Es;
           [| discriminate].
         injection H as <- _. rewrite (SendResponse_allQuiet _ _ _ _ _ _ Es). exact Hq. }
    cbv zeta in H.
    destruct (resource_Definition resource) as [definition |] eqn:Ed; [| discriminate].
    destruct (Readable definition) eqn:Erd; cbn [negb] in H.
    2: { destruct (Lwm2m.SendResponse lwm2m message CoapCodeNotAllowed [] []) as [l |] eqn:Es;
           [| discriminate].
         injection H as <- _. rewrite (SendResponse_allQuiet _ _ _ _ _ _ Es). exact Hq. }
    destruct (ReadResource (handler lwm2m) resource) as [value code] eqn:Eread.
    destruct (code =? CoapCodeContent) eqn:Ec; cbn [negb] in H.
    2: { destruct (Lwm2m.SendResponse lwm2m message CoapCodeNotAllowed [] []) as [l |] eqn:Es;
           [| discriminate].
         injection H as <- _. rewrite (SendResponse_allQuiet _ _ _ _ _ _ Es). exact Hq. }
    destruct (Value.convertStringToTLVValue std value (rdef_Type definition));
      [| discriminate].
    match type of H with
    | context [Lwm2m.SendResponse ?l message CoapCodeContent ?os ?p] =>
      destruct (Lwm2m.SendResponse l message CoapCodeContent os p) as [l' |] eqn:Es;
        [| discriminate];
      injection H as <- _; rewrite (SendResponse_allQuiet _ _ _ _ _ _ Es)
    end.
    destruct (IsObserve message); [| exact Hq].
    apply allQuiet_add_resource; [exact Hq |].
    unfold quiet. cbn [or_resource or_lastValue].
    rewrite Ed, Erd, Eread. cbn [fst snd]. rewrite Ec, String.eqb_refl. reflexivity.
Qed.

(** A GET, with or without the Observe option, is never followed by a
    notification of its own: on an agent whose observations are quiet, the
    tick that follows the answer writes nothing. *)
Theorem ReadRequest_then_Observe (lwm2m lwm2m' : Lwm2m) (message : CoapMessage)
    (err : error) :
  allQuiet lwm2m = true ->
  ReadRequest std lwm2m message = Some (lwm2m', err) ->
  Observe std lwm2m' = Some lwm2m'.
Proof.
  intros Hq H. pose proof (ReadRequest_allQuiet _ _ _ _ H Hq) as Hq'.
  unfold allQuiet in Hq'. apply andb_true_iff in Hq'. destruct Hq' as [Hi Hr].
  apply Observe_unchanged; assumption.
Qed.

End ReadQuiet.

Lemma RegisterDone_loop_filter (options : list CoapOption) :
  forall (index : Z) (location : string),
  RegisterDone_loop options index location
  = RegisterDone_loop
      (filter (fun option => No option =? coapOptionNoLocationPath) options)
      index location.
Proof.
  induction options as [| o options IH]; intros index location; [reflexivity |].
  cbn [filter RegisterDone_loop].
  destruct (No o =? coapOptionNoLocationPath) eqn:E; [| apply IH].
  cbn [RegisterDone_loop]. rewrite E.
  destruct (index =? 0); [apply IH |]. destruct (index =? 1); apply IH.
Qed.

Lemma RegisterDone_loop_done (options : list CoapOption) (index : Z) (location : string) :
  2 <= index -> RegisterDone_loop options index location = location.
Proof.
  revert index. induction options as [| o options IH]; intros index H; [reflexivity |].
  cbn [RegisterDone_loop].
  destruct (No o =? coapOptionNoLocationPath); [| apply IH, H].
  replace (index =? 0) with false by (symmetry; apply Z.eqb_neq; lia).
  replace (index =? 1) with false by (symmetry; apply Z.eqb_neq; lia).
  apply IH, H.
Qed.

(** [RegisterDone] keeps the second Location-Path option of the answer as
    the location and nothing else: the first one (the "rd" segment) and any
    after the second are skipped, and with fewer than two the location
    stays what it was. *)
Theorem RegisterDone_Location (lwm2m : Lwm2m) (message : CoapMessage) :
  Location (RegisterDone lwm2m message)
  = match filter (fun option => No option =? coapOptionNoLocationPath) (Options message)
    with
    | _ :: second :: _ => string_of_bytes (Value second)
    | _ => Location lwm2m
    end.
Proof.
  unfold RegisterDone. cbn [Location set_Location].
  rewrite RegisterDone_loop_filter.
  set (paths := filter _ (Options message)).
  assert (Hp : forall o, In o paths -> (No o =? coapOptionNoLocationPath) = true).
  { intros o Ho. unfold paths in Ho. apply filter_In in Ho. exact (proj2 Ho). }
  destruct paths as [| first [| second rest]]; cbn [RegisterDone_loop].
  - reflexivity.
  - rewrite (Hp first (or_introl eq_refl)). reflexivity.
  - rewrite (Hp first (or_introl eq_refl)), (Hp second (or_intror (or_introl eq_refl))).
    change (0 =? 0) with true. change (0 + 1 =? 0) with false.
    change (0 + 1 =? 1) with true. cbv iota.
    apply RegisterDone_loop_done. lia.
Qed.

Lemma instanceIDList_loop_In (lwm2m : Lwm2m) (objectIDs : list Z) :
  forall (ret : list string) (path : string),
  In path (instanceIDList_loop lwm2m objectIDs ret) ->
  In path ret \/
  exists objectID instanceID,
    In objectID objectIDs /\ objectID <> 0 /\
    In instanceID
       (fst (ListInstanceIDs (handler lwm2m)
               {| object_ID := objectID;
                  object_Definition :=
                    findObjectDefinitionByID (definitions lwm2m) objectID |})) /\
    path = ("/" ++ strconv.Itoa objectID ++ "/" ++ strconv.Itoa instanceID)%string.
Proof.
  induction objectIDs as [| objectID objectIDs IH]; intros ret path H;
    cbn [instanceIDList_loop] in H; [left; exact H |].
  assert (Hmore : forall ret',
            In path (instanceIDList_loop lwm2m objectIDs ret') ->
            (In path ret' -> In path ret \/
               exists o i, In o (objectID :: objectIDs) /\ o <> 0 /\
                 In i (fst (ListInstanceIDs (handler lwm2m)
                              {| object_ID := o;
                                 object_Definition :=
                                   findObjectDefinitionByID (definitions lwm2m) o |})) /\
                 path = ("/" ++ strconv.Itoa o ++ "/" ++ strconv.Itoa i)%string) ->
            In path ret \/
            exists o i, In o (objectID :: objectIDs) /\ o <> 0 /\
              In i (fst (ListInstanceIDs (handler lwm2m)
                           {| object_ID := o;
                              object_Definition :=
                                findObjectDefinitionByID (definitions lwm2m) o |})) /\
              path = ("/" ++ strconv.Itoa o ++ "/" ++ strconv.Itoa i)%string).
  { intros ret' Hin Hret. apply IH in Hin. destruct Hin as [Hin | (o & i & Ho & Hne & Hi & E)].
    - apply Hret, Hin.
    - right. exists o, i. repeat split; try assumption. right. exact Ho. }
  destruct (Z.eqb_spec objectID 0) as [E0 | E0].
  - apply (Hmore ret H). intros Hin. left. exact Hin.
  - cbv zeta in H.
    destruct (ListInstanceIDs (handler lwm2m)
                {| object_ID := objectID;
                   object_Definition :=
                     findObjectDefinitionByID (definitions lwm2m) objectID |})
      as [instanceIDs code] eqn:El.
    destruct (code =? CoapCodeContent); cbn [negb] in H.
    + apply (Hmore _ H). intros Hin. apply in_app_or in Hin.
      destruct Hin as [Hin | Hin]; [left; exact Hin |].
      unfold instancePaths in Hin. apply in_map_iff in Hin.
      destruct Hin as (i & <- & Hi).
      right. exists objectID, i. rewrite El. cbn [fst].
      repeat split; try assumption. left. reflexivity.
    + apply (Hmore ret H). intros Hin. left. exact Hin.
Qed.

(** The registration never lists the Security object: every path of
    [instanceIDList] is "/o/i" for an object identifier [o] other than 0
    that the handler lists, and an instance [i] the handler lists for it. *)
Theorem instanceIDList_no_Security (lwm2m : Lwm2m) (path : string) :
  In path (instanceIDList lwm2m) ->
  exists objectID instanceID,
    In objectID (fst (ListObjectIDs (handler lwm2m))) /\ objectID <> 0 /\
    In instanceID
       (fst (ListInstanceIDs (handler lwm2m)
               {| object_ID := objectID;
                  object_Definition :=
                    findObjectDefinitionByID (definitions lwm2m) objectID |})) /\
    path = ("/" ++ strconv.Itoa objectID ++ "/" ++ strconv.Itoa instanceID)%string.
Proof.
  unfold instanceIDList.
  destruct (ListObjectIDs (handler lwm2m)) as [objectIDs code]. cbn [fst].
  destruct (code =? CoapCodeContent); cbn [negb]; [| intros []].
  intros H. apply instanceIDList_loop_In in H. destruct H as [[] | H]. exact H.
Qed.

Section Register.

Context {sorting : Sorting}.

Lemma buildRegisterOptions_sorted (lwm2m : Lwm2m) (lifetime : Z) :
  sort_Slice (buildRegisterOptions lwm2m lifetime) = buildRegisterOptions lwm2m lifetime.
Proof. reflexivity. Qed.

Lemma buildRegisterOptions_agree (lwm2m : Lwm2m) (lifetime : Z) :
  len (bytes_of_string ("ep=" ++ endpointClientName lwm2m)) < 256 ->
  len (bytes_of_string ("lt=" ++ strconv.Itoa lifetime)) < 256 ->
  agree 0 (buildRegisterOptions lwm2m lifetime) = true.
Proof.
  intros Hep Hlt. unfold buildRegisterOptions. cbn [agree No].
  rewrite !andb_true_iff.
  repeat split; try reflexivity; apply agrees_short;
    unfold coapOptionNoURIQuery; try assumption;
    change (2 ^ 64) with 18446744073709551616; lia.
Qed.

(** The Register request on the wire: parsing the datagram [SendRequest]
    writes for the options of [buildRegisterOptions] gives back a
    confirmable POST with these options in the order they were built, the
    token and the payload. *)
Theorem Register_request_on_the_wire (lwm2m : Lwm2m) (coap : Coap) (lifetime : Z)
    (payload token : list byte) :
  0 <= NextMessageID coap < 2 ^ 16 ->
  len token = 8 ->
  len (bytes_of_string ("ep=" ++ endpointClientName lwm2m)) < 256 ->
  len (bytes_of_string ("lt=" ++ strconv.Itoa lifetime)) < 256 ->
  exists datagram,
    Written (fst (SendRequest coap CoapCodePost (buildRegisterOptions lwm2m lifetime)
                    payload token))
    = Written coap ++ [datagram] /\
    ParseMessage datagram
    = Some (Some (request (NextMessageID coap) CoapCodePost token
                    (buildRegisterOptions lwm2m lifetime) payload)).
Proof.
  intros Hid Htok Hep Hlt. eexists. split; [reflexivity |].
  rewrite ParseMessage_of_ConvertToBytes.
  - unfold request. cbn [Version Type_ TokenLength Code MessageID Token Options Payload].
    rewrite buildRegisterOptions_sorted. reflexivity.
  - unfold wellFormed, request.
    cbn [Version Type_ TokenLength Code MessageID Token Options Payload].
    rewrite buildRegisterOptions_sorted, Htok.
    unfold CoapTypeConfirmable, CoapCodePost, coapDefaultTokenLength.
    repeat split; try lia. apply buildRegisterOptions_agree; assumption.
Qed.

End Register.

Lemma Register_request_on_the_wire_witness :
  exists datagram,
    Written (fst (SendRequest {| NextMessageID := 65535; Written := [] |} CoapCodePost
                    (buildRegisterOptions (Scenario.agent "45") 60)
                    (bytes_of_string "</3/0>") [1; 2; 3; 4; 5; 6; 7; 8]))
    = [] ++ [datagram] /\
    ParseMessage datagram
    = Some (Some (request 65535 CoapCodePost [1; 2; 3; 4; 5; 6; 7; 8]
                    (buildRegisterOptions (Scenario.agent "45") 60)
                    (bytes_of_string "</3/0>"))).
Proof.
  apply (Register_request_on_the_wire (Scenario.agent "45")
           {| NextMessageID := 65535; Written := [] |} 60);
    [cbn [NextMessageID]; lia | reflexivity | vm_compute; reflexivity
    | vm_compute; reflexivity].
Defined.

Section Requests.

Context {sorting : Sorting}.

Section Write.

Variable std : StdLib.
Variable store : Lwm2mStore.
Variables (lwm2m : Lwm2m) (coap : Coap) (message : CoapMessage).
Variables objectID instanceID resourceID : Z.
Hypothesis connected : Connection lwm2m = Some coap.

Lemma processWriteResource_NotFound :
  findInstance lwm2m objectID instanceID = None ->
  exists lwm2m',
    processWriteResource std store lwm2m objectID instanceID resourceID message
    = Some (lwm2m', errNoInstance) /\
    replied lwm2m lwm2m' message CoapCodeNotFound [] [] /\
    handler lwm2m' = handler lwm2m.
Proof.
  intros Hf. unfold processWriteResource. rewrite Hf.
  unfold Lwm2m.SendResponse. rewrite connected.
  eexists. split; [reflexivity |]. split; [| reflexivity].
  exists coap. split; [exact connected | reflexivity].
Qed.

Lemma processWriteResource_undefined instance :
  findInstance lwm2m objectID instanceID = Some instance ->
  target lwm2m objectID instanceID resourceID = None ->
  processWriteResource std store lwm2m objectID instanceID resourceID message
  = Some (lwm2m, errNoDefinition).
Proof.
  intros Hf Ht. unfold processWriteResource. rewrite Hf. fold (target lwm2m objectID instanceID resourceID). rewrite Ht.
  reflexivity.
Qed.

Lemma processWriteResource_NotAllowed instance resource definition :
  findInstance lwm2m objectID instanceID = Some instance ->
  target lwm2m objectID instanceID resourceID = Some resource ->
  resource_Definition resource = Some definition ->
  Writable definition = false ->
  exists lwm2m',
    processWriteResource std store lwm2m objectID instanceID resourceID message
    = Some (lwm2m', op_nil) /\
    replied lwm2m lwm2m' message CoapCodeNotAllowed [] [] /\
    handler lwm2m' = handler lwm2m.
Proof.
  intros Hf Ht Hd Hw. unfold processWriteResource. rewrite Hf. fold (target lwm2m objectID instanceID resourceID).
  rewrite Ht, Hd, Hw. cbn [negb].
  unfold Lwm2m.SendResponse. rewrite connected.
  eexists. split; [reflexivity |]. split; [| reflexivity].
  exists coap. split; [exact connected | reflexivity].
Qed.

Lemma processWriteResource_written instance resource definition value handler' code :
  findInstance lwm2m objectID instanceID = Some instance ->
  target lwm2m objectID instanceID resourceID = Some resource ->
  resource_Definition resource = Some definition ->
  Writable definition = true ->
  Value.convertTLVValueToString std
    (TLV.Value (fst (TLV.Unmarshal TLV.zero (Payload message)))) (rdef_Type definition)
  = Some value ->
  WriteResource store (handler lwm2m) resource value = (handler', code) ->
  exists lwm2m',
    processWriteResource std store lwm2m objectID instanceID resourceID message
    = Some (lwm2m', if code =? CoapCodeChanged then op_nil else errWriteResource) /\
    replied lwm2m lwm2m' message code [] [] /\
    handler lwm2m' = handler'.
Proof.
  intros Hf Ht Hd Hw Hv Hs. unfold processWriteResource. rewrite Hf. fold (target lwm2m objectID instanceID resourceID).
  rewrite Ht, Hd, Hw. cbn [negb].
  destruct (TLV.Unmarshal TLV.zero (Payload message)) as [tlv n]. cbn [fst] in Hv.
  rewrite Hv, Hs. unfold Lwm2m.SendResponse.
  destruct (Z.eqb_spec code CoapCodeChanged) as [-> | Hne]; cbn [negb];
    cbn [Connection set_handler]; rewrite connected;
    (eexists; split; [reflexivity |]; split; [| reflexivity]);
    exists coap; (split; [exact connected | reflexivity]).
Qed.

End Write.

(** An answer without options and payload to a request that came from the
    wire, read from the wire again, with the store the agent is left
    with. *)
Lemma answered_on_the_wire (lwm2m lwm2m' : Lwm2m) (coap : Coap) (raw : list byte)
    (request : CoapMessage) (result : option (Lwm2m * opError)) (err : opError)
    (code : CoapCode) (handler' : Lwm2mHandler) :
  Connection lwm2m = Some coap ->
  ParseMessage raw = Some (Some request) ->
  result = Some (lwm2m', err) ->
  0 <= code < 256 ->
  replied lwm2m lwm2m' request code [] [] ->
  handler lwm2m' = handler' ->
  exists lwm2m'' coap' datagram,
    result = Some (lwm2m'', err) /\
    Connection lwm2m'' = Some coap' /\
    Written coap' = Written coap ++ [datagram] /\
    ParseMessage datagram
    = Some (Some {| Version := 1; Type_ := CoapTypeAcknowledgement;
                    TokenLength := TokenLength request; Code := code;
                    MessageID := MessageID request; Token := Token request;
                    Options := []; Payload := [] |}) /\
    handler lwm2m'' = handler'.
Proof.
  intros Hc Hp Hr Hcode Hrep Hh.
  destruct (replied_on_the_wire lwm2m lwm2m' coap raw request code [] [] Hc Hp Hcode
              eq_refl Hrep) as [coap' [datagram [H1 [H2 H3]]]].
  exists lwm2m', coap', datagram. repeat split; assumption.
Qed.

(** The answers to a PUT on a resource that came from the wire, as they
    read on the wire: one acknowledgement with the message identifier and
    the token of the request, no option and no payload.  4.04 when the
    instance does not exist; no answer at all when the store has no such
    resource and the object definition has none either; 4.05 when the
    definition does not allow writing.  Otherwise the handler is given the
    string the payload decodes to, and its code is the code of the answer:
    2.04 when it accepts, its own code when it refuses. *)
Theorem write_reply_codes (std : StdLib) (store : Lwm2mStore) (lwm2m : Lwm2m)
    (coap : Coap) (raw : list byte) (message : CoapMessage)
    (objectID instanceID resourceID : Z) :
  Connection lwm2m = Some coap ->
  ParseMessage raw = Some (Some message) ->
  let answers (result : option (Lwm2m * opError)) (err : opError) (code : CoapCode)
      (handler' : Lwm2mHandler) :=
    exists lwm2m' coap' datagram,
      result = Some (lwm2m', err) /\
      Connection lwm2m' = Some coap' /\
      Written coap' = Written coap ++ [datagram] /\
      ParseMessage datagram
      = Some (Some {| Version := 1; Type_ := CoapTypeAcknowledgement;
                      TokenLength := TokenLength message; Code := code;
                      MessageID := MessageID message; Token := Token message;
                      Options := []; Payload := [] |}) /\
      handler lwm2m' = handler' in
  (findInstance lwm2m objectID instanceID = None ->
   answers (processWriteResource std store lwm2m objectID instanceID resourceID message)
     errNoInstance CoapCodeNotFound (handler lwm2m))
  /\
  (forall instance,
   findInstance lwm2m objectID instanceID = Some instance ->
   target lwm2m objectID instanceID resourceID = None ->
   processWriteResource std store lwm2m objectID instanceID resourceID message
   = Some (lwm2m, errNoDefinition))
  /\
  (forall instance resource definition,
   findInstance lwm2m objectID instanceID = Some instance ->
   target lwm2m objectID instanceID resourceID = Some resource ->
   resource_Definition resource = Some definition ->
   Writable definition = false ->
   answers (processWriteResource std store lwm2m objectID instanceID resourceID message)
     op_nil CoapCodeNotAllowed (handler lwm2m))
  /\
  (forall instance resource definition value handler' code,
   findInstance lwm2m objectID instanceID = Some instance ->
   target lwm2m objectID instanceID resourceID = Some resource ->
   resource_Definition resource = Some definition ->
   Writable definition = true ->
   Value.convertTLVValueToString std
     (TLV.Value (fst (TLV.Unmarshal TLV.zero (Payload message)))) (rdef_Type definition)
   = Some value ->
   WriteResource store (handler lwm2m) resource value = (handler', code) ->
   0 <= code < 256 ->
   answers (processWriteResource std store lwm2m objectID instanceID resourceID message)
     (if code =? CoapCodeChanged then op_nil else errWriteResource) code handler').
Proof.
  intros Hc Hp answers. split; [| split; [| split]].
  - intros Hf.
    destruct (processWriteResource_NotFound std store lwm2m coap message objectID
                instanceID resourceID Hc Hf) as [l' [H1 [H2 H3]]].
    exact (answered_on_the_wire lwm2m l' coap raw message _ _ CoapCodeNotFound _ Hc Hp H1
             ltac:(unfold CoapCodeNotFound; lia) H2 H3).
  - intros instance. apply processWriteResource_undefined.
  - intros instance resource definition Hf Ht Hd Hw.
    destruct (processWriteResource_NotAllowed std store lwm2m coap message objectID
                instanceID resourceID Hc instance resource definition Hf Ht Hd Hw)
      as [l' [H1 [H2 H3]]].
    exact (answered_on_the_wire lwm2m l' coap raw message _ _ CoapCodeNotAllowed _ Hc Hp H1
             ltac:(unfold CoapCodeNotAllowed; lia) H2 H3).
  - intros instance resource definition value handler' code Hf Ht Hd Hw Hv Hs Hcode.
    destruct (processWriteResource_written std store lwm2m coap message objectID
                instanceID resourceID Hc instance resource definition value handler' code
                Hf Ht Hd Hw Hv Hs) as [l' [H1 [H2 H3]]].
    exact (answered_on_the_wire lwm2m l' coap raw message _ _ code _ Hc Hp H1 Hcode H2 H3).
Qed.

Lemma resourceTLV_fields (resourceID : Z) (wire : list byte) :
  0 <= resourceID < 2 ^ 16 -> len wire <= 0xFFFF ->
  resourceTLV resourceID wire
  = TLV.Build_Lwm2mTLV TLV.lwm2mTLVTypeResouce resourceID (len wire) wire [].
Proof.
  intros Hid Hl. unfold resourceTLV, u16, u32. pose proof (len_nonneg wire).
  rewrite !Z.mod_small; [reflexivity | change (2 ^ 32) with 4294967296; lia | exact Hid].
Qed.

(** The value of a resource TLV, read back from what [Marshal] wrote,
    whatever follows it. *)
Lemma Unmarshal_resourceTLV (resourceID : Z) (wire tail : list byte) :
  0 <= resourceID < 2 ^ 16 -> len wire <= 0xFFFF ->
  TLV.Unmarshal TLV.zero (TLV.Marshal (resourceTLV resourceID wire) ++ tail)
  = (resourceTLV resourceID wire, len (TLV.Marshal (resourceTLV resourceID wire))).
Proof.
  intros Hid Hl. rewrite resourceTLV_fields by assumption.
  apply Unmarshal_Marshal_app; cbn [TLV.TypeOfID TLV.ID TLV.Length TLV.Value];
    unfold TLV.lwm2mTLVTypeResouce; lia.
Qed.

(** A PUT hands the handler the string its payload encodes: when the
    payload is the resource TLV [Marshal] writes for wire bytes that decode
    to a string, the handler is called with exactly that string, the store
    it leaves is the store of the agent afterwards, and the acknowledgement
    on the wire carries its code, the message identifier and the token of
    the request. *)
Theorem write_delivers_value (std : StdLib) (store : Lwm2mStore) (lwm2m : Lwm2m)
    (coap : Coap) (raw : list byte) (message : CoapMessage)
    (objectID instanceID resourceID : Z)
    (instance : Lwm2mInstance) (resource : Lwm2mResource)
    (definition : Lwm2mResourceDefinition) (value : string) (wire : list byte) :
  Connection lwm2m = Some coap ->
  ParseMessage raw = Some (Some message) ->
  findInstance lwm2m objectID instanceID = Some instance ->
  target lwm2m objectID instanceID resourceID = Some resource ->
  resource_Definition resource = Some definition ->
  Writable definition = true ->
  0 <= resourceID < 2 ^ 16 -> len wire <= 0xFFFF ->
  Value.convertTLVValueToString std wire (rdef_Type definition) = Some value ->
  Payload message = TLV.Marshal (resourceTLV resourceID wire) ->
  let written := WriteResource store (handler lwm2m) resource value in
  0 <= snd written < 256 ->
  exists lwm2m' coap' datagram,
    processWriteResource std store lwm2m objectID instanceID resourceID message
    = Some (lwm2m',
            if snd written =? CoapCodeChanged then op_nil else errWriteResource) /\
    Connection lwm2m' = Some coap' /\
    Written coap' = Written coap ++ [datagram] /\
    ParseMessage datagram
    = Some (Some {| Version := 1; Type_ := CoapTypeAcknowledgement;
                    TokenLength := TokenLength message; Code := snd written;
                    MessageID := MessageID message; Token := Token message;
                    Options := []; Payload := [] |}) /\
    handler lwm2m' = fst written.
Proof.
  intros Hc Hpm Hf Ht Hd Hw Hid Hl Hdec Hp written Hcode. subst written.
  destruct (WriteResource store (handler lwm2m) resource value) as [handler' code] eqn:Ew.
  cbn [fst snd] in *.
  destruct (processWriteResource_written std store lwm2m coap message objectID instanceID
              resourceID Hc instance resource definition value handler' code Hf Ht Hd Hw)
    as [l' [H1 [H2 H3]]]; [| exact Ew |].
  - rewrite Hp. rewrite <- (app_nil_r (TLV.Marshal (resourceTLV resourceID wire))).
    rewrite Unmarshal_resourceTLV by assumption. cbn [fst]. exact Hdec.
  - exact (answered_on_the_wire lwm2m l' coap raw message _ _ code _ Hc Hpm H1 Hcode H2 H3).
Qed.

Lemma Unmarshal_failed_Value (raw : list byte) :
  snd (TLV.Unmarshal TLV.zero raw) = -1 ->
  TLV.Value (fst (TLV.Unmarshal TLV.zero raw)) = [].
Proof.
  unfold TLV.Unmarshal.
  repeat first
    [ progress tlv_step
    | match goal with
      | |- context [len raw <? ?c] =>
        destruct (Z.ltb_spec (len raw) c); [intros _; reflexivity |]
      end
    | match goal with
      | |- context [if ?c then _ else _] =>
        lazymatch c with
        | Z.ltb _ _ => fail
        | _ => destruct c
        end
      end ];
  cbn [fst snd]; tlv_step; intros E;
  apply sub_empty; lia.
Qed.

(** A payload that is not a TLV is not refused: [Unmarshal] fails, its
    result is not looked at, and the value written is decoded from no bytes
    at all.  For a Boolean or an Objlnk resource the decoder reads [buf[0]]
    or [buf[0:2]] of the empty slice: a run-time panic. *)
Theorem write_bad_payload_panics (std : StdLib) (store : Lwm2mStore) (lwm2m : Lwm2m)
    (message : CoapMessage) (objectID instanceID resourceID : Z)
    (instance : Lwm2mInstance) (resource : Lwm2mResource)
    (definition : Lwm2mResourceDefinition) :
  findInstance lwm2m objectID instanceID = Some instance ->
  target lwm2m objectID instanceID resourceID = Some resource ->
  resource_Definition resource = Some definition ->
  Writable definition = true ->
  rdef_Type definition = Value.lwm2mResourceTypeBoolean \/
  rdef_Type definition = Value.lwm2mResourceTypeObjlnk ->
  snd (TLV.Unmarshal TLV.zero (Payload message)) = -1 ->
  processWriteResource std store lwm2m objectID instanceID resourceID message = None.
Proof.
  intros Hf Ht Hd Hw Hty Hu. unfold processWriteResource. rewrite Hf.
  fold (target lwm2m objectID instanceID resourceID). rewrite Ht, Hd, Hw. cbn [negb].
  pose proof (Unmarshal_failed_Value (Payload message) Hu) as Hv.
  destruct (TLV.Unmarshal TLV.zero (Payload message)) as [tlv n]. cbn [fst] in Hv.
  rewrite Hv. destruct Hty as [-> | ->]; reflexivity.
Qed.

(** The answers to a POST on a resource that came from the wire, as they
    read on the wire: one acknowledgement with the message identifier and
    the token of the request, no option and no payload.  4.04 when
    [findResource] finds nothing and 4.05 when the definition does not
    allow executing, the handler untouched in both cases.  Otherwise the
    handler is given the base64 text of the payload, and its code is the
    code of the answer. *)
Theorem execute_reply_codes (std : StdLib) (store : Lwm2mStore) (lwm2m : Lwm2m)
    (coap : Coap) (raw : list byte) (message : CoapMessage)
    (objectID instanceID resourceID : Z) :
  Connection lwm2m = Some coap ->
  ParseMessage raw = Some (Some message) ->
  let answers (result : option (Lwm2m * opError)) (err : opError) (code : CoapCode)
      (handler' : Lwm2mHandler) :=
    exists lwm2m' coap' datagram,
      result = Some (lwm2m', err) /\
      Connection lwm2m' = Some coap' /\
      Written coap' = Written coap ++ [datagram] /\
      ParseMessage datagram
      = Some (Some {| Version := 1; Type_ := CoapTypeAcknowledgement;
                      TokenLength := TokenLength message; Code := code;
                      MessageID := MessageID message; Token := Token message;
                      Options := []; Payload := [] |}) /\
      handler lwm2m' = handler' in
  (findResource lwm2m objectID instanceID resourceID = None ->
   answers (processExecuteResource std store lwm2m objectID instanceID resourceID message)
     op_nil CoapCodeNotFound (handler lwm2m))
  /\
  (forall resource definition,
   findResource lwm2m objectID instanceID resourceID = Some resource ->
   resource_Definition resource = Some definition ->
   Excutable definition = false ->
   answers (processExecuteResource std store lwm2m objectID instanceID resourceID message)
     op_nil CoapCodeNotAllowed (handler lwm2m))
  /\
  (forall resource definition handler' code,
   findResource lwm2m objectID instanceID resourceID = Some resource ->
   resource_Definition resource = Some definition ->
   Excutable definition = true ->
   ExecuteResource store (handler lwm2m) resource
     (base64_EncodeToString std (Payload message)) = (handler', code) ->
   0 <= code < 256 ->
   answers (processExecuteResource std store lwm2m objectID instanceID resourceID message)
     (if code =? CoapCodeChanged then op_nil else errExecuteResource) code handler').
Proof.
  intros Hc Hp answers. split; [| split].
  - intros Hf.
    refine (answered_on_the_wire lwm2m _ coap raw message _ _ CoapCodeNotFound _ Hc Hp _
              ltac:(unfold CoapCodeNotFound; lia) _ _).
    + unfold processExecuteResource. rewrite Hf.
      unfold Lwm2m.SendResponse. rewrite Hc. reflexivity.
    + exists coap. split; [exact Hc | reflexivity].
    + reflexivity.
  - intros resource definition Hf Hd He.
    refine (answered_on_the_wire lwm2m _ coap raw message _ _ CoapCodeNotAllowed _ Hc Hp _
              ltac:(unfold CoapCodeNotAllowed; lia) _ _).
    + unfold processExecuteResource. rewrite Hf, Hd, He. cbn [negb].
      unfold Lwm2m.SendResponse. rewrite Hc. reflexivity.
    + exists coap. split; [exact Hc | reflexivity].
    + reflexivity.
  - intros resource definition handler' code Hf Hd He Hx Hcode.
    assert (H : exists l',
               processExecuteResource std store lwm2m objectID instanceID resourceID message
               = Some (l', if code =? CoapCodeChanged then op_nil else errExecuteResource) /\
               replied lwm2m l' message code [] [] /\ handler l' = handler').
    { unfold processExecuteResource. rewrite Hf, Hd, He. cbn [negb]. cbv zeta.
      rewrite Hx. unfold Lwm2m.SendResponse.
      destruct (Z.eqb_spec code CoapCodeChanged) as [-> | Hne]; cbn [negb];
        cbn [Connection set_handler]; rewrite Hc;
        (eexists; split; [reflexivity |]; split; [| reflexivity]);
        exists coap; (split; [exact Hc | reflexivity]). }
    destruct H as [l' [H1 [H2 H3]]].
    exact (answered_on_the_wire lwm2m l' coap raw message _ _ code _ Hc Hp H1 Hcode H2 H3).
Qed.

Lemma ObserveDeregister_frame_fields (lwm2m : Lwm2m) (message : CoapMessage) :
  Connection (ObserveDeregister lwm2m message) = Connection lwm2m /\
  handler (ObserveDeregister lwm2m message) = handler lwm2m /\
  Location (ObserveDeregister lwm2m message) = Location lwm2m.
Proof.
  unfold ObserveDeregister.
  destruct (_ >=? 0); [destruct lwm2m; repeat split |].
  cbv zeta. destruct (_ >=? 0); destruct lwm2m; repeat split.
Qed.

(** Only a confirmable GET, PUT or POST makes the agent answer or touch the
    store.  Whatever else arrives (an acknowledgement, a reset, a
    non-confirmable message, a confirmable DELETE or any other code) is
    handled without a datagram being written and without a call that
    changes the store; an acknowledgement other than 2.01 and a
    non-confirmable message change nothing at all. *)
Theorem ReceiveMessage_silent (std : StdLib) (store : Lwm2mStore) (lwm2m : Lwm2m)
    (message : CoapMessage) :
  Type_ message <> CoapTypeConfirmable \/
  (Code message <> CoapCodeGet /\ Code message <> CoapCodePut /\
   Code message <> CoapCodePost) ->
  exists lwm2m',
    ReceiveMessage std store lwm2m message = Some lwm2m' /\
    Connection lwm2m' = Connection lwm2m /\
    handler lwm2m' = handler lwm2m /\
    (Type_ message <> CoapTypeReset ->
     observedInstance lwm2m' = observedInstance lwm2m /\
     observedResource lwm2m' = observedResource lwm2m) /\
    (Type_ message <> CoapTypeReset ->
     (Type_ message = CoapTypeAcknowledgement -> Code message <> CoapCodeCreated) ->
     lwm2m' = lwm2m).
Proof.
  intros H. unfold ReceiveMessage.
  destruct (Z.eqb_spec (Type_ message) CoapTypeAcknowledgement) as [Ea | Ea].
  { destruct (Z.eqb_spec (Code message) CoapCodeCreated) as [Ec | Ec].
    - eexists. split; [reflexivity |]. unfold RegisterDone.
      repeat split; try (destruct lwm2m; reflexivity).
      intros _ Hn. exfalso. apply (Hn Ea Ec).
    - destruct (Code message =? CoapCodeChanged);
        (eexists; split; [reflexivity |]); repeat split. }
  destruct (Z.eqb_spec (Type_ message) CoapTypeConfirmable) as [Eq | Eq].
  { destruct H as [H | (Hg & Hp & Hx)]; [exfalso; apply H, Eq |].
    apply Z.eqb_neq in Hg, Hp, Hx. rewrite Hg, Hp, Hx.
    eexists. split; [reflexivity |]. repeat split. }
  destruct (Z.eqb_spec (Type_ message) CoapTypeReset) as [Er | Er].
  { eexists. split; [reflexivity |].
    destruct (ObserveDeregister_frame_fields lwm2m message) as (H1 & H2 & _).
    split; [exact H1 |]. split; [exact H2 |].
    split; intros Hn; exfalso; apply Hn, Er. }
  eexists. split; [reflexivity |]. repeat split.
Qed.

End Requests.

(** ** The properties above, on the bench *)

Lemma Observe_quiet_witness :
  let lwm2m :=
    set_observedResource (Scenario.agent "45")
      [ {| or_token := [1; 2]; or_messageID := 9; or_observeCount := 4;
           or_resource :=
             Some {| resource_ID := 9; resource_objectID := 3; resource_instanceID := 0;
                     resource_Definition := Some Scenario.batteryLevel |};
           or_lastValue := "45" |} ] in
  Observe Scenario.std lwm2m = Some lwm2m.
Proof.
  intros lwm2m. apply Observe_quiet; reflexivity.
Defined.

Lemma ReadRequest_then_Observe_witness :
  exists lwm2m',
    ReadRequest Scenario.std (Scenario.agent "45")
      (Scenario.get true ["3"; "0"; "9"]%string) = Some (lwm2m', nil_error) /\
    List.length (observedResource lwm2m') = 1%nat /\
    Observe Scenario.std lwm2m' = Some lwm2m'.
Proof.
  eexists. split; [reflexivity |]. split; [reflexivity |].
  apply (ReadRequest_then_Observe Scenario.std (Scenario.agent "45") _
           (Scenario.get true ["3"; "0"; "9"]%string) nil_error);
    reflexivity.
Defined.

Lemma instanceIDList_no_Security_witness :
  let lwm2m := Bench.agent [(9, "45"%string)] in
  fst (ListObjectIDs (handler lwm2m)) = [0; 3] /\
  instanceIDList lwm2m = ["/3/0"%string] /\
  exists objectID instanceID,
    In objectID (fst (ListObjectIDs (handler lwm2m))) /\ objectID <> 0 /\
    In instanceID
       (fst (ListInstanceIDs (handler lwm2m)
               {| object_ID := objectID;
                  object_Definition :=
                    findObjectDefinitionByID (definitions lwm2m) objectID |})) /\
    "/3/0"%string = ("/" ++ strconv.Itoa objectID ++ "/" ++ strconv.Itoa instanceID)%string.
Proof.
  intros lwm2m. split; [reflexivity |]. split; [reflexivity |].
  exact (instanceIDList_no_Security lwm2m "/3/0"%string (or_introl eq_refl)).
Defined.

Lemma write_reply_codes_witness :
  let values := [(4, EmptyString); (9, "45"); (15, "UTC")]%string in
  let lwm2m := Bench.agent values in
  let keeper := Bench.keeper values in
  let put path payload := Bench.con CoapCodePut path payload in
  let answers (result : option (Lwm2m * opError)) (err : opError) (code : CoapCode)
      (handler' : Lwm2mHandler) :=
    exists lwm2m' coap' datagram,
      result = Some (lwm2m', err) /\
      Connection lwm2m' = Some coap' /\
      Written coap' = [datagram] /\
      ParseMessage datagram
      = Some (Some {| Version := 1; Type_ := CoapTypeAcknowledgement; TokenLength := 2;
                      Code := code; MessageID := 0x4321; Token := [0x0A; 0x0B];
                      Options := []; Payload := [] |}) /\
      handler lwm2m' = handler' in
  answers (processWriteResource Scenario.std keeper lwm2m 3 1 15
             (put ["3"; "1"; "15"]%string [])) errNoInstance 132 (handler lwm2m)
  /\
  processWriteResource Scenario.std keeper lwm2m 3 0 99
    (put ["3"; "0"; "99"]%string []) = Some (lwm2m, errNoDefinition)
  /\
  answers (processWriteResource Scenario.std keeper lwm2m 3 0 9
             (put ["3"; "0"; "9"]%string [0xC1; 0x09; 0x2B])) op_nil 133 (handler lwm2m)
  /\
  answers (processWriteResource Scenario.std keeper lwm2m 3 0 15
             (put ["3"; "0"; "15"]%string [0xC3; 0x0F; 0x4A; 0x53; 0x54])) op_nil 68
    (Bench.store ((15, "JST"%string) :: values)).
Proof.
  intros values lwm2m keeper put answers.
  pose (coap := {| NextMessageID := 7; Written := [] |}).
  pose (sent := fun message => ConvertToBytes message).
  split; [| split; [| split]].
  - exact (proj1 (write_reply_codes Scenario.std keeper lwm2m coap
                    (sent (put ["3"; "1"; "15"]%string []))
                    (put ["3"; "1"; "15"]%string []) 3 1 15 eq_refl eq_refl) eq_refl).
  - exact (proj1 (proj2 (write_reply_codes Scenario.std keeper lwm2m coap
                    (sent (put ["3"; "0"; "99"]%string []))
                    (put ["3"; "0"; "99"]%string []) 3 0 99 eq_refl eq_refl))
             {| instance_ID := 0; instance_objectID := 3 |} eq_refl eq_refl).
  - exact (proj1 (proj2 (proj2 (write_reply_codes Scenario.std keeper lwm2m coap
                    (sent (put ["3"; "0"; "9"]%string [0xC1; 0x09; 0x2B]))
                    (put ["3"; "0"; "9"]%string [0xC1; 0x09; 0x2B]) 3 0 9 eq_refl eq_refl)))
             {| instance_ID := 0; instance_objectID := 3 |}
             {| resource_ID := 9; resource_objectID := 3; resource_instanceID := 0;
                resource_Definition := Some Scenario.batteryLevel |}
             Scenario.batteryLevel eq_refl eq_refl eq_refl eq_refl).
  - exact (proj2 (proj2 (proj2 (write_reply_codes Scenario.std keeper lwm2m coap
                    (sent (put ["3"; "0"; "15"]%string [0xC3; 0x0F; 0x4A; 0x53; 0x54]))
                    (put ["3"; "0"; "15"]%string [0xC3; 0x0F; 0x4A; 0x53; 0x54]) 3 0 15
                    eq_refl eq_refl)))
             {| instance_ID := 0; instance_objectID := 3 |}
             {| resource_ID := 15; resource_objectID := 3; resource_instanceID := 0;
                resource_Definition := Some Bench.timezone |}
             Bench.timezone "JST"%string (Bench.store ((15, "JST"%string) :: values))
             68 eq_refl eq_refl eq_refl eq_refl eq_refl eq_refl ltac:(lia)).
Defined.

Lemma write_delivers_value_witness :
  let values := [(9, "45"); (13, "1000")]%string in
  let lwm2m := Bench.agent values in
  let message := Bench.con CoapCodePut ["3"; "0"; "13"]%string
                   (TLV.Marshal (resourceTLV 13 [0x01; 0x2C])) in
  exists lwm2m' coap' datagram,
    processWriteResource Scenario.std (Bench.keeper values) lwm2m 3 0 13 message
    = Some (lwm2m', op_nil) /\
    Connection lwm2m' = Some coap' /\
    Written coap' = [datagram] /\
    ParseMessage datagram
    = Some (Some {| Version := 1; Type_ := CoapTypeAcknowledgement; TokenLength := 2;
                    Code := 68; MessageID := 0x4321; Token := [0x0A; 0x0B];
                    Options := []; Payload := [] |}) /\
    handler lwm2m' = Bench.store ((13, "300"%string) :: values).
Proof.
  intros values lwm2m message.
  exact (write_delivers_value Scenario.std (Bench.keeper values) lwm2m
           {| NextMessageID := 7; Written := [] |} (ConvertToBytes message) message 3 0 13
           {| instance_ID := 0; instance_objectID := 3 |}
           {| resource_ID := 13; resource_objectID := 3; resource_instanceID := 0;
              resource_Definition := Some Bench.currentTime |}
           Bench.currentTime "300"%string [0x01; 0x2C]
           eq_refl eq_refl eq_refl eq_refl eq_refl eq_refl
           ltac:(lia) ltac:(vm_compute; discriminate) eq_refl eq_refl
           ltac:(vm_compute; split; [discriminate | reflexivity])).
Defined.

Lemma write_bad_payload_panics_witness :
  processWriteResource Scenario.std (Bench.keeper []) (Bench.agent []) 3 0 20
    (Bench.con CoapCodePut ["3"; "0"; "20"]%string [0xC1]) = None.
Proof.
  apply (write_bad_payload_panics Scenario.std (Bench.keeper []) (Bench.agent []) _ 3 0 20
           {| instance_ID := 0; instance_objectID := 3 |}
           {| resource_ID := 20; resource_objectID := 3; resource_instanceID := 0;
              resource_Definition := Some Bench.flag |}
           Bench.flag); try reflexivity.
  left. reflexivity.
Defined.

Lemma execute_reply_codes_witness :
  let values := [(4, EmptyString); (9, "45")]%string in
  let lwm2m := Bench.agent values in
  let keeper := Bench.keeper values in
  let post path := Bench.con CoapCodePost path [] in
  let answers (result : option (Lwm2m * opError)) (err : opError) (code : CoapCode)
      (handler' : Lwm2mHandler) :=
    exists lwm2m' coap' datagram,
      result = Some (lwm2m', err) /\
      Connection lwm2m' = Some coap' /\
      Written coap' = [datagram] /\
      ParseMessage datagram
      = Some (Some {| Version := 1; Type_ := CoapTypeAcknowledgement; TokenLength := 2;
                      Code := code; MessageID := 0x4321; Token := [0x0A; 0x0B];
                      Options := []; Payload := [] |}) /\
      handler lwm2m' = handler' in
  answers (processExecuteResource Scenario.std keeper lwm2m 3 0 5
             (post ["3"; "0"; "5"]%string)) op_nil 132 (handler lwm2m)
  /\
  answers (processExecuteResource Scenario.std keeper lwm2m 3 0 9
             (post ["3"; "0"; "9"]%string)) op_nil 133 (handler lwm2m)
  /\
  answers (processExecuteResource Scenario.std keeper lwm2m 3 0 4
             (post ["3"; "0"; "4"]%string)) op_nil 68 (handler lwm2m).
Proof.
  intros values lwm2m keeper post answers.
  pose (coap := {| NextMessageID := 7; Written := [] |}).
  pose (sent := fun message => ConvertToBytes message).
  split; [| split].
  - exact (proj1 (execute_reply_codes Scenario.std keeper lwm2m coap
                    (sent (post ["3"; "0"; "5"]%string)) (post ["3"; "0"; "5"]%string)
                    3 0 5 eq_refl eq_refl) eq_refl).
  - exact (proj1 (proj2 (execute_reply_codes Scenario.std keeper lwm2m coap
                    (sent (post ["3"; "0"; "9"]%string)) (post ["3"; "0"; "9"]%string)
                    3 0 9 eq_refl eq_refl))
             {| resource_ID := 9; resource_objectID := 3; resource_instanceID := 0;
                resource_Definition := Some Scenario.batteryLevel |}
             Scenario.batteryLevel eq_refl eq_refl eq_refl).
  - exact (proj2 (proj2 (execute_reply_codes Scenario.std keeper lwm2m coap
                    (sent (post ["3"; "0"; "4"]%string)) (post ["3"; "0"; "4"]%string)
                    3 0 4 eq_refl eq_refl))
             {| resource_ID := 4; resource_objectID := 3; resource_instanceID := 0;
                resource_Definition := Some Scenario.reboot |}
             Scenario.reboot (handler lwm2m) 68
             eq_refl eq_refl eq_refl eq_refl ltac:(lia)).
Defined.

Lemma ReceiveMessage_silent_witness :
  let lwm2m := Bench.agent [(9, "45")]%string in
  let delete := Bench.con CoapCodeDelete ["3"; "0"]%string [] in
  exists lwm2m',
    ReceiveMessage Scenario.std (Bench.keeper []) lwm2m delete = Some lwm2m' /\
    Connection lwm2m' = Connection lwm2m /\ handler lwm2m' = handler lwm2m.
Proof.
  intros lwm2m delete.
  destruct (ReceiveMessage_silent Scenario.std (Bench.keeper []) lwm2m delete)
    as (lwm2m' & H1 & H2 & H3 & _).
  - right. repeat split; discriminate.
  - exists lwm2m'. repeat split; assumption.
Defined.

(** ** A tick settles the observations *)

Lemma kept_refl (lwm2m : Lwm2m) : kept lwm2m lwm2m.
Proof. repeat split. intros H. exact H. Qed.

Lemma kept_trans (a b c : Lwm2m) : kept a b -> kept b c -> kept a c.
Proof.
  intros (H1 & H2 & H3 & H4 & H5) (K1 & K2 & K3 & K4 & K5).
  repeat split; try congruence. intros H. apply K5, H5, H.
Qed.

Lemma kept_sent (lwm2m : Lwm2m) (coap : Coap) :
  kept lwm2m (set_Connection lwm2m (Some coap)).
Proof. repeat split. intros _. discriminate. Qed.

Section Settle.

Context {sorting : Sorting}.
Variable std : StdLib.

Lemma NotifyResource_settles (lwm2m lwm2m' : Lwm2m) (observe observe' : Lwm2mObservedResource) :
  NotifyResource std lwm2m observe = Some (lwm2m', observe') ->
  kept lwm2m lwm2m' /\ quiet lwm2m observe' = true.
Proof.
  unfold NotifyResource, quiet.
  destruct (or_resource observe) as [resource |] eqn:Er; [| discriminate].
  destruct (resource_Definition resource) as [definition |] eqn:Ed; [| discriminate].
  destruct (Readable definition) eqn:Eread; cbn [negb].
  2: { intros H. injection H as <- <-. split; [apply kept_refl |].
       rewrite Er, Ed, Eread. reflexivity. }
  destruct (ReadResource (handler lwm2m) resource) as [value code] eqn:Ev.
  destruct (code =? CoapCodeContent) eqn:Ec; cbn [negb].
  2: { intros H. injection H as <- <-. split; [apply kept_refl |].
       rewrite Er, Ed, Eread, Ev. cbn [fst snd]. rewrite Ec. reflexivity. }
  destruct (String.eqb value (or_lastValue observe)) eqn:El.
  { intros H. injection H as <- <-. split; [apply kept_refl |].
    rewrite Er, Ed, Eread, Ev. cbn [fst snd]. rewrite Ec, El. reflexivity. }
  destruct (Value.convertStringToTLVValue std value (rdef_Type definition)); [| discriminate].
  destruct (Connection lwm2m) as [coap |]; [| discriminate].
  destruct (SendRelatedMessage coap _ _ _ _) as [coap' messageID].
  intros H. injection H as <- <-. split; [apply kept_sent |].
  cbn [or_resource or_lastValue]. rewrite ?Er, Ed, Eread, Ev. cbn [fst snd].
  rewrite Ec, String.eqb_refl. reflexivity.
Qed.

Lemma notifyResources_settles (lwm2m : Lwm2m) (todo : list Lwm2mObservedResource) :
  forall (payload payload' : list byte) (done resources : list Lwm2mObservedResource),
  notifyResources std lwm2m todo payload done = Some (payload', resources) ->
  forallb (quiet lwm2m) done = true ->
  forallb (quiet lwm2m) resources = true.
Proof.
  induction todo as [| observe todo IH]; intros payload payload' done resources H Hq;
    cbn [notifyResources] in H.
  - injection H as _ <-. exact Hq.
  - destruct (or_resource observe) as [resource |] eqn:Er; [| discriminate].
    destruct (resource_Definition resource) as [definition |] eqn:Ed; [| discriminate].
    assert (Hadd : forall o, quiet lwm2m o = true ->
                             forallb (quiet lwm2m) (done ++ [o]) = true).
    { intros o Ho. rewrite forallb_app, Hq. cbn [forallb]. rewrite Ho. reflexivity. }
    destruct (Readable definition) eqn:Eread; cbn [negb] in H.
    2: { apply (IH _ _ _ _ H), Hadd. unfold quiet. rewrite Er, Ed, Eread. reflexivity. }
    destruct (ReadResource (handler lwm2m) resource) as [value code] eqn:Ev.
    destruct (code =? CoapCodeContent) eqn:Ec; cbn [negb] in H.
    2: { apply (IH _ _ _ _ H), Hadd. unfold quiet. rewrite Er, Ed, Eread, Ev.
         cbn [fst snd]. rewrite Ec. reflexivity. }
    destruct (String.eqb value (or_lastValue observe)) eqn:El.
    { apply (IH _ _ _ _ H), Hadd. unfold quiet. rewrite Er, Ed, Eread, Ev.
      cbn [fst snd]. rewrite Ec, El. reflexivity. }
    destruct (Value.convertStringToTLVValue std value (rdef_Type definition));
      [| discriminate].
    apply (IH _ _ _ _ H), Hadd. unfold quiet. cbn [or_resource or_lastValue].
    rewrite ?Er, Ed, Eread, Ev. cbn [fst snd]. rewrite Ec, String.eqb_refl. reflexivity.
Qed.

Lemma NotifyInstance_settles (lwm2m lwm2m' : Lwm2m) (observe observe' : Lwm2mObservedInstance) :
  NotifyInstance std lwm2m observe = Some (lwm2m', observe') ->
  kept lwm2m lwm2m' /\ forallb (quiet lwm2m) (oi_resources observe') = true.
Proof.
  unfold NotifyInstance.
  destruct (notifyResources std lwm2m (oi_resources observe) [] [])
    as [[payload resources] |] eqn:E; [| discriminate].
  pose proof (notifyResources_settles _ _ _ _ _ _ E eq_refl) as Hq.
  destruct (len payload =? 0).
  { intros H. injection H as <- <-. split; [apply kept_refl | exact Hq]. }
  cbn [oi_token oi_observeCount oi_instance oi_resources].
  destruct (Connection lwm2m) as [coap |]; [| discriminate].
  destruct (SendRelatedMessage coap _ _ _ _) as [coap' messageID].
  intros H. injection H as <- <-. split; [apply kept_sent | exact Hq].
Qed.

Lemma rangeNotify_settles {A} (notify : Lwm2m -> A -> option (Lwm2m * A))
    (calm : Lwm2m -> A -> bool) :
  (forall lwm2m lwm2m' a, handler lwm2m' = handler lwm2m -> calm lwm2m' a = calm lwm2m a) ->
  (forall lwm2m lwm2m' a a', notify lwm2m a = Some (lwm2m', a') ->
                             kept lwm2m lwm2m' /\ calm lwm2m a' = true) ->
  forall (todo : list A) (lwm2m lwm2m' : Lwm2m) (done result : list A),
    rangeNotify notify lwm2m todo done = Some (lwm2m', result) ->
    forallb (calm lwm2m) done = true ->
    kept lwm2m lwm2m' /\ forallb (calm lwm2m) result = true.
Proof.
  intros Hcalm Hnotify todo.
  induction todo as [| a todo IH]; intros lwm2m lwm2m' done result H Hq;
    cbn [rangeNotify] in H.
  - injection H as <- <-. split; [apply kept_refl | exact Hq].
  - destruct (notify lwm2m a) as [[lwm2m1 a'] |] eqn:E; [| discriminate].
    destruct (Hnotify _ _ _ _ E) as [Hk Ha].
    assert (Hh : handler lwm2m1 = handler lwm2m) by apply Hk.
    destruct (IH lwm2m1 lwm2m' (done ++ [a']) result H) as [Hk' Hr].
    + rewrite (forallb_eq _ (calm lwm2m)) by (intros x; apply Hcalm, Hh).
      rewrite forallb_app, Hq. cbn [forallb]. rewrite Ha. reflexivity.
    + split; [exact (kept_trans _ _ _ Hk Hk') |].
      rewrite <- Hr. apply forallb_eq. intros x. symmetry. apply Hcalm, Hh.
Qed.

(** A tick leaves nothing to report: whatever [Observe] found changed and
    notified, a second tick on the agent it leaves (the store being the
    same) writes nothing and changes nothing.  A change is notified
    once. *)
Theorem Observe_settles (lwm2m lwm2m' : Lwm2m) :
  Observe std lwm2m = Some lwm2m' ->
  handler lwm2m' = handler lwm2m /\ Observe std lwm2m' = Some lwm2m'.
Proof.
  unfold Observe at 1.
  destruct (Connection lwm2m) as [coap |] eqn:Ec.
  2: { intros H. injection H as <-. split; [reflexivity |].
       unfold Observe. rewrite Ec. reflexivity. }
  destruct (registered lwm2m) eqn:Er; cbn [negb].
  2: { intros H. injection H as <-. split; [reflexivity |].
       unfold Observe. rewrite Ec, Er. reflexivity. }
  destruct (rangeNotify (NotifyInstance std) lwm2m (observedInstance lwm2m) [])
    as [[lwm2m1 instances] |] eqn:E1; [| discriminate].
  destruct (rangeNotify (NotifyResource std) (set_observedInstance lwm2m1 instances)
              (observedResource (set_observedInstance lwm2m1 instances)) [])
    as [[lwm2m2 resources] |] eqn:E2; [| discriminate].
  intros H. injection H as <-.
  destruct (rangeNotify_settles (NotifyInstance std)
              (fun l o => forallb (quiet l) (oi_resources o))
              (fun l l' a Hh => forallb_eq _ _ _ (fun x => quiet_handler l l' x Hh))
              NotifyInstance_settles _ _ _ _ _ E1 eq_refl) as [K1 Q1].
  destruct (rangeNotify_settles (NotifyResource std) quiet
              (fun l l' a Hh => quiet_handler l l' a Hh)
              NotifyResource_settles _ _ _ _ _ E2 eq_refl) as [K2 Q2].
  destruct K1 as (Hh1 & _ & _ & _ & _).
  destruct K2 as (Hh2 & _ & Hi2 & _ & _).
  assert (Hh : handler (set_observedResource lwm2m2 resources) = handler lwm2m).
  { cbn [handler set_observedResource]. rewrite Hh2. cbn [handler set_observedInstance].
    exact Hh1. }
  split; [exact Hh |].
  apply Observe_unchanged.
  - cbn [observedInstance set_observedResource]. rewrite Hi2.
    cbn [observedInstance set_observedInstance].
    rewrite <- Q1. apply forallb_eq. intros o. apply forallb_eq. intros x.
    apply quiet_handler. exact Hh.
  - cbn [observedResource set_observedResource].
    rewrite <- Q2. apply forallb_eq. intros x. apply quiet_handler.
    cbn [handler set_observedResource]. exact Hh2.
Qed.

End Settle.

Lemma Observe_settles_witness :
  exists lwm2m',
    Observe Scenario.std (Bench.watching "43" "45") = Some lwm2m' /\
    option_map (fun coap => len (Written coap)) (Connection lwm2m') = Some 1 /\
    handler lwm2m' = handler (Bench.watching "43" "45") /\
    Observe Scenario.std lwm2m' = Some lwm2m'.
Proof.
  destruct (Observe Scenario.std (Bench.watching "43" "45")) as [lwm2m' |] eqn:E;
    [| vm_compute in E; discriminate E].
  exists lwm2m'. split; [reflexivity |].
  split; [vm_compute in E; injection E as <-; reflexivity |].
  exact (Observe_settles Scenario.std _ _ E).
Defined.

(** ** A notification on the wire *)

Lemma len_observeCountBuf (observeCount : Z) : 1 <= len (observeCountBuf observeCount) <= 4.
Proof.
  unfold observeCountBuf.
  assert (H1 : len (sub (BigEndian.PutUint32 observeCount) 3 4) = 1) by reflexivity.
  assert (H2 : len (sub (BigEndian.PutUint32 observeCount) 2 4) = 2) by reflexivity.
  assert (H3 : len (sub (BigEndian.PutUint32 observeCount) 1 4) = 3) by reflexivity.
  assert (H4 : len (BigEndian.PutUint32 observeCount) = 4) by reflexivity.
  destruct (observeCount <=? 0xff); [lia |].
  destruct (observeCount <=? 0xffff); [lia |].
  destruct (observeCount <=? 0xffffff); lia.
Qed.

Lemma land_u16 (x : Z) : Z.land (u16 x) 0xFFFF = x mod 2 ^ 16.
Proof.
  unfold u16. change 0xFFFF with (Z.ones 16). rewrite Z.land_ones by lia.
  apply Z.mod_mod. lia.
Qed.

Section Notification.

Context {sorting : Sorting}.
Variable std : StdLib.

(** The notification of a changed value, as the server reads it: one
    datagram, a non-confirmable 2.05 with the token of the observation, a
    message identifier of its own that the observation keeps, the Observe
    option with the counter in the fewest bytes before the content format,
    and the resource TLV of the new value; the counter moves on by one and
    the value becomes the last one reported. *)
Theorem notification_on_the_wire (lwm2m : Lwm2m) (coap : Coap)
    (observe : Lwm2mObservedResource) (resource : Lwm2mResource)
    (definition : Lwm2mResourceDefinition) (value : string) (wire : list byte) :
  Connection lwm2m = Some coap ->
  or_resource observe = Some resource ->
  resource_Definition resource = Some definition ->
  Readable definition = true ->
  ReadResource (handler lwm2m) resource = (value, CoapCodeContent) ->
  value <> or_lastValue observe ->
  Value.convertStringToTLVValue std value (rdef_Type definition) = Some wire ->
  len (or_token observe) < 16 ->
  0 <= NextMessageID coap < 2 ^ 16 ->
  exists lwm2m' coap' datagram,
    NotifyResource std lwm2m observe
    = Some (lwm2m',
            {| or_token := or_token observe; or_messageID := NextMessageID coap;
               or_observeCount := u32 (or_observeCount observe + 1);
               or_resource := Some resource; or_lastValue := value |}) /\
    Connection lwm2m' = Some coap' /\
    Written coap' = Written coap ++ [datagram] /\
    NextMessageID coap' = (NextMessageID coap + 1) mod 2 ^ 16 /\
    ParseMessage datagram
    = Some (Some {| Version := 1; Type_ := CoapTypeNonConfirmable;
                    TokenLength := len (or_token observe); Code := CoapCodeContent;
                    MessageID := NextMessageID coap; Token := or_token observe;
                    Options :=
                      [ {| No := coapOptionNoObserve;
                           Value := observeCountBuf (or_observeCount observe) |};
                        {| No := coapOptionNoContentFormat; Value := contentFormat |} ];
                    Payload :=
                      TLV.Marshal (resourceTLV (resource_ID resource) wire) |}).
Proof.
  intros Hc Hr Hd Hread Hv Hne Hw Htok Hid.
  pose proof (len_nonneg (or_token observe)) as Htok0.
  unfold NotifyResource. rewrite Hr, Hd, Hread, Hv. cbn [negb].
  change (CoapCodeContent =? CoapCodeContent) with true. cbn [negb].
  replace (String.eqb value (or_lastValue observe)) with false
    by (symmetry; apply String.eqb_neq; exact Hne).
  rewrite Hw, Hc. unfold SendRelatedMessage. cbv zeta.
  cbn [MessageID related].
  eexists. eexists. eexists.
  split; [reflexivity |].
  split; [reflexivity |].
  split; [reflexivity |].
  split; [cbn [NextMessageID Write]; apply land_u16 |].
  rewrite ParseMessage_of_ConvertToBytes.
  - unfold related. cbn [Version Type_ TokenLength Code MessageID Token Options Payload].
    unfold u8. rewrite Z.mod_small by (change (2 ^ 8) with 256; lia).
    reflexivity.
  - unfold wellFormed, related.
    cbn [Version Type_ TokenLength Code MessageID Token Options Payload].
    unfold u8. rewrite Z.mod_small by (change (2 ^ 8) with 256; lia).
    unfold CoapTypeNonConfirmable, CoapCodeContent.
    repeat split; try lia.
    change (sort_Slice (notifyOptions (or_observeCount observe)))
      with [ {| No := coapOptionNoObserve;
                Value := observeCountBuf (or_observeCount observe) |};
             {| No := coapOptionNoContentFormat; Value := contentFormat |} ].
    cbn [agree No]. rewrite !andb_true_iff.
    pose proof (len_observeCountBuf (or_observeCount observe)).
    repeat split; apply agrees_short;
      unfold coapOptionNoObserve, coapOptionNoContentFormat;
      change (2 ^ 64) with 18446744073709551616;
      change (len contentFormat) with 2; lia.
Qed.

End Notification.

Lemma notification_on_the_wire_witness :
  exists lwm2m' coap' datagram,
    NotifyResource Scenario.std (Bench.watching "43" "45")
      {| or_token := [0x51; 0x52]; or_messageID := 0x0101; or_observeCount := 3;
         or_resource :=
           Some {| resource_ID := 9; resource_objectID := 3; resource_instanceID := 0;
                   resource_Definition := Some Scenario.batteryLevel |};
         or_lastValue := "45" |}
    = Some (lwm2m',
            {| or_token := [0x51; 0x52]; or_messageID := 7;
               or_observeCount := u32 (3 + 1);
               or_resource :=
                 Some {| resource_ID := 9; resource_objectID := 3; resource_instanceID := 0;
                         resource_Definition := Some Scenario.batteryLevel |};
               or_lastValue := "43" |}) /\
    Connection lwm2m' = Some coap' /\
    Written coap' = [] ++ [datagram] /\
    NextMessageID coap' = (7 + 1) mod 2 ^ 16 /\
    ParseMessage datagram
    = Some (Some {| Version := 1; Type_ := CoapTypeNonConfirmable;
                    TokenLength := 2; Code := CoapCodeContent;
                    MessageID := 7; Token := [0x51; 0x52];
                    Options :=
                      [ {| No := coapOptionNoObserve; Value := observeCountBuf 3 |};
                        {| No := coapOptionNoContentFormat; Value := contentFormat |} ];
                    Payload := TLV.Marshal (resourceTLV 9 [43]) |}).
Proof.
  refine (notification_on_the_wire Scenario.std (Bench.watching "43" "45")
            {| NextMessageID := 7; Written := [] |}
            {| or_token := [0x51; 0x52]; or_messageID := 0x0101; or_observeCount := 3;
               or_resource :=
                 Some {| resource_ID := 9; resource_objectID := 3;
                         resource_instanceID := 0;
                         resource_Definition := Some Scenario.batteryLevel |};
               or_lastValue := "45" |}
            {| resource_ID := 9; resource_objectID := 3; resource_instanceID := 0;
               resource_Definition := Some Scenario.batteryLevel |}
            Scenario.batteryLevel "43" [43]
            eq_refl eq_refl eq_refl eq_refl eq_refl _ eq_refl _ _).
  - discriminate.
  - vm_compute. reflexivity.
  - cbn [NextMessageID]. lia.
Defined.

(** ** Bootstrap *)

Lemma Marshal_nonempty (tlv : TLV.Lwm2mTLV) : 0 < len (TLV.Marshal tlv).
Proof.
  unfold TLV.Marshal.
  destruct (TLV.ID tlv <=? 0xFF); destruct (TLV.Length tlv <=? 0x07);
    destruct (TLV.Length tlv <=? 0xFF); destruct (TLV.Length tlv >=? 0xFFFF);
    rewrite len_cons; match goal with |- 0 < 1 + len ?l => pose proof (len_nonneg l) end;
    lia.
Qed.

Lemma resourceTLVs_length (items : list (Z * list byte)) :
  Z.of_nat (length items) <= len (resourceTLVs items).
Proof.
  unfold resourceTLVs. induction items as [| item items IH]; cbn [map concat length].
  - unfold len. cbn. lia.
  - rewrite len_app. pose proof (Marshal_nonempty (resourceTLV (fst item) (snd item))). lia.
Qed.

Section BootstrapWrite.

Context {sorting : Sorting}.
Variable std : StdLib.
Variable store : Lwm2mStore.

Lemma processBootstrapWrite_loop_run (coap : Coap) (message : CoapMessage)
    (objectID instanceID : Z) (definition : Lwm2mObjectDefinition) (tail : list byte)
    (items : list (Z * list byte)) (values : list (Z * string)) :
  Forall2 (decodes std definition) items values ->
  snd (TLV.Unmarshal TLV.zero tail) = -1 ->
  forall (fuel : nat) (lwm2m : lwm2mBootstrap) (done : list byte),
    Payload message = done ++ resourceTLVs items ++ tail ->
    bootstrap_connection lwm2m = Some coap ->
    (length items < fuel)%nat ->
    processBootstrapWrite_loop std store fuel lwm2m objectID instanceID (Some definition)
      message (len done)
    = let '(handler, code) :=
        writeAll store (bootstrap_handler lwm2m) objectID instanceID definition values in
      Some (answered lwm2m coap message code handler,
            if code =? CoapCodeChanged then bootstrap_nil else errRegisterResource).
Proof.
  intros Hall Htail. induction Hall as [| item value items values Hd Hall IH];
    intros fuel lwm2m done Hp Hc Hfuel.
  - destruct fuel as [| fuel]; [cbn in Hfuel; lia |].
    cbn [processBootstrapWrite_loop writeAll]. rewrite Hp.
    change (resourceTLVs []) with (@nil Z). cbn [app].
    rewrite slice_from_app by reflexivity.
    destruct (TLV.Unmarshal TLV.zero tail) as [tlv n]. cbn [snd] in Htail. subst n.
    cbn [Z.eqb]. unfold bootstrap_SendResponse. rewrite Hc. reflexivity.
  - destruct fuel as [| fuel]; [cbn in Hfuel; lia |].
    destruct item as [id wire]. destruct value as [id' value].
    destruct Hd as [Hid [Hrange [Hlen [resourceDefinition [Hfind Hconv]]]]].
    cbn [fst snd] in *. subst id'.
    cbn [processBootstrapWrite_loop writeAll]. rewrite Hp.
    change (resourceTLVs ((id, wire) :: items))
      with (TLV.Marshal (resourceTLV id wire) ++ resourceTLVs items).
    rewrite <- app_assoc.
    rewrite slice_from_app by reflexivity.
    rewrite Unmarshal_resourceTLV by assumption.
    pose proof (Marshal_nonempty (resourceTLV id wire)) as Hm.
    replace (len (TLV.Marshal (resourceTLV id wire)) =? -1) with false
      by (symmetry; apply Z.eqb_neq; lia).
    set (m := TLV.Marshal (resourceTLV id wire)) in *.
    rewrite (resourceTLV_fields id wire Hrange Hlen).
    cbn [TLV.ID TLV.Value]. rewrite Hfind. cbn [option_map]. rewrite Hconv.
    destruct (WriteResource store (bootstrap_handler lwm2m) _ value) as [handler code].
    destruct (code =? CoapCodeChanged) eqn:Ecode; cbn [negb].
    + rewrite <- len_app.
      rewrite (IH fuel (set_bootstrap_handler lwm2m handler) (done ++ m)).
      * reflexivity.
      * rewrite Hp.
        change (resourceTLVs ((id, wire) :: items)) with (m ++ resourceTLVs items).
        rewrite <- !app_assoc. reflexivity.
      * exact Hc.
      * cbn [length] in Hfuel. lia.
    + unfold bootstrap_SendResponse. cbn [set_bootstrap_handler bootstrap_connection].
      rewrite Hc, ?Ecode. reflexivity.
Qed.

End BootstrapWrite.

Section BootstrapRequests.

Context {sorting : Sorting}.
Variable std : StdLib.
Variable store : Lwm2mStore.

(** A bootstrap write hands the handler every value of its payload, in the
    order of the payload: when the instance was created and the payload is
    a sequence of resource TLVs of resources the object defines, followed
    by bytes that are no TLV (or by nothing), [WriteResource] is called
    with the decoded string of each, up to the first call that does not
    answer 2.04; the code of that call, or 2.04 after the last one, is the
    code of the single answer, which reads on the wire as an
    acknowledgement with the message identifier and the token of the
    request. *)
Theorem bootstrap_write_delivers (lwm2m : lwm2mBootstrap) (coap : Coap) (raw : list byte)
    (message : CoapMessage) (objectID instanceID : Z)
    (definition : Lwm2mObjectDefinition) (created : Lwm2mHandler)
    (items : list (Z * list byte)) (values : list (Z * string)) (tail : list byte) :
  bootstrap_connection lwm2m = Some coap ->
  ParseMessage raw = Some (Some message) ->
  CreateInstance store (bootstrap_handler lwm2m)
    {| instance_ID := instanceID; instance_objectID := objectID |}
  = (created, CoapCodeCreated) ->
  findObjectDefinitionByID (bootstrap_definitions lwm2m) objectID = Some definition ->
  Forall2 (decodes std definition) items values ->
  Payload message = resourceTLVs items ++ tail ->
  snd (TLV.Unmarshal TLV.zero tail) = -1 ->
  let written := writeAll store created objectID instanceID definition values in
  0 <= snd written < 256 ->
  exists lwm2m' coap' datagram,
    processBootstrapWrite std store lwm2m objectID instanceID message
    = Some (lwm2m',
            if snd written =? CoapCodeChanged then bootstrap_nil
            else errRegisterResource) /\
    bootstrap_handler lwm2m' = fst written /\
    bootstrap_finishNotify lwm2m' = bootstrap_finishNotify lwm2m /\
    bootstrap_connection lwm2m' = Some coap' /\
    Written coap' = Written coap ++ [datagram] /\
    ParseMessage datagram
    = Some (Some {| Version := 1; Type_ := CoapTypeAcknowledgement;
                    TokenLength := TokenLength message; Code := snd written;
                    MessageID := MessageID message; Token := Token message;
                    Options := []; Payload := [] |}).
Proof.
  intros Hc Hpm Hcreate Hdef Hall Hp Htail written Hcode. subst written.
  unfold processBootstrapWrite.
  rewrite Hcreate. change (CoapCodeCreated =? CoapCodeCreated) with true. cbn [negb].
  cbn [set_bootstrap_handler bootstrap_definitions]. rewrite Hdef.
  rewrite (processBootstrapWrite_loop_run std store coap message objectID instanceID
             definition tail items values Hall Htail _ _ []).
  - cbn [bootstrap_handler set_bootstrap_handler].
    destruct (writeAll store created objectID instanceID definition values)
      as [handler code].
    cbn [fst snd] in *.
    destruct (SendResponse_on_the_wire coap raw message code [] [] Hpm Hcode eq_refl)
      as [datagram [Hs Hd]].
    eexists. exists (Coap.SendResponse coap message code [] []), datagram.
    split; [reflexivity |]. split; [reflexivity |]. split; [reflexivity |].
    split; [reflexivity |]. split; [rewrite Hs; reflexivity | exact Hd].
  - exact Hp.
  - exact Hc.
  - pose proof (resourceTLVs_length items) as Hl. rewrite Hp, !len_app.
    pose proof (len_nonneg tail). lia.
Qed.

(** A bootstrap write of a resource that the definitions do not know stops
    the agent: once the instance is created, a payload that starts with a
    TLV makes the loop look its resource up in the definition of the
    object; with no such object or no such resource the lookup gives [nil],
    which is dereferenced. *)
Theorem bootstrap_write_undefined_panics (lwm2m : lwm2mBootstrap) (message : CoapMessage)
    (objectID instanceID : Z) (created : Lwm2mHandler) :
  CreateInstance store (bootstrap_handler lwm2m)
    {| instance_ID := instanceID; instance_objectID := objectID |}
  = (created, CoapCodeCreated) ->
  snd (TLV.Unmarshal TLV.zero (Payload message)) <> -1 ->
  match findObjectDefinitionByID (bootstrap_definitions lwm2m) objectID with
  | None => True
  | Some definition =>
    findResourceByID definition (TLV.ID (fst (TLV.Unmarshal TLV.zero (Payload message))))
    = None
  end ->
  processBootstrapWrite std store lwm2m objectID instanceID message = None.
Proof.
  intros Hcreate Hn Hdef. unfold processBootstrapWrite.
  rewrite Hcreate. change (CoapCodeCreated =? CoapCodeCreated) with true. cbn [negb].
  cbn [set_bootstrap_handler bootstrap_definitions processBootstrapWrite_loop].
  unfold slice_from. rewrite slice_in_range, sub_all
    by (try reflexivity; pose proof (len_nonneg (Payload message)); lia).
  destruct (TLV.Unmarshal TLV.zero (Payload message)) as [tlv n]. cbn [fst snd] in *.
  replace (n =? -1) with false by (symmetry; apply Z.eqb_neq; exact Hn).
  destruct (findObjectDefinitionByID (bootstrap_definitions lwm2m) objectID);
    [rewrite Hdef |]; reflexivity.
Qed.

Lemma extractResourceID_loop_error (options : list CoapOption) (idCount : Z)
    (idList : Z * Z * Z) :
  snd (extractResourceID_loop options idCount idList) <> nil_error ->
  extractResourceID_loop options idCount idList
  = (0, 0, 0, 0, snd (extractResourceID_loop options idCount idList)).
Proof.
  revert idCount idList. induction options as [| option options IH];
    intros idCount [[id0 id1] id2]; cbn [extractResourceID_loop].
  - intros H. exfalso. apply H. reflexivity.
  - destruct (No option =? coapOptionNoURIPath); [| apply IH].
    destruct (idCount >? 2); [reflexivity |].
    destruct (strconv.Atoi (string_of_bytes (Value option))) as [id [err |]];
      [reflexivity | apply IH].
Qed.

Variables lwm2mObjectIDSecurity lwm2mObjectIDServer : Z.

(** The bootstrap drops the error of [extractResourceID]: a confirmable
    PUT whose path has a segment that is no number, or more than three
    segments, is a bootstrap write to instance 0 of object 0. *)
Theorem bootstrap_put_bad_path (lwm2m : lwm2mBootstrap) (message : CoapMessage) :
  Type_ message = CoapTypeConfirmable -> Code message = CoapCodePut ->
  snd (extractResourceID message) <> nil_error ->
  BootstrapReceiveMessage std store lwm2mObjectIDSecurity lwm2mObjectIDServer lwm2m message
  = option_map fst (processBootstrapWrite std store lwm2m 0 0 message).
Proof.
  intros Ht Hcode Herr. unfold BootstrapReceiveMessage. rewrite Ht, Hcode.
  change (CoapTypeConfirmable =? CoapTypeAcknowledgement) with false.
  change (CoapTypeConfirmable =? CoapTypeConfirmable) with true.
  change (CoapCodePut =? CoapCodePut) with true. cbv iota.
  unfold extractResourceID in *.
  rewrite (extractResourceID_loop_error _ _ _ Herr).
  destruct (processBootstrapWrite std store lwm2m 0 0 message) as [[after err] |];
    reflexivity.
Qed.

End BootstrapRequests.

Section BootstrapFuel.

Context {sorting : Sorting}.

Lemma processBootstrapWrite_loop_fuel (std : StdLib) (store : Lwm2mStore)
    (message : CoapMessage) (objectID instanceID : Z)
    (objectDefinition : option Lwm2mObjectDefinition) :
  bytes (Payload message) ->
  forall (fuel fuel' : nat) (lwm2m : lwm2mBootstrap) (parsedIndex : Z),
    0 <= parsedIndex <= len (Payload message) ->
    (Z.to_nat (len (Payload message) - parsedIndex) < fuel)%nat ->
    (Z.to_nat (len (Payload message) - parsedIndex) < fuel')%nat ->
    processBootstrapWrite_loop std store fuel lwm2m objectID instanceID objectDefinition
      message parsedIndex
    = processBootstrapWrite_loop std store fuel' lwm2m objectID instanceID
        objectDefinition message parsedIndex.
Proof.
  intros Hb fuel. induction fuel as [| fuel IH]; intros fuel' lwm2m parsedIndex Hi Hf Hf';
    [lia |].
  destruct fuel' as [| fuel']; [lia |].
  cbn [processBootstrapWrite_loop].
  unfold slice_from. rewrite slice_in_range by lia.
  set (rest := sub (Payload message) parsedIndex (len (Payload message))).
  assert (Hrest : len rest = len (Payload message) - parsedIndex)
    by (apply len_sub; lia).
  assert (Hbr : bytes rest) by (apply bytes_sub; exact Hb).
  destruct (TLV.Unmarshal TLV.zero rest) as [tlv n] eqn:E.
  destruct (Z.eqb_spec n (-1)) as [-> | Hn]; [reflexivity |].
  destruct (Unmarshal_fields TLV.zero tlv rest n Hbr E Hn) as [Hn2 _].
  destruct objectDefinition as [definition |]; [| reflexivity].
  destruct (option_map rdef_Type (findResourceByID definition (TLV.ID tlv)))
    as [type |]; [| reflexivity].
  destruct (Value.convertTLVValueToString std (TLV.Value tlv) type) as [value |];
    [| reflexivity].
  destruct (WriteResource store (bootstrap_handler lwm2m) _ value) as [handler code].
  destruct (negb (code =? CoapCodeChanged)); [reflexivity |].
  apply IH; lia.
Qed.

End BootstrapFuel.

Lemma bootstrap_write_delivers_witness :
  let message := Bench.con CoapCodePut ["3"; "0"]%string (resourceTLVs Desk.items) in
  exists lwm2m' coap' datagram,
    processBootstrapWrite Scenario.std Desk.ledger Desk.bootstrap 3 0 message
    = Some (lwm2m', bootstrap_nil) /\
    bootstrap_handler lwm2m'
    = fst (writeAll Desk.ledger (Bench.store []) 3 0 Bench.device Desk.values) /\
    bootstrap_finishNotify lwm2m' = [] /\
    bootstrap_connection lwm2m' = Some coap' /\
    Written coap' = [datagram] /\
    ParseMessage datagram
    = Some (Some {| Version := 1; Type_ := CoapTypeAcknowledgement; TokenLength := 2;
                    Code := 68; MessageID := 0x4321; Token := [0x0A; 0x0B];
                    Options := []; Payload := [] |}).
Proof.
  intros message.
  refine (bootstrap_write_delivers Scenario.std Desk.ledger Desk.bootstrap
            {| NextMessageID := 7; Written := [] |} (ConvertToBytes message) message 3 0
            Bench.device (Bench.store []) Desk.items Desk.values []
            eq_refl eq_refl eq_refl eq_refl _ _ eq_refl _).
  - apply Forall2_cons; [| apply Forall2_cons; [| apply Forall2_nil]];
      (split; [reflexivity |]; split; [cbn [fst]; lia |];
       split; [vm_compute; discriminate |]; eexists; split; reflexivity).
  - vm_compute. reflexivity.
  - vm_compute. split; [discriminate | reflexivity].
Defined.

Lemma bootstrap_write_undefined_panics_witness :
  processBootstrapWrite Scenario.std Desk.ledger Desk.bootstrap 3 0
    (Bench.con CoapCodePut ["3"; "0"]%string (TLV.Marshal (resourceTLV 99 [1])))
  = None.
Proof.
  apply (bootstrap_write_undefined_panics Scenario.std Desk.ledger Desk.bootstrap _ 3 0
           (Bench.store [])).
  - reflexivity.
  - vm_compute. discriminate.
  - vm_compute. reflexivity.
Defined.

Lemma bootstrap_put_bad_path_witness :
  BootstrapReceiveMessage Scenario.std Desk.ledger 0 1 Desk.bootstrap
    (Bench.con CoapCodePut ["security"; "0"]%string [])
  = option_map fst
      (processBootstrapWrite Scenario.std Desk.ledger Desk.bootstrap 0 0
         (Bench.con CoapCodePut ["security"; "0"]%string [])).
Proof.
  apply bootstrap_put_bad_path.
  - reflexivity.
  - reflexivity.
  - vm_compute. discriminate.
Defined.

(** ** DTLS handshake *)

Import Dtls.

Lemma u16_small (x : Z) : 0 <= x < 2 ^ 16 -> u16 x = x.
Proof. intros H. unfold u16. apply Z.mod_small. exact H. Qed.

Lemma u32_small (x : Z) : 0 <= x < 2 ^ 32 -> u32 x = x.
Proof. intros H. unfold u32. apply Z.mod_small. exact H. Qed.

Lemma Uint24_PutUint32 (x : Z) :
  0 <= x < 2 ^ 24 ->
  BigEndian.Uint32 (0 :: sub (BigEndian.PutUint32 x) 1 4) = x.
Proof.
  intros Hx.
  change (sub (BigEndian.PutUint32 x) 1 4)
    with [u8 (Z.shiftr x 16); u8 (Z.shiftr x 8); u8 x].
  unfold BigEndian.Uint32, at_. cbv [nth Z.to_nat Pos.to_nat Pos.iter_op Nat.add].
  rewrite Z.shiftl_0_l, Z.lor_0_r.
  rewrite !Z.shiftr_div_pow2 by lia.
  rewrite (lor_shiftl_add _ (u8 x) 8) by (try lia; apply u8_bound).
  rewrite lor_shiftl_add.
  - unfold u8. change (2 ^ 8) with 256 in *. change (2 ^ 16) with 65536 in *.
    change (2 ^ 24) with 16777216 in *. Z.div_mod_to_equations. lia.
  - lia.
  - pose proof (u8_bound x). pose proof (u8_bound (x / 2 ^ 8)).
    change (2 ^ 8) with 256 in *. change (2 ^ 16) with 65536 in *. lia.
Qed.

Lemma len_header type epoch sequence n : len (header type epoch sequence n) = 13.
Proof. reflexivity. Qed.

Lemma len_record type epoch sequence content :
  len (record type epoch sequence content) = 13 + len content.
Proof. unfold record. rewrite len_app, len_header. reflexivity. Qed.

Lemma len_make (n : Z) : 0 <= n -> len (make n) = n.
Proof. intros H. unfold len, make. rewrite repeat_length. lia. Qed.

Lemma sub_app_r {A} (pre rest : list A) :
  sub (pre ++ rest) (len pre) (len (pre ++ rest)) = rest.
Proof.
  pose proof (slice_from_app pre rest (len pre) eq_refl) as H.
  unfold slice_from, slice in H.
  destruct ((0 <=? len pre) && (len pre <=? len (pre ++ rest))
            && (len (pre ++ rest) <=? len (pre ++ rest))); [| discriminate H].
  injection H as H. exact H.
Qed.

(** The twelve bytes before the body of a handshake message, whatever
    follows them. *)
Lemma message_eq type sequence body :
  exists prefix, message type sequence body = prefix ++ body /\ len prefix = 12 /\
    forall rest,
      index (prefix ++ rest) 0 = Some type /\
      slice (prefix ++ rest) 1 4 = Some (sub (BigEndian.PutUint32 (u32 (len body))) 1 4) /\
      slice (prefix ++ rest) 4 6 = Some (BigEndian.PutUint16 sequence).
Proof.
  exists ([type] ++ sub (BigEndian.PutUint32 (u32 (len body))) 1 4
          ++ BigEndian.PutUint16 sequence ++ [0; 0; 0]
          ++ sub (BigEndian.PutUint32 (u32 (len body))) 1 4).
  split; [unfold message; cbv zeta; rewrite <- !app_assoc; reflexivity |].
  split; [reflexivity |].
  intros rest. pose proof (len_nonneg rest) as Hb.
  split; [| split].
  - unfold index. rewrite len_app.
    replace ((0 <=? 0) && (0 <? len _ + len rest)) with true; [reflexivity |].
    symmetry. rewrite andb_true_iff, Z.leb_le, Z.ltb_lt.
    change (len ([type] ++ _)) with 12. lia.
  - unfold slice. rewrite len_app.
    replace ((0 <=? 1) && (1 <=? 4) && (4 <=? len _ + len rest)) with true; [reflexivity |].
    symmetry. rewrite !andb_true_iff, !Z.leb_le.
    change (len ([type] ++ _)) with 12. lia.
  - unfold slice. rewrite len_app.
    replace ((0 <=? 4) && (4 <=? 6) && (6 <=? len _ + len rest)) with true; [reflexivity |].
    symmetry. rewrite !andb_true_iff, !Z.leb_le.
    change (len ([type] ++ _)) with 12. lia.
Qed.

Lemma len_message type sequence body : len (message type sequence body) = 12 + len body.
Proof.
  destruct (message_eq type sequence body) as [prefix [-> [Hp _]]].
  rewrite len_app, Hp. reflexivity.
Qed.

Section Handshake.

Variable crypto : Crypto.

Lemma Handshake_ToBytes_ClientHello (sequence : Z) (params : DtlsHandshakeParams) :
  Handshake_ToBytes crypto
    {| hsk_Type := dtlsHandshakeTypeClientHello; hsk_Sequence := sequence;
       Params := params |}
  = Some (clientHello sequence (ClientRandom params) (Session params) (Cookie params)).
Proof. reflexivity. Qed.

Lemma Handshake_ToBytes_ClientKeyExchange (sequence : Z) (params : DtlsHandshakeParams) :
  Handshake_ToBytes crypto
    {| hsk_Type := dtlsHandshakeTypeClientKeyExchange; hsk_Sequence := sequence;
       Params := params |}
  = Some (clientKeyExchange sequence (Identity params)).
Proof. reflexivity. Qed.

Lemma Handshake_ToBytes_Finished (sequence : Z) (params : DtlsHandshakeParams) :
  Handshake_ToBytes crypto
    {| hsk_Type := dtlsHandshakeTypeFinished; hsk_Sequence := sequence;
       Params := params |}
  = do verifyData <- GenerateClientVerifyData crypto params;
    Some (message dtlsHandshakeTypeFinished sequence verifyData).
Proof.
  unfold Handshake_ToBytes. cbn [hsk_Type hsk_Sequence Params].
  change (dtlsHandshakeTypeFinished =? dtlsHandshakeTypeClientHello) with false.
  change (dtlsHandshakeTypeFinished =? dtlsHandshakeTypeClientKeyExchange) with false.
  change (dtlsHandshakeTypeFinished =? dtlsHandshakeTypeFinished) with true.
  cbv iota. destruct (GenerateClientVerifyData crypto params); reflexivity.
Qed.

(** [ParsePacket] on a record at the head of its bytes: the content in
    the clear has the rest of the bytes and the spare bytes of the buffer
    behind it, the decrypted content its padding. *)
Lemma ParsePacket_record (dtls : Dtls) type epoch sequence content rest spare :
  len content + 13 < 2 ^ 16 ->
  ParsePacket crypto dtls (record type epoch sequence content ++ rest) spare =
  do decrypted <-
    (if ServerEncrypt dtls then
       do (decrypted, verify) <- decrypt crypto dtls content type;
       Some (if verify then Some (decrypted, padding (len decrypted)) else None)
     else Some (Some (content, rest ++ spare)));
  match decrypted with
  | None => Some (dtls, None)
  | Some (plain, behind) =>
    dispatch crypto dtls (parsed type epoch sequence content plain) behind
  end.
Proof.
  intros Hlen. pose proof (len_nonneg content) as Hc. pose proof (len_nonneg rest) as Hr.
  unfold record. rewrite <- app_assoc.
  set (raw := header type epoch sequence (len content) ++ content ++ rest).
  assert (Hraw : len raw = 13 + len content + len rest).
  { unfold raw. rewrite !len_app, len_header. lia. }
  assert (H0 : at_ raw 0 = type) by reflexivity.
  assert (He : sub raw 3 5 = BigEndian.PutUint16 epoch) by reflexivity.
  assert (Hq : sub raw 5 11 = sub (BigEndian.PutUint64 sequence) 2 8) by reflexivity.
  assert (Hcl : BigEndian.Uint16 (sub raw 11 13) = len content).
  { change (sub raw 11 13) with (BigEndian.PutUint16 (u16 (len content))).
    rewrite Uint16_PutUint16; [apply u16_small; lia |].
    unfold u16. apply Z.mod_pos_bound. lia. }
  assert (Hs : slice raw 13 (13 + len content) = Some content).
  { unfold raw. apply slice_app_mid; [rewrite len_header; reflexivity | reflexivity]. }
  assert (Hb : sub raw (13 + len content) (len raw) = rest).
  { unfold raw. rewrite app_assoc.
    replace (13 + len content) with (len (header type epoch sequence (len content) ++ content))
      by (rewrite len_app, len_header; reflexivity).
    apply sub_app_r. }
  unfold ParsePacket. rewrite H0, Hcl, He, Hq.
  rewrite (u16_small (13 + len content)) by lia. rewrite Hs, Hb. rewrite Hraw.
  replace (13 + len content + len rest <? 13) with false by (symmetry; apply Z.ltb_ge; lia).
  replace (13 + len content + len rest <? 13 + len content) with false
    by (symmetry; apply Z.ltb_ge; lia).
  destruct (ServerEncrypt dtls); [| reflexivity].
  destruct (decrypt crypto dtls content type) as [[decrypted [|]] |]; reflexivity.
Qed.

Lemma Packet_Length_parsed type epoch sequence content plain :
  len content + 13 < 2 ^ 16 ->
  Packet_Length (parsed type epoch sequence content plain) = len (record type epoch sequence content).
Proof.
  intros H. pose proof (len_nonneg content). unfold Packet_Length. cbn [ContentLength parsed].
  rewrite u16_small by lia. rewrite len_record. lia.
Qed.

(** A HelloVerifyRequest: the cookie is [raw[15:47]], the bytes 3 to 35 of
    the body and of what the buffer holds behind it. *)
Lemma Handshake_Parse_HelloVerifyRequest params sequence body spare :
  len body < 2 ^ 24 -> 35 <= len body + len spare ->
  Handshake_Parse crypto params (message dtlsHandshakeTypeHelloVerifyRequest sequence body)
    spare
  = Some (set_Cookie
            (set_hs_ServerSequence params
               (BigEndian.Uint16 (BigEndian.PutUint16 sequence)))
            (sub (body ++ spare) 3 35)).
Proof.
  intros Hb Hs.
  destruct (message_eq dtlsHandshakeTypeHelloVerifyRequest sequence body)
    as [prefix [-> [Hp H]]].
  destruct (H body) as [H0 _]. destruct (H (body ++ spare)) as [_ [H14 H46]].
  unfold Handshake_Parse, slice_cap. rewrite <- !app_assoc. rewrite H0, H14, H46.
  change (dtlsHandshakeTypeHelloVerifyRequest =? dtlsHandshakeTypeHelloVerifyRequest)
    with true. cbv iota.
  rewrite (slice_skip prefix (body ++ spare) 15 47) by (rewrite ?len_app; lia).
  rewrite Hp. reflexivity.
Qed.

(** A ServerHello: the random is [raw[14:46]] and the session
    [raw[47:79]], read from the body and from what the buffer holds behind
    it; the message itself goes to [Messages]. *)
Lemma Handshake_Parse_ServerHello params sequence body spare :
  len body < 2 ^ 24 -> 67 <= len body + len spare ->
  Handshake_Parse crypto params (message dtlsHandshakeTypeServerHello sequence body) spare
  = Some (set_Messages
            (set_ServerRandom_Session
               (set_hs_ServerSequence params
                  (BigEndian.Uint16 (BigEndian.PutUint16 sequence)))
               (sub (body ++ spare) 2 34) (sub (body ++ spare) 35 67))
            (Messages params ++ message dtlsHandshakeTypeServerHello sequence body)).
Proof.
  intros Hb Hs. pose proof (len_nonneg body) as Hn.
  pose proof (len_message dtlsHandshakeTypeServerHello sequence body) as Hlen.
  destruct (message_eq dtlsHandshakeTypeServerHello sequence body)
    as [prefix [E [Hp H]]].
  rewrite E in *.
  destruct (H body) as [H0 _]. destruct (H (body ++ spare)) as [_ [H14 H46]].
  unfold Handshake_Parse, slice_cap. rewrite H0. rewrite <- !app_assoc. rewrite H14, H46.
  change (dtlsHandshakeTypeServerHello =? dtlsHandshakeTypeHelloVerifyRequest) with false.
  change (dtlsHandshakeTypeServerHello =? dtlsHandshakeTypeServerHello) with true.
  cbv iota.
  rewrite (slice_skip prefix (body ++ spare) 14 46) by (rewrite ?len_app; lia).
  rewrite (slice_skip prefix (body ++ spare) 47 79) by (rewrite ?len_app; lia).
  rewrite Hp.
  rewrite u32_small by lia. rewrite Uint24_PutUint32 by lia.
  rewrite (app_assoc prefix body spare).
  replace (slice ((prefix ++ body) ++ spare) 0 (12 + len body)) with (Some (prefix ++ body))
    by (symmetry;
        exact (slice_app_mid [] (prefix ++ body) spare 0 (12 + len body) eq_refl
                 ltac:(change (len (@nil Z)) with 0; lia))).
  reflexivity.
Qed.

Lemma Handshake_Parse_ServerHelloDone params sequence body spare :
  len body < 2 ^ 24 ->
  Handshake_Parse crypto params (message dtlsHandshakeTypeServerHelloDone sequence body)
    spare
  = Some (set_Messages
            (set_hs_ServerSequence params
               (BigEndian.Uint16 (BigEndian.PutUint16 sequence)))
            (Messages params ++ message dtlsHandshakeTypeServerHelloDone sequence body)).
Proof.
  intros Hb. pose proof (len_nonneg body) as Hn.
  pose proof (len_message dtlsHandshakeTypeServerHelloDone sequence body) as Hlen.
  destruct (message_eq dtlsHandshakeTypeServerHelloDone sequence body)
    as [prefix [E [Hp H]]].
  rewrite E in *.
  destruct (H body) as [H0 _]. destruct (H (body ++ spare)) as [_ [H14 H46]].
  unfold Handshake_Parse, slice_cap. rewrite H0. rewrite <- !app_assoc. rewrite H14, H46.
  change (dtlsHandshakeTypeServerHelloDone =? dtlsHandshakeTypeHelloVerifyRequest) with false.
  change (dtlsHandshakeTypeServerHelloDone =? dtlsHandshakeTypeServerHello) with false.
  change (dtlsHandshakeTypeServerHelloDone =? dtlsHandshakeTypeServerHelloDone) with true.
  cbv iota.
  rewrite u32_small by lia. rewrite Uint24_PutUint32 by lia.
  rewrite (app_assoc prefix body spare).
  replace (slice ((prefix ++ body) ++ spare) 0 (12 + len body)) with (Some (prefix ++ body))
    by (symmetry;
        exact (slice_app_mid [] (prefix ++ body) spare 0 (12 + len body) eq_refl
                 ltac:(change (len (@nil Z)) with 0; lia))).
  reflexivity.
Qed.

End Handshake.

Lemma firstn_packet (datagram : list byte) :
  len datagram <= dtlsPacketSize ->
  firstn (Z.to_nat dtlsPacketSize) datagram = datagram.
Proof. intros H. apply firstn_all2. unfold len in H. lia. Qed.

Lemma len_unread (buf : list byte) :
  len buf <= dtlsPacketSize -> len (unread buf) = dtlsPacketSize - len buf.
Proof. intros H. unfold unread. apply len_make. lia. Qed.

Section Steps.

Variable crypto : Crypto.

Lemma Read_datagram (dtls : Dtls) (datagram : list byte) (rest : list (list byte)) :
  incoming (Connection dtls) = datagram :: rest ->
  len datagram <= dtlsPacketSize ->
  Read dtls = (received dtls rest, Some datagram).
Proof.
  intros Hi Hl. unfold Read. rewrite Hi, firstn_packet by exact Hl. reflexivity.
Qed.

Lemma GetCookie_run (dtls : Dtls) e s q body rest :
  ServerEncrypt dtls = false ->
  let datagram :=
    record dtlsContentTypeHandshake e s
      (message dtlsHandshakeTypeHelloVerifyRequest q body) in
  incoming (Connection dtls) = datagram :: rest ->
  len datagram <= dtlsPacketSize ->
  let sent := received (bump (send dtls dtlsContentTypeHandshake (hello dtls))) rest in
  GetCookie crypto dtls
  = Some (set_Handshake sent
            (set_Cookie
               (set_hs_ServerSequence (Handshake sent)
                  (BigEndian.Uint16 (BigEndian.PutUint16 q)))
               (sub (body ++ unread datagram) 3 35)),
          nil_error).
Proof.
  intros Henc datagram Hin Hfit sent.
  pose proof (len_unread datagram Hfit) as Hu. pose proof (len_nonneg body) as Hn.
  assert (Hl : len datagram = 25 + len body)
    by (unfold datagram; rewrite len_record, len_message; lia).
  assert (Hfit' := Hfit). rewrite Hl in Hfit', Hu. unfold dtlsPacketSize in Hfit', Hu.
  unfold GetCookie. rewrite Handshake_ToBytes_ClientHello. fold (hello dtls).
  rewrite (Read_datagram _ datagram rest) by (first [exact Hin | exact Hfit]).
  fold sent.
  rewrite <- (app_nil_r datagram) at 1. unfold datagram at 1.
  rewrite ParsePacket_record by (rewrite len_message; lia).
  replace (ServerEncrypt sent) with false by (symmetry; exact Henc).
  unfold dispatch. cbn [Type_ Content parsed app].
  change (dtlsContentTypeHandshake =? dtlsContentTypeHandshake) with true. cbv iota.
  rewrite Handshake_Parse_HelloVerifyRequest by lia.
  reflexivity.
Qed.

Lemma GetSession_run (dtls : Dtls) e2 s2 q2 shBody e3 s3 q3 shdBody rest :
  ServerEncrypt dtls = false ->
  let done :=
    record dtlsContentTypeHandshake e3 s3
      (message dtlsHandshakeTypeServerHelloDone q3 shdBody) in
  let datagram :=
    record dtlsContentTypeHandshake e2 s2 (message dtlsHandshakeTypeServerHello q2 shBody)
    ++ done in
  incoming (Connection dtls) = datagram :: rest ->
  len datagram <= dtlsPacketSize ->
  let withHello :=
    set_Handshake dtls
      (set_Messages (Handshake dtls) (Messages (Handshake dtls) ++ hello dtls)) in
  let sent := received (bump (send withHello dtlsContentTypeHandshake (hello dtls))) rest in
  let behind := shBody ++ done ++ unread datagram in
  let afterHello :=
    set_Handshake sent
      (set_Messages
         (set_ServerRandom_Session
            (set_hs_ServerSequence (Handshake sent)
               (BigEndian.Uint16 (BigEndian.PutUint16 q2)))
            (sub behind 2 34) (sub behind 35 67))
         (Messages (Handshake sent) ++ message dtlsHandshakeTypeServerHello q2 shBody)) in
  GetSession crypto dtls
  = Some (set_Handshake afterHello
            (set_Messages
               (set_hs_ServerSequence (Handshake afterHello)
                  (BigEndian.Uint16 (BigEndian.PutUint16 q3)))
               (Messages (Handshake afterHello)
                ++ message dtlsHandshakeTypeServerHelloDone q3 shdBody)),
          nil_error).
Proof.
  intros Henc done datagram Hin Hfit withHello sent behind afterHello.
  pose proof (len_nonneg shdBody) as Hd. pose proof (len_nonneg shBody) as Hh.
  pose proof (len_unread datagram Hfit) as Hu.
  assert (Hdone : len done = 25 + len shdBody)
    by (unfold done; rewrite len_record, len_message; lia).
  assert (Hl : len datagram = 25 + len shBody + len done)
    by (unfold datagram; rewrite len_app, len_record, len_message; lia).
  assert (Hfit' := Hfit). rewrite Hl in Hfit', Hu. unfold dtlsPacketSize in Hfit', Hu.
  unfold GetSession. rewrite Handshake_ToBytes_ClientHello. fold (hello dtls).
  fold withHello.
  rewrite (Read_datagram _ datagram rest) by (first [exact Hin | exact Hfit]).
  fold sent.
  unfold datagram at 1.
  rewrite ParsePacket_record by (rewrite len_message; lia).
  replace (ServerEncrypt sent) with false by (symmetry; exact Henc).
  unfold dispatch at 1. cbn [Type_ Content parsed].
  change (dtlsContentTypeHandshake =? dtlsContentTypeHandshake) with true. cbv iota.
  rewrite Handshake_Parse_ServerHello by (rewrite ?len_app; lia).
  fold behind. fold afterHello.
  fold (parsed dtlsContentTypeHandshake e2 s2 (message dtlsHandshakeTypeServerHello q2 shBody)
          (message dtlsHandshakeTypeServerHello q2 shBody)).
  rewrite Packet_Length_parsed by (rewrite len_message; lia).
  unfold datagram at 1.
  rewrite slice_from_app by reflexivity.
  rewrite <- (app_nil_r done) at 1. unfold done at 1.
  rewrite ParsePacket_record by (rewrite len_message; lia).
  replace (ServerEncrypt afterHello) with false by (symmetry; exact Henc).
  unfold dispatch. cbn [Type_ Content parsed].
  change (dtlsContentTypeHandshake =? dtlsContentTypeHandshake) with true. cbv iota.
  rewrite Handshake_Parse_ServerHelloDone by lia.
  reflexivity.
Qed.

Lemma SendClientKeyExchange_run (dtls : Dtls) :
  let exchange :=
    clientKeyExchange (hs_ClientSequence (Handshake dtls)) (Identity (Handshake dtls)) in
  SendClientKeyExchange crypto dtls
  = Some (bump (send (set_Handshake dtls
                        (set_Messages (Handshake dtls)
                           (Messages (Handshake dtls) ++ exchange)))
                  dtlsContentTypeHandshake exchange),
          nil_error).
Proof. reflexivity. Qed.

End Steps.

(** A Finished message: the verify data are compared with [raw[12:24]],
    which reaches into the padding when the message is short. *)
Lemma Handshake_Parse_Finished (crypto : Crypto) (params params' : DtlsHandshakeParams)
    (raw spare : list byte) :
  index raw 0 = Some dtlsHandshakeTypeFinished ->
  Handshake_Parse crypto params raw spare = Some params' ->
  MasterSecret params' = MasterSecret params /\
  Messages params' = Messages params /\
  exists serverVerify received,
    dtlsPrf crypto (MasterSecret params) (bytes_of_string "server finished")
      (sha256_Sum256 crypto (Messages params)) 12 = Some serverVerify /\
    slice_cap raw spare 12 24 = Some received /\
    verify_loop serverVerify received 0 true = Some (Verified params').
Proof.
  intros H0 Hp. unfold Handshake_Parse in Hp. rewrite H0 in Hp.
  destruct (slice_cap raw spare 1 4) as [raw14 |]; [| discriminate Hp].
  destruct (slice_cap raw spare 4 6) as [raw46 |]; [| discriminate Hp].
  change (dtlsHandshakeTypeFinished =? dtlsHandshakeTypeHelloVerifyRequest) with false in Hp.
  change (dtlsHandshakeTypeFinished =? dtlsHandshakeTypeServerHello) with false in Hp.
  change (dtlsHandshakeTypeFinished =? dtlsHandshakeTypeServerHelloDone) with false in Hp.
  change (dtlsHandshakeTypeFinished =? dtlsHandshakeTypeFinished) with true in Hp.
  cbv iota in Hp. unfold GenerateServerVerifyData in Hp.
  cbn [Messages MasterSecret set_hs_ServerSequence] in Hp.
  destruct (dtlsPrf crypto _ _ _ 12) as [serverVerify |] eqn:Hv; [| discriminate Hp].
  destruct (slice_cap raw spare 12 24) as [received |]; [| discriminate Hp].
  destruct (verify_loop serverVerify received 0 true) as [verified |] eqn:Hl;
    [| discriminate Hp].
  injection Hp as <-. cbn [MasterSecret Messages Verified set_Verified set_hs_ServerSequence].
  split; [reflexivity |]. split; [reflexivity |].
  exists serverVerify, received. repeat split; assumption.
Qed.

(** [decrypt] reads the server key and the server IV of the connection and
    nothing else. *)
Lemma decrypt_keys (crypto : Crypto) (dtls dtls' : Dtls) (data : list byte) (type : byte) :
  ServerWriteKey dtls = ServerWriteKey dtls' ->
  ServerIV dtls = ServerIV dtls' ->
  decrypt crypto dtls data type = decrypt crypto dtls' data type.
Proof. intros Hk Hi. unfold decrypt. rewrite Hk, Hi. reflexivity. Qed.

(** [encrypt] reads the client epoch, sequence, key and IV of the
    connection and nothing else. *)
Lemma encrypt_keys (crypto : Crypto) (dtls dtls' : Dtls) (data : list byte) (type : byte) :
  ClientEpoch dtls = ClientEpoch dtls' ->
  ClientSequence dtls = ClientSequence dtls' ->
  ClientWriteKey dtls = ClientWriteKey dtls' ->
  ClientIV dtls = ClientIV dtls' ->
  encrypt crypto dtls data type = encrypt crypto dtls' data type.
Proof. intros He Hs Hk Hi. unfold encrypt. rewrite He, Hs, Hk, Hi. reflexivity. Qed.

Lemma slice_len {A} (l v : list A) (lo hi : Z) :
  slice l lo hi = Some v -> len v = hi - lo.
Proof.
  unfold slice. destruct ((0 <=? lo) && (lo <=? hi) && (hi <=? len l)) eqn:E; [| discriminate].
  apply andb_true_iff in E. destruct E as [E E3]. apply andb_true_iff in E.
  destruct E as [E1 E2]. apply Z.leb_le in E1, E2, E3.
  intros H. injection H as <-. unfold sub, len in *.
  rewrite length_firstn, length_skipn. lia.
Qed.

Lemma dtlsPrf_len (crypto : Crypto) (secret label seed : list byte) (length : Z)
    (out : list byte) :
  dtlsPrf crypto secret label seed length = Some out -> 0 <= length -> len out = length.
Proof.
  unfold dtlsPrf. intros H Hl. apply slice_len in H. lia.
Qed.

(** Projections of updated records. *)
Ltac dtls_fields :=
  cbn [Connection ServerEpoch ClientEpoch ServerSequence ClientSequence ServerWriteKey
       ClientWriteKey ServerIV ClientIV ClientEncrypt ServerEncrypt Handshake
       hs_ServerSequence hs_ClientSequence Identity Cookie Session ClientRandom
       ServerRandom PreMasterSecret MasterSecret Messages Verified
       incoming outgoing
       set_Messages set_hs_ServerSequence set_hs_ClientSequence set_Cookie
       set_ServerRandom_Session set_MasterSecret set_Verified set_Handshake
       set_Connection set_ServerEncrypt set_ClientSequence
       received bump send Write hello].

Section Run.

Variable crypto : Crypto.
Variables identity psk clientRandom : list byte.
Variables (e1 s1 q1 : Z) (hvrBody : list byte).
Variables (e2 s2 q2 : Z) (shBody : list byte).
Variables (e3 s3 q3 : Z) (shdBody : list byte).
Variables (e4 s4 e5 s5 : Z) (protected : list byte).

Let helloVerifyRequest := message dtlsHandshakeTypeHelloVerifyRequest q1 hvrBody.
Let serverHello := message dtlsHandshakeTypeServerHello q2 shBody.
Let serverHelloDone := message dtlsHandshakeTypeServerHelloDone q3 shdBody.
Let datagram1 := record dtlsContentTypeHandshake e1 s1 helloVerifyRequest.
Let datagram2 :=
  record dtlsContentTypeHandshake e2 s2 serverHello
  ++ record dtlsContentTypeHandshake e3 s3 serverHelloDone.
Let datagram3 :=
  record dtlsContentTypeChangeCipherSpec e4 s4 [dtlsChangeCipherSpecMessage]
  ++ record dtlsContentTypeHandshake e5 s5 protected.

(** What the client takes for the cookie, the server random and the
    session: [raw[15:47]] of the HelloVerifyRequest, [raw[14:46]] and
    [raw[47:79]] of the ServerHello, each read from the body of the message
    and, where the body ends before, from what the receive buffer holds
    behind it. *)
Let cookie := sub (hvrBody ++ unread datagram1) 3 35.
Let behind :=
  shBody ++ record dtlsContentTypeHandshake e3 s3 serverHelloDone ++ unread datagram2.
Let serverRandom := sub behind 2 34.
Let session := sub behind 35 67.
Let M :=
  clientHello 1 clientRandom [] cookie ++ serverHello ++ serverHelloDone
  ++ clientKeyExchange 2 identity.

Hypothesis datagram1_fits : len datagram1 <= dtlsPacketSize.
Hypothesis datagram2_fits : len datagram2 <= dtlsPacketSize.
Hypothesis datagram3_fits : len datagram3 <= dtlsPacketSize.

(** The connection after each step of the handshake. *)
Let params0 : DtlsHandshakeParams :=
  {| hs_ServerSequence := 0; hs_ClientSequence := 0; Identity := identity;
     Cookie := []; Session := []; ClientRandom := clientRandom;
     ServerRandom := []; PreMasterSecret := DtlsPreMasterSecretFromPSK psk;
     MasterSecret := []; Messages := []; Verified := false |}.

Let state (incoming outgoing : list (list byte)) (clientEpoch clientSequence : Z)
    (params : DtlsHandshakeParams) : Dtls :=
  {| Connection := {| incoming := incoming; outgoing := outgoing |};
     ServerEpoch := 0; ClientEpoch := clientEpoch;
     ServerSequence := 0; ClientSequence := clientSequence;
     ServerWriteKey := []; ClientWriteKey := []; ServerIV := []; ClientIV := [];
     ClientEncrypt := false; ServerEncrypt := false; Handshake := params |}.

Let sent1 := [record dtlsContentTypeHandshake 0 0 (clientHello 0 clientRandom [] [])].
Let sent2 := sent1 ++ [record dtlsContentTypeHandshake 0 1 (clientHello 1 clientRandom [] cookie)].
Let sent3 := sent2 ++ [record dtlsContentTypeHandshake 0 2 (clientKeyExchange 2 identity)].
Let sent4 :=
  sent3 ++ [record dtlsContentTypeChangeCipherSpec 0 3 [dtlsChangeCipherSpecMessage]].

Let params1 : DtlsHandshakeParams :=
  {| hs_ServerSequence := BigEndian.Uint16 (BigEndian.PutUint16 q1);
     hs_ClientSequence := 1; Identity := identity;
     Cookie := cookie; Session := []; ClientRandom := clientRandom;
     ServerRandom := []; PreMasterSecret := DtlsPreMasterSecretFromPSK psk;
     MasterSecret := []; Messages := []; Verified := false |}.

Let params2 (clientSequence : Z) (messages : list byte) : DtlsHandshakeParams :=
  {| hs_ServerSequence := BigEndian.Uint16 (BigEndian.PutUint16 q3);
     hs_ClientSequence := clientSequence; Identity := identity;
     Cookie := cookie; Session := session; ClientRandom := clientRandom;
     ServerRandom := serverRandom; PreMasterSecret := DtlsPreMasterSecretFromPSK psk;
     MasterSecret := []; Messages := messages; Verified := false |}.

Lemma GetCookie_step :
  GetCookie crypto (state [datagram1; datagram2; datagram3] [] 0 0 params0)
  = Some (state [datagram2; datagram3] sent1 0 1 params1, nil_error).
Proof.
  intros.
  rewrite (GetCookie_run crypto _ e1 s1 q1 hvrBody [datagram2; datagram3])
    by (first [reflexivity | assumption]).
  reflexivity.
Qed.

Lemma GetSession_step :
  GetSession crypto (state [datagram2; datagram3] sent1 0 1 params1)
  = Some (state [datagram3] sent2 0 2
            (params2 2 (clientHello 1 clientRandom [] cookie ++ serverHello
                        ++ serverHelloDone)),
          nil_error).
Proof.
  rewrite (GetSession_run crypto _ e2 s2 q2 shBody e3 s3 q3 shdBody [datagram3])
    by (first [reflexivity | assumption]).
  cbv zeta. do 2 f_equal. unfold state, params2.
  dtls_fields. f_equal. f_equal. rewrite <- !app_assoc. reflexivity.
Qed.

Lemma SendClientKeyExchange_step :
  SendClientKeyExchange crypto
    (state [datagram3] sent2 0 2
       (params2 2 (clientHello 1 clientRandom [] cookie ++ serverHello
                   ++ serverHelloDone)))
  = Some (state [datagram3] sent3 0 3 (params2 3 M), nil_error).
Proof.
  rewrite SendClientKeyExchange_run.
  cbv zeta. do 2 f_equal. unfold state, params2, M.
  dtls_fields. f_equal. f_equal. rewrite <- !app_assoc. reflexivity.
Qed.

Lemma SendChangeCipherSpec_step :
  SendChangeCipherSpec (state [datagram3] sent3 0 3 (params2 3 M))
  = Some ({| Connection := {| incoming := [datagram3]; outgoing := sent4 |};
             ServerEpoch := 0; ClientEpoch := 1;
             ServerSequence := 0; ClientSequence := 0;
             ServerWriteKey := []; ClientWriteKey := []; ServerIV := []; ClientIV := [];
             ClientEncrypt := true; ServerEncrypt := false;
             Handshake := params2 3 M |},
          nil_error).
Proof. reflexivity. Qed.


(** C2. The server answers the first ClientHello by a HelloVerifyRequest,
    the second by ServerHello and ServerHelloDone, and the client's Finished
    by ChangeCipherSpec and a protected record, each datagram within the
    receive buffer and the bodies of any length.  When [processHandshake]
    then notifies success, the client has sent five records, the first
    ClientHello without cookie among them, and the verify data of its
    Finished message are the 12 bytes
    [dtlsPrf(master, "client finished", SHA256(M), 12)], where [M] is the
    second ClientHello (with the cookie), ServerHello, ServerHelloDone and
    ClientKeyExchange: neither the first ClientHello nor the
    HelloVerifyRequest is in [M].  When the protected record is a Finished
    message, the verify data it is compared with are
    [dtlsPrf(master, "server finished", SHA256(M ++ clientFinished), 12)],
    and they are compared with [raw[12:24]] of the decrypted message and
    its padding. *)
Theorem handshake_verify_data (dtls : Dtls) :
  processHandshake crypto
    (dial {| incoming := [datagram1; datagram2; datagram3]; outgoing := [] |}
       identity psk clientRandom)
  = Some (dtls, true) ->
  exists master clientVerify sealed finished,
    dtlsPrf crypto (DtlsPreMasterSecretFromPSK psk) (bytes_of_string "master secret")
      (clientRandom ++ serverRandom) 48 = Some master /\
    dtlsPrf crypto master (bytes_of_string "client finished") (sha256_Sum256 crypto M) 12
    = Some clientVerify /\
    len clientVerify = 12 /\
    let clientFinished := message dtlsHandshakeTypeFinished 3 clientVerify in
    outgoing (Connection dtls) =
      [ record dtlsContentTypeHandshake 0 0 (clientHello 0 clientRandom [] []);
        record dtlsContentTypeHandshake 0 1 (clientHello 1 clientRandom [] cookie);
        record dtlsContentTypeHandshake 0 2 (clientKeyExchange 2 identity);
        record dtlsContentTypeChangeCipherSpec 0 3 [dtlsChangeCipherSpecMessage];
        record dtlsContentTypeHandshake 1 0 sealed ] /\
    encrypt crypto (set_ClientSequence dtls 0) clientFinished dtlsContentTypeHandshake
    = Some sealed /\
    decrypt crypto dtls protected dtlsContentTypeHandshake = Some (finished, true) /\
    (index finished 0 = Some dtlsHandshakeTypeFinished ->
     MasterSecret (Handshake dtls) = master /\
     Messages (Handshake dtls) = M ++ clientFinished /\
     exists serverVerify received,
       dtlsPrf crypto master (bytes_of_string "server finished")
         (sha256_Sum256 crypto (M ++ clientFinished)) 12 = Some serverVerify /\
       slice_cap finished (padding (len finished)) 12 24 = Some received /\
       verify_loop serverVerify received 0 true = Some (Verified (Handshake dtls))).
Proof.
  intros Hrun.
  change (dial {| incoming := [datagram1; datagram2; datagram3]; outgoing := [] |}
            identity psk clientRandom)
    with (state [datagram1; datagram2; datagram3] [] 0 0 params0) in Hrun.
  unfold processHandshake in Hrun.
  rewrite GetCookie_step in Hrun. cbv beta iota in Hrun.
  rewrite GetSession_step in Hrun. cbv beta iota in Hrun.
  rewrite SendClientKeyExchange_step in Hrun. cbv beta iota in Hrun.
  rewrite SendChangeCipherSpec_step in Hrun. cbv beta iota in Hrun.
  unfold GenerateSecurityParams in Hrun.
  cbn [Handshake PreMasterSecret ClientRandom ServerRandom params2 MasterSecret
       set_MasterSecret Connection ServerEpoch ClientEpoch ServerSequence ClientSequence
       ClientEncrypt ServerEncrypt] in Hrun.
  destruct (dtlsPrf crypto (DtlsPreMasterSecretFromPSK psk) _ _ 48) as [master |] eqn:Hmaster;
    [| discriminate Hrun].
  destruct (dtlsPrf crypto master _ _ 40) as [keyBlock |]; [| discriminate Hrun].
  destruct (slice keyBlock 0 16) as [clientWriteKey |]; [| discriminate Hrun].
  destruct (slice keyBlock 16 32) as [serverWriteKey |]; [| discriminate Hrun].
  destruct (slice keyBlock 32 36) as [clientIV |]; [| discriminate Hrun].
  destruct (slice keyBlock 36 40) as [serverIV |]; [| discriminate Hrun].
  match type of Hrun with
  | context [SendFinished crypto ?st] => set (st5 := st) in Hrun
  end.
  unfold SendFinished in Hrun.
  rewrite Handshake_ToBytes_Finished in Hrun.
  unfold GenerateClientVerifyData in Hrun.
  cbn [Handshake st5 Messages MasterSecret set_MasterSecret hs_ClientSequence params2]
    in Hrun.
  destruct (dtlsPrf crypto master _ (sha256_Sum256 crypto M) 12) as [clientVerify |] eqn:Hcv;
    [| discriminate Hrun].
  cbv beta iota in Hrun.
  set (clientFinished := message dtlsHandshakeTypeFinished 3 clientVerify) in *.
  match type of Hrun with
  | context [encrypt crypto ?st _ _] => set (st6 := st) in Hrun
  end.
  destruct (encrypt crypto st6 clientFinished dtlsContentTypeHandshake) as [sealed |] eqn:Hseal;
    [| discriminate Hrun].
  cbv beta iota in Hrun.
  rewrite (Read_datagram _ datagram3 [])
    in Hrun by (first [reflexivity | exact datagram3_fits]).
  match type of Hrun with
  | context [ParsePacket crypto ?st datagram3] => set (st7 := st) in Hrun
  end.
  assert (Hfit3' := datagram3_fits). unfold datagram3 in Hfit3'.
  rewrite len_app, !len_record in Hfit3'. unfold dtlsPacketSize in Hfit3'.
  change (len [dtlsChangeCipherSpecMessage]) with 1 in Hfit3'.
  pose proof (len_nonneg protected) as Hprot.
  unfold datagram3 in Hrun at 1.
  rewrite ParsePacket_record in Hrun
    by (change (len [dtlsChangeCipherSpecMessage]) with 1; lia).
  change (ServerEncrypt st7) with false in Hrun.
  unfold dispatch in Hrun at 1. cbn [Type_ parsed] in Hrun.
  change (dtlsContentTypeChangeCipherSpec =? dtlsContentTypeHandshake) with false in Hrun.
  change (dtlsContentTypeChangeCipherSpec =? dtlsContentTypeChangeCipherSpec) with true in Hrun.
  cbv beta iota in Hrun.
  fold (parsed dtlsContentTypeChangeCipherSpec e4 s4 [dtlsChangeCipherSpecMessage]
          [dtlsChangeCipherSpecMessage]) in Hrun.
  rewrite Packet_Length_parsed in Hrun
    by (change (len [dtlsChangeCipherSpecMessage]) with 1; lia).
  unfold datagram3 in Hrun.
  rewrite slice_from_app in Hrun by reflexivity.
  rewrite <- (app_nil_r (record _ e5 _ _)) in Hrun.
  rewrite ParsePacket_record in Hrun by lia.
  cbn [ServerEncrypt set_ServerEncrypt] in Hrun.
  destruct (decrypt crypto (set_ServerEncrypt st7 true) protected dtlsContentTypeHandshake)
    as [[finished verify] |] eqn:Hdec; [| discriminate Hrun].
  destruct verify; [| discriminate Hrun].
  unfold dispatch in Hrun. cbn [Type_ Content parsed] in Hrun.
  change (dtlsContentTypeHandshake =? dtlsContentTypeHandshake) with true in Hrun.
  cbv beta iota in Hrun.
  destruct (Handshake_Parse crypto _ finished _) as [params |] eqn:Hparse;
    [| discriminate Hrun].
  injection Hrun as <-.
  exists master, clientVerify, sealed, finished.
  split; [reflexivity |]. split; [exact Hcv |].
  split; [exact (dtlsPrf_len crypto _ _ _ _ _ Hcv ltac:(lia)) |].
  cbv zeta. fold clientFinished.
  split; [reflexivity |].
  split; [rewrite <- Hseal; apply encrypt_keys; reflexivity |].
  split; [rewrite <- Hdec; apply decrypt_keys; reflexivity |].
  intros Htype.
  destruct (Handshake_Parse_Finished crypto _ _ _ _ Htype Hparse)
    as [Hms [Hmm [serverVerify [received [Hsv [Hrecv Hver]]]]]].
  cbn [Handshake set_Handshake].
  change (MasterSecret (Handshake (set_ServerEncrypt st7 true))) with master in *.
  change (Messages (Handshake (set_ServerEncrypt st7 true))) with (M ++ clientFinished) in *.
  split; [exact Hms |]. split; [exact Hmm |].
  exists serverVerify, received. repeat split; assumption.
Qed.

End Run.

(** C5 (as the code has it). When the client sends ChangeCipherSpec, its
    epoch is incremented (a 16-bit counter), its sequence number is reset
    to 0 and its records are protected from then on; the server epoch and
    sequence are not touched.  When a ChangeCipherSpec record is received,
    [ParsePacket] turns the protection of received records on and changes
    neither epoch nor sequence number, of the server or of the client: the
    engine does not count the epochs of the server, and [decrypt] takes
    epoch and sequence from the record itself. *)
Theorem ChangeCipherSpec_epochs (crypto : Crypto) (dtls : Dtls) :
  (exists dtls',
     SendChangeCipherSpec dtls = Some (dtls', nil_error) /\
     ClientEpoch dtls' = u16 (ClientEpoch dtls + 1) /\
     ClientSequence dtls' = 0 /\
     ClientEncrypt dtls' = true /\
     ServerEpoch dtls' = ServerEpoch dtls /\
     ServerSequence dtls' = ServerSequence dtls)
  /\
  (forall raw spare dtls' packet,
     ParsePacket crypto dtls raw spare = Some (dtls', Some packet) ->
     Type_ packet = dtlsContentTypeChangeCipherSpec ->
     ServerEncrypt dtls' = true /\
     ServerEpoch dtls' = ServerEpoch dtls /\
     ServerSequence dtls' = ServerSequence dtls /\
     ClientEpoch dtls' = ClientEpoch dtls /\
     ClientSequence dtls' = ClientSequence dtls).
Proof.
  split.
  - eexists. split; [reflexivity |]. repeat split.
  - intros raw spare dtls' packet Hp Ht. unfold ParsePacket in Hp.
    destruct (len raw <? 13); [discriminate Hp |].
    destruct (len raw <? 13 + _); [discriminate Hp |].
    destruct (slice raw 13 _) as [content |]; [| discriminate Hp].
    destruct (if ServerEncrypt dtls then _ else _) as [[[plain behind] |] |];
      [| discriminate Hp | discriminate Hp].
    destruct (at_ raw 0 =? dtlsContentTypeHandshake) eqn:E22.
    + destruct (Handshake_Parse crypto (Handshake dtls) plain behind);
        [| discriminate Hp].
      injection Hp as <- <-. cbn [Type_] in Ht. rewrite Ht in E22. discriminate E22.
    + destruct (at_ raw 0 =? dtlsContentTypeChangeCipherSpec) eqn:E20.
      * injection Hp as <- <-. repeat split.
      * injection Hp as <- <-. cbn [Type_] in Ht. rewrite Ht in E20. discriminate E20.
Qed.

Lemma ChangeCipherSpec_epochs_witness :
  let raw := record dtlsContentTypeChangeCipherSpec 0 3 [dtlsChangeCipherSpecMessage] in
  let dtls := Flight.client Flight.verifyData in
  let dtls' := set_ServerEncrypt dtls true in
  ServerEncrypt dtls' = true /\
  ServerEpoch dtls' = ServerEpoch dtls /\
  ServerSequence dtls' = ServerSequence dtls /\
  ClientEpoch dtls' = ClientEpoch dtls /\
  ClientSequence dtls' = ClientSequence dtls.
Proof.
  intros raw dtls dtls'.
  apply (proj2 (ChangeCipherSpec_epochs Flight.toy dtls) raw (unread raw) dtls'
           (parsed dtlsContentTypeChangeCipherSpec 0 3 [dtlsChangeCipherSpecMessage]
              [dtlsChangeCipherSpecMessage])).
  - reflexivity.
  - reflexivity.
Defined.

(** The claim as the specification has it asks for the server epoch to be
    incremented when a ChangeCipherSpec record is received; [ParsePacket]
    turns [ServerEncrypt] on and leaves [ServerEpoch] at 0. *)
Lemma ChangeCipherSpec_received_keeps_ServerEpoch :
  let dtls := Flight.client Flight.verifyData in
  exists dtls' packet,
    ParsePacket Flight.toy dtls
      (record dtlsContentTypeChangeCipherSpec 0 3 [dtlsChangeCipherSpecMessage])
      (unread (record dtlsContentTypeChangeCipherSpec 0 3 [dtlsChangeCipherSpecMessage]))
    = Some (dtls', Some packet) /\
    Type_ packet = dtlsContentTypeChangeCipherSpec /\
    ServerEncrypt dtls' = true /\
    ServerEpoch dtls' <> ServerEpoch dtls + 1.
Proof.
  intros dtls. do 2 eexists. split; [reflexivity |].
  split; [reflexivity |]. split; [reflexivity |].
  cbn. discriminate.
Qed.

(** The connection of the witness, after the handshake: the server has
    sent ChangeCipherSpec, and the server epoch is still 0. *)
Example established_epochs :
  ClientEpoch Flight.established = 1 /\ ClientSequence Flight.established = 1 /\
  ServerEpoch Flight.established = 0 /\ ServerSequence Flight.established = 0 /\
  ServerEncrypt Flight.established = true /\
  Verified (Handshake Flight.established) = true.
Proof. repeat split. Qed.

Lemma handshake_verify_data_witness :
  exists master clientVerify sealed finished,
    dtlsPrf Flight.toy (DtlsPreMasterSecretFromPSK Flight.psk)
      (bytes_of_string "master secret")
      (Flight.clientRandom ++ Flight.serverRandom) 48 = Some master /\
    dtlsPrf Flight.toy master (bytes_of_string "client finished")
      (sha256_Sum256 Flight.toy Flight.M) 12 = Some clientVerify /\
    len clientVerify = 12 /\
    let clientFinished := message dtlsHandshakeTypeFinished 3 clientVerify in
    outgoing (Connection Flight.established) =
      [ record dtlsContentTypeHandshake 0 0 (clientHello 0 Flight.clientRandom [] []);
        record dtlsContentTypeHandshake 0 1
          (clientHello 1 Flight.clientRandom [] Flight.cookie);
        record dtlsContentTypeHandshake 0 2 (clientKeyExchange 2 Flight.identity);
        record dtlsContentTypeChangeCipherSpec 0 3 [dtlsChangeCipherSpecMessage];
        record dtlsContentTypeHandshake 1 0 sealed ] /\
    encrypt Flight.toy (set_ClientSequence Flight.established 0) clientFinished
      dtlsContentTypeHandshake = Some sealed /\
    decrypt Flight.toy Flight.established (Flight.protectedFinished Flight.verifyData)
      dtlsContentTypeHandshake = Some (finished, true) /\
    (index finished 0 = Some dtlsHandshakeTypeFinished ->
     MasterSecret (Handshake Flight.established) = master /\
     Messages (Handshake Flight.established) = Flight.M ++ clientFinished /\
     exists serverVerify received,
       dtlsPrf Flight.toy master (bytes_of_string "server finished")
         (sha256_Sum256 Flight.toy (Flight.M ++ clientFinished)) 12 = Some serverVerify /\
       slice_cap finished (padding (len finished)) 12 24 = Some received /\
       verify_loop serverVerify received 0 true
       = Some (Verified (Handshake Flight.established))).
Proof.
  refine (handshake_verify_data Flight.toy Flight.identity Flight.psk Flight.clientRandom
            0 0 0 (BigEndian.PutUint16 dtlsVersion ++ [32] ++ Flight.cookie)
            0 1 1 (BigEndian.PutUint16 dtlsVersion ++ Flight.serverRandom ++ [32]
                   ++ Flight.session ++ BigEndian.PutUint16 dtlsCipherSuite
                   ++ [dtlsCompress])
            0 2 2 []
            0 3 1 0 (Flight.protectedFinished Flight.verifyData)
            _ _ _ Flight.established _).
  - vm_compute. discriminate.
  - vm_compute. discriminate.
  - vm_compute. discriminate.
  - vm_compute. reflexivity.
Defined.

(** The handshake runs to its end on the shorter flight as well.  The
    cookie is the 16 bytes of the server followed by 16 bytes of the fresh
    buffer, the session is read from the end of the ServerHello, the
    record behind it and the fresh buffer, and the 8 bytes of verify data
    are compared together with 4 bytes of padding. *)
Example short_flight_runs :
  exists dtls,
    processHandshake Flight.toy Flight.shortClient = Some (dtls, true) /\
    Cookie (Handshake dtls) = Flight.shortCookie ++ make 16 /\
    ServerRandom (Handshake dtls) = Flight.serverRandom /\
    Session (Handshake dtls)
    = [0xc0; 0xa8; 0x00] ++ record dtlsContentTypeHandshake 0 2 Flight.serverHelloDone
      ++ make 4 /\
    slice_cap Flight.shortFinished (padding (len Flight.shortFinished)) 12 24
    = Some [1; 2; 3; 4; 5; 6; 7; 8; 0; 0; 0; 0] /\
    Verified (Handshake dtls) = false.
Proof. eexists. split; [vm_compute; reflexivity |]. repeat split. Qed.

(** ** The record layer after the handshake *)

Lemma xorKeyStream_app (stream : nat -> Z) (i : nat) (a b : list Z) :
  xorKeyStream stream i (a ++ b)
  = xorKeyStream stream i a ++ xorKeyStream stream (i + length a) b.
Proof.
  revert i. induction a as [| x a IH]; intros i; cbn [xorKeyStream app length].
  - rewrite Nat.add_0_r. reflexivity.
  - rewrite IH. replace (S i + length a)%nat with (i + S (length a))%nat by lia.
    reflexivity.
Qed.

Lemma xorKeyStream_length (stream : nat -> Z) (i : nat) (l : list Z) :
  length (xorKeyStream stream i l) = length l.
Proof.
  revert i. induction l as [| x l IH]; intros i; cbn [xorKeyStream length];
    [reflexivity | rewrite IH; reflexivity].
Qed.

Lemma len_xorKeyStream (stream : nat -> Z) (i : nat) (l : list Z) :
  len (xorKeyStream stream i l) = len l.
Proof. unfold len. rewrite xorKeyStream_length. reflexivity. Qed.

Lemma xorKeyStream_twice (stream : nat -> Z) (i : nat) (l : list Z) :
  xorKeyStream stream i (xorKeyStream stream i l) = l.
Proof.
  revert i. induction l as [| x l IH]; intros i; cbn [xorKeyStream]; [reflexivity |].
  rewrite IH, Z.lxor_assoc, Z.lxor_nilpotent, Z.lxor_0_r. reflexivity.
Qed.

Lemma len_copy (dst src : list Z) : len (copy dst src) = len dst.
Proof.
  unfold copy, len. rewrite length_app, length_firstn, length_skipn. lia.
Qed.

Lemma copy_all (src : list Z) : copy (make (len src)) src = src.
Proof.
  unfold copy, make, len. rewrite Nat2Z.id, repeat_length, firstn_all.
  rewrite skipn_all2 by (rewrite repeat_length; lia). apply app_nil_r.
Qed.

Lemma len_epochSequence_of (epoch sequence : Z) :
  len (epochSequence_of epoch sequence) = 8.
Proof. reflexivity. Qed.

Lemma len_padding (n : Z) : (n + len (padding n)) mod 16 = 0 /\ 0 <= len (padding n) < 16.
Proof.
  unfold padding, aes_BlockSize.
  assert (H : 0 <= (16 - n mod 16) mod 16 < 16) by (apply Z.mod_pos_bound; lia).
  rewrite len_make by lia. split; [| exact H].
  pose proof (Z.mod_pos_bound n 16 ltac:(lia)).
  Z.div_mod_to_equations. lia.
Qed.

Section Seal.

Variable crypto : Crypto.

(** The contract of [cipher.NewCBCEncrypter(..).CryptBlocks]: as many
    bytes out as in. *)
Hypothesis cbc_length :
  forall key iv data, len (aes_cbc crypto key iv data) = len data.

Lemma dtlsGenerateMAC_length (aad nonce : list Z) (length : Z) (paddedData key : list Z) :
  len aad <= 14 ->
  exists mac,
    dtlsGenerateMAC crypto aad nonce length paddedData key = Some mac /\ len mac = 16.
Proof.
  intros Haad. unfold dtlsGenerateMAC.
  replace (len aad <=? 14) with true by (symmetry; apply Z.leb_le; exact Haad).
  cbv zeta.
  match goal with |- context [aes_cbc crypto ?k ?iv ?b] => set (blocks := b) end.
  assert (Hblocks : 32 <= len blocks).
  { unfold blocks. pose proof (len_nonneg paddedData). pose proof (len_nonneg aad).
    rewrite !len_app, !len_copy, !len_make by lia.
    change (len [0]) with 1. change (len (BigEndian.PutUint16 length)) with 2.
    change (len (BigEndian.PutUint16 (u16 (len aad)))) with 2.
    match goal with |- context [len [?x]] => change (len [x]) with 1 end.
    lia. }
  clearbody blocks. unfold slice_from, aes_BlockSize.
  rewrite slice_in_range by (rewrite ?cbc_length; lia).
  eexists. split; [reflexivity |].
  rewrite len_sub by (rewrite ?cbc_length; lia). lia.
Qed.

End Seal.

Lemma seal_slices (s : nat -> Z) (mac data pad : list Z) :
  len mac = 16 ->
  slice (xorKeyStream s 0 (mac ++ data ++ pad)) 0 8
    = Some (xorKeyStream s 0 (sub mac 0 8)) /\
  slice (xorKeyStream s 0 (mac ++ data ++ pad)) 16 (16 + len data)
    = Some (xorKeyStream s 16 data).
Proof.
  intros Hmac.
  assert (Hsplit : mac = sub mac 0 8 ++ sub mac 8 16).
  { unfold sub. cbn [Z.to_nat skipn Z.sub Z.add Z.opp Z.pos_sub Pos.pred_double].
    change (Z.to_nat 8) with 8%nat.
    rewrite <- (firstn_skipn 8 mac) at 1. f_equal.
    symmetry. apply firstn_all2. unfold len in Hmac. rewrite length_skipn. lia. }
  assert (H1 : len (sub mac 0 8) = 8) by (apply len_sub; lia).
  assert (H2 : len (sub mac 8 16) = 8) by (rewrite len_sub; lia).
  set (m1 := sub mac 0 8) in *. set (m2 := sub mac 8 16) in *. clearbody m1 m2.
  subst mac. rewrite <- !app_assoc, !xorKeyStream_app.
  unfold len in H1, H2.
  replace (0 + length m1)%nat with 8%nat by lia.
  replace (8 + length m2)%nat with 16%nat by lia.
  split.
  - apply (slice_app_mid [] _ _ 0 8); [reflexivity |].
    rewrite len_xorKeyStream. unfold len. lia.
  - rewrite app_assoc. apply slice_app_mid.
    + rewrite len_app, !len_xorKeyStream. unfold len. lia.
    + rewrite len_xorKeyStream. reflexivity.
Qed.

Lemma open_slices (s : nat -> Z) (m1 junk data pad : list Z) :
  len m1 = 8 -> len junk = 8 ->
  slice (xorKeyStream s 0 (xorKeyStream s 0 m1 ++ junk ++ xorKeyStream s 16 data ++ pad)) 0 8
    = Some m1 /\
  slice (xorKeyStream s 0 (xorKeyStream s 0 m1 ++ junk ++ xorKeyStream s 16 data ++ pad))
        16 (16 + len data)
    = Some data.
Proof.
  intros H1 H2. rewrite !xorKeyStream_app, !xorKeyStream_length.
  unfold len in H1, H2.
  replace (0 + length m1)%nat with 8%nat by lia.
  replace (8 + length junk)%nat with 16%nat by lia.
  rewrite !xorKeyStream_twice.
  split.
  - apply (slice_app_mid [] _ _ 0 8); [reflexivity | unfold len; lia].
  - rewrite app_assoc. apply slice_app_mid.
    + rewrite len_app, len_xorKeyStream. unfold len. lia.
    + reflexivity.
Qed.

Lemma forallb_same (a : list Z) (l : list Z) :
  forallb (fun i => at_ a i =? at_ a i) l = true.
Proof. apply forallb_forall. intros x _. apply Z.eqb_refl. Qed.

Section Round_trip.

Variable crypto : Crypto.

(** The contract of [cipher.NewCTR(block, iv).XORKeyStream]: the source
    XORed with a key stream that the key and the counter block determine. *)
Variable stream : list Z -> list Z -> nat -> Z.
Hypothesis ctr_stream :
  forall key iv data, aes_ctr crypto key iv data = xorKeyStream (stream key iv) 0 data.

(** The contract of [cipher.NewCBCEncrypter(..).CryptBlocks]: as many
    bytes out as in. *)
Hypothesis cbc_length :
  forall key iv data, len (aes_cbc crypto key iv data) = len data.

Lemma len_AAD (epochSequence : list Z) (contentType length : Z) :
  len (dtlsGenerateAAD epochSequence contentType length) = 13.
Proof. unfold dtlsGenerateAAD. rewrite len_app, len_copy. reflexivity. Qed.

Lemma sealed_opens (client : Dtls) (data : list Z) (contentType : Z) :
  aes_key_ok (ClientWriteKey client) = true ->
  exists content,
    encrypt crypto client data contentType = Some content /\
    len content = len data + 16 /\
    sub content 0 8 = epochSequence_of (ClientEpoch client) (ClientSequence client) /\
    forall server : Dtls,
      ServerWriteKey server = ClientWriteKey client ->
      ServerIV server = ClientIV client ->
      decrypt crypto server content contentType = Some (data, true).
Proof.
  intros Hkey. unfold encrypt. rewrite Hkey. cbn [negb]. cbv zeta.
  set (es := epochSequence_of (ClientEpoch client) (ClientSequence client)).
  set (aad := dtlsGenerateAAD es contentType (u16 (len data))).
  set (nonce := dtlsGenerateNonce (ClientIV client) es).
  destruct (dtlsGenerateMAC_length crypto cbc_length aad nonce (u16 (len data))
              (data ++ padding (len data)) (ClientWriteKey client)) as [mac [Hmac Hlen]].
  { unfold aad. rewrite len_AAD. lia. }
  rewrite Hmac, ctr_stream.
  set (s := stream (ClientWriteKey client) (counterIV_of nonce)).
  destruct (seal_slices s mac data (padding (len data)) Hlen) as [E1 E2].
  unfold dtlsAesCcmMACLength, aes_BlockSize. rewrite E1, E2.
  set (em := xorKeyStream s 0 (sub mac 0 8)).
  set (ed := xorKeyStream s 16 data).
  assert (Hes : len es = 8) by reflexivity.
  assert (Hem : len em = 8) by (unfold em; rewrite len_xorKeyStream, len_sub; lia).
  assert (Hed : len ed = len data) by (unfold ed; apply len_xorKeyStream).
  pose proof (len_nonneg data) as Hdata.
  eexists. split; [reflexivity |].
  split; [rewrite !len_app; lia |].
  split; [apply (sub_app_mid [] es (ed ++ em) 0 8); [reflexivity | lia] |].
  intros server Hk Hiv. unfold decrypt.
  assert (S1 : slice (es ++ ed ++ em) 0 8 = Some es)
    by (apply (slice_app_mid [] es (ed ++ em) 0 8); [reflexivity | lia]).
  assert (S2 : slice (es ++ ed ++ em) 8 (len (es ++ ed ++ em) - 8) = Some ed)
    by (apply slice_app_mid; [lia | rewrite !len_app; lia]).
  assert (S3 : slice_from (es ++ ed ++ em) (len (es ++ ed ++ em) - 8) = Some em).
  { rewrite app_assoc. apply slice_from_app. rewrite !len_app. lia. }
  unfold dtlsAesCcmMACLength, aes_BlockSize. rewrite S1, S2, S3. cbv zeta.
  rewrite Hk, Hiv, Hkey. cbn [negb]. fold nonce. rewrite ctr_stream. fold s.
  rewrite Hed.
  destruct (open_slices s (sub mac 0 8) (make (16 - 8)) data (padding (len data)))
    as [O1 O2]; [apply len_sub; lia | reflexivity |].
  fold em ed in O1, O2. rewrite O1, O2. fold aad. rewrite Hmac.
  rewrite slice_in_range by lia.
  rewrite forallb_same. reflexivity.
Qed.

(** What [encrypt] seals with the client key and IV, [decrypt] opens with
    the same key and IV as server key and IV, and the MAC verifies; the
    content is 16 bytes longer than the data and starts with the epoch and
    the sequence number of the record. *)
Theorem decrypt_encrypt (client server : Dtls) (data : list Z) (contentType : Z) :
  aes_key_ok (ClientWriteKey client) = true ->
  ServerWriteKey server = ClientWriteKey client ->
  ServerIV server = ClientIV client ->
  exists content,
    encrypt crypto client data contentType = Some content /\
    len content = len data + 16 /\
    sub content 0 8 = epochSequence_of (ClientEpoch client) (ClientSequence client) /\
    decrypt crypto server content contentType = Some (data, true).
Proof.
  intros Hkey Hk Hiv.
  destruct (sealed_opens client data contentType Hkey) as [content [H1 [H2 [H3 H4]]]].
  exists content. repeat split; try assumption. apply H4; assumption.
Qed.

(** A datagram written by [Dtls.Write] is read back by [Dtls.Read] at the
    other end: up to 995 bytes of data travel in one record of 29 bytes
    more, the sequence number of the writer moves on by one, and the reader
    copies the data to the buffer of its caller and returns their count. *)
Theorem Read_Write (client : Dtls) (data : list Z) :
  aes_key_ok (ClientWriteKey client) = true ->
  len data <= 995 ->
  exists client' datagram,
    Dtls_Write crypto client data = Some (client', len data) /\
    Connection client'
    = {| incoming := incoming (Connection client);
         outgoing := outgoing (Connection client) ++ [datagram] |} /\
    ClientSequence client' = u64 (ClientSequence client + 1) /\
    ClientEpoch client' = ClientEpoch client /\
    len datagram = len data + 29 /\
    forall (server : Dtls) (buf : list Z) (rest : list (list Z)),
      ServerWriteKey server = ClientWriteKey client ->
      ServerIV server = ClientIV client ->
      ServerEncrypt server = true ->
      incoming (Connection server) = datagram :: rest ->
      Dtls_Read crypto server buf
      = Some (received server rest, copy buf data, len data, read_nil).
Proof.
  intros Hkey Hlen. pose proof (len_nonneg data) as Hdata.
  unfold Dtls_Write. rewrite copy_all.
  destruct (sealed_opens client data dtlsContentTypeApplicationData Hkey)
    as [content [Hseal [Hcontent [_ Hopen]]]].
  rewrite Hseal.
  match goal with |- context [Packet_ToBytes ?p] => set (packet := p) end.
  assert (Hrecord : Packet_ToBytes packet
                    = record dtlsContentTypeApplicationData (ClientEpoch client)
                        (ClientSequence client) content) by reflexivity.
  eexists. exists (Packet_ToBytes packet).
  split; [reflexivity |].
  split; [reflexivity |].
  split; [reflexivity |].
  split; [reflexivity |].
  split; [rewrite Hrecord, len_record; lia |].
  intros server buf rest Hk Hiv Henc Hin.
  unfold Dtls_Read.
  rewrite (Read_datagram server _ rest Hin)
    by (rewrite Hrecord, len_record; unfold dtlsPacketSize; lia).
  rewrite Hrecord, <- (app_nil_r (record _ _ _ _)).
  rewrite ParsePacket_record by (change (2 ^ 16) with 65536; lia).
  replace (ServerEncrypt (received server rest)) with true by (symmetry; exact Henc).
  rewrite (decrypt_keys crypto (received server rest) server) by reflexivity.
  rewrite (Hopen server Hk Hiv).
  reflexivity.
Qed.

End Round_trip.

Lemma PutUint64_48 (s : Z) :
  0 <= s < 2 ^ 48 ->
  BigEndian.PutUint64 s = [0; 0] ++ sub (BigEndian.PutUint64 s) 2 8.
Proof.
  intros Hs.
  change (sub (BigEndian.PutUint64 s) 2 8)
    with [u8 (Z.shiftr s 40); u8 (Z.shiftr s 32); u8 (Z.shiftr s 24);
          u8 (Z.shiftr s 16); u8 (Z.shiftr s 8); u8 s].
  unfold BigEndian.PutUint64. cbn [app].
  rewrite (Z.shiftr_div_pow2 s 56), (Z.shiftr_div_pow2 s 48) by lia.
  rewrite (Z.div_small s (2 ^ 56)), (Z.div_small s (2 ^ 48)) by lia.
  reflexivity.
Qed.

Lemma nonce_injective (iv : list Z) (epoch1 sequence1 epoch2 sequence2 : Z) :
  0 <= epoch1 < 2 ^ 16 -> 0 <= epoch2 < 2 ^ 16 ->
  0 <= sequence1 < 2 ^ 48 -> 0 <= sequence2 < 2 ^ 48 ->
  dtlsGenerateNonce iv (epochSequence_of epoch1 sequence1)
  = dtlsGenerateNonce iv (epochSequence_of epoch2 sequence2) ->
  epoch1 = epoch2 /\ sequence1 = sequence2.
Proof.
  intros He1 He2 Hs1 Hs2 H. unfold dtlsGenerateNonce in H.
  apply app_inv_head in H.
  assert (C : forall e s, copy (make 12) (epochSequence_of e s)
                          = BigEndian.PutUint16 e ++ sub (BigEndian.PutUint64 s) 2 8
                            ++ [0; 0; 0; 0]) by reflexivity.
  rewrite !C in H.
  assert (HE : BigEndian.PutUint16 epoch1 = BigEndian.PutUint16 epoch2).
  { apply (f_equal (firstn 2)) in H. exact H. }
  assert (HS : sub (BigEndian.PutUint64 sequence1) 2 8
               = sub (BigEndian.PutUint64 sequence2) 2 8).
  { apply (f_equal (fun l => firstn 6 (skipn 2 l))) in H. exact H. }
  split.
  - rewrite <- (Uint16_PutUint16 epoch1 He1), <- (Uint16_PutUint16 epoch2 He2), HE.
    reflexivity.
  - assert (B : 2 ^ 48 < 2 ^ 64) by reflexivity.
    rewrite <- (Uint64_PutUint64 sequence1), <- (Uint64_PutUint64 sequence2) by lia.
    rewrite (PutUint64_48 sequence1 Hs1), (PutUint64_48 sequence2 Hs2), HS.
    reflexivity.
Qed.

(** Two records that differ in epoch or in sequence number are
    sealed under different nonces, for epochs below 2^16 and sequence
    numbers below 2^48, whatever the IV. *)
Theorem nonce_unique (iv : list Z) (epoch1 sequence1 epoch2 sequence2 : Z) :
  0 <= epoch1 < 2 ^ 16 -> 0 <= epoch2 < 2 ^ 16 ->
  0 <= sequence1 < 2 ^ 48 -> 0 <= sequence2 < 2 ^ 48 ->
  (epoch1, sequence1) <> (epoch2, sequence2) ->
  dtlsGenerateNonce iv (epochSequence_of epoch1 sequence1)
  <> dtlsGenerateNonce iv (epochSequence_of epoch2 sequence2).
Proof.
  intros He1 He2 Hs1 Hs2 Hne H. apply Hne.
  destruct (nonce_injective iv epoch1 sequence1 epoch2 sequence2 He1 He2 Hs1 Hs2 H)
    as [-> ->].
  reflexivity.
Qed.

Lemma pad_cbc_length (key iv data : list Z) :
  len (aes_cbc Pad.pad key iv data) = len data.
Proof. unfold len. cbn [aes_cbc Pad.pad]. rewrite length_map. reflexivity. Qed.

Lemma decrypt_encrypt_witness :
  exists content,
    encrypt Pad.pad Pad.client Pad.hello dtlsContentTypeApplicationData = Some content /\
    len content = len Pad.hello + 16 /\
    sub content 0 8 = epochSequence_of 1 7 /\
    decrypt Pad.pad (Pad.server []) content dtlsContentTypeApplicationData
    = Some (Pad.hello, true).
Proof.
  apply (decrypt_encrypt Pad.pad Pad.stream (fun _ _ _ => eq_refl) pad_cbc_length
           Pad.client (Pad.server []) Pad.hello dtlsContentTypeApplicationData);
    reflexivity.
Defined.

Lemma Read_Write_witness :
  exists client' datagram,
    Dtls_Write Pad.pad Pad.client Pad.hello = Some (client', 16) /\
    outgoing (Connection client') = [datagram] /\
    len datagram = 45 /\
    Dtls_Read Pad.pad (Pad.server [datagram]) (make 20)
    = Some (Pad.server [], Pad.hello ++ make 4, 16, read_nil).
Proof.
  destruct (Read_Write Pad.pad Pad.stream (fun _ _ _ => eq_refl) pad_cbc_length
              Pad.client Pad.hello eq_refl)
    as (client' & datagram & HW & HC & _ & _ & HL & HR).
  - vm_compute. discriminate.
  - exists client', datagram.
    split; [exact HW |].
    split; [rewrite HC; reflexivity |].
    split; [exact HL |].
    exact (HR (Pad.server [datagram]) (make 20) [] eq_refl eq_refl eq_refl eq_refl).
Defined.

Lemma nonce_unique_witness :
  dtlsGenerateNonce Pad.clientIV (epochSequence_of 1 7)
  <> dtlsGenerateNonce Pad.clientIV (epochSequence_of 1 8).
Proof.
  apply nonce_unique; try (split; [discriminate | reflexivity]).
  intros H. discriminate H.
Defined.

(** ** Short records and key derivation *)

Lemma decrypt_short (crypto : Crypto) (dtls : Dtls) (data : list Z) (contentType : Z) :
  len data < 16 -> decrypt crypto dtls data contentType = None.
Proof.
  intros H. unfold decrypt, slice, dtlsAesCcmMACLength.
  destruct (Z.leb_spec 8 (len data)) as [H8 | H8].
  - replace ((0 <=? 0) && (0 <=? 8) && (8 <=? len data)) with true
      by (symmetry; rewrite !andb_true_iff; repeat split; apply Z.leb_le; lia).
    replace ((0 <=? 8) && (8 <=? len data - 8) && (len data - 8 <=? len data)) with false;
      [reflexivity |].
    symmetry. apply andb_false_iff. left. apply andb_false_iff. right.
    apply Z.leb_gt. lia.
  - replace ((0 <=? 0) && (0 <=? 8) && (8 <=? len data)) with false; [reflexivity |].
    symmetry. apply andb_false_iff. right. apply Z.leb_gt. lia.
Qed.

(** Once the server side is encrypted, a record that announces fewer than
    16 bytes of content stops the agent: [decrypt] is called on it
    unchecked and asks [make] for a slice of negative length.  Thirteen
    bytes are enough. *)
Theorem ParsePacket_short_record_panics (crypto : Crypto) (dtls : Dtls)
    (raw spare : list Z) :
  ServerEncrypt dtls = true ->
  bytes raw ->
  BigEndian.Uint16 (sub raw 11 13) < 16 ->
  13 + BigEndian.Uint16 (sub raw 11 13) <= len raw ->
  ParsePacket crypto dtls raw spare = None.
Proof.
  intros Henc Hb Hshort Hlen. unfold ParsePacket.
  pose proof (Uint16_bound (sub raw 11 13) (bytes_sub raw 11 13 Hb)) as Hcl.
  set (contentLength := BigEndian.Uint16 (sub raw 11 13)) in *.
  replace (len raw <? 13) with false by (symmetry; apply Z.ltb_ge; lia).
  replace (len raw <? 13 + contentLength) with false by (symmetry; apply Z.ltb_ge; lia).
  unfold u16. rewrite Z.mod_small by (change (2 ^ 16) with 65536; lia).
  rewrite slice_in_range by lia. rewrite Henc.
  rewrite decrypt_short; [reflexivity |].
  rewrite len_sub by lia. lia.
Qed.

Lemma ParsePacket_short_record_panics_witness :
  ParsePacket Pad.pad (Pad.server [])
    [23; 0xFE; 0xFD; 0; 1; 0; 0; 0; 0; 0; 0; 0; 0]
    (unread [23; 0xFE; 0xFD; 0; 1; 0; 0; 0; 0; 0; 0; 0; 0]) = None.
Proof.
  apply ParsePacket_short_record_panics.
  - reflexivity.
  - repeat constructor; unfold is_byte; lia.
  - vm_compute. reflexivity.
  - vm_compute. discriminate.
Defined.

Section Keys.

Variable crypto : Crypto.

(** The contract of HMAC-SHA256: 32 bytes. *)
Hypothesis hmac_length : forall secret message, len (hmac_sha256 crypto secret message) = 32.

Lemma dtlsPrf_loop_long (length : Z) (secret a0 : list Z) :
  forall (fuel : nat) (ai ret : list Z),
    length <= len ret + 32 * Z.of_nat fuel ->
    length <= len (dtlsPrf_loop crypto fuel secret a0 ai ret length).
Proof.
  induction fuel as [| fuel IH]; intros ai ret H; cbn [dtlsPrf_loop].
  - lia.
  - destruct (Z.ltb_spec (len ret) length) as [Hlt | Hge]; [| exact Hge].
    apply IH. rewrite len_app, hmac_length. lia.
Qed.

Lemma dtlsPrf_total (secret label seed : list Z) (length : Z) :
  0 <= length ->
  exists out, dtlsPrf crypto secret label seed length = Some out /\ len out = length.
Proof.
  intros Hl. unfold dtlsPrf.
  pose proof (dtlsPrf_loop_long length secret (label ++ seed) (Z.to_nat length)
                (label ++ seed) []) as H.
  assert (Hlong : length <= len (dtlsPrf_loop crypto (Z.to_nat length) secret
                                   (label ++ seed) (label ++ seed) [] length))
    by (apply H; change (len (@nil Z)) with 0; lia).
  rewrite slice_in_range by lia.
  eexists. split; [reflexivity |]. rewrite len_sub by lia. lia.
Qed.

(** The key derivation never fails, and the keys it leaves are keys of
    AES-128: two write keys of 16 bytes and two IVs of 4 bytes, the master
    secret 48 bytes; nothing else of the connection changes. *)
Theorem GenerateSecurityParams_keys (dtls : Dtls) :
  exists dtls',
    GenerateSecurityParams crypto dtls = Some dtls' /\
    len (ClientWriteKey dtls') = 16 /\ len (ServerWriteKey dtls') = 16 /\
    len (ClientIV dtls') = 4 /\ len (ServerIV dtls') = 4 /\
    len (MasterSecret (Handshake dtls')) = 48 /\
    aes_key_ok (ClientWriteKey dtls') = true /\
    aes_key_ok (ServerWriteKey dtls') = true /\
    Connection dtls' = Connection dtls /\
    ClientEpoch dtls' = ClientEpoch dtls /\ ClientSequence dtls' = ClientSequence dtls /\
    ServerEncrypt dtls' = ServerEncrypt dtls /\
    Messages (Handshake dtls') = Messages (Handshake dtls).
Proof.
  unfold GenerateSecurityParams. cbv zeta.
  destruct (dtlsPrf_total (PreMasterSecret (Handshake dtls))
              (bytes_of_string "master secret")
              (ClientRandom (Handshake dtls) ++ ServerRandom (Handshake dtls)) 48)
    as [masterSecret [E1 L1]]; [lia |].
  rewrite E1. cbn [MasterSecret set_MasterSecret ServerRandom ClientRandom].
  destruct (dtlsPrf_total masterSecret (bytes_of_string "key expansion")
              (ServerRandom (Handshake dtls) ++ ClientRandom (Handshake dtls)) 40)
    as [keyBlock [E2 L2]]; [lia |].
  rewrite E2. rewrite !slice_in_range by lia.
  eexists. split; [reflexivity |].
  cbn [ClientWriteKey ServerWriteKey ClientIV ServerIV Handshake MasterSecret
       set_MasterSecret Connection ClientEpoch ClientSequence ServerEncrypt Messages].
  assert (K1 : len (sub keyBlock 0 16) = 16) by (rewrite len_sub; lia).
  assert (K2 : len (sub keyBlock 16 32) = 16) by (rewrite len_sub; lia).
  unfold aes_key_ok. rewrite K1, K2.
  repeat split; try reflexivity; try exact L1; rewrite len_sub; lia.
Qed.

End Keys.

Lemma toy_hmac_length (secret message : list Z) :
  len (hmac_sha256 Flight.toy secret message) = 32.
Proof.
  cbn [hmac_sha256 Flight.toy]. unfold len.
  rewrite length_firstn, length_app, length_map. unfold make. rewrite repeat_length.
  change (Z.to_nat 32) with 32%nat. lia.
Qed.

Lemma GenerateSecurityParams_keys_witness :
  exists dtls',
    GenerateSecurityParams Flight.toy (Flight.client Flight.verifyData) = Some dtls' /\
    len (ClientWriteKey dtls') = 16 /\ len (ServerWriteKey dtls') = 16 /\
    len (ClientIV dtls') = 4 /\ len (ServerIV dtls') = 4 /\
    len (MasterSecret (Handshake dtls')) = 48 /\
    aes_key_ok (ClientWriteKey dtls') = true /\
    aes_key_ok (ServerWriteKey dtls') = true /\
    Connection dtls' = Connection (Flight.client Flight.verifyData) /\
    ClientEpoch dtls' = ClientEpoch (Flight.client Flight.verifyData) /\
    ClientSequence dtls' = ClientSequence (Flight.client Flight.verifyData) /\
    ServerEncrypt dtls' = ServerEncrypt (Flight.client Flight.verifyData) /\
    Messages (Handshake dtls') = Messages (Handshake (Flight.client Flight.verifyData)).
Proof.
  exact (GenerateSecurityParams_keys Flight.toy toy_hmac_length
           (Flight.client Flight.verifyData)).
Defined.
